(** * Shallow embedding of the Sony IMX477 sensor driver (imx477_documentado.c)

    The development follows the driver bottom-up: register tables and the
    mode catalogue, the I2C register sequencer, the V4L2 control callbacks,
    the pad-format resolver and the streaming state machine.  Driver state
    ([struct imx477]) is threaded explicitly through a small state monad;
    a function that returns [int] in C returns a [retcode] here. *)

From Stdlib Require Import ZArith List Bool Lia Arith.
Import ListNotations.
Open Scope Z_scope.

(* ================================================================== *)
(** ** Return codes *)

(** The negative errno values the driver hands back.  [EOTHER] stands for
    an error reported by a kernel service (regulator or clock framework). *)
Inductive errno : Type :=
| EINVAL
| EIO
| ERANGE
| EOTHER (code : Z).

(** A C [int] result: 0 or [-errno]. *)
Inductive retcode : Type :=
| OK
| ERR (e : errno).

Definition is_err (r : retcode) : bool :=
  match r with OK => false | ERR _ => true end.

(* ================================================================== *)
(** ** Fixed-width integers *)

Definition u8  (x : Z) : Z := x mod 2 ^ 8.
Definition u16 (x : Z) : Z := x mod 2 ^ 16.
Definition u32 (x : Z) : Z := x mod 2 ^ 32.

(** Reinterpretation of a 32-bit pattern as a C [int]. *)
Definition s32 (x : Z) : Z :=
  let y := x mod 2 ^ 32 in
  if y <? 2 ^ 31 then y else y - 2 ^ 32.

(* ================================================================== *)
(** ** Register map and constants *)

Definition IMX477_REG_VALUE_08BIT : Z := 1.
Definition IMX477_REG_VALUE_16BIT : Z := 2.

Definition IMX477_REG_MODE_SELECT : Z := 0x0100.
Definition IMX477_MODE_STANDBY : Z := 0x00.
Definition IMX477_MODE_STREAMING : Z := 0x01.
Definition IMX477_REG_ORIENTATION : Z := 0x0101.

Definition IMX477_PIXEL_RATE : Z := 840000000.

Definition IMX477_REG_FRAME_LENGTH : Z := 0x0340.
Definition IMX477_FRAME_LENGTH_MAX : Z := 0xffdc.
Definition IMX477_REG_LINE_LENGTH : Z := 0x0342.
Definition IMX477_LINE_LENGTH_MAX : Z := 0xfff0.

Definition IMX477_LONG_EXP_SHIFT_MAX : Z := 7.
Definition IMX477_LONG_EXP_SHIFT_REG : Z := 0x3100.

Definition IMX477_REG_EXPOSURE : Z := 0x0202.
Definition IMX477_EXPOSURE_OFFSET : Z := 22.
Definition IMX477_EXPOSURE_MIN : Z := 4.
Definition IMX477_EXPOSURE_STEP : Z := 1.
Definition IMX477_EXPOSURE_DEFAULT : Z := 0x640.
Definition IMX477_EXPOSURE_MAX : Z :=
  IMX477_FRAME_LENGTH_MAX - IMX477_EXPOSURE_OFFSET.

Definition IMX477_REG_ANALOG_GAIN : Z := 0x0204.
Definition IMX477_ANA_GAIN_MIN : Z := 0.
Definition IMX477_ANA_GAIN_MAX : Z := 978.
Definition IMX477_ANA_GAIN_STEP : Z := 1.
Definition IMX477_ANA_GAIN_DEFAULT : Z := 0x0.

Definition IMX477_REG_DIGITAL_GAIN : Z := 0x020e.
Definition IMX477_DGTL_GAIN_MIN : Z := 0x0100.
Definition IMX477_DGTL_GAIN_MAX : Z := 0xffff.
Definition IMX477_DGTL_GAIN_DEFAULT : Z := 0x0100.
Definition IMX477_DGTL_GAIN_STEP : Z := 1.

Definition IMX477_REG_TEST_PATTERN : Z := 0x0600.
Definition IMX477_TEST_PATTERN_DISABLE : Z := 0.
Definition IMX477_TEST_PATTERN_SOLID_COLOR : Z := 1.
Definition IMX477_TEST_PATTERN_COLOR_BARS : Z := 2.
Definition IMX477_TEST_PATTERN_GREY_COLOR : Z := 3.
Definition IMX477_TEST_PATTERN_PN9 : Z := 4.

Definition IMX477_REG_TEST_PATTERN_R : Z := 0x0602.
Definition IMX477_REG_TEST_PATTERN_GR : Z := 0x0604.
Definition IMX477_REG_TEST_PATTERN_B : Z := 0x0606.
Definition IMX477_REG_TEST_PATTERN_GB : Z := 0x0608.
Definition IMX477_TEST_PATTERN_COLOUR_MIN : Z := 0.
Definition IMX477_TEST_PATTERN_COLOUR_MAX : Z := 0x0fff.
Definition IMX477_TEST_PATTERN_COLOUR_STEP : Z := 1.

Definition IMX477_REG_MC_MODE : Z := 0x3f0b.
Definition IMX477_REG_MS_SEL : Z := 0x3041.
Definition IMX477_REG_XVS_IO_CTRL : Z := 0x3040.
Definition IMX477_REG_EXTOUT_EN : Z := 0x4b81.

Definition IMX477_REG_DPC_0B05 : Z := 0x0b05.
Definition IMX477_REG_DPC_0B06 : Z := 0x0b06.

Definition IMX477_EMBEDDED_LINE_WIDTH : Z := 16384.
Definition IMX477_NUM_EMBEDDED_LINES : Z := 1.

(** [enum pad_types]. *)
Definition IMAGE_PAD : Z := 0.
Definition METADATA_PAD : Z := 1.
Definition NUM_PADS : Z := 2.

Definition IMX477_NATIVE_WIDTH : Z := 4072.
Definition IMX477_NATIVE_HEIGHT : Z := 3176.
Definition IMX477_PIXEL_ARRAY_LEFT : Z := 8.
Definition IMX477_PIXEL_ARRAY_TOP : Z := 16.
Definition IMX477_PIXEL_ARRAY_WIDTH : Z := 4056.
Definition IMX477_PIXEL_ARRAY_HEIGHT : Z := 3040.

(** [struct imx477_reg]: a 16-bit address and the byte to store there. *)
Record imx477_reg : Type := REG { address : Z; reg_val : Z }.

Record v4l2_rect : Type :=
  { rect_left : Z; rect_top : Z; rect_width : Z; rect_height : Z }.

Record v4l2_fract : Type := { numerator : Z; denominator : Z }.

(** [struct imx477_mode].  [reg_list] carries the register array itself;
    [num_of_regs] of the C struct is its length. *)
Record imx477_mode : Type :=
  { width : Z;
    height : Z;
    line_length_pix : Z;
    crop : v4l2_rect;
    timeperframe_min : v4l2_fract;
    timeperframe_default : v4l2_fract;
    reg_list : list imx477_reg }.

(* ================================================================== *)
(** ** Register tables (constant data, in source order) *)

Definition mode_common_regs : list imx477_reg := [
  REG 0x0136 0x18; REG 0x0137 0x00; REG 0x0138 0x01; REG 0xe000 0x00; REG 0xe07a 0x01; REG 0x0808 0x02;
  REG 0x4ae9 0x18; REG 0x4aea 0x08; REG 0xf61c 0x04; REG 0xf61e 0x04; REG 0x4ae9 0x21; REG 0x4aea 0x80;
  REG 0x38a8 0x1f; REG 0x38a9 0xff; REG 0x38aa 0x1f; REG 0x38ab 0xff; REG 0x55d4 0x00; REG 0x55d5 0x00;
  REG 0x55d6 0x07; REG 0x55d7 0xff; REG 0x55e8 0x07; REG 0x55e9 0xff; REG 0x55ea 0x00; REG 0x55eb 0x00;
  REG 0x574c 0x07; REG 0x574d 0xff; REG 0x574e 0x00; REG 0x574f 0x00; REG 0x5754 0x00; REG 0x5755 0x00;
  REG 0x5756 0x07; REG 0x5757 0xff; REG 0x5973 0x04; REG 0x5974 0x01; REG 0x5d13 0xc3; REG 0x5d14 0x58;
  REG 0x5d15 0xa3; REG 0x5d16 0x1d; REG 0x5d17 0x65; REG 0x5d18 0x8c; REG 0x5d1a 0x06; REG 0x5d1b 0xa9;
  REG 0x5d1c 0x45; REG 0x5d1d 0x3a; REG 0x5d1e 0xab; REG 0x5d1f 0x15; REG 0x5d21 0x0e; REG 0x5d22 0x52;
  REG 0x5d23 0xaa; REG 0x5d24 0x7d; REG 0x5d25 0x57; REG 0x5d26 0xa8; REG 0x5d37 0x5a; REG 0x5d38 0x5a;
  REG 0x5d77 0x7f; REG 0x7b75 0x0e; REG 0x7b76 0x0b; REG 0x7b77 0x08; REG 0x7b78 0x0a; REG 0x7b79 0x47;
  REG 0x7b7c 0x00; REG 0x7b7d 0x00; REG 0x8d1f 0x00; REG 0x8d27 0x00; REG 0x9004 0x03; REG 0x9200 0x50;
  REG 0x9201 0x6c; REG 0x9202 0x71; REG 0x9203 0x00; REG 0x9204 0x71; REG 0x9205 0x01; REG 0x9371 0x6a;
  REG 0x9373 0x6a; REG 0x9375 0x64; REG 0x991a 0x00; REG 0x996b 0x8c; REG 0x996c 0x64; REG 0x996d 0x50;
  REG 0x9a4c 0x0d; REG 0x9a4d 0x0d; REG 0xa001 0x0a; REG 0xa003 0x0a; REG 0xa005 0x0a; REG 0xa006 0x01;
  REG 0xa007 0xc0; REG 0xa009 0xc0; REG 0x3d8a 0x01; REG 0x4421 0x04; REG 0x7b3b 0x01; REG 0x7b4c 0x00;
  REG 0x9905 0x00; REG 0x9907 0x00; REG 0x9909 0x00; REG 0x990b 0x00; REG 0x9944 0x3c; REG 0x9947 0x3c;
  REG 0x994a 0x8c; REG 0x994b 0x50; REG 0x994c 0x1b; REG 0x994d 0x8c; REG 0x994e 0x50; REG 0x994f 0x1b;
  REG 0x9950 0x8c; REG 0x9951 0x1b; REG 0x9952 0x0a; REG 0x9953 0x8c; REG 0x9954 0x1b; REG 0x9955 0x0a;
  REG 0x9a13 0x04; REG 0x9a14 0x04; REG 0x9a19 0x00; REG 0x9a1c 0x04; REG 0x9a1d 0x04; REG 0x9a26 0x05;
  REG 0x9a27 0x05; REG 0x9a2c 0x01; REG 0x9a2d 0x03; REG 0x9a2f 0x05; REG 0x9a30 0x05; REG 0x9a41 0x00;
  REG 0x9a46 0x00; REG 0x9a47 0x00; REG 0x9c17 0x35; REG 0x9c1d 0x31; REG 0x9c29 0x50; REG 0x9c3b 0x2f;
  REG 0x9c41 0x6b; REG 0x9c47 0x2d; REG 0x9c4d 0x40; REG 0x9c6b 0x00; REG 0x9c71 0xc8; REG 0x9c73 0x32;
  REG 0x9c75 0x04; REG 0x9c7d 0x2d; REG 0x9c83 0x40; REG 0x9c94 0x3f; REG 0x9c95 0x3f; REG 0x9c96 0x3f;
  REG 0x9c97 0x00; REG 0x9c98 0x00; REG 0x9c99 0x00; REG 0x9c9a 0x3f; REG 0x9c9b 0x3f; REG 0x9c9c 0x3f;
  REG 0x9ca0 0x0f; REG 0x9ca1 0x0f; REG 0x9ca2 0x0f; REG 0x9ca3 0x00; REG 0x9ca4 0x00; REG 0x9ca5 0x00;
  REG 0x9ca6 0x1e; REG 0x9ca7 0x1e; REG 0x9ca8 0x1e; REG 0x9ca9 0x00; REG 0x9caa 0x00; REG 0x9cab 0x00;
  REG 0x9cac 0x09; REG 0x9cad 0x09; REG 0x9cae 0x09; REG 0x9cbd 0x50; REG 0x9cbf 0x50; REG 0x9cc1 0x50;
  REG 0x9cc3 0x40; REG 0x9cc5 0x40; REG 0x9cc7 0x40; REG 0x9cc9 0x0a; REG 0x9ccb 0x0a; REG 0x9ccd 0x0a;
  REG 0x9d17 0x35; REG 0x9d1d 0x31; REG 0x9d29 0x50; REG 0x9d3b 0x2f; REG 0x9d41 0x6b; REG 0x9d47 0x42;
  REG 0x9d4d 0x5a; REG 0x9d6b 0x00; REG 0x9d71 0xc8; REG 0x9d73 0x32; REG 0x9d75 0x04; REG 0x9d7d 0x42;
  REG 0x9d83 0x5a; REG 0x9d94 0x3f; REG 0x9d95 0x3f; REG 0x9d96 0x3f; REG 0x9d97 0x00; REG 0x9d98 0x00;
  REG 0x9d99 0x00; REG 0x9d9a 0x3f; REG 0x9d9b 0x3f; REG 0x9d9c 0x3f; REG 0x9d9d 0x1f; REG 0x9d9e 0x1f;
  REG 0x9d9f 0x1f; REG 0x9da0 0x0f; REG 0x9da1 0x0f; REG 0x9da2 0x0f; REG 0x9da3 0x00; REG 0x9da4 0x00;
  REG 0x9da5 0x00; REG 0x9da6 0x1e; REG 0x9da7 0x1e; REG 0x9da8 0x1e; REG 0x9da9 0x00; REG 0x9daa 0x00;
  REG 0x9dab 0x00; REG 0x9dac 0x09; REG 0x9dad 0x09; REG 0x9dae 0x09; REG 0x9dc9 0x0a; REG 0x9dcb 0x0a;
  REG 0x9dcd 0x0a; REG 0x9e17 0x35; REG 0x9e1d 0x31; REG 0x9e29 0x50; REG 0x9e3b 0x2f; REG 0x9e41 0x6b;
  REG 0x9e47 0x2d; REG 0x9e4d 0x40; REG 0x9e6b 0x00; REG 0x9e71 0xc8; REG 0x9e73 0x32; REG 0x9e75 0x04;
  REG 0x9e94 0x0f; REG 0x9e95 0x0f; REG 0x9e96 0x0f; REG 0x9e97 0x00; REG 0x9e98 0x00; REG 0x9e99 0x00;
  REG 0x9ea0 0x0f; REG 0x9ea1 0x0f; REG 0x9ea2 0x0f; REG 0x9ea3 0x00; REG 0x9ea4 0x00; REG 0x9ea5 0x00;
  REG 0x9ea6 0x3f; REG 0x9ea7 0x3f; REG 0x9ea8 0x3f; REG 0x9ea9 0x00; REG 0x9eaa 0x00; REG 0x9eab 0x00;
  REG 0x9eac 0x09; REG 0x9ead 0x09; REG 0x9eae 0x09; REG 0x9ec9 0x0a; REG 0x9ecb 0x0a; REG 0x9ecd 0x0a;
  REG 0x9f17 0x35; REG 0x9f1d 0x31; REG 0x9f29 0x50; REG 0x9f3b 0x2f; REG 0x9f41 0x6b; REG 0x9f47 0x42;
  REG 0x9f4d 0x5a; REG 0x9f6b 0x00; REG 0x9f71 0xc8; REG 0x9f73 0x32; REG 0x9f75 0x04; REG 0x9f94 0x0f;
  REG 0x9f95 0x0f; REG 0x9f96 0x0f; REG 0x9f97 0x00; REG 0x9f98 0x00; REG 0x9f99 0x00; REG 0x9f9a 0x2f;
  REG 0x9f9b 0x2f; REG 0x9f9c 0x2f; REG 0x9f9d 0x00; REG 0x9f9e 0x00; REG 0x9f9f 0x00; REG 0x9fa0 0x0f;
  REG 0x9fa1 0x0f; REG 0x9fa2 0x0f; REG 0x9fa3 0x00; REG 0x9fa4 0x00; REG 0x9fa5 0x00; REG 0x9fa6 0x1e;
  REG 0x9fa7 0x1e; REG 0x9fa8 0x1e; REG 0x9fa9 0x00; REG 0x9faa 0x00; REG 0x9fab 0x00; REG 0x9fac 0x09;
  REG 0x9fad 0x09; REG 0x9fae 0x09; REG 0x9fc9 0x0a; REG 0x9fcb 0x0a; REG 0x9fcd 0x0a; REG 0xa14b 0xff;
  REG 0xa151 0x0c; REG 0xa153 0x50; REG 0xa155 0x02; REG 0xa157 0x00; REG 0xa1ad 0xff; REG 0xa1b3 0x0c;
  REG 0xa1b5 0x50; REG 0xa1b9 0x00; REG 0xa24b 0xff; REG 0xa257 0x00; REG 0xa2ad 0xff; REG 0xa2b9 0x00;
  REG 0xb21f 0x04; REG 0xb35c 0x00; REG 0xb35e 0x08; REG 0x0112 0x0c; REG 0x0113 0x0c; REG 0x0114 0x01;
  REG 0x0350 0x00; REG 0xbcf1 0x02; REG 0x3ff9 0x01
].

Definition mode_4056x3040_regs : list imx477_reg := [
  REG 0x0342 0x5d; REG 0x0343 0xc0; REG 0x0344 0x00; REG 0x0345 0x00; REG 0x0346 0x00; REG 0x0347 0x00;
  REG 0x0348 0x0f; REG 0x0349 0xd7; REG 0x034a 0x0b; REG 0x034b 0xdf; REG 0x00e3 0x00; REG 0x00e4 0x00;
  REG 0x00fc 0x0a; REG 0x00fd 0x0a; REG 0x00fe 0x0a; REG 0x00ff 0x0a; REG 0x0220 0x00; REG 0x0221 0x11;
  REG 0x0381 0x01; REG 0x0383 0x01; REG 0x0385 0x01; REG 0x0387 0x01; REG 0x0900 0x00; REG 0x0901 0x11;
  REG 0x0902 0x02; REG 0x3140 0x02; REG 0x3c00 0x00; REG 0x3c01 0x03; REG 0x3c02 0xa2; REG 0x3f0d 0x01;
  REG 0x5748 0x07; REG 0x5749 0xff; REG 0x574a 0x00; REG 0x574b 0x00; REG 0x7b75 0x0a; REG 0x7b76 0x0c;
  REG 0x7b77 0x07; REG 0x7b78 0x06; REG 0x7b79 0x3c; REG 0x7b53 0x01; REG 0x9369 0x5a; REG 0x936b 0x55;
  REG 0x936d 0x28; REG 0x9304 0x00; REG 0x9305 0x00; REG 0x9e9a 0x2f; REG 0x9e9b 0x2f; REG 0x9e9c 0x2f;
  REG 0x9e9d 0x00; REG 0x9e9e 0x00; REG 0x9e9f 0x00; REG 0xa2a9 0x60; REG 0xa2b7 0x00; REG 0x0401 0x00;
  REG 0x0404 0x00; REG 0x0405 0x10; REG 0x0408 0x00; REG 0x0409 0x00; REG 0x040a 0x00; REG 0x040b 0x00;
  REG 0x040c 0x0f; REG 0x040d 0xd8; REG 0x040e 0x0b; REG 0x040f 0xe0; REG 0x034c 0x0f; REG 0x034d 0xd8;
  REG 0x034e 0x0b; REG 0x034f 0xe0; REG 0x0301 0x05; REG 0x0303 0x02; REG 0x0305 0x04; REG 0x0306 0x01;
  REG 0x0307 0x5e; REG 0x0309 0x0c; REG 0x030b 0x02; REG 0x030d 0x02; REG 0x030e 0x00; REG 0x030f 0x96;
  REG 0x0310 0x01; REG 0x0820 0x07; REG 0x0821 0x08; REG 0x0822 0x00; REG 0x0823 0x00; REG 0x080a 0x00;
  REG 0x080b 0x7f; REG 0x080c 0x00; REG 0x080d 0x4f; REG 0x080e 0x00; REG 0x080f 0x77; REG 0x0810 0x00;
  REG 0x0811 0x5f; REG 0x0812 0x00; REG 0x0813 0x57; REG 0x0814 0x00; REG 0x0815 0x4f; REG 0x0816 0x01;
  REG 0x0817 0x27; REG 0x0818 0x00; REG 0x0819 0x3f; REG 0xe04c 0x00; REG 0xe04d 0x7f; REG 0xe04e 0x00;
  REG 0xe04f 0x1f; REG 0x3e20 0x01; REG 0x3e37 0x00; REG 0x3f50 0x00; REG 0x3f56 0x02; REG 0x3f57 0xae
].

Definition mode_2028x1520_regs : list imx477_reg := [
  REG 0x0342 0x31; REG 0x0343 0xc4; REG 0x0344 0x00; REG 0x0345 0x00; REG 0x0346 0x00; REG 0x0347 0x00;
  REG 0x0348 0x0f; REG 0x0349 0xd7; REG 0x034a 0x0b; REG 0x034b 0xdf; REG 0x0220 0x00; REG 0x0221 0x11;
  REG 0x0381 0x01; REG 0x0383 0x01; REG 0x0385 0x01; REG 0x0387 0x01; REG 0x0900 0x01; REG 0x0901 0x22;
  REG 0x0902 0x02; REG 0x3140 0x02; REG 0x3c00 0x00; REG 0x3c01 0x03; REG 0x3c02 0xa2; REG 0x3f0d 0x01;
  REG 0x5748 0x07; REG 0x5749 0xff; REG 0x574a 0x00; REG 0x574b 0x00; REG 0x7b53 0x01; REG 0x9369 0x73;
  REG 0x936b 0x64; REG 0x936d 0x5f; REG 0x9304 0x00; REG 0x9305 0x00; REG 0x9e9a 0x2f; REG 0x9e9b 0x2f;
  REG 0x9e9c 0x2f; REG 0x9e9d 0x00; REG 0x9e9e 0x00; REG 0x9e9f 0x00; REG 0xa2a9 0x60; REG 0xa2b7 0x00;
  REG 0x0401 0x00; REG 0x0404 0x00; REG 0x0405 0x20; REG 0x0408 0x00; REG 0x0409 0x00; REG 0x040a 0x00;
  REG 0x040b 0x00; REG 0x040c 0x0f; REG 0x040d 0xd8; REG 0x040e 0x0b; REG 0x040f 0xe0; REG 0x034c 0x07;
  REG 0x034d 0xec; REG 0x034e 0x05; REG 0x034f 0xf0; REG 0x0301 0x05; REG 0x0303 0x02; REG 0x0305 0x04;
  REG 0x0306 0x01; REG 0x0307 0x5e; REG 0x0309 0x0c; REG 0x030b 0x02; REG 0x030d 0x02; REG 0x030e 0x00;
  REG 0x030f 0x96; REG 0x0310 0x01; REG 0x0820 0x07; REG 0x0821 0x08; REG 0x0822 0x00; REG 0x0823 0x00;
  REG 0x080a 0x00; REG 0x080b 0x7f; REG 0x080c 0x00; REG 0x080d 0x4f; REG 0x080e 0x00; REG 0x080f 0x77;
  REG 0x0810 0x00; REG 0x0811 0x5f; REG 0x0812 0x00; REG 0x0813 0x57; REG 0x0814 0x00; REG 0x0815 0x4f;
  REG 0x0816 0x01; REG 0x0817 0x27; REG 0x0818 0x00; REG 0x0819 0x3f; REG 0xe04c 0x00; REG 0xe04d 0x7f;
  REG 0xe04e 0x00; REG 0xe04f 0x1f; REG 0x3e20 0x01; REG 0x3e37 0x00; REG 0x3f50 0x00; REG 0x3f56 0x01;
  REG 0x3f57 0x6c
].

Definition mode_2028x1080_regs : list imx477_reg := [
  REG 0x0342 0x31; REG 0x0343 0xc4; REG 0x0344 0x00; REG 0x0345 0x00; REG 0x0346 0x01; REG 0x0347 0xb8;
  REG 0x0348 0x0f; REG 0x0349 0xd7; REG 0x034a 0x0a; REG 0x034b 0x27; REG 0x0220 0x00; REG 0x0221 0x11;
  REG 0x0381 0x01; REG 0x0383 0x01; REG 0x0385 0x01; REG 0x0387 0x01; REG 0x0900 0x01; REG 0x0901 0x22;
  REG 0x0902 0x02; REG 0x3140 0x02; REG 0x3c00 0x00; REG 0x3c01 0x03; REG 0x3c02 0xa2; REG 0x3f0d 0x01;
  REG 0x5748 0x07; REG 0x5749 0xff; REG 0x574a 0x00; REG 0x574b 0x00; REG 0x7b53 0x01; REG 0x9369 0x73;
  REG 0x936b 0x64; REG 0x936d 0x5f; REG 0x9304 0x00; REG 0x9305 0x00; REG 0x9e9a 0x2f; REG 0x9e9b 0x2f;
  REG 0x9e9c 0x2f; REG 0x9e9d 0x00; REG 0x9e9e 0x00; REG 0x9e9f 0x00; REG 0xa2a9 0x60; REG 0xa2b7 0x00;
  REG 0x0401 0x00; REG 0x0404 0x00; REG 0x0405 0x20; REG 0x0408 0x00; REG 0x0409 0x00; REG 0x040a 0x00;
  REG 0x040b 0x00; REG 0x040c 0x0f; REG 0x040d 0xd8; REG 0x040e 0x04; REG 0x040f 0x38; REG 0x034c 0x07;
  REG 0x034d 0xec; REG 0x034e 0x04; REG 0x034f 0x38; REG 0x0301 0x05; REG 0x0303 0x02; REG 0x0305 0x04;
  REG 0x0306 0x01; REG 0x0307 0x5e; REG 0x0309 0x0c; REG 0x030b 0x02; REG 0x030d 0x02; REG 0x030e 0x00;
  REG 0x030f 0x96; REG 0x0310 0x01; REG 0x0820 0x07; REG 0x0821 0x08; REG 0x0822 0x00; REG 0x0823 0x00;
  REG 0x080a 0x00; REG 0x080b 0x7f; REG 0x080c 0x00; REG 0x080d 0x4f; REG 0x080e 0x00; REG 0x080f 0x77;
  REG 0x0810 0x00; REG 0x0811 0x5f; REG 0x0812 0x00; REG 0x0813 0x57; REG 0x0814 0x00; REG 0x0815 0x4f;
  REG 0x0816 0x01; REG 0x0817 0x27; REG 0x0818 0x00; REG 0x0819 0x3f; REG 0xe04c 0x00; REG 0xe04d 0x7f;
  REG 0xe04e 0x00; REG 0xe04f 0x1f; REG 0x3e20 0x01; REG 0x3e37 0x00; REG 0x3f50 0x00; REG 0x3f56 0x01;
  REG 0x3f57 0x6c
].

Definition mode_1332x990_regs : list imx477_reg := [
  REG 0x420b 0x01; REG 0x990c 0x00; REG 0x990d 0x08; REG 0x9956 0x8c; REG 0x9957 0x64; REG 0x9958 0x50;
  REG 0x9a48 0x06; REG 0x9a49 0x06; REG 0x9a4a 0x06; REG 0x9a4b 0x06; REG 0x9a4c 0x06; REG 0x9a4d 0x06;
  REG 0x0112 0x0a; REG 0x0113 0x0a; REG 0x0114 0x01; REG 0x0342 0x1a; REG 0x0343 0x08; REG 0x0340 0x04;
  REG 0x0341 0x1a; REG 0x0344 0x00; REG 0x0345 0x00; REG 0x0346 0x02; REG 0x0347 0x10; REG 0x0348 0x0f;
  REG 0x0349 0xd7; REG 0x034a 0x09; REG 0x034b 0xcf; REG 0x00e3 0x00; REG 0x00e4 0x00; REG 0x00fc 0x0a;
  REG 0x00fd 0x0a; REG 0x00fe 0x0a; REG 0x00ff 0x0a; REG 0xe013 0x00; REG 0x0220 0x00; REG 0x0221 0x11;
  REG 0x0381 0x01; REG 0x0383 0x01; REG 0x0385 0x01; REG 0x0387 0x01; REG 0x0900 0x01; REG 0x0901 0x22;
  REG 0x0902 0x02; REG 0x3140 0x02; REG 0x3c00 0x00; REG 0x3c01 0x01; REG 0x3c02 0x9c; REG 0x3f0d 0x00;
  REG 0x5748 0x00; REG 0x5749 0x00; REG 0x574a 0x00; REG 0x574b 0xa4; REG 0x7b75 0x0e; REG 0x7b76 0x09;
  REG 0x7b77 0x08; REG 0x7b78 0x06; REG 0x7b79 0x34; REG 0x7b53 0x00; REG 0x9369 0x73; REG 0x936b 0x64;
  REG 0x936d 0x5f; REG 0x9304 0x03; REG 0x9305 0x80; REG 0x9e9a 0x2f; REG 0x9e9b 0x2f; REG 0x9e9c 0x2f;
  REG 0x9e9d 0x00; REG 0x9e9e 0x00; REG 0x9e9f 0x00; REG 0xa2a9 0x27; REG 0xa2b7 0x03; REG 0x0401 0x00;
  REG 0x0404 0x00; REG 0x0405 0x10; REG 0x0408 0x01; REG 0x0409 0x5c; REG 0x040a 0x00; REG 0x040b 0x00;
  REG 0x040c 0x05; REG 0x040d 0x34; REG 0x040e 0x03; REG 0x040f 0xde; REG 0x034c 0x05; REG 0x034d 0x34;
  REG 0x034e 0x03; REG 0x034f 0xde; REG 0x0301 0x05; REG 0x0303 0x02; REG 0x0305 0x02; REG 0x0306 0x00;
  REG 0x0307 0xaf; REG 0x0309 0x0a; REG 0x030b 0x02; REG 0x030d 0x02; REG 0x030e 0x00; REG 0x030f 0x96;
  REG 0x0310 0x01; REG 0x0820 0x07; REG 0x0821 0x08; REG 0x0822 0x00; REG 0x0823 0x00; REG 0x080a 0x00;
  REG 0x080b 0x7f; REG 0x080c 0x00; REG 0x080d 0x4f; REG 0x080e 0x00; REG 0x080f 0x77; REG 0x0810 0x00;
  REG 0x0811 0x5f; REG 0x0812 0x00; REG 0x0813 0x57; REG 0x0814 0x00; REG 0x0815 0x4f; REG 0x0816 0x01;
  REG 0x0817 0x27; REG 0x0818 0x00; REG 0x0819 0x3f; REG 0xe04c 0x00; REG 0xe04d 0x5f; REG 0xe04e 0x00;
  REG 0xe04f 0x1f; REG 0x3e20 0x01; REG 0x3e37 0x00; REG 0x3f50 0x00; REG 0x3f56 0x00; REG 0x3f57 0xbf
].

Definition imx378_regs : list imx477_reg := [
  REG 0x3e35 0x01; REG 0x4421 0x08; REG 0x3ff9 0x00
].

(* ================================================================== *)
(** ** Mode catalogue *)

(** 12-bit modes: 12 MPix 10 fps, 2x2 binned 40 fps, cropped 1080p 50 fps. *)
Definition supported_modes_12bit : list imx477_mode :=
  [ {| width := 4056; height := 3040; line_length_pix := 0x5dc0;
       crop := {| rect_left := IMX477_PIXEL_ARRAY_LEFT; rect_top := IMX477_PIXEL_ARRAY_TOP;
                  rect_width := 4056; rect_height := 3040 |};
       timeperframe_min := {| numerator := 100; denominator := 1000 |};
       timeperframe_default := {| numerator := 100; denominator := 1000 |};
       reg_list := mode_4056x3040_regs |};
    {| width := 2028; height := 1520; line_length_pix := 0x31c4;
       crop := {| rect_left := IMX477_PIXEL_ARRAY_LEFT; rect_top := IMX477_PIXEL_ARRAY_TOP;
                  rect_width := 4056; rect_height := 3040 |};
       timeperframe_min := {| numerator := 100; denominator := 4000 |};
       timeperframe_default := {| numerator := 100; denominator := 3000 |};
       reg_list := mode_2028x1520_regs |};
    {| width := 2028; height := 1080; line_length_pix := 0x31c4;
       crop := {| rect_left := IMX477_PIXEL_ARRAY_LEFT;
                  rect_top := IMX477_PIXEL_ARRAY_TOP + 440;
                  rect_width := 4056; rect_height := 2160 |};
       timeperframe_min := {| numerator := 100; denominator := 5000 |};
       timeperframe_default := {| numerator := 100; denominator := 3000 |};
       reg_list := mode_2028x1080_regs |} ].

(** 10-bit modes: 120 fps, 2x2 binned and cropped. *)
Definition supported_modes_10bit : list imx477_mode :=
  [ {| width := 1332; height := 990; line_length_pix := 6664;
       crop := {| rect_left := IMX477_PIXEL_ARRAY_LEFT + 696;
                  rect_top := IMX477_PIXEL_ARRAY_TOP + 528;
                  rect_width := 2664; rect_height := 1980 |};
       timeperframe_min := {| numerator := 100; denominator := 12000 |};
       timeperframe_default := {| numerator := 100; denominator := 12000 |};
       reg_list := mode_1332x990_regs |} ].

(** The driver compares [const struct imx477_mode *] pointers.  The four
    catalogue entries differ in (width, height), so comparing the records
    decides the same question. *)
Definition imx477_reg_eq_dec (a b : imx477_reg) : {a = b} + {a <> b}.
Proof. decide equality; apply Z.eq_dec. Defined.

Definition imx477_mode_eq_dec (a b : imx477_mode) : {a = b} + {a <> b}.
Proof.
  decide equality;
    try apply Z.eq_dec;
    try (apply list_eq_dec; apply imx477_reg_eq_dec);
    decide equality; apply Z.eq_dec.
Defined.

(* ================================================================== *)
(** ** Media-bus format codes *)

(** The numeric values of the [MEDIA_BUS_FMT_*] macros live in a kernel
    header that is not part of the driver.  They enter as an interface; the
    only fact the driver relies on is that the eight Bayer codes are pairwise
    distinct, which the [switch] of [get_mode_table] needs to compile. *)
Class media_bus_format : Type :=
  { MEDIA_BUS_FMT_SRGGB12_1X12 : Z;
    MEDIA_BUS_FMT_SGRBG12_1X12 : Z;
    MEDIA_BUS_FMT_SGBRG12_1X12 : Z;
    MEDIA_BUS_FMT_SBGGR12_1X12 : Z;
    MEDIA_BUS_FMT_SRGGB10_1X10 : Z;
    MEDIA_BUS_FMT_SGRBG10_1X10 : Z;
    MEDIA_BUS_FMT_SGBRG10_1X10 : Z;
    MEDIA_BUS_FMT_SBGGR10_1X10 : Z;
    MEDIA_BUS_FMT_SENSOR_DATA : Z;
    bayer_codes_distinct :
      NoDup [ MEDIA_BUS_FMT_SRGGB12_1X12; MEDIA_BUS_FMT_SGRBG12_1X12;
              MEDIA_BUS_FMT_SGBRG12_1X12; MEDIA_BUS_FMT_SBGGR12_1X12;
              MEDIA_BUS_FMT_SRGGB10_1X10; MEDIA_BUS_FMT_SGRBG10_1X10;
              MEDIA_BUS_FMT_SGBRG10_1X10; MEDIA_BUS_FMT_SBGGR10_1X10 ] }.

(** The supported formats: four entries per format, in the order
    no flip, h flip, v flip, h&v flips. *)
Definition codes `{media_bus_format} : list Z :=
  [ (* 12-bit modes *)
    MEDIA_BUS_FMT_SRGGB12_1X12; MEDIA_BUS_FMT_SGRBG12_1X12;
    MEDIA_BUS_FMT_SGBRG12_1X12; MEDIA_BUS_FMT_SBGGR12_1X12;
    (* 10-bit modes *)
    MEDIA_BUS_FMT_SRGGB10_1X10; MEDIA_BUS_FMT_SGRBG10_1X10;
    MEDIA_BUS_FMT_SGBRG10_1X10; MEDIA_BUS_FMT_SBGGR10_1X10 ].

Definition imx477_test_pattern_val : list Z :=
  [ IMX477_TEST_PATTERN_DISABLE; IMX477_TEST_PATTERN_COLOR_BARS;
    IMX477_TEST_PATTERN_SOLID_COLOR; IMX477_TEST_PATTERN_GREY_COLOR;
    IMX477_TEST_PATTERN_PN9 ].

(** [struct imx477_compatible_data]. *)
Record imx477_compatible_data : Type :=
  { chip_id : Z; extra_regs : list imx477_reg }.

Definition imx477_compatible : imx477_compatible_data :=
  {| chip_id := 0x0477; extra_regs := [] |}.

Definition imx378_compatible : imx477_compatible_data :=
  {| chip_id := 0x0378; extra_regs := imx378_regs |}.

(** [get_mode_table]: the mode list for a code; the empty list stands for
    the NULL table with [num_modes = 0]. *)
Definition get_mode_table `{media_bus_format} (code : Z) : list imx477_mode :=
  if (code =? MEDIA_BUS_FMT_SRGGB12_1X12) || (code =? MEDIA_BUS_FMT_SGRBG12_1X12)
     || (code =? MEDIA_BUS_FMT_SGBRG12_1X12) || (code =? MEDIA_BUS_FMT_SBGGR12_1X12)
  then supported_modes_12bit
  else if (code =? MEDIA_BUS_FMT_SRGGB10_1X10) || (code =? MEDIA_BUS_FMT_SGRBG10_1X10)
     || (code =? MEDIA_BUS_FMT_SGBRG10_1X10) || (code =? MEDIA_BUS_FMT_SBGGR10_1X10)
  then supported_modes_10bit
  else [].

(* ================================================================== *)
(** ** V4L2 controls *)

(** The control identifiers the driver registers, in registration order
    (see [imx477_init_controls]). *)
Inductive ctrl_id : Type :=
| V4L2_CID_PIXEL_RATE
| V4L2_CID_LINK_FREQ
| V4L2_CID_VBLANK
| V4L2_CID_HBLANK
| V4L2_CID_EXPOSURE
| V4L2_CID_ANALOGUE_GAIN
| V4L2_CID_DIGITAL_GAIN
| V4L2_CID_HFLIP
| V4L2_CID_VFLIP
| V4L2_CID_TEST_PATTERN
| V4L2_CID_TEST_PATTERN_RED
| V4L2_CID_TEST_PATTERN_GREENR
| V4L2_CID_TEST_PATTERN_BLUE
| V4L2_CID_TEST_PATTERN_GREENB.

Definition ctrl_id_eq_dec (a b : ctrl_id) : {a = b} + {a <> b}.
Proof. decide equality. Defined.

(** [struct v4l2_ctrl], reduced to the fields the driver reads or passes to
    the control framework: the value, the range and two flags. *)
Record v4l2_ctrl : Type :=
  { val : Z;
    minimum : Z;
    maximum : Z;
    step : Z;
    default_value : Z;
    read_only : bool;
    grabbed : bool }.

Definition ctrl_with_val (c : v4l2_ctrl) (v : Z) : v4l2_ctrl :=
  {| val := v; minimum := minimum c; maximum := maximum c; step := step c;
     default_value := default_value c; read_only := read_only c;
     grabbed := grabbed c |}.

Definition ctrl_with_range (c : v4l2_ctrl) (mn mx st df : Z) : v4l2_ctrl :=
  {| val := val c; minimum := mn; maximum := mx; step := st;
     default_value := df; read_only := read_only c; grabbed := grabbed c |}.

Definition ctrl_with_grabbed (c : v4l2_ctrl) (g : bool) : v4l2_ctrl :=
  {| val := val c; minimum := minimum c; maximum := maximum c; step := step c;
     default_value := default_value c; read_only := read_only c;
     grabbed := g |}.

(* ================================================================== *)
(** ** Environment: I2C bus, runtime PM, supplies *)

(** The I2C client.  [i2c_log] records every buffer handed to
    [i2c_master_send], oldest first; [i2c_fail n buf] tells whether the n-th
    transfer (counted from 0), carrying [buf], comes back with a short or
    negative length. *)
Record i2c_client : Type :=
  { i2c_log : list (list Z);
    i2c_fail : nat -> list Z -> bool }.

(** Runtime-PM bookkeeping of [client->dev]. *)
Record dev_pm : Type :=
  { usage_count : Z;
    rpm_active : bool }.

(** Supplies, clock and reset line, with the outcome the regulator and
    clock frameworks give when asked to enable, and call counters for the
    two power callbacks. *)
Record power_rails : Type :=
  { supplies_on : bool;
    xclk_on : bool;
    reset_gpio : bool;
    regulator_bulk_enable_ret : retcode;
    clk_prepare_enable_ret : retcode;
    power_on_calls : nat;
    power_off_calls : nat }.

(* ================================================================== *)
(** ** Driver state *)

(** [struct imx477] together with the two module parameters and the
    kernel objects it points to. *)
Record imx477 : Type :=
  { fmt_code : Z;
    ctrls : ctrl_id -> v4l2_ctrl;
    mode : imx477_mode;
    trigger_mode_of : Z;
    streaming : bool;
    common_regs_written : bool;
    long_exp_shift : Z;
    compatible_data : imx477_compatible_data;
    client : i2c_client;
    pm : dev_pm;
    rails : power_rails;
    dpc_enable : Z;
    trigger_mode : Z }.

Definition set_fmt_code (s : imx477) (x : Z) : imx477 :=
  {| fmt_code := x; ctrls := ctrls s; mode := mode s;
     trigger_mode_of := trigger_mode_of s; streaming := streaming s;
     common_regs_written := common_regs_written s;
     long_exp_shift := long_exp_shift s; compatible_data := compatible_data s;
     client := client s; pm := pm s; rails := rails s;
     dpc_enable := dpc_enable s; trigger_mode := trigger_mode s |}.

Definition set_ctrls (s : imx477) (x : ctrl_id -> v4l2_ctrl) : imx477 :=
  {| fmt_code := fmt_code s; ctrls := x; mode := mode s;
     trigger_mode_of := trigger_mode_of s; streaming := streaming s;
     common_regs_written := common_regs_written s;
     long_exp_shift := long_exp_shift s; compatible_data := compatible_data s;
     client := client s; pm := pm s; rails := rails s;
     dpc_enable := dpc_enable s; trigger_mode := trigger_mode s |}.

Definition set_mode (s : imx477) (x : imx477_mode) : imx477 :=
  {| fmt_code := fmt_code s; ctrls := ctrls s; mode := x;
     trigger_mode_of := trigger_mode_of s; streaming := streaming s;
     common_regs_written := common_regs_written s;
     long_exp_shift := long_exp_shift s; compatible_data := compatible_data s;
     client := client s; pm := pm s; rails := rails s;
     dpc_enable := dpc_enable s; trigger_mode := trigger_mode s |}.

Definition set_streaming (s : imx477) (x : bool) : imx477 :=
  {| fmt_code := fmt_code s; ctrls := ctrls s; mode := mode s;
     trigger_mode_of := trigger_mode_of s; streaming := x;
     common_regs_written := common_regs_written s;
     long_exp_shift := long_exp_shift s; compatible_data := compatible_data s;
     client := client s; pm := pm s; rails := rails s;
     dpc_enable := dpc_enable s; trigger_mode := trigger_mode s |}.

Definition set_common_regs_written (s : imx477) (x : bool) : imx477 :=
  {| fmt_code := fmt_code s; ctrls := ctrls s; mode := mode s;
     trigger_mode_of := trigger_mode_of s; streaming := streaming s;
     common_regs_written := x;
     long_exp_shift := long_exp_shift s; compatible_data := compatible_data s;
     client := client s; pm := pm s; rails := rails s;
     dpc_enable := dpc_enable s; trigger_mode := trigger_mode s |}.

Definition set_long_exp_shift (s : imx477) (x : Z) : imx477 :=
  {| fmt_code := fmt_code s; ctrls := ctrls s; mode := mode s;
     trigger_mode_of := trigger_mode_of s; streaming := streaming s;
     common_regs_written := common_regs_written s;
     long_exp_shift := x; compatible_data := compatible_data s;
     client := client s; pm := pm s; rails := rails s;
     dpc_enable := dpc_enable s; trigger_mode := trigger_mode s |}.

Definition set_client (s : imx477) (x : i2c_client) : imx477 :=
  {| fmt_code := fmt_code s; ctrls := ctrls s; mode := mode s;
     trigger_mode_of := trigger_mode_of s; streaming := streaming s;
     common_regs_written := common_regs_written s;
     long_exp_shift := long_exp_shift s; compatible_data := compatible_data s;
     client := x; pm := pm s; rails := rails s;
     dpc_enable := dpc_enable s; trigger_mode := trigger_mode s |}.

Definition set_pm (s : imx477) (x : dev_pm) : imx477 :=
  {| fmt_code := fmt_code s; ctrls := ctrls s; mode := mode s;
     trigger_mode_of := trigger_mode_of s; streaming := streaming s;
     common_regs_written := common_regs_written s;
     long_exp_shift := long_exp_shift s; compatible_data := compatible_data s;
     client := client s; pm := x; rails := rails s;
     dpc_enable := dpc_enable s; trigger_mode := trigger_mode s |}.

Definition set_rails (s : imx477) (x : power_rails) : imx477 :=
  {| fmt_code := fmt_code s; ctrls := ctrls s; mode := mode s;
     trigger_mode_of := trigger_mode_of s; streaming := streaming s;
     common_regs_written := common_regs_written s;
     long_exp_shift := long_exp_shift s; compatible_data := compatible_data s;
     client := client s; pm := pm s; rails := x;
     dpc_enable := dpc_enable s; trigger_mode := trigger_mode s |}.

(** Update of one control in the handler. *)
Definition set_ctrl_of (s : imx477) (id : ctrl_id) (c : v4l2_ctrl) : imx477 :=
  set_ctrls s (fun j => if ctrl_id_eq_dec j id then c else ctrls s j).

(** The control pointers of [struct imx477]. *)
Definition exposure (s : imx477) : v4l2_ctrl := ctrls s V4L2_CID_EXPOSURE.
Definition vflip (s : imx477) : v4l2_ctrl := ctrls s V4L2_CID_VFLIP.
Definition hflip (s : imx477) : v4l2_ctrl := ctrls s V4L2_CID_HFLIP.
Definition vblank (s : imx477) : v4l2_ctrl := ctrls s V4L2_CID_VBLANK.
Definition hblank (s : imx477) : v4l2_ctrl := ctrls s V4L2_CID_HBLANK.

(* ================================================================== *)
(** ** State monad *)

Definition M (A : Type) : Type := imx477 -> A * imx477.

Definition ret {A} (a : A) : M A := fun s => (a, s).

Definition bind {A B} (m : M A) (k : A -> M B) : M B :=
  fun s => let (a, s') := m s in k a s'.

Definition gets {A} (f : imx477 -> A) : M A := fun s => (f s, s).

Definition modify (f : imx477 -> imx477) : M unit := fun s => (tt, f s).

Declare Scope drv_scope.
Delimit Scope drv_scope with drv.
Notation "x <- m ;; k" := (bind m (fun x => k))
  (at level 61, m at next level, right associativity) : drv_scope.
Notation "m ;; k" := (bind m (fun _ => k))
  (at level 61, right associativity) : drv_scope.
Open Scope drv_scope.

(* ================================================================== *)
(** ** Register sequencer *)

(** Modelled from the spec: the kernel byte-order helpers are absent from
    the driver source; section 6 fixes the encoding as big-endian. *)
Definition put_unaligned_be16 (v : Z) : list Z :=
  [ Z.land (Z.shiftr v 8) 0xff; Z.land v 0xff ].

Definition put_unaligned_be32 (v : Z) : list Z :=
  [ Z.land (Z.shiftr v 24) 0xff; Z.land (Z.shiftr v 16) 0xff;
    Z.land (Z.shiftr v 8) 0xff; Z.land v 0xff ].

(** Modelled from the spec: [i2c_master_send] is a kernel service absent
    from the driver source.  One call is one bus transaction; it answers
    whether the returned length equals the requested one (section 6: a
    length mismatch is an I/O error). *)
Definition bus_push (s : imx477) (l : list (list Z)) : imx477 :=
  set_client s {| i2c_log := i2c_log (client s) ++ l;
                  i2c_fail := i2c_fail (client s) |}.

Definition i2c_master_send (buf : list Z) : M bool :=
  fun s =>
    let c := client s in
    let n := length (i2c_log c) in
    (negb (i2c_fail c n buf), bus_push s [buf]).

(** The buffer [imx477_write_reg] builds and the [len + 2] bytes of it that
    go on the wire; [reg] is a u16 and [val] a u32 parameter. *)
Definition reg_buf (reg len val : Z) : list Z :=
  let buf := put_unaligned_be16 (u16 reg)
             ++ put_unaligned_be32 (u32 (Z.shiftl (u32 val) (8 * (4 - len)))) in
  firstn (Z.to_nat (len + 2)) buf.

Definition imx477_write_reg (reg len val : Z) : M retcode :=
  if len >? 4 then ret (ERR EINVAL)
  else
    sent <- i2c_master_send (reg_buf reg len val) ;;
    if sent then ret OK else ret (ERR EIO).

(** [imx477_write_regs]: the array of [len] entries is the list. *)
Fixpoint imx477_write_regs (regs : list imx477_reg) : M retcode :=
  match regs with
  | [] => ret OK
  | r :: rest =>
      rc <- imx477_write_reg (address r) 1 (reg_val r) ;;
      match rc with
      | OK => imx477_write_regs rest
      | ERR e => ret (ERR e)
      end
  end.

(* ================================================================== *)
(** ** Bayer order *)

(** The search loop of [imx477_get_format_code]: the first index [i] from
    [i0] on with [codes[i] == code], or one past the end. *)
Fixpoint find_code (code : Z) (l : list Z) (i0 : Z) : Z :=
  match l with
  | [] => i0
  | c :: l' => if c =? code then i0 else find_code code l' (i0 + 1)
  end.

Definition imx477_get_format_code `{media_bus_format} (s : imx477) (code : Z) : Z :=
  let i := find_code code codes 0 in
  let i := if i >=? Z.of_nat (length codes) then 0 else i in
  let i := Z.lor (Z.lor (Z.land i (u32 (Z.lnot 3)))
                        (if val (vflip s) =? 0 then 0 else 2))
                 (if val (hflip s) =? 0 then 0 else 1) in
  nth (Z.to_nat i) codes 0.

Definition imx477_set_default_format `{media_bus_format} : M unit :=
  modify (fun s => set_fmt_code (set_mode s (nth 0 supported_modes_12bit (mode s)))
                                MEDIA_BUS_FMT_SRGGB12_1X12).

(* ================================================================== *)
(** ** Runtime PM and power sequencing *)

Definition imx477_power_on : M retcode :=
  fun s =>
    let r := rails s in
    let called := S (power_on_calls r) in
    match regulator_bulk_enable_ret r with
    | ERR e =>
        (ERR e,
         set_rails s {| supplies_on := supplies_on r; xclk_on := xclk_on r;
                        reset_gpio := reset_gpio r;
                        regulator_bulk_enable_ret := regulator_bulk_enable_ret r;
                        clk_prepare_enable_ret := clk_prepare_enable_ret r;
                        power_on_calls := called;
                        power_off_calls := power_off_calls r |})
    | OK =>
        match clk_prepare_enable_ret r with
        | ERR e =>
            (* reg_off: *)
            (ERR e,
             set_rails s {| supplies_on := false; xclk_on := xclk_on r;
                            reset_gpio := reset_gpio r;
                            regulator_bulk_enable_ret := regulator_bulk_enable_ret r;
                            clk_prepare_enable_ret := clk_prepare_enable_ret r;
                            power_on_calls := called;
                            power_off_calls := power_off_calls r |})
        | OK =>
            (OK,
             set_rails s {| supplies_on := true; xclk_on := true;
                            reset_gpio := true;
                            regulator_bulk_enable_ret := regulator_bulk_enable_ret r;
                            clk_prepare_enable_ret := clk_prepare_enable_ret r;
                            power_on_calls := called;
                            power_off_calls := power_off_calls r |})
        end
    end.

Definition imx477_power_off : M retcode :=
  fun s =>
    let r := rails s in
    let s1 :=
      set_rails s {| supplies_on := false; xclk_on := false;
                     reset_gpio := false;
                     regulator_bulk_enable_ret := regulator_bulk_enable_ret r;
                     clk_prepare_enable_ret := clk_prepare_enable_ret r;
                     power_on_calls := power_on_calls r;
                     power_off_calls := S (power_off_calls r) |} in
    (* Force reprogramming of the common registers when powered up again. *)
    (OK, set_common_regs_written s1 false).

(** Modelled from the spec: the runtime-PM core is a kernel service absent
    from the driver source.  It is the power collaborator of section 6: a
    usage counter on the device, [imx477_power_on] as resume callback when a
    reference is taken on a suspended device, [imx477_power_off] as suspend
    callback when the last reference is dropped.  [OK] from
    [pm_runtime_get_sync] stands for any non-negative return. *)
Definition pm_runtime_get_sync : M retcode :=
  fun s =>
    let p := pm s in
    let s1 := set_pm s {| usage_count := usage_count p + 1;
                          rpm_active := rpm_active p |} in
    if rpm_active p then (OK, s1)
    else
      let (r, s2) := imx477_power_on s1 in
      match r with
      | ERR e => (ERR e, s2)
      | OK => (OK,
               set_pm s2 {| usage_count := usage_count (pm s2);
                            rpm_active := true |})
      end.

Definition pm_runtime_put_noidle : M unit :=
  modify (fun s => set_pm s {| usage_count := usage_count (pm s) - 1;
                               rpm_active := rpm_active (pm s) |}).

Definition pm_runtime_put : M unit :=
  fun s =>
    let p := pm s in
    let s1 := set_pm s {| usage_count := usage_count p - 1;
                          rpm_active := rpm_active p |} in
    if (usage_count p - 1 =? 0) && rpm_active p then
      let (_, s2) := imx477_power_off s1 in
      (tt, set_pm s2 {| usage_count := usage_count (pm s2);
                        rpm_active := false |})
    else (tt, s1).

(** Takes a reference only when the device is active and already in use;
    answers 1 then, 0 otherwise. *)
Definition pm_runtime_get_if_in_use : M Z :=
  fun s =>
    let p := pm s in
    if rpm_active p && (0 <? usage_count p) then
      (1, set_pm s {| usage_count := usage_count p + 1;
                      rpm_active := rpm_active p |})
    else (0, s).

(* ================================================================== *)
(** ** Control framework *)

(** The kernel's [clamp(val, lo, hi)]. *)
Definition clamp (v lo hi : Z) : Z := Z.min (Z.max v lo) hi.

(** Modelled from the spec: the V4L2 control framework is absent from the
    driver source.  Section 3 gives a control a range
    [{minimum, maximum, step, default}] and a value; the three entry points
    below take the driver's [s_ctrl] operation as argument, the way the
    framework reaches it through [imx477_ctrl_ops].  [val] is the field the
    callback reads as [ctrl->val].

    [__v4l2_ctrl_modify_range]: rejects a degenerate range, stores the new
    range, clamps the value into it and applies the value through [s_ctrl]
    when the clamp changed it. *)
Definition v4l2_ctrl_modify_range_with (s_ctrl : ctrl_id -> M retcode)
    (id : ctrl_id) (mn mx st df : Z) : M retcode :=
  fun s =>
    if (st =? 0) || (mx <? mn) || (df <? mn) || (mx <? df) then (ERR ERANGE, s)
    else
      let c := ctrl_with_range (ctrls s id) mn mx st df in
      let v := clamp (val c) mn mx in
      if v =? val c then (OK, set_ctrl_of s id c)
      else s_ctrl id (set_ctrl_of s id (ctrl_with_val c v)).

(** [__v4l2_ctrl_s_ctrl]: clamps the requested value into the range, stores
    it and applies it through [s_ctrl]. *)
Definition v4l2_ctrl_s_ctrl_with (s_ctrl : ctrl_id -> M retcode)
    (id : ctrl_id) (v : Z) : M retcode :=
  fun s =>
    let c := ctrls s id in
    s_ctrl id (set_ctrl_of s id (ctrl_with_val c (clamp v (minimum c) (maximum c)))).

(** Registration order of [imx477_init_controls]. *)
Definition ctrl_registration_order : list ctrl_id :=
  [ V4L2_CID_PIXEL_RATE; V4L2_CID_LINK_FREQ; V4L2_CID_VBLANK; V4L2_CID_HBLANK;
    V4L2_CID_EXPOSURE; V4L2_CID_ANALOGUE_GAIN; V4L2_CID_DIGITAL_GAIN;
    V4L2_CID_HFLIP; V4L2_CID_VFLIP; V4L2_CID_TEST_PATTERN;
    V4L2_CID_TEST_PATTERN_RED; V4L2_CID_TEST_PATTERN_GREENR;
    V4L2_CID_TEST_PATTERN_BLUE; V4L2_CID_TEST_PATTERN_GREENB ].

(** [__v4l2_ctrl_handler_setup]: replays every control that is not
    read-only, in registration order, and stops at the first error. *)
Fixpoint v4l2_ctrl_handler_setup_with (s_ctrl : ctrl_id -> M retcode)
    (ids : list ctrl_id) : M retcode :=
  match ids with
  | [] => ret OK
  | id :: rest =>
      ro <- gets (fun s => read_only (ctrls s id)) ;;
      if ro then v4l2_ctrl_handler_setup_with s_ctrl rest
      else
        r <- s_ctrl id ;;
        match r with
        | OK => v4l2_ctrl_handler_setup_with s_ctrl rest
        | ERR e => ret (ERR e)
        end
  end.

(** [__v4l2_ctrl_grab]. *)
Definition v4l2_ctrl_grab (id : ctrl_id) (g : bool) : M unit :=
  modify (fun s => set_ctrl_of s id (ctrl_with_grabbed (ctrls s id) g)).

(* ================================================================== *)
(** ** Control callbacks *)

(** The [while] loop of [imx477_set_frame_length].  [val] is an unsigned
    int, so 32 halvings exhaust it: the fuel is the width of the type. *)
Fixpoint set_frame_length_loop (fuel : nat) (val : Z) : M Z :=
  match fuel with
  | O => ret val
  | S n =>
      if val >? IMX477_FRAME_LENGTH_MAX then
        modify (fun s => set_long_exp_shift s (u32 (long_exp_shift s + 1))) ;;
        set_frame_length_loop n (Z.shiftr val 1)
      else ret val
  end.

Definition imx477_set_frame_length (val : Z) : M retcode :=
  modify (fun s => set_long_exp_shift s 0) ;;
  val <- set_frame_length_loop 32 (u32 val) ;;
  r <- imx477_write_reg IMX477_REG_FRAME_LENGTH IMX477_REG_VALUE_16BIT val ;;
  match r with
  | ERR e => ret (ERR e)
  | OK =>
      sh <- gets long_exp_shift ;;
      imx477_write_reg IMX477_LONG_EXP_SHIFT_REG IMX477_REG_VALUE_08BIT sh
  end.

(** [imx477_set_ctrl] from the runtime-PM check on: the register write
    selected by the control id. *)
Definition imx477_set_ctrl_apply (id : ctrl_id) : M retcode :=
  in_use <- pm_runtime_get_if_in_use ;;
  if in_use =? 0 then ret OK
  else
    s <- gets (fun s => s) ;;
    let v := val (ctrls s id) in
    r <- match id with
         | V4L2_CID_ANALOGUE_GAIN =>
             imx477_write_reg IMX477_REG_ANALOG_GAIN IMX477_REG_VALUE_16BIT v
         | V4L2_CID_EXPOSURE =>
             imx477_write_reg IMX477_REG_EXPOSURE IMX477_REG_VALUE_16BIT
                              (Z.shiftr v (long_exp_shift s))
         | V4L2_CID_DIGITAL_GAIN =>
             imx477_write_reg IMX477_REG_DIGITAL_GAIN IMX477_REG_VALUE_16BIT v
         | V4L2_CID_TEST_PATTERN =>
             imx477_write_reg IMX477_REG_TEST_PATTERN IMX477_REG_VALUE_16BIT
                              (nth (Z.to_nat v) imx477_test_pattern_val 0)
         | V4L2_CID_TEST_PATTERN_RED =>
             imx477_write_reg IMX477_REG_TEST_PATTERN_R IMX477_REG_VALUE_16BIT v
         | V4L2_CID_TEST_PATTERN_GREENR =>
             imx477_write_reg IMX477_REG_TEST_PATTERN_GR IMX477_REG_VALUE_16BIT v
         | V4L2_CID_TEST_PATTERN_BLUE =>
             imx477_write_reg IMX477_REG_TEST_PATTERN_B IMX477_REG_VALUE_16BIT v
         | V4L2_CID_TEST_PATTERN_GREENB =>
             imx477_write_reg IMX477_REG_TEST_PATTERN_GB IMX477_REG_VALUE_16BIT v
         | V4L2_CID_HFLIP
         | V4L2_CID_VFLIP =>
             imx477_write_reg IMX477_REG_ORIENTATION 1
                              (Z.lor (val (hflip s)) (Z.shiftl (val (vflip s)) 1))
         | V4L2_CID_VBLANK =>
             imx477_set_frame_length (height (mode s) + v)
         | V4L2_CID_HBLANK =>
             imx477_write_reg IMX477_REG_LINE_LENGTH 2 (width (mode s) + v)
         | _ => ret (ERR EINVAL)
         end ;;
    pm_runtime_put ;;
    ret r.

(** [imx477_adjust_exposure_range].  The framework applies a clamped
    exposure value through the exposure control's [s_ctrl]; for that id
    [imx477_set_ctrl] is [imx477_set_ctrl_apply] (see
    [imx477_set_ctrl_exposure]).  The framework's result is dropped, as in
    the source. *)
Definition imx477_adjust_exposure_range : M unit :=
  s <- gets (fun s => s) ;;
  let exposure_max :=
    s32 (u32 (u32 (height (mode s) + val (vblank s)) - IMX477_EXPOSURE_OFFSET)) in
  let exposure_def := Z.min exposure_max (val (exposure s)) in
  _ <- v4l2_ctrl_modify_range_with imx477_set_ctrl_apply V4L2_CID_EXPOSURE
         (minimum (exposure s)) exposure_max (step (exposure s)) exposure_def ;;
  ret tt.

Definition imx477_set_ctrl (id : ctrl_id) : M retcode :=
  (* The VBLANK control may change the limits of usable exposure. *)
  (match id with
   | V4L2_CID_VBLANK => imx477_adjust_exposure_range
   | _ => ret tt
   end) ;;
  imx477_set_ctrl_apply id.

(** The framework entry points with the driver's operation plugged in
    ([imx477_ctrl_ops.s_ctrl = imx477_set_ctrl]). *)
Definition __v4l2_ctrl_modify_range := v4l2_ctrl_modify_range_with imx477_set_ctrl.
Definition __v4l2_ctrl_s_ctrl := v4l2_ctrl_s_ctrl_with imx477_set_ctrl.
Definition __v4l2_ctrl_handler_setup :=
  v4l2_ctrl_handler_setup_with imx477_set_ctrl ctrl_registration_order.

(* ================================================================== *)
(** ** Framing limits *)

Definition u64 (x : Z) : Z := x mod 2 ^ 64.

(** Modelled from the spec: [do_div] is a kernel macro (asm/div64.h) that the
    driver uses but does not define.  [do_div(n, base)] replaces the 64-bit
    [n] by the quotient rounded down, and takes [base] as a 32-bit value
    ([uint32_t __base = (base)]): a wider divisor is cut to its low 32 bits.
    Division by zero is undefined in C; [Z.div] yields 0 there, and no
    statement relies on that case. *)
Definition do_div (n base : Z) : Z := n / u32 base.

Definition imx477_get_frame_length (m : imx477_mode) (timeperframe : v4l2_fract) : Z :=
  let frame_length := u64 (numerator timeperframe * IMX477_PIXEL_RATE) in
  let frame_length :=
    do_div frame_length (u64 (denominator timeperframe * line_length_pix m)) in
  let frame_length :=
    if frame_length >? IMX477_FRAME_LENGTH_MAX then IMX477_FRAME_LENGTH_MAX
    else frame_length in
  Z.max (u32 frame_length) (height m).

Definition imx477_set_framing_limits : M unit :=
  m <- gets mode ;;
  let frm_length_min := imx477_get_frame_length m (timeperframe_min m) in
  let frm_length_default := imx477_get_frame_length m (timeperframe_default m) in
  (* Default to no long exposure multiplier. *)
  modify (fun s => set_long_exp_shift s 0) ;;
  (* Update limits and set FPS to default *)
  _ <- __v4l2_ctrl_modify_range V4L2_CID_VBLANK
         (u32 (frm_length_min - height m))
         (u32 (Z.shiftl 1 IMX477_LONG_EXP_SHIFT_MAX * IMX477_FRAME_LENGTH_MAX - height m))
         1 (u32 (frm_length_default - height m)) ;;
  (* Setting this will adjust the exposure limits as well. *)
  _ <- __v4l2_ctrl_s_ctrl V4L2_CID_VBLANK (u32 (frm_length_default - height m)) ;;
  let hblank_min := u32 (line_length_pix m - width m) in
  _ <- __v4l2_ctrl_modify_range V4L2_CID_HBLANK hblank_min
         IMX477_LINE_LENGTH_MAX 1 hblank_min ;;
  _ <- __v4l2_ctrl_s_ctrl V4L2_CID_HBLANK hblank_min ;;
  ret tt.

(* ================================================================== *)
(** ** Pad formats *)

Inductive v4l2_field : Type :=
| V4L2_FIELD_ANY
| V4L2_FIELD_NONE
| V4L2_FIELD_OTHER (n : Z).

Inductive v4l2_colorspace : Type :=
| V4L2_COLORSPACE_DEFAULT
| V4L2_COLORSPACE_RAW
| V4L2_COLORSPACE_OTHER (n : Z).

(** A colorimetry field derived from the colorspace: either what the caller
    supplied or the result of the header macro [V4L2_MAP_*_DEFAULT], kept
    symbolic. *)
Inductive v4l2_mapped : Type :=
| V4L2_SUPPLIED (n : Z)
| V4L2_MAP_DEFAULT (c : v4l2_colorspace).

(** [struct v4l2_mbus_framefmt]. *)
Record v4l2_mbus_framefmt : Type :=
  { fmt_width : Z;
    fmt_height : Z;
    code : Z;
    field : v4l2_field;
    colorspace : v4l2_colorspace;
    ycbcr_enc : v4l2_mapped;
    quantization : v4l2_mapped;
    xfer_func : v4l2_mapped }.

Inductive v4l2_subdev_format_whence : Type :=
| V4L2_SUBDEV_FORMAT_TRY
| V4L2_SUBDEV_FORMAT_ACTIVE.

(** [struct v4l2_subdev_format]. *)
Record v4l2_subdev_format : Type :=
  { which : v4l2_subdev_format_whence;
    pad : Z;
    format : v4l2_mbus_framefmt }.

(** The per-file-handle try formats of the two pads. *)
Record v4l2_subdev_state : Type :=
  { try_fmt_img : v4l2_mbus_framefmt;
    try_fmt_meta : v4l2_mbus_framefmt }.

Definition v4l2_subdev_get_try_format (st : v4l2_subdev_state) (p : Z)
  : v4l2_mbus_framefmt :=
  if p =? IMAGE_PAD then try_fmt_img st else try_fmt_meta st.

Definition v4l2_subdev_set_try_format (st : v4l2_subdev_state) (p : Z)
    (f : v4l2_mbus_framefmt) : v4l2_subdev_state :=
  if p =? IMAGE_PAD then {| try_fmt_img := f; try_fmt_meta := try_fmt_meta st |}
  else {| try_fmt_img := try_fmt_img st; try_fmt_meta := f |}.

Definition with_format (fmt : v4l2_subdev_format) (f : v4l2_mbus_framefmt)
  : v4l2_subdev_format :=
  {| which := which fmt; pad := pad fmt; format := f |}.

Definition with_code (f : v4l2_mbus_framefmt) (c : Z) : v4l2_mbus_framefmt :=
  {| fmt_width := fmt_width f; fmt_height := fmt_height f; code := c;
     field := field f; colorspace := colorspace f; ycbcr_enc := ycbcr_enc f;
     quantization := quantization f; xfer_func := xfer_func f |}.

Definition imx477_reset_colorspace (f : v4l2_mbus_framefmt) : v4l2_mbus_framefmt :=
  {| fmt_width := fmt_width f; fmt_height := fmt_height f; code := code f;
     field := field f;
     colorspace := V4L2_COLORSPACE_RAW;
     ycbcr_enc := V4L2_MAP_DEFAULT V4L2_COLORSPACE_RAW;
     quantization := V4L2_MAP_DEFAULT V4L2_COLORSPACE_RAW;
     xfer_func := V4L2_MAP_DEFAULT V4L2_COLORSPACE_RAW |}.

Definition imx477_update_image_pad_format (m : imx477_mode)
    (fmt : v4l2_subdev_format) : v4l2_subdev_format :=
  let f := format fmt in
  with_format fmt
    (imx477_reset_colorspace
       {| fmt_width := width m; fmt_height := height m; code := code f;
          field := V4L2_FIELD_NONE; colorspace := colorspace f;
          ycbcr_enc := ycbcr_enc f; quantization := quantization f;
          xfer_func := xfer_func f |}).

Definition imx477_update_metadata_pad_format `{media_bus_format}
    (fmt : v4l2_subdev_format) : v4l2_subdev_format :=
  let f := format fmt in
  with_format fmt
    {| fmt_width := IMX477_EMBEDDED_LINE_WIDTH;
       fmt_height := IMX477_NUM_EMBEDDED_LINES;
       code := MEDIA_BUS_FMT_SENSOR_DATA;
       field := V4L2_FIELD_NONE; colorspace := colorspace f;
       ycbcr_enc := ycbcr_enc f; quantization := quantization f;
       xfer_func := xfer_func f |}.

(** [imx477_enum_mbus_code]; the answer is the return code and
    [code->code]. *)
Definition imx477_enum_mbus_code `{media_bus_format} (s : imx477)
    (pad index : Z) : retcode * option Z :=
  if pad >=? NUM_PADS then (ERR EINVAL, None)
  else if pad =? IMAGE_PAD then
    if index >=? Z.of_nat (length codes) / 4 then (ERR EINVAL, None)
    else (OK, Some (imx477_get_format_code s (nth (Z.to_nat (index * 4)) codes 0)))
  else if index >? 0 then (ERR EINVAL, None)
  else (OK, Some MEDIA_BUS_FMT_SENSOR_DATA).

(** [imx477_get_pad_format]: returns the code, the updated try state and
    the filled-in format. *)
Definition imx477_get_pad_format `{media_bus_format} (s : imx477)
    (sd_state : v4l2_subdev_state) (fmt : v4l2_subdev_format)
  : retcode * v4l2_subdev_state * v4l2_subdev_format :=
  if pad fmt >=? NUM_PADS then (ERR EINVAL, sd_state, fmt)
  else
    match which fmt with
    | V4L2_SUBDEV_FORMAT_TRY =>
        let try_fmt := v4l2_subdev_get_try_format sd_state (pad fmt) in
        (* update the code which could change due to vflip or hflip *)
        let try_fmt :=
          with_code try_fmt
            (if pad fmt =? IMAGE_PAD
             then imx477_get_format_code s (code try_fmt)
             else MEDIA_BUS_FMT_SENSOR_DATA) in
        (OK, v4l2_subdev_set_try_format sd_state (pad fmt) try_fmt,
         with_format fmt try_fmt)
    | V4L2_SUBDEV_FORMAT_ACTIVE =>
        if pad fmt =? IMAGE_PAD then
          let fmt := imx477_update_image_pad_format (mode s) fmt in
          (OK, sd_state,
           with_format fmt
             (with_code (format fmt) (imx477_get_format_code s (fmt_code s))))
        else (OK, sd_state, imx477_update_metadata_pad_format fmt)
    end.

(** Modelled from the spec: [v4l2_find_nearest_size] is a kernel helper
    absent from the driver source.  Section 4.1 gives its contract: the
    entry nearest in area, ties broken by nearest width.  Among entries that
    tie on both, the earliest in the table is kept.  [None] is the NULL the
    helper returns for an empty table. *)
Definition size_distance (m : imx477_mode) (w h : Z) : Z * Z :=
  (Z.abs (width m * height m - w * h), Z.abs (width m - w)).

Definition nearer (a b : Z * Z) : bool :=
  (fst a <? fst b) || ((fst a =? fst b) && (snd a <? snd b)).

Fixpoint nearest_from (best : imx477_mode) (l : list imx477_mode) (w h : Z)
  : imx477_mode :=
  match l with
  | [] => best
  | m :: l' =>
      nearest_from
        (if nearer (size_distance m w h) (size_distance best w h) then m else best)
        l' w h
  end.

Definition v4l2_find_nearest_size (l : list imx477_mode) (w h : Z)
  : option imx477_mode :=
  match l with
  | [] => None
  | m :: l' => Some (nearest_from m l' w h)
  end.

(** [imx477_set_pad_format].  The outer [option] is [None] when the source
    would dereference the NULL mode of an empty table. *)
Definition imx477_set_pad_format `{media_bus_format}
    (sd_state : v4l2_subdev_state) (fmt : v4l2_subdev_format)
  : M (option (retcode * v4l2_subdev_state * v4l2_subdev_format)) :=
  if pad fmt >=? NUM_PADS then ret (Some (ERR EINVAL, sd_state, fmt))
  else if pad fmt =? IMAGE_PAD then
    s <- gets (fun s => s) ;;
    (* Bayer order varies with flips *)
    let fmt :=
      with_format fmt
        (with_code (format fmt) (imx477_get_format_code s (code (format fmt)))) in
    let mode_list := get_mode_table (code (format fmt)) in
    match v4l2_find_nearest_size mode_list
            (fmt_width (format fmt)) (fmt_height (format fmt)) with
    | None => ret None
    | Some m =>
        let fmt := imx477_update_image_pad_format m fmt in
        match which fmt with
        | V4L2_SUBDEV_FORMAT_TRY =>
            ret (Some (OK, v4l2_subdev_set_try_format sd_state (pad fmt) (format fmt),
                       fmt))
        | V4L2_SUBDEV_FORMAT_ACTIVE =>
            if imx477_mode_eq_dec (mode s) m then ret (Some (OK, sd_state, fmt))
            else
              modify (fun s => set_fmt_code (set_mode s m) (code (format fmt))) ;;
              imx477_set_framing_limits ;;
              ret (Some (OK, sd_state, fmt))
        end
    end
  else
    match which fmt with
    | V4L2_SUBDEV_FORMAT_TRY =>
        ret (Some (OK, v4l2_subdev_set_try_format sd_state (pad fmt) (format fmt),
                   fmt))
    | V4L2_SUBDEV_FORMAT_ACTIVE =>
        (* Only one embedded data mode is supported *)
        ret (Some (OK, sd_state, imx477_update_metadata_pad_format fmt))
    end.

(* ================================================================== *)
(** ** Streaming *)

Definition bool_to_int (b : bool) : Z := if b then 1 else 0.

Definition imx477_start_streaming : M retcode :=
  written <- gets common_regs_written ;;
  r <- (if negb written then
          r <- imx477_write_regs mode_common_regs ;;
          r <- (match r with
                | OK =>
                    extra <- gets (fun s => extra_regs (compatible_data s)) ;;
                    imx477_write_regs extra
                | ERR e => ret (ERR e)
                end) ;;
          match r with
          | ERR e => ret (ERR e)
          | OK => modify (fun s => set_common_regs_written s true) ;; ret OK
          end
        else ret OK) ;;
  match r with
  | ERR e => ret (ERR e)
  | OK =>
      (* Apply default values of current mode *)
      regs <- gets (fun s => reg_list (mode s)) ;;
      r <- imx477_write_regs regs ;;
      match r with
      | ERR e => ret (ERR e)
      | OK =>
          (* Set on-sensor DPC. *)
          dpc <- gets dpc_enable ;;
          let dpc := bool_to_int (negb (dpc =? 0)) in
          _ <- imx477_write_reg IMX477_REG_DPC_0B05 IMX477_REG_VALUE_08BIT dpc ;;
          _ <- imx477_write_reg IMX477_REG_DPC_0B06 IMX477_REG_VALUE_08BIT dpc ;;
          (* Apply customized values from user *)
          r <- __v4l2_ctrl_handler_setup ;;
          match r with
          | ERR e => ret (ERR e)
          | OK =>
              (* Set vsync trigger mode: 0=standalone, 1=source, 2=sink *)
              s <- gets (fun s => s) ;;
              let tm := if trigger_mode_of s >=? 0 then trigger_mode_of s
                        else trigger_mode s in
              _ <- imx477_write_reg IMX477_REG_MC_MODE IMX477_REG_VALUE_08BIT
                     (if tm >? 0 then 1 else 0) ;;
              _ <- imx477_write_reg IMX477_REG_MS_SEL IMX477_REG_VALUE_08BIT
                     (if tm <=? 1 then 1 else 0) ;;
              _ <- imx477_write_reg IMX477_REG_XVS_IO_CTRL IMX477_REG_VALUE_08BIT
                     (if tm =? 1 then 1 else 0) ;;
              _ <- imx477_write_reg IMX477_REG_EXTOUT_EN IMX477_REG_VALUE_08BIT
                     (if tm =? 1 then 1 else 0) ;;
              (* set stream on register *)
              imx477_write_reg IMX477_REG_MODE_SELECT IMX477_REG_VALUE_08BIT
                               IMX477_MODE_STREAMING
          end
      end
  end.

Definition imx477_stop_streaming : M unit :=
  (* set stream off register *)
  _ <- imx477_write_reg IMX477_REG_MODE_SELECT IMX477_REG_VALUE_08BIT
         IMX477_MODE_STANDBY ;;
  (* Stop driving XVS out (there is still a weak pull-up) *)
  _ <- imx477_write_reg IMX477_REG_EXTOUT_EN IMX477_REG_VALUE_08BIT 0 ;;
  ret tt.

(** [imx477_set_stream]; [enable] is the C [int] argument. *)
Definition imx477_set_stream (enable : Z) : M retcode :=
  streaming_now <- gets streaming ;;
  if bool_to_int streaming_now =? enable then ret OK
  else
    r <- (if negb (enable =? 0) then
            r <- pm_runtime_get_sync ;;
            match r with
            | ERR e =>
                pm_runtime_put_noidle ;;
                ret (ERR e)           (* err_unlock *)
            | OK =>
                (* Apply default & customized values and then start streaming. *)
                r <- imx477_start_streaming ;;
                match r with
                | ERR e =>
                    pm_runtime_put ;; (* err_rpm_put *)
                    ret (ERR e)
                | OK => ret OK
                end
            end
          else
            imx477_stop_streaming ;;
            pm_runtime_put ;;
            ret OK) ;;
    match r with
    | ERR e => ret (ERR e)
    | OK =>
        modify (fun s => set_streaming s (negb (enable =? 0))) ;;
        (* vflip and hflip cannot change during streaming *)
        v4l2_ctrl_grab V4L2_CID_VFLIP (negb (enable =? 0)) ;;
        v4l2_ctrl_grab V4L2_CID_HFLIP (negb (enable =? 0)) ;;
        ret OK
    end.

Definition imx477_suspend : M retcode :=
  streaming_now <- gets streaming ;;
  (if streaming_now then imx477_stop_streaming else ret tt) ;;
  ret OK.

Definition imx477_resume : M retcode :=
  streaming_now <- gets streaming ;;
  if streaming_now then
    r <- imx477_start_streaming ;;
    match r with
    | OK => ret OK
    | ERR e =>
        imx477_stop_streaming ;;
        modify (fun s => set_streaming s false) ;;
        ret (ERR e)
    end
  else ret OK.

(* ================================================================== *)
(** ** Control registration and the state probe leaves behind *)

(** [v4l2_ctrl_new_std]: a fresh control holds its default value. *)
Definition v4l2_ctrl_new_std (mn mx st df : Z) : v4l2_ctrl :=
  {| val := df; minimum := mn; maximum := mx; step := st; default_value := df;
     read_only := false; grabbed := false |}.

Definition ctrl_read_only (c : v4l2_ctrl) : v4l2_ctrl :=
  {| val := val c; minimum := minimum c; maximum := maximum c; step := step c;
     default_value := default_value c; read_only := true; grabbed := grabbed c |}.

(** The controls [imx477_init_controls] creates, before the framing limits
    are applied. *)
Definition registered_ctrls (id : ctrl_id) : v4l2_ctrl :=
  match id with
  | V4L2_CID_PIXEL_RATE =>
      ctrl_read_only (v4l2_ctrl_new_std IMX477_PIXEL_RATE IMX477_PIXEL_RATE 1
                                        IMX477_PIXEL_RATE)
  | V4L2_CID_LINK_FREQ => ctrl_read_only (v4l2_ctrl_new_std 0 0 1 0)
  | V4L2_CID_VBLANK => v4l2_ctrl_new_std 0 0xffff 1 0
  | V4L2_CID_HBLANK => v4l2_ctrl_new_std 0 0xffff 1 0
  | V4L2_CID_EXPOSURE =>
      v4l2_ctrl_new_std IMX477_EXPOSURE_MIN IMX477_EXPOSURE_MAX
                        IMX477_EXPOSURE_STEP IMX477_EXPOSURE_DEFAULT
  | V4L2_CID_ANALOGUE_GAIN =>
      v4l2_ctrl_new_std IMX477_ANA_GAIN_MIN IMX477_ANA_GAIN_MAX
                        IMX477_ANA_GAIN_STEP IMX477_ANA_GAIN_DEFAULT
  | V4L2_CID_DIGITAL_GAIN =>
      v4l2_ctrl_new_std IMX477_DGTL_GAIN_MIN IMX477_DGTL_GAIN_MAX
                        IMX477_DGTL_GAIN_STEP IMX477_DGTL_GAIN_DEFAULT
  | V4L2_CID_HFLIP => v4l2_ctrl_new_std 0 1 1 0
  | V4L2_CID_VFLIP => v4l2_ctrl_new_std 0 1 1 0
  | V4L2_CID_TEST_PATTERN => v4l2_ctrl_new_std 0 4 1 0
  | V4L2_CID_TEST_PATTERN_RED
  | V4L2_CID_TEST_PATTERN_GREENR
  | V4L2_CID_TEST_PATTERN_BLUE
  | V4L2_CID_TEST_PATTERN_GREENB =>
      v4l2_ctrl_new_std IMX477_TEST_PATTERN_COLOUR_MIN
                        IMX477_TEST_PATTERN_COLOUR_MAX
                        IMX477_TEST_PATTERN_COLOUR_STEP
                        IMX477_TEST_PATTERN_COLOUR_MAX
  end.

(** The driver after a successful [imx477_probe]: default format, controls
    registered and framing limits applied, runtime PM idle with the sensor
    powered down.  The parameters are what probe takes from its
    surroundings: the matched chip variant, the device-tree trigger mode
    (-1 when absent), the behaviour of the bus and the module parameters. *)
Definition probed `{media_bus_format} (compatible : imx477_compatible_data)
    (tm_of : Z) (bus : nat -> list Z -> bool) (dpc tm : Z) : imx477 :=
  let s0 :=
    {| fmt_code := MEDIA_BUS_FMT_SRGGB12_1X12;
       ctrls := registered_ctrls;
       mode := nth 0 supported_modes_12bit
                   {| width := 0; height := 0; line_length_pix := 0;
                      crop := {| rect_left := 0; rect_top := 0;
                                 rect_width := 0; rect_height := 0 |};
                      timeperframe_min := {| numerator := 0; denominator := 0 |};
                      timeperframe_default := {| numerator := 0; denominator := 0 |};
                      reg_list := [] |};
       trigger_mode_of := tm_of;
       streaming := false;
       common_regs_written := false;
       long_exp_shift := 0;
       compatible_data := compatible;
       client := {| i2c_log := []; i2c_fail := bus |};
       pm := {| usage_count := 0; rpm_active := false |};
       rails := {| supplies_on := false; xclk_on := false; reset_gpio := false;
                   regulator_bulk_enable_ret := OK;
                   clk_prepare_enable_ret := OK;
                   power_on_calls := 0; power_off_calls := 0 |};
       dpc_enable := dpc;
       trigger_mode := tm |} in
  snd (imx477_set_framing_limits s0).

(* ================================================================== *)
(** ** Specification vocabulary *)

(** The wire image of one table entry. *)
Definition reg_msg (r : imx477_reg) : list Z :=
  reg_buf (address r) 1 (reg_val r).

(** Position of the first transfer the bus refuses when [msgs] are sent one
    after the other starting at transfer number [n0]. *)
Fixpoint first_fail (f : nat -> list Z -> bool) (n0 : nat)
    (msgs : list (list Z)) : option nat :=
  match msgs with
  | [] => None
  | m :: rest =>
      if f n0 m then Some 0%nat
      else option_map S (first_fail f (S n0) rest)
  end.

(** The register address a buffer starts with. *)
Definition buf_addr (buf : list Z) : Z := nth 0 buf 0 * 256 + nth 1 buf 0.

(** The registers [imx477_start_streaming] writes without looking at the
    result: the two DPC registers and the four trigger-mode registers. *)
Definition unchecked_regs : list Z :=
  [ IMX477_REG_DPC_0B05; IMX477_REG_DPC_0B06; IMX477_REG_MC_MODE;
    IMX477_REG_MS_SEL; IMX477_REG_XVS_IO_CTRL; IMX477_REG_EXTOUT_EN ].

(** The register program of the first three blocks of the start sequence
    when the common block is still to be written. *)
Definition start_program (s : imx477) : list imx477_reg :=
  mode_common_regs ++ extra_regs (compatible_data s) ++ reg_list (mode s).

(** The device is powered for streaming: runtime PM is active with at
    least one reference held. *)
Definition in_use (s : imx477) : Prop :=
  rpm_active (pm s) = true /\ 0 < usage_count (pm s).

(** The flip state the Bayer-order computation sees. *)
Definition hflip_on (s : imx477) : bool := negb (val (hflip s) =? 0).
Definition vflip_on (s : imx477) : bool := negb (val (vflip s) =? 0).

(** The index the spec prescribes within a group of four codes. *)
Definition flip_index (h v : bool) : Z :=
  Z.lor (if h then 1 else 0) (if v then 2 else 0).


(* ================================================================== *)
(** ** Concrete inputs *)

(** The values of [linux/media-bus-format.h], used for concrete runs. *)
Program Definition linux_media_bus_format : media_bus_format :=
  {| MEDIA_BUS_FMT_SRGGB12_1X12 := 0x3012;
     MEDIA_BUS_FMT_SGRBG12_1X12 := 0x3011;
     MEDIA_BUS_FMT_SGBRG12_1X12 := 0x3010;
     MEDIA_BUS_FMT_SBGGR12_1X12 := 0x3008;
     MEDIA_BUS_FMT_SRGGB10_1X10 := 0x300f;
     MEDIA_BUS_FMT_SGRBG10_1X10 := 0x300a;
     MEDIA_BUS_FMT_SGBRG10_1X10 := 0x300e;
     MEDIA_BUS_FMT_SBGGR10_1X10 := 0x3007;
     MEDIA_BUS_FMT_SENSOR_DATA := 0x7002 |}.
Next Obligation.
  repeat constructor; simpl; intuition discriminate.
Qed.

(** A state on which the concrete runs below start: the IMX477 variant as
    probe leaves it, DPC enabled, no trigger mode, over a given bus. *)
Definition probed_linux (bus : nat -> list Z -> bool) : imx477 :=
  @probed linux_media_bus_format imx477_compatible (-1) bus 1 0.

Definition bus_ok : nat -> list Z -> bool := fun _ _ => false.

Definition bus_fails_at (k : nat) : nat -> list Z -> bool :=
  fun n _ => Nat.eqb n k.

Definition bus_fails_on (reg : Z) : nat -> list Z -> bool :=
  fun _ buf => buf_addr buf =? reg.

(** Concrete requests for the runs below. *)
Definition blank_format (c w h : Z) : v4l2_mbus_framefmt :=
  {| fmt_width := w; fmt_height := h; code := c; field := V4L2_FIELD_ANY;
     colorspace := V4L2_COLORSPACE_DEFAULT; ycbcr_enc := V4L2_SUPPLIED 0;
     quantization := V4L2_SUPPLIED 0; xfer_func := V4L2_SUPPLIED 0 |}.

Definition request (wh : v4l2_subdev_format_whence) (p c w h : Z)
  : v4l2_subdev_format :=
  {| which := wh; pad := p; format := blank_format c w h |}.

Definition blank_sd_state : v4l2_subdev_state :=
  {| try_fmt_img := blank_format 0 0 0; try_fmt_meta := blank_format 0 0 0 |}.

(* ================================================================== *)
(** ** Proof vocabulary *)

(** Number of halvings the loop of [imx477_set_frame_length] performs. *)
Fixpoint shift_count (fuel : nat) (v : Z) : Z :=
  match fuel with
  | O => 0
  | S n => if v >? IMX477_FRAME_LENGTH_MAX
           then 1 + shift_count n (Z.shiftr v 1) else 0
  end.

(** The table the resolver searches for a request: the 12-bit table for
    the first group and for any code outside [codes], the 10-bit table for
    the second group. *)
Definition resolved_table `{media_bus_format} (s : imx477) (c : Z)
  : list imx477_mode :=
  get_mode_table (imx477_get_format_code s c).

(** [preserves R m]: running [m] takes any state to an [R]-related one. *)
Definition preserves (R : imx477 -> imx477 -> Prop) {A} (m : M A) : Prop :=
  forall s, R s (snd (m s)).

(** The frame of the control and start paths: everything except control
    values and ranges, the long-exposure shift, the common-registers flag
    and the content of the bus log stays as it was; the log only grows. *)
Definition frame (s s' : imx477) : Prop :=
  fmt_code s' = fmt_code s /\
  mode s' = mode s /\
  trigger_mode_of s' = trigger_mode_of s /\
  streaming s' = streaming s /\
  compatible_data s' = compatible_data s /\
  pm s' = pm s /\
  rails s' = rails s /\
  dpc_enable s' = dpc_enable s /\
  trigger_mode s' = trigger_mode s /\
  i2c_fail (client s') = i2c_fail (client s) /\
  (forall id, read_only (ctrls s' id) = read_only (ctrls s id)) /\
  exists l, i2c_log (client s') = i2c_log (client s) ++ l.

(** The control values and ranges stay as they were. *)
Definition same_ctrls (s s' : imx477) : Prop := ctrls s' = ctrls s.

(** The start sequence in two halves: the register blocks, whose results
    are all checked, and the rest. *)
Definition start_blocks : M retcode :=
  written <- gets common_regs_written ;;
  r <- (if negb written then
          r <- imx477_write_regs mode_common_regs ;;
          r <- (match r with
                | OK =>
                    extra <- gets (fun s => extra_regs (compatible_data s)) ;;
                    imx477_write_regs extra
                | ERR e => ret (ERR e)
                end) ;;
          match r with
          | ERR e => ret (ERR e)
          | OK => modify (fun s => set_common_regs_written s true) ;; ret OK
          end
        else ret OK) ;;
  match r with
  | ERR e => ret (ERR e)
  | OK =>
      regs <- gets (fun s => reg_list (mode s)) ;;
      imx477_write_regs regs
  end.

Definition start_replay_and_go : M retcode :=
  dpc <- gets dpc_enable ;;
  let dpc := bool_to_int (negb (dpc =? 0)) in
  _ <- imx477_write_reg IMX477_REG_DPC_0B05 IMX477_REG_VALUE_08BIT dpc ;;
  _ <- imx477_write_reg IMX477_REG_DPC_0B06 IMX477_REG_VALUE_08BIT dpc ;;
  r <- __v4l2_ctrl_handler_setup ;;
  match r with
  | ERR e => ret (ERR e)
  | OK =>
      s <- gets (fun s => s) ;;
      let tm := if trigger_mode_of s >=? 0 then trigger_mode_of s
                else trigger_mode s in
      _ <- imx477_write_reg IMX477_REG_MC_MODE IMX477_REG_VALUE_08BIT
             (if tm >? 0 then 1 else 0) ;;
      _ <- imx477_write_reg IMX477_REG_MS_SEL IMX477_REG_VALUE_08BIT
             (if tm <=? 1 then 1 else 0) ;;
      _ <- imx477_write_reg IMX477_REG_XVS_IO_CTRL IMX477_REG_VALUE_08BIT
             (if tm =? 1 then 1 else 0) ;;
      _ <- imx477_write_reg IMX477_REG_EXTOUT_EN IMX477_REG_VALUE_08BIT
             (if tm =? 1 then 1 else 0) ;;
      imx477_write_reg IMX477_REG_MODE_SELECT IMX477_REG_VALUE_08BIT
                       IMX477_MODE_STREAMING
  end.

(** The [switch] of [imx477_set_ctrl], on its own. *)
Definition ctrl_switch (id : ctrl_id) (s : imx477) : M retcode :=
  let v := val (ctrls s id) in
  match id with
  | V4L2_CID_ANALOGUE_GAIN =>
      imx477_write_reg IMX477_REG_ANALOG_GAIN IMX477_REG_VALUE_16BIT v
  | V4L2_CID_EXPOSURE =>
      imx477_write_reg IMX477_REG_EXPOSURE IMX477_REG_VALUE_16BIT
                       (Z.shiftr v (long_exp_shift s))
  | V4L2_CID_DIGITAL_GAIN =>
      imx477_write_reg IMX477_REG_DIGITAL_GAIN IMX477_REG_VALUE_16BIT v
  | V4L2_CID_TEST_PATTERN =>
      imx477_write_reg IMX477_REG_TEST_PATTERN IMX477_REG_VALUE_16BIT
                       (nth (Z.to_nat v) imx477_test_pattern_val 0)
  | V4L2_CID_TEST_PATTERN_RED =>
      imx477_write_reg IMX477_REG_TEST_PATTERN_R IMX477_REG_VALUE_16BIT v
  | V4L2_CID_TEST_PATTERN_GREENR =>
      imx477_write_reg IMX477_REG_TEST_PATTERN_GR IMX477_REG_VALUE_16BIT v
  | V4L2_CID_TEST_PATTERN_BLUE =>
      imx477_write_reg IMX477_REG_TEST_PATTERN_B IMX477_REG_VALUE_16BIT v
  | V4L2_CID_TEST_PATTERN_GREENB =>
      imx477_write_reg IMX477_REG_TEST_PATTERN_GB IMX477_REG_VALUE_16BIT v
  | V4L2_CID_HFLIP
  | V4L2_CID_VFLIP =>
      imx477_write_reg IMX477_REG_ORIENTATION 1
                       (Z.lor (val (hflip s)) (Z.shiftl (val (vflip s)) 1))
  | V4L2_CID_VBLANK => imx477_set_frame_length (height (mode s) + v)
  | V4L2_CID_HBLANK =>
      imx477_write_reg IMX477_REG_LINE_LENGTH 2 (width (mode s) + v)
  | _ => ret (ERR EINVAL)
  end.

(** Every transfer logged between [s] and [s'] that the bus refused was
    addressed to a register whose write the driver does not check. *)
Definition refused_unchecked_only (s s' : imx477) : Prop :=
  forall j buf,
    (length (i2c_log (client s)) <= j)%nat ->
    nth_error (i2c_log (client s')) j = Some buf ->
    i2c_fail (client s) j buf = true ->
    In (buf_addr buf) unchecked_regs.

(** The exposure value lies inside the range the current mode and vertical
    blank give it, so re-deriving the range does not move the value. *)
Definition exposure_settled (s : imx477) : Prop :=
  minimum (exposure s) <= val (exposure s)
  <= s32 (u32 (u32 (height (mode s) + val (vblank s)) - IMX477_EXPOSURE_OFFSET)).

(** [sound ok m]: from a settled state, [m] keeps the state settled and
    inside the frame, and when its result passes [ok] every transfer it saw
    refused was an unchecked one. *)
Definition sound {A} (ok : A -> bool) (m : M A) : Prop :=
  forall s, exposure_settled s ->
    exposure_settled (snd (m s)) /\
    frame s (snd (m s)) /\
    (ok (fst (m s)) = true -> refused_unchecked_only s (snd (m s))).

Definition is_ok (r : retcode) : bool := negb (is_err r).

Definition always {A} (_ : A) : bool := true.

(** The bus refuses no transfer except, possibly, those addressed to the
    given registers. *)
Definition bus_refuses_only (regs : list Z) (s : imx477) : Prop :=
  forall n buf, i2c_fail (client s) n buf = true -> In (buf_addr buf) regs.

(** What probe establishes and nothing later changes: the two read-only
    controls, a current mode from the catalogue, a known chip variant. *)
Definition attached (s : imx477) : Prop :=
  read_only (ctrls s V4L2_CID_PIXEL_RATE) = true /\
  read_only (ctrls s V4L2_CID_LINK_FREQ) = true /\
  In (mode s) (supported_modes_12bit ++ supported_modes_10bit) /\
  (compatible_data s = imx477_compatible \/
   compatible_data s = imx378_compatible).

Definition good (s : imx477) : Prop :=
  bus_refuses_only unchecked_regs s /\ attached s.

Definition succeeds (m : M retcode) : Prop :=
  forall s, good s -> fst (m s) = OK.

(** No entry of the list is addressed to an unchecked register. *)
Definition regs_checked (regs : list imx477_reg) : bool :=
  forallb (fun r => negb (existsb (Z.eqb (u16 (address r))) unchecked_regs)) regs.

(* ================================================================== *)
(** ** Register read-back and chip identification *)

(** Modelled from the spec: [get_unaligned_be32] is a kernel byte-order
    helper absent from the driver source; section 6 fixes the encoding as
    big-endian. *)
Definition get_unaligned_be32 (b : list Z) : Z :=
  nth 0 b 0 * 2 ^ 24 + nth 1 b 0 * 2 ^ 16 + nth 2 b 0 * 2 ^ 8 + nth 3 b 0.

(** Modelled from the spec: [i2c_transfer] is a kernel service absent from
    the driver source.  The sensor on the bus is a function from the
    address bytes written and the number of bytes asked for to the bytes it
    answers; [None] is a transfer that does not complete both messages. *)
Definition i2c_device : Type := list Z -> Z -> option (list Z).

(** [imx477_read_reg]: the value read, or the errno. *)
Definition imx477_read_reg (dev : i2c_device) (reg len : Z) : Z + errno :=
  let reg := u16 reg in
  let addr_buf := [ u8 (Z.shiftr reg 8); u8 (Z.land reg 0xff) ] in
  if len >? 4 then inr EINVAL
  else
    match dev addr_buf len with
    | None => inr EIO
    | Some data =>
        (* the answer lands in the last [len] bytes of the zeroed buffer *)
        let data_buf :=
          repeat 0 (Z.to_nat (4 - len)) ++ firstn (Z.to_nat len) data in
        inl (get_unaligned_be32 data_buf)
    end.

Definition IMX477_REG_CHIP_ID : Z := 0x0016.

(** [imx477_identify_module]. *)
Definition imx477_identify_module (dev : i2c_device) (expected_id : Z)
  : retcode :=
  match imx477_read_reg dev IMX477_REG_CHIP_ID IMX477_REG_VALUE_16BIT with
  | inr e => ERR e
  | inl v => if negb (v =? u32 expected_id) then ERR EIO else OK
  end.

(** The data bytes of a write buffer, placed the way [imx477_read_reg]
    places an answer of the same length. *)
Definition payload (buf : list Z) : list Z :=
  repeat 0 (6 - length buf) ++ skipn 2 buf.

(** A sensor register file seen through the bus: it answers a read of
    [len] bytes with the bytes last written there. *)
Definition echoes (dev : i2c_device) (reg len v : Z) : Prop :=
  dev [ u8 (Z.shiftr (u16 reg) 8); u8 (Z.land (u16 reg) 0xff) ] len
  = Some (skipn 2 (reg_buf reg len v)).

(* ================================================================== *)
(** ** Frame sizes, selection rectangles and open *)

(** [struct v4l2_subdev_frame_size_enum]. *)
Record v4l2_subdev_frame_size_enum : Type :=
  { fse_index : Z;
    fse_pad : Z;
    fse_code : Z;
    min_width : Z;
    max_width : Z;
    min_height : Z;
    max_height : Z }.

Definition with_sizes (fse : v4l2_subdev_frame_size_enum) (w h : Z)
  : v4l2_subdev_frame_size_enum :=
  {| fse_index := fse_index fse; fse_pad := fse_pad fse;
     fse_code := fse_code fse;
     min_width := w; max_width := w; min_height := h; max_height := h |}.

(** [imx477_enum_frame_size]: the return code and the structure as the
    call leaves it. *)
Definition imx477_enum_frame_size `{media_bus_format} (s : imx477)
    (fse : v4l2_subdev_frame_size_enum)
  : retcode * v4l2_subdev_frame_size_enum :=
  if fse_pad fse >=? NUM_PADS then (ERR EINVAL, fse)
  else if fse_pad fse =? IMAGE_PAD then
    let mode_list := get_mode_table (fse_code fse) in
    if fse_index fse >=? Z.of_nat (length mode_list) then (ERR EINVAL, fse)
    else if negb (fse_code fse =? imx477_get_format_code s (fse_code fse))
    then (ERR EINVAL, fse)
    else
      let m := nth (Z.to_nat (fse_index fse)) mode_list (mode s) in
      (OK, with_sizes fse (width m) (height m))
  else if negb (fse_code fse =? MEDIA_BUS_FMT_SENSOR_DATA)
          || (fse_index fse >? 0)
  then (ERR EINVAL, fse)
  else (OK, with_sizes fse IMX477_EMBEDDED_LINE_WIDTH IMX477_NUM_EMBEDDED_LINES).

(** Selection targets; the driver knows four. *)
Inductive v4l2_sel_tgt : Type :=
| V4L2_SEL_TGT_CROP
| V4L2_SEL_TGT_CROP_DEFAULT
| V4L2_SEL_TGT_CROP_BOUNDS
| V4L2_SEL_TGT_NATIVE_SIZE
| V4L2_SEL_TGT_OTHER (n : Z).

(** [struct v4l2_subdev_selection]. *)
Record v4l2_subdev_selection : Type :=
  { sel_which : v4l2_subdev_format_whence;
    sel_pad : Z;
    target : v4l2_sel_tgt;
    r : v4l2_rect }.

Definition with_r (sel : v4l2_subdev_selection) (x : v4l2_rect)
  : v4l2_subdev_selection :=
  {| sel_which := sel_which sel; sel_pad := sel_pad sel;
     target := target sel; r := x |}.

(** [__imx477_get_pad_crop]; [try_crop] is the per-file-handle crop
    rectangle of each pad ([v4l2_subdev_get_try_crop]). *)
Definition __imx477_get_pad_crop (s : imx477) (try_crop : Z -> v4l2_rect)
    (pad : Z) (which : v4l2_subdev_format_whence) : v4l2_rect :=
  match which with
  | V4L2_SUBDEV_FORMAT_TRY => try_crop pad
  | V4L2_SUBDEV_FORMAT_ACTIVE => crop (mode s)
  end.

(** [imx477_get_selection]. *)
Definition imx477_get_selection (s : imx477) (try_crop : Z -> v4l2_rect)
    (sel : v4l2_subdev_selection) : retcode * v4l2_subdev_selection :=
  match target sel with
  | V4L2_SEL_TGT_CROP =>
      (OK, with_r sel (__imx477_get_pad_crop s try_crop (sel_pad sel)
                                             (sel_which sel)))
  | V4L2_SEL_TGT_NATIVE_SIZE =>
      (OK, with_r sel {| rect_left := 0; rect_top := 0;
                         rect_width := IMX477_NATIVE_WIDTH;
                         rect_height := IMX477_NATIVE_HEIGHT |})
  | V4L2_SEL_TGT_CROP_DEFAULT
  | V4L2_SEL_TGT_CROP_BOUNDS =>
      (OK, with_r sel {| rect_left := IMX477_PIXEL_ARRAY_LEFT;
                         rect_top := IMX477_PIXEL_ARRAY_TOP;
                         rect_width := IMX477_PIXEL_ARRAY_WIDTH;
                         rect_height := IMX477_PIXEL_ARRAY_HEIGHT |})
  | V4L2_SEL_TGT_OTHER _ => (ERR EINVAL, sel)
  end.

(** [imx477_open]: the return code, the try formats and the try crops of
    the file handle as the call leaves them. *)
Definition imx477_open `{media_bus_format} (s : imx477)
    (st : v4l2_subdev_state) (try_crop : Z -> v4l2_rect)
  : retcode * v4l2_subdev_state * (Z -> v4l2_rect) :=
  let try_fmt_img := v4l2_subdev_get_try_format st IMAGE_PAD in
  let try_fmt_meta := v4l2_subdev_get_try_format st METADATA_PAD in
  let m0 := nth 0 supported_modes_12bit (mode s) in
  (* Initialize try_fmt for the image pad *)
  let try_fmt_img :=
    {| fmt_width := width m0; fmt_height := height m0;
       code := imx477_get_format_code s MEDIA_BUS_FMT_SRGGB12_1X12;
       field := V4L2_FIELD_NONE; colorspace := colorspace try_fmt_img;
       ycbcr_enc := ycbcr_enc try_fmt_img;
       quantization := quantization try_fmt_img;
       xfer_func := xfer_func try_fmt_img |} in
  (* Initialize try_fmt for the embedded metadata pad *)
  let try_fmt_meta :=
    {| fmt_width := IMX477_EMBEDDED_LINE_WIDTH;
       fmt_height := IMX477_NUM_EMBEDDED_LINES;
       code := MEDIA_BUS_FMT_SENSOR_DATA;
       field := V4L2_FIELD_NONE; colorspace := colorspace try_fmt_meta;
       ycbcr_enc := ycbcr_enc try_fmt_meta;
       quantization := quantization try_fmt_meta;
       xfer_func := xfer_func try_fmt_meta |} in
  (* Initialize try_crop *)
  let try_crop' := fun p =>
    if p =? IMAGE_PAD then
      {| rect_left := IMX477_PIXEL_ARRAY_LEFT; rect_top := IMX477_PIXEL_ARRAY_TOP;
         rect_width := IMX477_PIXEL_ARRAY_WIDTH;
         rect_height := IMX477_PIXEL_ARRAY_HEIGHT |}
    else try_crop p in
  (OK,
   v4l2_subdev_set_try_format
     (v4l2_subdev_set_try_format st IMAGE_PAD try_fmt_img)
     METADATA_PAD try_fmt_meta,
   try_crop').

(* ================================================================== *)
(** ** Further proof vocabulary *)

(** The stored format code names the table the current mode comes from. *)
Definition format_consistent `{media_bus_format} (s : imx477) : Prop :=
  In (mode s) (get_mode_table (fmt_code s)).

(** One rectangle lies inside another. *)
Definition rect_inside (a b : v4l2_rect) : Prop :=
  rect_left b <= rect_left a /\
  rect_top b <= rect_top a /\
  rect_left a + rect_width a <= rect_left b + rect_width b /\
  rect_top a + rect_height a <= rect_top b + rect_height b.

(** A frame-size query for code [c] at position [i] of pad [p]. *)
Definition frame_size_query (p i c : Z) : v4l2_subdev_frame_size_enum :=
  {| fse_index := i; fse_pad := p; fse_code := c;
     min_width := 0; max_width := 0; min_height := 0; max_height := 0 |}.

(** The table of format group [g]: 0 is the 12-bit group, 1 the 10-bit. *)
Definition group_table (g : Z) : list imx477_mode :=
  if g =? 0 then supported_modes_12bit else supported_modes_10bit.

(** The controls outside [L] are as they were. *)
Definition kept (L : list ctrl_id) (s s' : imx477) : Prop :=
  forall id, ~ In id L -> ctrls s' id = ctrls s id.

(** The limits [imx477_set_framing_limits] derives from a mode. *)
Definition vblank_min (m : imx477_mode) : Z :=
  u32 (imx477_get_frame_length m (timeperframe_min m) - height m).

Definition vblank_def (m : imx477_mode) : Z :=
  u32 (imx477_get_frame_length m (timeperframe_default m) - height m).

Definition vblank_max (m : imx477_mode) : Z :=
  u32 (Z.shiftl 1 IMX477_LONG_EXP_SHIFT_MAX * IMX477_FRAME_LENGTH_MAX - height m).

Definition hblank_min (m : imx477_mode) : Z :=
  u32 (line_length_pix m - width m).

(** The current mode and the stored format code are as they were. *)
Definition same_format (s s' : imx477) : Prop :=
  mode s' = mode s /\ fmt_code s' = fmt_code s.

(** An image-pad query; the format it carries on entry is overwritten. *)
Definition image_query (wh : v4l2_subdev_format_whence)
    (f : v4l2_mbus_framefmt) : v4l2_subdev_format :=
  {| which := wh; pad := IMAGE_PAD; format := f |}.

(** A selection query; the rectangle it carries on entry is overwritten. *)
Definition selection_query (wh : v4l2_subdev_format_whence) (p : Z)
    (tgt : v4l2_sel_tgt) : v4l2_subdev_selection :=
  {| sel_which := wh; sel_pad := p; target := tgt;
     r := {| rect_left := 0; rect_top := 0; rect_width := 0; rect_height := 0 |} |}.

(** The 16-bit register behind each control whose value goes to the sensor
    as it is. *)
Definition ctrl_register (id : ctrl_id) : option Z :=
  match id with
  | V4L2_CID_ANALOGUE_GAIN => Some IMX477_REG_ANALOG_GAIN
  | V4L2_CID_DIGITAL_GAIN => Some IMX477_REG_DIGITAL_GAIN
  | V4L2_CID_TEST_PATTERN_RED => Some IMX477_REG_TEST_PATTERN_R
  | V4L2_CID_TEST_PATTERN_GREENR => Some IMX477_REG_TEST_PATTERN_GR
  | V4L2_CID_TEST_PATTERN_BLUE => Some IMX477_REG_TEST_PATTERN_B
  | V4L2_CID_TEST_PATTERN_GREENB => Some IMX477_REG_TEST_PATTERN_GB
  | _ => None
  end.

(** The device is not powered for streaming. *)
Definition powered_down (s : imx477) : Prop :=
  rpm_active (pm s) = false \/ usage_count (pm s) <= 0.

(** The two transfers of [imx477_stop_streaming]: mode select to standby,
    XVS output off. *)
Definition stop_msgs : list (list Z) :=
  [ reg_buf IMX477_REG_MODE_SELECT IMX477_REG_VALUE_08BIT IMX477_MODE_STANDBY;
    reg_buf IMX477_REG_EXTOUT_EN IMX477_REG_VALUE_08BIT 0 ].

(** Supplies, clock and reset line are all off. *)
Definition rails_off (s : imx477) : Prop :=
  supplies_on (rails s) = false /\
  xclk_on (rails s) = false /\
  reset_gpio (rails s) = false.

(** The end of the start sequence, after the control replay: the
    trigger-mode writes and the mode-select write. *)
Definition start_go : M retcode :=
  s <- gets (fun s => s) ;;
  let tm := if trigger_mode_of s >=? 0 then trigger_mode_of s
            else trigger_mode s in
  _ <- imx477_write_reg IMX477_REG_MC_MODE IMX477_REG_VALUE_08BIT
         (if tm >? 0 then 1 else 0) ;;
  _ <- imx477_write_reg IMX477_REG_MS_SEL IMX477_REG_VALUE_08BIT
         (if tm <=? 1 then 1 else 0) ;;
  _ <- imx477_write_reg IMX477_REG_XVS_IO_CTRL IMX477_REG_VALUE_08BIT
         (if tm =? 1 then 1 else 0) ;;
  _ <- imx477_write_reg IMX477_REG_EXTOUT_EN IMX477_REG_VALUE_08BIT
         (if tm =? 1 then 1 else 0) ;;
  imx477_write_reg IMX477_REG_MODE_SELECT IMX477_REG_VALUE_08BIT
                   IMX477_MODE_STREAMING.

(** The two defect-pixel-correction transfers of the start sequence. *)
Definition dpc_msgs (s : imx477) : list (list Z) :=
  let dpc := bool_to_int (negb (dpc_enable s =? 0)) in
  [ reg_buf IMX477_REG_DPC_0B05 IMX477_REG_VALUE_08BIT dpc;
    reg_buf IMX477_REG_DPC_0B06 IMX477_REG_VALUE_08BIT dpc ].




(** The transfers logged after the first [n]. *)
Definition transfers_after (n : nat) (s : imx477) : list (list Z) :=
  skipn n (i2c_log (client s)).

(** The registers whose write the start sequence does not check: those of
    [unchecked_regs], and the exposure register, which the vertical-blank
    callback writes through [imx477_adjust_exposure_range] without looking
    at the result when it has to move the exposure into its new range. *)
Definition best_effort_regs : list Z := IMX477_REG_EXPOSURE :: unchecked_regs.

(** Every transfer logged between [s] and [s'] that the bus refused was
    addressed to a register of [regs]. *)
Definition refused_within (regs : list Z) (s s' : imx477) : Prop :=
  forall j buf,
    (length (i2c_log (client s)) <= j)%nat ->
    nth_error (i2c_log (client s')) j = Some buf ->
    i2c_fail (client s) j buf = true ->
    In (buf_addr buf) regs.

(** The transfers logged between [s] and [s'] end with one the bus
    refused, and every refused one before it was addressed to a register of
    [regs]: the sequence went on over refused writes to [regs] and stopped
    at the first other refused write, sending nothing after it. *)
Definition stopped_at_refusal (regs : list Z) (s s' : imx477) : Prop :=
  exists n buf,
    (length (i2c_log (client s)) <= n)%nat /\
    length (i2c_log (client s')) = S n /\
    nth_error (i2c_log (client s')) n = Some buf /\
    i2c_fail (client s) n buf = true /\
    forall j b,
      (length (i2c_log (client s)) <= j < n)%nat ->
      nth_error (i2c_log (client s')) j = Some b ->
      i2c_fail (client s) j b = true ->
      In (buf_addr b) regs.

(** [lenient m]: [m] stays inside the frame and whatever it returns, every
    transfer it saw refused was a best-effort one. *)
Definition lenient {A} (m : M A) : Prop :=
  forall s,
    frame s (snd (m s)) /\
    refused_within best_effort_regs s (snd (m s)).

(** [strict P m]: [m] stays inside the frame; when it returns 0 every
    transfer it saw refused was a best-effort one; when it returns [-EIO]
    it stopped at a refused transfer; and from a state of [P] it returns no
    other error. *)
Definition strict (P : imx477 -> Prop) (m : M retcode) : Prop :=
  forall s,
    frame s (snd (m s)) /\
    (fst (m s) = OK -> refused_within best_effort_regs s (snd (m s))) /\
    (fst (m s) = ERR EIO ->
     stopped_at_refusal best_effort_regs s (snd (m s))) /\
    (P s -> forall e, fst (m s) = ERR e -> e = EIO).

(** The two controls probe marks read-only are so marked. *)
Definition read_only_marked (s : imx477) : Prop :=
  read_only (ctrls s V4L2_CID_PIXEL_RATE) = true /\
  read_only (ctrls s V4L2_CID_LINK_FREQ) = true.

(* ================================================================== *)
(** * Properties *)

(* ------------------------------------------------------------------ *)
(** ** The bus log *)

Lemma bus_push_log s l :
  i2c_log (client (bus_push s l)) = i2c_log (client s) ++ l.
Proof. reflexivity. Qed.

Lemma bus_push_fail s l :
  i2c_fail (client (bus_push s l)) = i2c_fail (client s).
Proof. reflexivity. Qed.

Lemma bus_push_push s l1 l2 :
  bus_push (bus_push s l1) l2 = bus_push s (l1 ++ l2).
Proof.
  unfold bus_push, set_client; simpl. now rewrite app_assoc.
Qed.

Lemma bus_push_nil s : bus_push s [] = s.
Proof.
  destruct s as [? ? ? ? ? ? ? ? [lg fl] ? ? ? ?].
  unfold bus_push, set_client; simpl. now rewrite app_nil_r.
Qed.

(** One register write is one transfer: it is logged, and the result is
    the bus verdict on it. *)
Lemma imx477_write_reg_eq reg len v s :
  len <= 4 ->
  imx477_write_reg reg len v s =
    (if i2c_fail (client s) (length (i2c_log (client s))) (reg_buf reg len v)
     then ERR EIO else OK,
     bus_push s [reg_buf reg len v]).
Proof.
  intros Hlen. unfold imx477_write_reg.
  destruct (len >? 4) eqn:E; [apply Z.gtb_lt in E; lia|].
  unfold bind, i2c_master_send, ret.
  destruct (i2c_fail (client s) _ _); reflexivity.
Qed.

(** Wire format of a one-byte and of a two-byte write. *)
Lemma land_255 x : Z.land x 0xff = x mod 256.
Proof. change 0xff with (Z.ones 8). now rewrite Z.land_ones by lia. Qed.

Lemma reg_buf_1 reg v :
  0 <= reg < 2 ^ 16 -> 0 <= v < 2 ^ 8 ->
  reg_buf reg 1 v = [reg / 256; reg mod 256; v].
Proof.
  intros Hr Hv. unfold reg_buf, put_unaligned_be16, put_unaligned_be32, u16, u32.
  change (Z.to_nat (1 + 2)) with 3%nat. cbn [app firstn].
  rewrite !land_255, !Z.shiftr_div_pow2, Z.shiftl_mul_pow2 by lia.
  change (8 * (4 - 1)) with 24.
  change (2 ^ 8) with 256 in *. change (2 ^ 16) with 65536 in *.
  change (2 ^ 24) with 16777216. change (2 ^ 32) with 4294967296.
  repeat match goal with |- (_ :: _) = (_ :: _) => apply f_equal2 end;
    try reflexivity; Z.div_mod_to_equations; lia.
Qed.

Lemma reg_buf_2 reg v :
  0 <= reg < 2 ^ 16 -> 0 <= v < 2 ^ 16 ->
  reg_buf reg 2 v = [reg / 256; reg mod 256; v / 256; v mod 256].
Proof.
  intros Hr Hv. unfold reg_buf, put_unaligned_be16, put_unaligned_be32, u16, u32.
  change (Z.to_nat (2 + 2)) with 4%nat. cbn [app firstn].
  rewrite !land_255, !Z.shiftr_div_pow2, Z.shiftl_mul_pow2 by lia.
  change (8 * (4 - 2)) with 16.
  change (2 ^ 8) with 256 in *. change (2 ^ 16) with 65536 in *.
  change (2 ^ 24) with 16777216. change (2 ^ 32) with 4294967296.
  repeat match goal with |- (_ :: _) = (_ :: _) => apply f_equal2 end;
    try reflexivity; Z.div_mod_to_equations; lia.
Qed.

(* ------------------------------------------------------------------ *)
(** ** Register lists *)

Lemma first_fail_bound f msgs : forall n0 k,
  first_fail f n0 msgs = Some k -> (k < length msgs)%nat.
Proof.
  induction msgs as [|m rest IH]; intros n0 k; simpl; [discriminate|].
  destruct (f n0 m); [intros [= <-]; lia|].
  destruct (first_fail f (S n0) rest) as [j|] eqn:E; simpl; [|discriminate].
  intros [= <-]. apply IH in E. lia.
Qed.

Lemma first_fail_Some f msgs : forall n0 k,
  first_fail f n0 msgs = Some k ->
  f (n0 + k)%nat (nth k msgs []) = true /\
  forall j, (j < k)%nat -> f (n0 + j)%nat (nth j msgs []) = false.
Proof.
  induction msgs as [|m rest IH]; intros n0 k; simpl; [discriminate|].
  destruct (f n0 m) eqn:Ef.
  - intros [= <-]. rewrite Nat.add_0_r. split; [assumption|lia].
  - destruct (first_fail f (S n0) rest) as [j|] eqn:E; simpl; [|discriminate].
    intros [= <-]. destruct (IH _ _ E) as [H1 H2].
    rewrite <- Nat.add_succ_comm. split; [assumption|].
    intros [|i] Hi; [now rewrite Nat.add_0_r|].
    rewrite <- Nat.add_succ_comm. apply H2. lia.
Qed.

Lemma first_fail_None f msgs : forall n0,
  first_fail f n0 msgs = None ->
  forall j, (j < length msgs)%nat -> f (n0 + j)%nat (nth j msgs []) = false.
Proof.
  induction msgs as [|m rest IH]; intros n0; simpl; [intros _ j Hj; lia|].
  destruct (f n0 m) eqn:Ef; [discriminate|].
  destruct (first_fail f (S n0) rest) as [j|] eqn:E; simpl; [discriminate|].
  intros _ [|i] Hi; [now rewrite Nat.add_0_r|].
  rewrite <- Nat.add_succ_comm. apply IH; [assumption|lia].
Qed.

Lemma first_fail_app f l1 l2 n0 :
  first_fail f n0 (l1 ++ l2) =
    match first_fail f n0 l1 with
    | Some k => Some k
    | None => option_map (Nat.add (length l1)) (first_fail f (n0 + length l1) l2)
    end.
Proof.
  revert n0. induction l1 as [|m rest IH]; intros n0; simpl.
  - rewrite Nat.add_0_r. now destruct (first_fail f n0 l2).
  - destruct (f n0 m); [reflexivity|].
    rewrite IH. destruct (first_fail f (S n0) rest); cbn [option_map length];
      [reflexivity|].
    rewrite <- Nat.add_succ_comm.
    now destruct (first_fail f (S n0 + length rest) l2).
Qed.

(** The sequencer, in one equation: the entries go out in list order; at
    the first refused transfer the function stops with [-EIO], later
    entries untouched; with none refused it returns 0 after the last. *)
Lemma imx477_write_regs_eq regs : forall s,
  imx477_write_regs regs s =
    match first_fail (i2c_fail (client s)) (length (i2c_log (client s)))
                     (map reg_msg regs) with
    | None => (OK, bus_push s (map reg_msg regs))
    | Some k => (ERR EIO, bus_push s (firstn (S k) (map reg_msg regs)))
    end.
Proof.
  induction regs as [|r rest IH]; intros s.
  - simpl. unfold ret. now rewrite bus_push_nil.
  - cbn [imx477_write_regs map first_fail]. unfold bind at 1.
    rewrite imx477_write_reg_eq by lia. fold (reg_msg r).
    destruct (i2c_fail (client s) _ (reg_msg r)) eqn:Ef.
    + reflexivity.
    + rewrite IH, bus_push_log, bus_push_fail, length_app, Nat.add_1_r.
      cbn [length].
      destruct (first_fail _ _ (map reg_msg rest)) as [k|]; cbn [option_map];
        now rewrite bus_push_push.
Qed.

(** C7 (as stated) does not hold: the return value carries the error code
    only.  Two runs over the same two-entry list, one refused at offset 0
    and one at offset 1, hand the caller the same value, so no function of
    the return value recovers the failing offset. *)
Lemma imx477_write_regs_offset_not_returned :
  ~ exists offset_of : retcode -> nat,
      forall regs s k,
        first_fail (i2c_fail (client s)) (length (i2c_log (client s)))
                   (map reg_msg regs) = Some k ->
        offset_of (fst (imx477_write_regs regs s)) = k.
Proof.
  intros [offset_of H].
  pose (regs := [REG 0x0136 0x18; REG 0x0137 0x00]).
  assert (H0 := H regs (probed_linux (bus_fails_at 0)) 0%nat eq_refl).
  assert (H1 := H regs (probed_linux (bus_fails_at 1)) 1%nat eq_refl).
  vm_compute in H0, H1. congruence.
Qed.

(** C7 (amended): [imx477_write_regs] sends the entries strictly in list
    order, one transfer each; at the first refused transfer (offset [k]) it
    stops, having sent entries 0..k once each and nothing after, and returns
    the error code [-EIO] (not the offset); if no transfer is refused it
    returns 0 after sending every entry. *)
Theorem imx477_write_regs_in_order_until_first_failure :
  forall (regs : list imx477_reg) (s : imx477),
    let msgs := map reg_msg regs in
    let n0 := length (i2c_log (client s)) in
    match first_fail (i2c_fail (client s)) n0 msgs with
    | None =>
        imx477_write_regs regs s = (OK, bus_push s msgs) /\
        forall j, (j < length regs)%nat ->
                  i2c_fail (client s) (n0 + j)%nat (nth j msgs []) = false
    | Some k =>
        imx477_write_regs regs s = (ERR EIO, bus_push s (firstn (S k) msgs)) /\
        (k < length regs)%nat /\
        i2c_fail (client s) (n0 + k)%nat (nth k msgs []) = true /\
        forall j, (j < k)%nat ->
                  i2c_fail (client s) (n0 + j)%nat (nth j msgs []) = false
    end.
Proof.
  intros regs s msgs n0.
  pose proof (imx477_write_regs_eq regs s) as E. fold msgs n0 in E.
  destruct (first_fail (i2c_fail (client s)) n0 msgs) as [k|] eqn:F.
  - split; [exact E|].
    pose proof (first_fail_bound _ _ _ _ F) as B.
    unfold msgs in B. rewrite length_map in B.
    split; [exact B|]. now apply first_fail_Some.
  - split; [exact E|]. intros j Hj.
    apply first_fail_None; [assumption|]. unfold msgs. now rewrite length_map.
Qed.

(* ------------------------------------------------------------------ *)
(** ** Frame length and long-exposure shift *)

Lemma shift_count_spec n : forall v,
  0 <= v < 2 ^ Z.of_nat n ->
  let k := shift_count n v in
  0 <= k <= Z.of_nat n /\
  Z.shiftr v k <= IMX477_FRAME_LENGTH_MAX /\
  forall t, 0 <= t < k -> IMX477_FRAME_LENGTH_MAX < Z.shiftr v t.
Proof.
  induction n as [|n IH]; intros v Hv.
  - cbn [shift_count]. change (2 ^ Z.of_nat 0) with 1 in Hv.
    assert (v = 0) by lia. subst v. cbn. unfold IMX477_FRAME_LENGTH_MAX.
    repeat split; try lia.
  - cbn [shift_count]. destruct (v >? IMX477_FRAME_LENGTH_MAX) eqn:E.
    + apply Z.gtb_lt in E.
      assert (Hh : 0 <= Z.shiftr v 1 < 2 ^ Z.of_nat n).
      { rewrite Z.shiftr_div_pow2 by lia. change (2 ^ 1) with 2.
        rewrite Nat2Z.inj_succ, Z.pow_succ_r in Hv by lia.
        split; [apply Z.div_pos; lia|].
        apply Z.div_lt_upper_bound; lia. }
      destruct (IH _ Hh) as (K1 & K2 & K3).
      set (k := shift_count n (Z.shiftr v 1)) in *.
      cbv zeta. rewrite Nat2Z.inj_succ.
      split; [lia|]. split.
      * rewrite <- Z.shiftr_shiftr by lia. exact K2.
      * intros t Ht. destruct (Z.eq_dec t 0) as [->|Hn].
        -- now rewrite Z.shiftr_0_r.
        -- replace t with (1 + (t - 1)) by lia.
           rewrite <- Z.shiftr_shiftr by lia. apply K3. lia.
    + rewrite Z.gtb_ltb in E. apply Z.ltb_ge in E.
      cbv zeta. rewrite Z.shiftr_0_r. repeat split; try lia.
Qed.

Lemma shift_count_nonneg n : forall v, 0 <= shift_count n v.
Proof.
  induction n as [|n IH]; intros v; cbn [shift_count]; [lia|].
  destruct (v >? IMX477_FRAME_LENGTH_MAX); [|lia]. specialize (IH (Z.shiftr v 1)). lia.
Qed.

Lemma set_long_exp_shift_same s :
  set_long_exp_shift s (long_exp_shift s) = s.
Proof. now destruct s. Qed.

Lemma set_long_exp_shift_twice s a b :
  set_long_exp_shift (set_long_exp_shift s a) b = set_long_exp_shift s b.
Proof. reflexivity. Qed.

Lemma set_frame_length_loop_eq n : forall v s,
  0 <= long_exp_shift s ->
  long_exp_shift s + Z.of_nat n < 2 ^ 32 ->
  set_frame_length_loop n v s =
    (Z.shiftr v (shift_count n v),
     set_long_exp_shift s (long_exp_shift s + shift_count n v)).
Proof.
  induction n as [|n IH]; intros v s H0 H1.
  - cbn. unfold ret. now rewrite Z.add_0_r, set_long_exp_shift_same.
  - cbn [set_frame_length_loop shift_count].
    destruct (v >? IMX477_FRAME_LENGTH_MAX).
    + unfold bind, modify.
      assert (Hu : u32 (long_exp_shift s + 1) = long_exp_shift s + 1).
      { unfold u32. apply Z.mod_small. lia. }
      rewrite Hu, IH; cbn [long_exp_shift set_long_exp_shift]; try lia.
      rewrite set_long_exp_shift_twice, Z.shiftr_shiftr
        by apply shift_count_nonneg.
      now rewrite Z.add_assoc.
    + unfold ret. now rewrite Z.shiftr_0_r, Z.add_0_r, set_long_exp_shift_same.
Qed.

(** The whole of [imx477_set_frame_length] for a 32-bit argument. *)
Lemma imx477_set_frame_length_eq L s :
  0 <= L < 2 ^ 32 ->
  let sh := shift_count 32 L in
  let frame := reg_buf IMX477_REG_FRAME_LENGTH 2 (Z.shiftr L sh) in
  let shift := reg_buf IMX477_LONG_EXP_SHIFT_REG 1 sh in
  let n0 := length (i2c_log (client s)) in
  imx477_set_frame_length L s =
    if i2c_fail (client s) n0 frame
    then (ERR EIO, bus_push (set_long_exp_shift s sh) [frame])
    else (if i2c_fail (client s) (S n0) shift then ERR EIO else OK,
          bus_push (set_long_exp_shift s sh) [frame; shift]).
Proof.
  intros HL sh frame shift n0.
  unfold imx477_set_frame_length. unfold bind at 1. unfold modify at 1.
  unfold bind at 1.
  assert (Hu : u32 L = L) by (unfold u32; apply Z.mod_small; lia).
  rewrite Hu, set_frame_length_loop_eq; cbn [long_exp_shift set_long_exp_shift];
    try lia.
  rewrite set_long_exp_shift_twice. cbn [Z.add]. fold sh.
  unfold bind at 1.
  rewrite imx477_write_reg_eq by (unfold IMX477_REG_VALUE_16BIT; lia).
  unfold IMX477_REG_VALUE_16BIT. fold frame.
  change (i2c_log (client (set_long_exp_shift s sh))) with (i2c_log (client s)).
  change (i2c_fail (client (set_long_exp_shift s sh))) with (i2c_fail (client s)).
  fold n0. destruct (i2c_fail (client s) n0 frame); [reflexivity|].
  unfold bind, gets.
  rewrite imx477_write_reg_eq by (unfold IMX477_REG_VALUE_08BIT; lia).
  rewrite bus_push_push, bus_push_log, bus_push_fail, length_app, Nat.add_1_r.
  reflexivity.
Qed.

(** C1: for a frame length [L <= 128 * 0xffdc], [imx477_set_frame_length] sends
    [L >> s] to the 16-bit frame-length register (0x0340) and, once that
    transfer is accepted, [s] to the long-exposure-shift register (0x3100),
    where [s] is the least shift with [L >> s <= 0xffdc]; [s = 0] and the
    value is [L] itself when [L <= 0xffdc], and [1 <= s <= 7] otherwise. *)
Theorem imx477_set_frame_length_least_shift :
  forall (L : Z) (s : imx477),
    0 <= L <= 128 * IMX477_FRAME_LENGTH_MAX ->
    exists sh : Z,
      0 <= sh /\
      Z.shiftr L sh <= IMX477_FRAME_LENGTH_MAX /\
      (forall t, 0 <= t < sh -> IMX477_FRAME_LENGTH_MAX < Z.shiftr L t) /\
      (L <= IMX477_FRAME_LENGTH_MAX -> sh = 0 /\ Z.shiftr L sh = L) /\
      (IMX477_FRAME_LENGTH_MAX < L -> 1 <= sh <= 7) /\
      let frame := [0x03; 0x40; Z.shiftr L sh / 256; Z.shiftr L sh mod 256] in
      let shift := [0x31; 0x00; sh] in
      let n0 := length (i2c_log (client s)) in
      imx477_set_frame_length L s =
        if i2c_fail (client s) n0 frame
        then (ERR EIO, bus_push (set_long_exp_shift s sh) [frame])
        else (if i2c_fail (client s) (S n0) shift then ERR EIO else OK,
              bus_push (set_long_exp_shift s sh) [frame; shift]).
Proof.
  intros L s HL. unfold IMX477_FRAME_LENGTH_MAX in HL.
  assert (HL32 : 0 <= L < 2 ^ 32) by (change (2 ^ 32) with 4294967296; lia).
  destruct (shift_count_spec 32 L HL32) as (K1 & K2 & K3).
  set (sh := shift_count 32 L) in *. exists sh.
  assert (H7 : sh <= 7).
  { destruct (Z_le_gt_dec sh 7) as [|Hgt]; [assumption|exfalso].
    specialize (K3 7 ltac:(lia)). rewrite Z.shiftr_div_pow2 in K3 by lia.
    unfold IMX477_FRAME_LENGTH_MAX in K3. change (2 ^ 7) with 128 in K3.
    assert (L / 128 <= 0xffdc) by (apply Z.div_le_upper_bound; lia). lia. }
  assert (Hpos : 0 <= Z.shiftr L sh) by (apply Z.shiftr_nonneg; lia).
  split; [lia|]. split; [exact K2|]. split; [exact K3|].
  split; [|split].
  - intros Hle. assert (sh = 0).
    { destruct (Z.eq_dec sh 0) as [|Hn]; [assumption|exfalso].
      specialize (K3 0 ltac:(lia)). rewrite Z.shiftr_0_r in K3. lia. }
    subst sh. split; [assumption|]. replace (shift_count 32 L) with 0.
    apply Z.shiftr_0_r.
  - intros Hgt. split; [|exact H7].
    destruct (Z.eq_dec sh 0) as [E|]; [|lia].
    rewrite E, Z.shiftr_0_r in K2. lia.
  - pose proof (imx477_set_frame_length_eq L s HL32) as E. cbv zeta in E.
    fold sh in E. unfold IMX477_FRAME_LENGTH_MAX in K2.
    rewrite reg_buf_2 in E
      by (unfold IMX477_REG_FRAME_LENGTH; change (2 ^ 16) with 65536; lia).
    rewrite reg_buf_1 in E
      by (unfold IMX477_LONG_EXP_SHIFT_REG; change (2 ^ 16) with 65536;
          change (2 ^ 8) with 256; lia).
    exact E.
Qed.

Lemma imx477_set_frame_length_least_shift_witness :
  exists sh : Z,
    0 <= sh /\
    Z.shiftr 200000 sh <= IMX477_FRAME_LENGTH_MAX /\
    (forall t, 0 <= t < sh -> IMX477_FRAME_LENGTH_MAX < Z.shiftr 200000 t) /\
    (200000 <= IMX477_FRAME_LENGTH_MAX -> sh = 0 /\ Z.shiftr 200000 sh = 200000) /\
    (IMX477_FRAME_LENGTH_MAX < 200000 -> 1 <= sh <= 7) /\
    let frame := [0x03; 0x40; Z.shiftr 200000 sh / 256; Z.shiftr 200000 sh mod 256] in
    let shift := [0x31; 0x00; sh] in
    let n0 := length (i2c_log (client (probed_linux bus_ok))) in
    imx477_set_frame_length 200000 (probed_linux bus_ok) =
      if i2c_fail (client (probed_linux bus_ok)) n0 frame
      then (ERR EIO, bus_push (set_long_exp_shift (probed_linux bus_ok) sh) [frame])
      else (if i2c_fail (client (probed_linux bus_ok)) (S n0) shift
            then ERR EIO else OK,
            bus_push (set_long_exp_shift (probed_linux bus_ok) sh) [frame; shift]).
Proof.
  apply (imx477_set_frame_length_least_shift 200000 (probed_linux bus_ok)).
  unfold IMX477_FRAME_LENGTH_MAX. lia.
Defined.

(* ------------------------------------------------------------------ *)
(** ** Bayer order and flips *)

Lemma find_code_bounds code l : forall i0,
  i0 <= find_code code l i0 <= i0 + Z.of_nat (length l).
Proof.
  induction l as [|c l IH]; intros i0; cbn [find_code length]; [lia|].
  destruct (c =? code); [lia|]. specialize (IH (i0 + 1)). lia.
Qed.

Lemma find_code_absent code l : forall i0,
  ~ In code l -> find_code code l i0 = i0 + Z.of_nat (length l).
Proof.
  induction l as [|c l IH]; intros i0 Hn; cbn [find_code length]; [lia|].
  destruct (Z.eqb_spec c code) as [->|_]; [exfalso; apply Hn; now left|].
  rewrite IH by (intros Hin; apply Hn; now right). lia.
Qed.

Lemma find_code_nth d l : forall i i0,
  NoDup l -> (i < length l)%nat ->
  find_code (nth i l d) l i0 = i0 + Z.of_nat i.
Proof.
  induction l as [|c l IH]; intros i i0 Hd Hi; cbn [length] in Hi; [lia|].
  inversion Hd as [|? ? Hc Hd']; subst.
  destruct i as [|i]; cbn [nth find_code].
  - rewrite Z.eqb_refl. lia.
  - destruct (Z.eqb_spec c (nth i l d)) as [E|_].
    + exfalso. apply Hc. rewrite E. apply nth_In. lia.
    + rewrite IH by (assumption || lia). lia.
Qed.

Lemma find_code_present code l : forall i0,
  In code l -> find_code code l i0 < i0 + Z.of_nat (length l).
Proof.
  induction l as [|c l IH]; intros i0 Hin; cbn [find_code length]; [destruct Hin|].
  destruct (Z.eqb_spec c code) as [_|Hne]; [lia|].
  destruct Hin as [E|Hin]; [contradiction|]. specialize (IH (i0 + 1) Hin). lia.
Qed.

(** The index computation [(i & ~3) | (vflip ? 2 : 0) | (hflip ? 1 : 0)]
    on the eight table positions. *)
Lemma flip_adjust_index i (h v : bool) :
  0 <= i < 8 ->
  Z.lor (Z.lor (Z.land i (u32 (Z.lnot 3))) (if v then 2 else 0))
        (if h then 1 else 0)
  = 4 * (i / 4) + flip_index h v.
Proof.
  intros Hi.
  assert (i = 0 \/ i = 1 \/ i = 2 \/ i = 3 \/ i = 4 \/ i = 5 \/ i = 6 \/ i = 7)
    as Hc by lia.
  repeat (destruct Hc as [-> | Hc]); try subst i; destruct h, v; reflexivity.
Qed.

Lemma flip_index_range h v : 0 <= flip_index h v < 4.
Proof. destruct h, v; cbv; intuition discriminate. Qed.

Lemma flip_index_inj h1 v1 h2 v2 :
  flip_index h1 v1 = flip_index h2 v2 -> h1 = h2 /\ v1 = v2.
Proof. destruct h1, v1, h2, v2; cbv; intuition discriminate. Qed.

Section Bayer.
Context `{F : media_bus_format}.

Lemma codes_length : length codes = 8%nat.
Proof. reflexivity. Qed.

Lemma codes_NoDup : NoDup codes.
Proof. exact bayer_codes_distinct. Qed.

Lemma codes_nth_inj (i j : Z) :
  0 <= i < 8 -> 0 <= j < 8 ->
  nth (Z.to_nat i) codes 0 = nth (Z.to_nat j) codes 0 -> i = j.
Proof.
  intros Hi Hj E.
  apply (proj1 (NoDup_nth codes 0) codes_NoDup) in E;
    rewrite ?codes_length; lia.
Qed.

(** What the resolver computes: the table position of the input (0 for a
    code outside the table), moved to the flip variant of its group. *)
Lemma imx477_get_format_code_eq (s : imx477) (c : Z) :
  let i := find_code c codes 0 in
  let i := if i >=? 8 then 0 else i in
  imx477_get_format_code s c =
    nth (Z.to_nat (4 * (i / 4) + flip_index (hflip_on s) (vflip_on s))) codes 0.
Proof.
  cbv zeta. unfold imx477_get_format_code. rewrite codes_length.
  change (Z.of_nat 8) with 8.
  pose proof (find_code_bounds c codes 0) as B. rewrite codes_length in B.
  set (i := find_code c codes 0) in *.
  assert (Hi : 0 <= (if i >=? 8 then 0 else i) < 8).
  { destruct (i >=? 8) eqn:E; [lia|]. rewrite Z.geb_leb in E.
    apply Z.leb_gt in E. lia. }
  set (i' := if i >=? 8 then 0 else i) in *.
  rewrite <- (flip_adjust_index i' (hflip_on s) (vflip_on s) Hi).
  unfold hflip_on, vflip_on.
  destruct (val (vflip s) =? 0), (val (hflip s) =? 0); reflexivity.
Qed.

Lemma imx477_get_format_code_in_table (s : imx477) (c : Z) :
  In (imx477_get_format_code s c) codes.
Proof.
  rewrite imx477_get_format_code_eq.
  pose proof (find_code_bounds c codes 0) as B. rewrite codes_length in B.
  set (i := find_code c codes 0) in *.
  pose proof (flip_index_range (hflip_on s) (vflip_on s)) as R.
  apply nth_In. rewrite codes_length.
  destruct (i >=? 8) eqn:E.
  - change (0 / 4) with 0. lia.
  - rewrite Z.geb_leb in E. apply Z.leb_gt in E.
    assert (0 <= i / 4 <= 1) by (Z.div_mod_to_equations; lia).
    lia.
Qed.

Lemma imx477_get_format_code_variant (s : imx477) (g k : Z) :
  g = 0 \/ g = 1 -> 0 <= k < 4 ->
  imx477_get_format_code s (nth (Z.to_nat (4 * g + k)) codes 0) =
    nth (Z.to_nat (4 * g + flip_index (hflip_on s) (vflip_on s))) codes 0.
Proof.
  intros Hg Hk. rewrite imx477_get_format_code_eq.
  rewrite (find_code_nth 0 codes (Z.to_nat (4 * g + k)) 0 codes_NoDup)
    by (rewrite codes_length; lia).
  rewrite Z2Nat.id by lia. cbn [Z.add].
  assert (E : (4 * g + k >=? 8) = false)
    by (rewrite Z.geb_leb; apply Z.leb_gt; lia).
  rewrite E. replace ((4 * g + k) / 4) with g; [reflexivity|].
  Z.div_mod_to_equations; lia.
Qed.

Lemma imx477_get_format_code_fallback (s : imx477) (c : Z) :
  ~ In c codes ->
  imx477_get_format_code s c =
    nth (Z.to_nat (flip_index (hflip_on s) (vflip_on s))) codes 0.
Proof.
  intros Hn. rewrite imx477_get_format_code_eq.
  rewrite find_code_absent by assumption. rewrite codes_length.
  reflexivity.
Qed.

(** C4: within each group of four table entries the resolver selects index
    [(hflip ? 1 : 0) | (vflip ? 2 : 0)]; the four flip states reach the four
    entries of the group one-to-one, the four entries are distinct, and the
    result is a function of the flip state and the group alone. *)
Theorem imx477_get_format_code_flip_bijection :
  forall g : Z, g = 0 \/ g = 1 ->
    let variant := fun j => nth (Z.to_nat (4 * g + j)) codes 0 in
    (forall s k, 0 <= k < 4 ->
       imx477_get_format_code s (variant k) =
         variant (flip_index (hflip_on s) (vflip_on s))) /\
    (forall s1 s2 k1 k2, 0 <= k1 < 4 -> 0 <= k2 < 4 ->
       imx477_get_format_code s1 (variant k1) =
       imx477_get_format_code s2 (variant k2) ->
       hflip_on s1 = hflip_on s2 /\ vflip_on s1 = vflip_on s2) /\
    (forall j, 0 <= j < 4 -> exists h v, flip_index h v = j) /\
    NoDup [variant 0; variant 1; variant 2; variant 3].
Proof.
  intros g Hg variant. split; [|split; [|split]].
  - intros s k Hk. apply imx477_get_format_code_variant; assumption.
  - intros s1 s2 k1 k2 H1 H2 E. unfold variant in E.
    rewrite !imx477_get_format_code_variant in E by assumption.
    pose proof (flip_index_range (hflip_on s1) (vflip_on s1)).
    pose proof (flip_index_range (hflip_on s2) (vflip_on s2)).
    apply codes_nth_inj in E; try lia.
    apply flip_index_inj. lia.
  - intros j Hj.
    assert (j = 0 \/ j = 1 \/ j = 2 \/ j = 3) as Hc by lia.
    destruct Hc as [-> | [-> | [-> | ->]]].
    + now exists false, false.
    + now exists true, false.
    + now exists false, true.
    + now exists true, true.
  - assert (Hne : forall a b, 0 <= a < 4 -> 0 <= b < 4 -> a <> b ->
                          variant a <> variant b).
    { intros a b Ha Hb Hab E. apply codes_nth_inj in E; lia. }
    repeat constructor; cbn [In]; intros Hin;
      repeat (destruct Hin as [Hin | Hin];
              [revert Hin; apply Hne; lia|]); exact Hin.
Qed.
End Bayer.

Lemma imx477_get_format_code_flip_bijection_witness :
  @imx477_get_format_code linux_media_bus_format (probed_linux bus_ok) 0x300e
  = 0x300f.
Proof.
  apply (proj1 (@imx477_get_format_code_flip_bijection linux_media_bus_format 1
                  (or_intror eq_refl))
               (probed_linux bus_ok) 2).
  lia.
Defined.

(* ------------------------------------------------------------------ *)
(** ** What an operation leaves alone *)

Section Preservation.
Variable R : imx477 -> imx477 -> Prop.
Hypothesis R_refl : forall s, R s s.
Hypothesis R_trans : forall a b c, R a b -> R b c -> R a c.

Lemma preserves_ret {A} (a : A) : preserves R (ret a).
Proof. intros s. apply R_refl. Qed.

Lemma preserves_gets {A} (f : imx477 -> A) : preserves R (gets f).
Proof. intros s. apply R_refl. Qed.

Lemma preserves_bind {A B} (m : M A) (k : A -> M B) :
  preserves R m -> (forall a, preserves R (k a)) -> preserves R (bind m k).
Proof.
  intros Hm Hk s. unfold bind. specialize (Hm s).
  destruct (m s) as [a s1]. cbn [snd] in Hm.
  eapply R_trans; [exact Hm|apply Hk].
Qed.

Lemma preserves_modify (f : imx477 -> imx477) :
  (forall s, R s (f s)) -> preserves R (modify f).
Proof. intros H s. apply H. Qed.
End Preservation.

Lemma frame_refl s : frame s s.
Proof.
  unfold frame. repeat (split; [reflexivity|]). exists []. now rewrite app_nil_r.
Qed.

Lemma frame_trans a b c : frame a b -> frame b c -> frame a c.
Proof.
  unfold frame.
  intros (A1 & A2 & A3 & A4 & A6 & A7 & A8 & A9 & A10 & A11 & A12 & l1 & A13)
         (B1 & B2 & B3 & B4 & B6 & B7 & B8 & B9 & B10 & B11 & B12 & l2 & B13).
  repeat (split; [congruence|]).
  try (split; [intros id; now rewrite B12|]).
  exists (l1 ++ l2). now rewrite B13, A13, app_assoc.
Qed.

Lemma same_ctrls_refl s : same_ctrls s s.
Proof. reflexivity. Qed.

Lemma same_ctrls_trans a b c : same_ctrls a b -> same_ctrls b c -> same_ctrls a c.
Proof. unfold same_ctrls; congruence. Qed.

Create HintDb frame discriminated.
Create HintDb same_ctrls discriminated.

(** Peels binds, branches and returns; [close] settles the calls. *)
Ltac preserves_step R_refl R_trans close :=
  first
    [ solve [close]
    | apply (preserves_ret _ R_refl)
    | apply (preserves_gets _ R_refl)
    | apply (preserves_bind _ R_trans); [|intro]
    | match goal with
      | |- preserves _ (if ?b then _ else _) => destruct b
      | |- preserves _ (match ?r with OK => _ | ERR _ => _ end) => destruct r
      | |- preserves _ (match ?r with Some _ => _ | None => _ end) => destruct r
      end ].

Ltac frame_steps :=
  repeat preserves_step frame_refl frame_trans ltac:(auto 1 with frame nocore).
Ltac ctrls_steps :=
  repeat preserves_step same_ctrls_refl same_ctrls_trans
         ltac:(auto 1 with same_ctrls nocore).

Lemma frame_bus_push s l : frame s (bus_push s l).
Proof.
  unfold frame. repeat (split; [reflexivity|]). now exists l.
Qed.

Lemma frame_set_long_exp_shift s x : frame s (set_long_exp_shift s x).
Proof.
  unfold frame. repeat (split; [reflexivity|]). exists []. cbn.
  now rewrite app_nil_r.
Qed.

Lemma frame_set_ctrl_of s id c :
  read_only c = read_only (ctrls s id) -> frame s (set_ctrl_of s id c).
Proof.
  intros H. unfold frame. repeat (split; [reflexivity|]). split.
  - intros j. cbn. now destruct (ctrl_id_eq_dec j id) as [->|].
  - exists []. cbn. now rewrite app_nil_r.
Qed.

Lemma frame_imx477_write_reg reg len v : preserves frame (imx477_write_reg reg len v).
Proof.
  intros s. unfold imx477_write_reg.
  destruct (len >? 4); [apply frame_refl|].
  unfold bind, i2c_master_send, ret.
  destruct (negb _); apply frame_bus_push.
Qed.
#[local] Hint Resolve frame_imx477_write_reg : frame.

Lemma same_ctrls_imx477_write_reg reg len v :
  preserves same_ctrls (imx477_write_reg reg len v).
Proof.
  intros s. unfold imx477_write_reg.
  destruct (len >? 4); [reflexivity|].
  unfold bind, i2c_master_send, ret. now destruct (negb _).
Qed.
#[local] Hint Resolve same_ctrls_imx477_write_reg : same_ctrls.

Lemma frame_imx477_write_regs regs : preserves frame (imx477_write_regs regs).
Proof.
  induction regs as [|r rest IH]; cbn [imx477_write_regs]; frame_steps.
Qed.
#[local] Hint Resolve frame_imx477_write_regs : frame.

Lemma frame_set_frame_length_loop n : forall v,
  preserves frame (set_frame_length_loop n v).
Proof.
  induction n as [|n IH]; intros v; cbn [set_frame_length_loop]; frame_steps.
  apply preserves_modify. intros s. apply frame_set_long_exp_shift.
Qed.
#[local] Hint Resolve frame_set_frame_length_loop : frame.

Lemma same_ctrls_set_frame_length_loop n : forall v,
  preserves same_ctrls (set_frame_length_loop n v).
Proof.
  induction n as [|n IH]; intros v; cbn [set_frame_length_loop]; ctrls_steps.
  apply preserves_modify. reflexivity.
Qed.
#[local] Hint Resolve same_ctrls_set_frame_length_loop : same_ctrls.

Lemma frame_imx477_set_frame_length v : preserves frame (imx477_set_frame_length v).
Proof.
  unfold imx477_set_frame_length. frame_steps.
  apply preserves_modify. intros s. apply frame_set_long_exp_shift.
Qed.
#[local] Hint Resolve frame_imx477_set_frame_length : frame.

Lemma same_ctrls_imx477_set_frame_length v :
  preserves same_ctrls (imx477_set_frame_length v).
Proof.
  unfold imx477_set_frame_length. ctrls_steps.
  apply preserves_modify. reflexivity.
Qed.
#[local] Hint Resolve same_ctrls_imx477_set_frame_length : same_ctrls.

(** A reference taken with [pm_runtime_get_if_in_use] and dropped again
    leaves runtime PM as it was: the count never reaches zero in between. *)
Lemma set_pm_same s : set_pm s (pm s) = s.
Proof. now destruct s. Qed.

Lemma pm_get_put_frame (body : imx477 -> M retcode) :
  (forall s0, preserves frame (body s0)) ->
  preserves frame
    (in_use <- pm_runtime_get_if_in_use ;;
     if in_use =? 0 then ret OK
     else (s <- gets (fun s => s) ;; r <- body s ;; pm_runtime_put ;; ret r)).
Proof.
  intros Hm s. unfold bind at 1. unfold pm_runtime_get_if_in_use.
  destruct (rpm_active (pm s) && (0 <? usage_count (pm s))) eqn:E.
  - apply andb_prop in E. destruct E as [Ea Eu]. apply Z.ltb_lt in Eu.
    cbn [Z.eqb]. unfold bind, gets.
    set (s1 := set_pm s _).
    specialize (Hm s1 s1). destruct (body s1 s1) as [r s2]. cbn [snd] in Hm.
    unfold pm_runtime_put.
    destruct Hm as (A1 & A2 & A3 & A4 & A6 & A7 & A8 & A9 & A10 & A11 & A12 & l & A13).
    rewrite A7. subst s1. cbn [pm set_pm usage_count rpm_active].
    replace (usage_count (pm s) + 1 - 1) with (usage_count (pm s)) by lia.
    destruct (usage_count (pm s) =? 0) eqn:Z0; [apply Z.eqb_eq in Z0; lia|].
    cbn [andb ret snd]. unfold frame. cbn.
    repeat (split; [assumption|]).
    split; [now destruct (pm s)|].
    repeat (split; [assumption|]). now exists l.
  - cbn [Z.eqb]. apply frame_refl.
Qed.

Lemma frame_imx477_set_ctrl_apply id : preserves frame (imx477_set_ctrl_apply id).
Proof.
  unfold imx477_set_ctrl_apply. apply pm_get_put_frame.
  intros s0. cbv zeta. destruct id; frame_steps.
Qed.
#[local] Hint Resolve frame_imx477_set_ctrl_apply : frame.

Lemma same_ctrls_pm_runtime_get_if_in_use :
  preserves same_ctrls pm_runtime_get_if_in_use.
Proof.
  intros s. unfold pm_runtime_get_if_in_use. now destruct (_ && _).
Qed.

Lemma same_ctrls_pm_runtime_put : preserves same_ctrls pm_runtime_put.
Proof.
  intros s. unfold pm_runtime_put. now destruct (_ && _).
Qed.
#[local] Hint Resolve same_ctrls_pm_runtime_get_if_in_use
  same_ctrls_pm_runtime_put : same_ctrls.

Lemma same_ctrls_imx477_set_ctrl_apply id :
  preserves same_ctrls (imx477_set_ctrl_apply id).
Proof.
  unfold imx477_set_ctrl_apply. ctrls_steps. cbv zeta. destruct id; ctrls_steps.
Qed.

Section Framework.
Variable s_ctrl : ctrl_id -> M retcode.
Hypothesis s_ctrl_frame : forall id, preserves frame (s_ctrl id).

Lemma frame_v4l2_ctrl_modify_range_with id mn mx st df :
  preserves frame (v4l2_ctrl_modify_range_with s_ctrl id mn mx st df).
Proof.
  intros s. unfold v4l2_ctrl_modify_range_with.
  destruct (_ || _); [apply frame_refl|].
  destruct (_ =? _).
  - apply frame_set_ctrl_of. reflexivity.
  - eapply frame_trans; [|apply s_ctrl_frame].
    apply frame_set_ctrl_of. reflexivity.
Qed.

Lemma frame_v4l2_ctrl_s_ctrl_with id v :
  preserves frame (v4l2_ctrl_s_ctrl_with s_ctrl id v).
Proof.
  intros s. unfold v4l2_ctrl_s_ctrl_with.
  eapply frame_trans; [|apply s_ctrl_frame].
  apply frame_set_ctrl_of. reflexivity.
Qed.

Lemma frame_v4l2_ctrl_handler_setup_with ids :
  preserves frame (v4l2_ctrl_handler_setup_with s_ctrl ids).
Proof.
  induction ids as [|id rest IH]; cbn [v4l2_ctrl_handler_setup_with];
    frame_steps; apply s_ctrl_frame.
Qed.
End Framework.

Lemma frame_imx477_adjust_exposure_range : preserves frame imx477_adjust_exposure_range.
Proof.
  unfold imx477_adjust_exposure_range. frame_steps. cbv zeta.
  frame_steps. apply frame_v4l2_ctrl_modify_range_with.
  apply frame_imx477_set_ctrl_apply.
Qed.
#[local] Hint Resolve frame_imx477_adjust_exposure_range : frame.

Lemma frame_imx477_set_ctrl id : preserves frame (imx477_set_ctrl id).
Proof. unfold imx477_set_ctrl. frame_steps. destruct id; frame_steps. Qed.
#[local] Hint Resolve frame_imx477_set_ctrl : frame.

Lemma frame___v4l2_ctrl_modify_range id mn mx st df :
  preserves frame (__v4l2_ctrl_modify_range id mn mx st df).
Proof. apply frame_v4l2_ctrl_modify_range_with, frame_imx477_set_ctrl. Qed.

Lemma frame___v4l2_ctrl_s_ctrl id v : preserves frame (__v4l2_ctrl_s_ctrl id v).
Proof. apply frame_v4l2_ctrl_s_ctrl_with, frame_imx477_set_ctrl. Qed.

Lemma frame___v4l2_ctrl_handler_setup : preserves frame __v4l2_ctrl_handler_setup.
Proof. apply frame_v4l2_ctrl_handler_setup_with, frame_imx477_set_ctrl. Qed.
#[local] Hint Resolve frame___v4l2_ctrl_modify_range frame___v4l2_ctrl_s_ctrl
  frame___v4l2_ctrl_handler_setup : frame.

Lemma frame_imx477_set_framing_limits : preserves frame imx477_set_framing_limits.
Proof.
  unfold imx477_set_framing_limits. frame_steps. cbv zeta. frame_steps.
  apply preserves_modify. intros s. apply frame_set_long_exp_shift.
Qed.


(* ------------------------------------------------------------------ *)
(** ** Exposure range and exposure register *)

Lemma set_ctrl_of_same s id c : ctrls (set_ctrl_of s id c) id = c.
Proof. cbn. now destruct (ctrl_id_eq_dec id id). Qed.

(** The exposure control after [imx477_adjust_exposure_range], when the new
    maximum fits an [int] and the range is not degenerate. *)
Lemma imx477_adjust_exposure_range_exposure s :
  let emax := height (mode s) + val (vblank s) - IMX477_EXPOSURE_OFFSET in
  0 <= emax < 2 ^ 31 ->
  minimum (exposure s) <= emax ->
  minimum (exposure s) <= val (exposure s) ->
  step (exposure s) <> 0 ->
  exposure (snd (imx477_adjust_exposure_range s)) =
    ctrl_with_val
      (ctrl_with_range (exposure s) (minimum (exposure s)) emax
                       (step (exposure s)) (Z.min (val (exposure s)) emax))
      (Z.min (val (exposure s)) emax).
Proof.
  intros emax H1 H2 H3 H4. unfold IMX477_EXPOSURE_OFFSET in emax.
  unfold imx477_adjust_exposure_range, bind, gets.
  assert (E : s32 (u32 (u32 (height (mode s) + val (vblank s))
                        - IMX477_EXPOSURE_OFFSET)) = emax).
  { unfold s32, u32, IMX477_EXPOSURE_OFFSET. subst emax.
    change (2 ^ 31) with 2147483648 in *. change (2 ^ 32) with 4294967296.
    rewrite (Z.mod_small (height (mode s) + val (vblank s))) by lia.
    rewrite !(Z.mod_small (height (mode s) + val (vblank s) - 22)) by lia.
    destruct (Z.ltb_spec (height (mode s) + val (vblank s) - 22) 2147483648); lia. }
  rewrite E. clear E.
  rewrite (Z.min_comm emax). set (edef := Z.min (val (exposure s)) emax).
  unfold v4l2_ctrl_modify_range_with.
  assert (C : (step (exposure s) =? 0) || (emax <? minimum (exposure s))
              || (edef <? minimum (exposure s)) || (emax <? edef) = false).
  { destruct (Z.eqb_spec (step (exposure s)) 0); [contradiction|].
    destruct (Z.ltb_spec emax (minimum (exposure s))); [lia|].
    destruct (Z.ltb_spec edef (minimum (exposure s))); [subst edef; lia|].
    destruct (Z.ltb_spec emax edef); [subst edef; lia|]. reflexivity. }
  rewrite C. clear C.
  assert (V : clamp (val (exposure s)) (minimum (exposure s)) emax = edef).
  { unfold clamp. subst edef. lia. }
  fold (exposure s). cbn [val ctrl_with_range]. rewrite V.
  match goal with |- context [if ?c then _ else _] => destruct c eqn:Ev end.
  - apply Z.eqb_eq in Ev. cbn [snd ret]. unfold exposure at 1.
    rewrite set_ctrl_of_same.
    unfold ctrl_with_val, ctrl_with_range. cbn. now rewrite Ev.
  - match goal with |- exposure (snd (let (_, _) := ?m ?x in _)) = _ =>
      pose proof (same_ctrls_imx477_set_ctrl_apply V4L2_CID_EXPOSURE x) as P;
      destruct (m x) as [r s1]
    end.
    cbn [snd] in *. unfold ret. cbn [snd]. unfold exposure at 1.
    unfold same_ctrls in P. rewrite P. now rewrite set_ctrl_of_same.
Qed.

(** C5: when the vertical-blank control, holding [v], is applied in mode [m],
    the exposure control's maximum becomes [m.height + v - 22], its default
    becomes the minimum of the previous exposure value and that maximum, and
    its value is clamped to the same minimum; minimum and step stay. *)
Theorem imx477_set_ctrl_vblank_adjusts_exposure :
  forall s : imx477,
    let emax := height (mode s) + val (vblank s) - IMX477_EXPOSURE_OFFSET in
    0 <= emax < 2 ^ 31 ->
    minimum (exposure s) <= emax ->
    minimum (exposure s) <= val (exposure s) ->
    step (exposure s) <> 0 ->
    let s' := snd (imx477_set_ctrl V4L2_CID_VBLANK s) in
    maximum (exposure s') = emax /\
    default_value (exposure s') = Z.min (val (exposure s)) emax /\
    val (exposure s') = Z.min (val (exposure s)) emax /\
    minimum (exposure s') = minimum (exposure s) /\
    step (exposure s') = step (exposure s).
Proof.
  intros s emax H1 H2 H3 H4 s'.
  pose proof (imx477_adjust_exposure_range_exposure s H1 H2 H3 H4) as A.
  fold emax in A.
  assert (E : exposure s' = exposure (snd (imx477_adjust_exposure_range s))).
  { subst s'. unfold imx477_set_ctrl, bind.
    destruct (imx477_adjust_exposure_range s) as [u s1]. cbn [snd].
    pose proof (same_ctrls_imx477_set_ctrl_apply V4L2_CID_VBLANK s1) as P.
    destruct (imx477_set_ctrl_apply V4L2_CID_VBLANK s1) as [r s2].
    cbn [snd] in *. unfold exposure. unfold same_ctrls in P. now rewrite P. }
  rewrite E, A. cbn. repeat split; reflexivity.
Qed.

(** Scenario B: the 4056x3040 mode with the vertical blank at its computed
    minimum (460 lines). *)
Lemma imx477_set_ctrl_vblank_adjusts_exposure_witness :
  let s0 := probed_linux bus_ok in
  let s := set_ctrl_of s0 V4L2_CID_VBLANK
                       (ctrl_with_val (vblank s0) (minimum (vblank s0))) in
  (width (mode s), height (mode s)) = (4056, 3040) /\
  val (vblank s) = 460 /\
  maximum (exposure (snd (imx477_set_ctrl V4L2_CID_VBLANK s)))
    = 3040 + val (vblank s) - IMX477_EXPOSURE_OFFSET.
Proof.
  intros s0 s. split; [reflexivity|]. split; [reflexivity|].
  apply (imx477_set_ctrl_vblank_adjusts_exposure s); vm_compute;
    intuition discriminate.
Defined.




(* ------------------------------------------------------------------ *)
(** ** Mode selection *)

Lemma nearer_spec a b :
  nearer a b = true <->
  fst a < fst b \/ (fst a = fst b /\ snd a < snd b).
Proof.
  unfold nearer. rewrite orb_true_iff, andb_true_iff, !Z.ltb_lt, Z.eqb_eq.
  reflexivity.
Qed.

Lemma nearer_false a b :
  nearer a b = false <->
  fst b < fst a \/ (fst b = fst a /\ snd b <= snd a).
Proof.
  destruct (nearer a b) eqn:E.
  - apply nearer_spec in E. split; [discriminate|lia].
  - split; [intros _|reflexivity].
    destruct (Z.lt_trichotomy (fst a) (fst b)) as [H|[H|H]].
    + assert (nearer a b = true) by (apply nearer_spec; lia). congruence.
    + destruct (Z_lt_le_dec (snd a) (snd b)).
      * assert (nearer a b = true) by (apply nearer_spec; lia). congruence.
      * lia.
    + lia.
Qed.

(** The helper returns a table entry, and no entry is strictly nearer. *)
Lemma nearest_from_spec w h l : forall best,
  let r := nearest_from best l w h in
  In r (best :: l) /\
  forall m, In m (best :: l) ->
            nearer (size_distance m w h) (size_distance r w h) = false.
Proof.
  induction l as [|x l IH]; intros best; cbn [nearest_from].
  - split; [now left|]. intros m [<-|[]]. apply nearer_false. lia.
  - set (b := if nearer (size_distance x w h) (size_distance best w h)
              then x else best).
    destruct (IH b) as [Hin Hmin]. cbv zeta. split.
    + destruct Hin as [E|Hin].
      * rewrite <- E. subst b. destruct (nearer _ _); [right; now left|now left].
      * right. now right.
    + intros m Hm.
      assert (Hb : nearer (size_distance b w h)
                          (size_distance (nearest_from b l w h) w h) = false)
        by (apply Hmin; now left).
      destruct Hm as [<-|[<-|Hm]].
      * subst b.
        destruct (nearer (size_distance x w h) (size_distance best w h)) eqn:E;
          [|exact Hb].
        apply nearer_spec in E. apply nearer_false in Hb. apply nearer_false. lia.
      * subst b.
        destruct (nearer (size_distance x w h) (size_distance best w h)) eqn:E;
          [exact Hb|].
        apply nearer_false in E. apply nearer_false in Hb. apply nearer_false. lia.
      * apply Hmin. now right.
Qed.

Lemma v4l2_find_nearest_size_spec l w h :
  l <> [] ->
  exists m,
    v4l2_find_nearest_size l w h = Some m /\
    In m l /\
    forall m', In m' l ->
      nearer (size_distance m' w h) (size_distance m w h) = false.
Proof.
  destruct l as [|x l]; [congruence|]. intros _.
  exists (nearest_from x l w h). split; [reflexivity|].
  apply nearest_from_spec.
Qed.

Lemma imx477_update_image_pad_format_size m fmt :
  fmt_width (format (imx477_update_image_pad_format m fmt)) = width m /\
  fmt_height (format (imx477_update_image_pad_format m fmt)) = height m /\
  code (format (imx477_update_image_pad_format m fmt)) = code (format fmt) /\
  which (imx477_update_image_pad_format m fmt) = which fmt /\
  pad (imx477_update_image_pad_format m fmt) = pad fmt.
Proof. repeat split. Qed.

Section Resolver.
Context `{F : media_bus_format}.

Lemma get_mode_table_variant (g j : Z) :
  g = 0 \/ g = 1 -> 0 <= j < 4 ->
  get_mode_table (nth (Z.to_nat (4 * g + j)) codes 0) =
    if g =? 0 then supported_modes_12bit else supported_modes_10bit.
Proof.
  intros Hg Hj.
  assert (D : forall a b : nat, (a < 8)%nat -> (b < 8)%nat -> a <> b ->
                (nth a codes 0 =? nth b codes 0) = false).
  { intros a b Ha Hb Hab. apply Z.eqb_neq. intros E.
    apply (proj1 (NoDup_nth codes 0) codes_NoDup) in E;
      rewrite ?codes_length; lia. }
  pose proof (D 4 0)%nat as D40. pose proof (D 4 1)%nat as D41.
  pose proof (D 4 2)%nat as D42. pose proof (D 4 3)%nat as D43.
  pose proof (D 5 0)%nat as D50. pose proof (D 5 1)%nat as D51.
  pose proof (D 5 2)%nat as D52. pose proof (D 5 3)%nat as D53.
  pose proof (D 6 0)%nat as D60. pose proof (D 6 1)%nat as D61.
  pose proof (D 6 2)%nat as D62. pose proof (D 6 3)%nat as D63.
  pose proof (D 7 0)%nat as D70. pose proof (D 7 1)%nat as D71.
  pose proof (D 7 2)%nat as D72. pose proof (D 7 3)%nat as D73.
  clear D.
  cbn [nth codes] in D40, D41, D42, D43, D50, D51, D52, D53,
                     D60, D61, D62, D63, D70, D71, D72, D73.
  assert (j = 0 \/ j = 1 \/ j = 2 \/ j = 3) as Hc by lia.
  destruct Hg as [-> | ->]; destruct Hc as [-> | [-> | [-> | ->]]];
    match goal with
    | |- get_mode_table (nth (Z.to_nat ?z) codes 0) = _ =>
        let n := eval vm_compute in (Z.to_nat z) in
        change (Z.to_nat z) with n
    end;
    cbn [nth codes Z.eqb]; unfold get_mode_table;
    rewrite ?Z.eqb_refl, ?orb_true_r; cbn [orb];
    rewrite ?D40, ?D41, ?D42, ?D43, ?D50, ?D51, ?D52, ?D53,
            ?D60, ?D61, ?D62, ?D63, ?D70, ?D71, ?D72, ?D73 by lia;
    cbn [orb]; rewrite ?Z.eqb_refl, ?orb_true_r; reflexivity.
Qed.



Lemma resolved_table_cases s c :
  resolved_table s c = supported_modes_12bit \/
  resolved_table s c = supported_modes_10bit.
Proof.
  unfold resolved_table. rewrite imx477_get_format_code_eq.
  pose proof (find_code_bounds c codes 0) as B. rewrite codes_length in B.
  pose proof (flip_index_range (hflip_on s) (vflip_on s)) as R.
  set (i := find_code c codes 0) in *.
  assert (Hg : (if i >=? 8 then 0 else i) / 4 = 0 \/
               (if i >=? 8 then 0 else i) / 4 = 1).
  { destruct (i >=? 8) eqn:E; [now left|].
    rewrite Z.geb_leb in E. apply Z.leb_gt in E.
    Z.div_mod_to_equations. lia. }
  rewrite get_mode_table_variant by assumption.
  destruct Hg as [-> | ->]; [now left|now right].
Qed.

Lemma resolved_table_variant s g k :
  g = 0 \/ g = 1 -> 0 <= k < 4 ->
  resolved_table s (nth (Z.to_nat (4 * g + k)) codes 0) =
    if g =? 0 then supported_modes_12bit else supported_modes_10bit.
Proof.
  intros Hg Hk. unfold resolved_table.
  rewrite imx477_get_format_code_variant by assumption.
  apply get_mode_table_variant; [assumption|apply flip_index_range].
Qed.

Lemma resolved_table_fallback s c :
  ~ In c codes -> resolved_table s c = supported_modes_12bit.
Proof.
  intros Hn. unfold resolved_table.
  rewrite imx477_get_format_code_fallback by assumption.
  apply (get_mode_table_variant 0 (flip_index (hflip_on s) (vflip_on s)));
    [now left|apply flip_index_range].
Qed.

(** [imx477_set_pad_format] on the image pad, once the mode is known. *)
Lemma imx477_set_pad_format_image sd fmt s m :
  pad fmt = IMAGE_PAD ->
  v4l2_find_nearest_size (resolved_table s (code (format fmt)))
    (fmt_width (format fmt)) (fmt_height (format fmt)) = Some m ->
  let c := imx477_get_format_code s (code (format fmt)) in
  let fmt' :=
    imx477_update_image_pad_format m
      (with_format fmt (with_code (format fmt) c)) in
  imx477_set_pad_format sd fmt s =
    match which fmt with
    | V4L2_SUBDEV_FORMAT_TRY =>
        (Some (OK, v4l2_subdev_set_try_format sd (pad fmt) (format fmt'), fmt'), s)
    | V4L2_SUBDEV_FORMAT_ACTIVE =>
        if imx477_mode_eq_dec (mode s) m then (Some (OK, sd, fmt'), s)
        else (Some (OK, sd, fmt'),
              snd (imx477_set_framing_limits (set_fmt_code (set_mode s m) c)))
    end.
Proof.
  intros Hp Hm c fmt'. unfold imx477_set_pad_format. rewrite Hp.
  change (IMAGE_PAD >=? NUM_PADS) with false.
  change (IMAGE_PAD =? IMAGE_PAD) with true. cbv iota.
  unfold bind at 1. unfold gets. cbv zeta.
  unfold resolved_table in Hm. cbn [format with_format code with_code
    fmt_width fmt_height]. rewrite Hm.
  cbn [which imx477_update_image_pad_format with_format].
  destruct (which fmt).
  - unfold ret. cbn [pad imx477_update_image_pad_format with_format].
    rewrite Hp. reflexivity.
  - destruct (imx477_mode_eq_dec (mode s) m); [reflexivity|].
    unfold bind, modify.
    destruct (imx477_set_framing_limits _) as [u s1]. reflexivity.
Qed.
End Resolver.

Section PadFormat.
Context `{F : media_bus_format}.

Lemma mode_after_set_framing_limits s :
  mode (snd (imx477_set_framing_limits s)) = mode s /\
  fmt_code (snd (imx477_set_framing_limits s)) = fmt_code s.
Proof.
  pose proof (frame_imx477_set_framing_limits s) as (A1 & A2 & _).
  now split.
Qed.

(** The image-pad branch of [imx477_set_pad_format] never fails and never
    meets an empty table. *)
Lemma imx477_set_pad_format_image_total sd fmt s :
  pad fmt = IMAGE_PAD ->
  let w := fmt_width (format fmt) in
  let h := fmt_height (format fmt) in
  let c := imx477_get_format_code s (code (format fmt)) in
  exists m sd' fmt' s',
    imx477_set_pad_format sd fmt s = (Some (OK, sd', fmt'), s') /\
    In m (resolved_table s (code (format fmt))) /\
    (forall m', In m' (resolved_table s (code (format fmt))) ->
       nearer (size_distance m' w h) (size_distance m w h) = false) /\
    fmt_width (format fmt') = width m /\
    fmt_height (format fmt') = height m /\
    code (format fmt') = c /\
    mode s' = match which fmt with
              | V4L2_SUBDEV_FORMAT_TRY => mode s
              | V4L2_SUBDEV_FORMAT_ACTIVE => m
              end /\
    (which fmt = V4L2_SUBDEV_FORMAT_TRY -> s' = s) /\
    (mode s = m -> s' = s).
Proof.
  intros Hp w h c.
  assert (Hne : resolved_table s (code (format fmt)) <> []).
  { destruct (resolved_table_cases s (code (format fmt))) as [-> | ->];
      discriminate. }
  destruct (v4l2_find_nearest_size_spec _ w h Hne) as (m & Hm & Hin & Hmin).
  pose proof (imx477_set_pad_format_image sd fmt s m Hp Hm) as E.
  cbv zeta in E. fold c in E.
  set (fmt' := imx477_update_image_pad_format m
                 (with_format fmt (with_code (format fmt) c))) in *.
  destruct (which fmt) eqn:W.
  - exists m, (v4l2_subdev_set_try_format sd (pad fmt) (format fmt')), fmt', s.
    repeat split; try assumption; reflexivity.
  - destruct (imx477_mode_eq_dec (mode s) m) as [Em|Em].
    + exists m, sd, fmt', s.
      repeat split; try assumption; try reflexivity.
    + exists m, sd, fmt',
        (snd (imx477_set_framing_limits (set_fmt_code (set_mode s m) c))).
      repeat split; try assumption; try reflexivity;
        try (intros; discriminate); try (intros; contradiction).
      now rewrite (proj1 (mode_after_set_framing_limits _)).
Qed.

Lemma imx477_set_pad_format_image_code sd fmt s :
  pad fmt = IMAGE_PAD ->
  exists sd' fmt' s',
    imx477_set_pad_format sd fmt s = (Some (OK, sd', fmt'), s') /\
    In (code (format fmt')) codes.
Proof.
  intros Hp.
  destruct (imx477_set_pad_format_image_total sd fmt s Hp)
    as (m & sd' & fmt' & s' & E & _ & _ & _ & _ & Hc & _).
  exists sd', fmt', s'. split; [exact E|].
  rewrite Hc. apply imx477_get_format_code_in_table.
Qed.

(** C3: for a request of [w] x [h] in a format of the table, the resolver
    answers with the mode nearest in area, ties broken by nearest width,
    among the modes of that format's bit depth (12-bit table for the first
    group of codes, 10-bit table for the second); an active request makes
    it the current mode.  A 2000x1000 request in a 12-bit format resolves
    to 2028x1080. *)
Theorem imx477_set_pad_format_selects_nearest_mode :
  forall (s : imx477) (sd : v4l2_subdev_state) (fmt : v4l2_subdev_format)
         (g k : Z),
    g = 0 \/ g = 1 -> 0 <= k < 4 ->
    pad fmt = IMAGE_PAD ->
    code (format fmt) = nth (Z.to_nat (4 * g + k)) codes 0 ->
    let table := if g =? 0 then supported_modes_12bit
                 else supported_modes_10bit in
    let w := fmt_width (format fmt) in
    let h := fmt_height (format fmt) in
    let area_gap := fun m => Z.abs (width m * height m - w * h) in
    let width_gap := fun m => Z.abs (width m - w) in
    exists m sd' fmt' s',
      imx477_set_pad_format sd fmt s = (Some (OK, sd', fmt'), s') /\
      In m table /\
      (forall m', In m' table ->
         area_gap m < area_gap m' \/
         (area_gap m = area_gap m' /\ width_gap m <= width_gap m')) /\
      fmt_width (format fmt') = width m /\
      fmt_height (format fmt') = height m /\
      (which fmt = V4L2_SUBDEV_FORMAT_ACTIVE -> mode s' = m) /\
      (g = 0 -> w = 2000 -> h = 1000 -> width m = 2028 /\ height m = 1080).
Proof.
  intros s sd fmt g k Hg Hk Hp Hc table w h area_gap width_gap.
  destruct (imx477_set_pad_format_image_total sd fmt s Hp)
    as (m & sd' & fmt' & s' & E & Hin & Hmin & Hw & Hh & _ & Hmode & _).
  rewrite Hc, resolved_table_variant in Hin, Hmin by assumption.
  fold table in Hin, Hmin. fold w h in Hmin.
  exists m, sd', fmt', s'.
  split; [exact E|]. split; [exact Hin|]. split; [|split; [exact Hw|]].
  - intros m' Hm'. specialize (Hmin m' Hm').
    apply nearer_false in Hmin. exact Hmin.
  - split; [exact Hh|]. split.
    + intros W. now rewrite W in Hmode.
    + intros -> Ew Eh. subst table. cbn [Z.eqb] in Hin, Hmin.
      fold w h in Ew, Eh.
      assert (H3 := Hmin (nth 2 supported_modes_12bit m)
                         ltac:(right; right; left; reflexivity)).
      apply nearer_false in H3. rewrite Ew, Eh in H3.
      destruct Hin as [<- | [<- | [<- | []]]]; cbn in H3 |- *; lia.
Qed.

(** C8 (amended): on the image pad [imx477_set_pad_format] does not fail
    on the format or on the resolution.  The code is run through the
    resolver: a code outside the table is replaced by the flip variant of
    the first (12-bit) group.  Any resolution is resolved to a mode of the
    table the resulting code selects (the 12-bit table for a code of the
    first group or outside the table, the 10-bit table for a code of the
    second group), one no other entry of that table is nearer to than it,
    and the call returns 0.  A TRY request leaves the driver state
    untouched; an ACTIVE request makes the resolved mode the current one
    and leaves the state untouched when it already is. *)
Theorem imx477_set_pad_format_never_rejects :
  forall (s : imx477) (sd : v4l2_subdev_state) (fmt : v4l2_subdev_format),
    pad fmt = IMAGE_PAD ->
    exists m sd' fmt' s',
      imx477_set_pad_format sd fmt s = (Some (OK, sd', fmt'), s') /\
      In m (supported_modes_12bit ++ supported_modes_10bit) /\
      code (format fmt') = imx477_get_format_code s (code (format fmt)) /\
      In m (get_mode_table (code (format fmt'))) /\
      (forall m', In m' (get_mode_table (code (format fmt'))) ->
         nearer (size_distance m' (fmt_width (format fmt))
                                  (fmt_height (format fmt)))
                (size_distance m (fmt_width (format fmt))
                                 (fmt_height (format fmt))) = false) /\
      (forall g k, g = 0 \/ g = 1 -> 0 <= k < 4 ->
         code (format fmt) = nth (Z.to_nat (4 * g + k)) codes 0 ->
         In m (if g =? 0 then supported_modes_12bit
               else supported_modes_10bit)) /\
      fmt_width (format fmt') = width m /\
      fmt_height (format fmt') = height m /\
      In (code (format fmt')) codes /\
      (~ In (code (format fmt)) codes ->
         In m supported_modes_12bit /\
         code (format fmt') =
           nth (Z.to_nat (flip_index (hflip_on s) (vflip_on s))) codes 0) /\
      (which fmt = V4L2_SUBDEV_FORMAT_TRY -> s' = s) /\
      (which fmt = V4L2_SUBDEV_FORMAT_ACTIVE -> mode s = m -> s' = s) /\
      (which fmt = V4L2_SUBDEV_FORMAT_ACTIVE -> mode s' = m).
Proof.
  intros s sd fmt Hp.
  destruct (imx477_set_pad_format_image_total sd fmt s Hp)
    as (m & sd' & fmt' & s' & E & Hin & Hmin & Hw & Hh & Hc & Hmode & Htry
        & Hsame).
  exists m, sd', fmt', s'.
  split; [exact E|]. split.
  { apply in_or_app.
    destruct (resolved_table_cases s (code (format fmt))) as [R | R];
      rewrite R in Hin; [now left|now right]. }
  split; [exact Hc|].
  split; [rewrite Hc; exact Hin|].
  split; [rewrite Hc; exact Hmin|].
  split.
  { intros g k Hg Hk Ec. rewrite Ec in Hin.
    rewrite resolved_table_variant in Hin by assumption. exact Hin. }
  split; [exact Hw|]. split; [exact Hh|]. split.
  { rewrite Hc. apply imx477_get_format_code_in_table. }
  split.
  { intros Hn. split.
    - now rewrite resolved_table_fallback in Hin.
    - rewrite Hc. now apply imx477_get_format_code_fallback. }
  split; [exact Htry|]. split.
  - intros _. exact Hsame.
  - intros W. now rewrite W in Hmode.
Qed.

Lemma imx477_get_pad_format_image_code s sd fmt :
  pad fmt = IMAGE_PAD ->
  fst (fst (imx477_get_pad_format s sd fmt)) = OK /\
  In (code (format (snd (imx477_get_pad_format s sd fmt)))) codes.
Proof.
  intros Hp. unfold imx477_get_pad_format. rewrite Hp.
  change (IMAGE_PAD >=? NUM_PADS) with false.
  change (IMAGE_PAD =? IMAGE_PAD) with true. cbv iota.
  destruct (which fmt); cbn; split; try reflexivity;
    apply imx477_get_format_code_in_table.
Qed.

Lemma imx477_enum_mbus_code_image_code s index c :
  imx477_enum_mbus_code s IMAGE_PAD index = (OK, Some c) -> In c codes.
Proof.
  unfold imx477_enum_mbus_code.
  change (IMAGE_PAD >=? NUM_PADS) with false.
  change (IMAGE_PAD =? IMAGE_PAD) with true. cbv iota.
  destruct (index >=? _); [discriminate|].
  intros [= <-]. apply imx477_get_format_code_in_table.
Qed.

Lemma imx477_get_pad_format_metadata_code s sd fmt :
  pad fmt = METADATA_PAD ->
  fst (fst (imx477_get_pad_format s sd fmt)) = OK /\
  code (format (snd (imx477_get_pad_format s sd fmt)))
    = MEDIA_BUS_FMT_SENSOR_DATA.
Proof.
  intros Hp. unfold imx477_get_pad_format. rewrite Hp.
  change (METADATA_PAD >=? NUM_PADS) with false.
  change (METADATA_PAD =? IMAGE_PAD) with false. cbv iota.
  destruct (which fmt); cbn; split; reflexivity.
Qed.

Lemma imx477_set_pad_format_metadata sd fmt s :
  pad fmt = METADATA_PAD ->
  imx477_set_pad_format sd fmt s =
    match which fmt with
    | V4L2_SUBDEV_FORMAT_TRY =>
        (Some (OK, v4l2_subdev_set_try_format sd METADATA_PAD (format fmt),
               fmt), s)
    | V4L2_SUBDEV_FORMAT_ACTIVE =>
        (Some (OK, sd, imx477_update_metadata_pad_format fmt), s)
    end.
Proof.
  intros Hp. unfold imx477_set_pad_format. rewrite Hp.
  change (METADATA_PAD >=? NUM_PADS) with false.
  change (METADATA_PAD =? IMAGE_PAD) with false. cbv iota.
  destruct (which fmt); reflexivity.
Qed.

(** C10 (amended): for a code outside the table the resolver neither
    fails nor echoes the code: it answers with the flip variant of the
    first (12-bit RGGB) group.  Its answer is always a table entry, so on
    the image pad get-format, set-format and enumerate always yield a code
    of the table, whatever code was requested.  On the metadata pad the
    resolver is not used: get-format answers with the sensor-data code,
    enumerate has that code as its only entry, a TRY set-format returns
    the request as it came, requested code included, and stores it as the
    try format, and an ACTIVE set-format answers with the sensor-data
    code; neither set-format changes the driver state. *)
Theorem imx477_get_format_code_falls_back_to_first_family :
  forall (s : imx477) (c : Z),
    (~ In c codes ->
       imx477_get_format_code s c =
         nth (Z.to_nat (flip_index (hflip_on s) (vflip_on s))) codes 0 /\
       imx477_get_format_code s c <> c) /\
    In (imx477_get_format_code s c) codes /\
    (forall sd fmt, pad fmt = IMAGE_PAD ->
       fst (fst (imx477_get_pad_format s sd fmt)) = OK /\
       In (code (format (snd (imx477_get_pad_format s sd fmt)))) codes) /\
    (forall sd fmt, pad fmt = IMAGE_PAD ->
       exists sd' fmt' s',
         imx477_set_pad_format sd fmt s = (Some (OK, sd', fmt'), s') /\
         In (code (format fmt')) codes) /\
    (forall index c', imx477_enum_mbus_code s IMAGE_PAD index = (OK, Some c') ->
                      In c' codes) /\
    (forall sd fmt, pad fmt = METADATA_PAD ->
       fst (fst (imx477_get_pad_format s sd fmt)) = OK /\
       code (format (snd (imx477_get_pad_format s sd fmt)))
         = MEDIA_BUS_FMT_SENSOR_DATA) /\
    (forall index,
       imx477_enum_mbus_code s METADATA_PAD index =
         if index >? 0 then (ERR EINVAL, None)
         else (OK, Some MEDIA_BUS_FMT_SENSOR_DATA)) /\
    (forall sd fmt, pad fmt = METADATA_PAD ->
       which fmt = V4L2_SUBDEV_FORMAT_TRY ->
       imx477_set_pad_format sd fmt s =
         (Some (OK, v4l2_subdev_set_try_format sd METADATA_PAD (format fmt),
                fmt), s)) /\
    (forall sd fmt, pad fmt = METADATA_PAD ->
       which fmt = V4L2_SUBDEV_FORMAT_ACTIVE ->
       exists fmt',
         imx477_set_pad_format sd fmt s = (Some (OK, sd, fmt'), s) /\
         code (format fmt') = MEDIA_BUS_FMT_SENSOR_DATA).
Proof.
  intros s c. split; [|split; [|split; [|split; [|split; [|split;
    [|split; [|split]]]]]]].
  - intros Hn. split; [now apply imx477_get_format_code_fallback|].
    intros E. apply Hn. rewrite <- E. apply imx477_get_format_code_in_table.
  - apply imx477_get_format_code_in_table.
  - intros sd fmt Hp. now apply imx477_get_pad_format_image_code.
  - intros sd fmt Hp.
    destruct (imx477_set_pad_format_image_code sd fmt s Hp)
      as (sd' & fmt' & s' & E & Hc).
    now exists sd', fmt', s'.
  - intros index c'. apply imx477_enum_mbus_code_image_code.
  - intros sd fmt Hp. now apply imx477_get_pad_format_metadata_code.
  - intros index. reflexivity.
  - intros sd fmt Hp W.
    rewrite (imx477_set_pad_format_metadata sd fmt s Hp), W. reflexivity.
  - intros sd fmt Hp W.
    rewrite (imx477_set_pad_format_metadata sd fmt s Hp), W.
    exists (imx477_update_metadata_pad_format fmt). split; reflexivity.
Qed.
End PadFormat.

(** Closes [~ In x l] for a concrete list. *)
Ltac not_in_list :=
  vm_compute;
  let H := fresh in
  intros H; repeat (destruct H as [H|H]; [discriminate H|]); exact H.

Lemma imx477_set_pad_format_selects_nearest_mode_witness :
  let s := probed_linux bus_ok in
  let fmt := request V4L2_SUBDEV_FORMAT_ACTIVE IMAGE_PAD 0x3012 2000 1000 in
  exists m sd' fmt' s',
    @imx477_set_pad_format linux_media_bus_format blank_sd_state fmt s
      = (Some (OK, sd', fmt'), s') /\
    width m = 2028 /\ height m = 1080 /\
    fmt_width (format fmt') = 2028 /\ fmt_height (format fmt') = 1080 /\
    mode s' = m.
Proof.
  intros s fmt.
  destruct (@imx477_set_pad_format_selects_nearest_mode linux_media_bus_format
              s blank_sd_state fmt 0 0 (or_introl eq_refl)
              ltac:(lia) eq_refl eq_refl)
    as (m & sd' & fmt' & s' & E & _ & _ & Hw & Hh & Hact & HA).
  destruct (HA eq_refl eq_refl eq_refl) as [Wm Hm].
  exists m, sd', fmt', s'. rewrite Hw, Hh.
  repeat split; try assumption. now apply Hact.
Defined.

(** C8 (as stated) does not hold.  From the probed state (4056x3040, 12
    bit), an ACTIVE request with a code outside the table, and one with a
    10-bit code at a resolution the 10-bit table does not list, both return
    0; each changes the current mode, and the second also changes the stored
    format code and the vertical-blank range. *)
Lemma imx477_set_pad_format_accepts_unsupported_requests :
  let s := probed_linux bus_ok in
  let set_fmt := @imx477_set_pad_format linux_media_bus_format blank_sd_state in
  let unknown := request V4L2_SUBDEV_FORMAT_ACTIVE IMAGE_PAD 0x2008 640 480 in
  let ten_bit := request V4L2_SUBDEV_FORMAT_ACTIVE IMAGE_PAD 0x300f 4056 3040 in
  (width (mode s), height (mode s)) = (4056, 3040) /\
  ~ In 0x2008 (@codes linux_media_bus_format) /\
  option_map (fun r => fst (fst r)) (fst (set_fmt unknown s)) = Some OK /\
  mode (snd (set_fmt unknown s)) <> mode s /\
  ~ In (4056, 3040) (map (fun m => (width m, height m)) supported_modes_10bit) /\
  option_map (fun r => fst (fst r)) (fst (set_fmt ten_bit s)) = Some OK /\
  (width (mode (snd (set_fmt ten_bit s))),
   height (mode (snd (set_fmt ten_bit s)))) = (1332, 990) /\
  fmt_code (snd (set_fmt ten_bit s)) <> fmt_code s /\
  minimum (vblank (snd (set_fmt ten_bit s))) <> minimum (vblank s).
Proof.
  intros s set_fmt unknown ten_bit.
  split; [vm_compute; reflexivity|].
  split; [not_in_list|].
  split; [vm_compute; reflexivity|]. split.
  { intros E. apply (f_equal width) in E. vm_compute in E. discriminate. }
  split; [not_in_list|].
  split; [vm_compute; reflexivity|]. split; [vm_compute; reflexivity|].
  split; vm_compute; discriminate.
Qed.

Lemma imx477_set_pad_format_never_rejects_witness :
  let s := probed_linux bus_ok in
  let fmt := request V4L2_SUBDEV_FORMAT_TRY IMAGE_PAD 0x2008 640 480 in
  exists m sd' fmt' s',
    @imx477_set_pad_format linux_media_bus_format blank_sd_state fmt s
      = (Some (OK, sd', fmt'), s') /\
    In m supported_modes_12bit /\
    code (format fmt') = 0x3012 /\
    s' = s.
Proof.
  intros s fmt.
  destruct (@imx477_set_pad_format_never_rejects linux_media_bus_format
              s blank_sd_state fmt eq_refl)
    as (m & sd' & fmt' & s' & E & _ & _ & _ & _ & _ & _ & _ & _ & Hfb & Htry
        & _).
  destruct Hfb as [Hm Hc]; [not_in_list|].
  exists m, sd', fmt', s'.
  split; [exact E|]. split; [exact Hm|]. split.
  - rewrite Hc. vm_compute. reflexivity.
  - apply Htry. reflexivity.
Defined.

(** C10 (as stated) does not hold for the metadata pad: get-format and
    enumerate answer with the sensor-data code, and a TRY set-format keeps
    whatever code was requested; neither is in the table. *)
Lemma imx477_metadata_pad_code_outside_table :
  let s := probed_linux bus_ok in
  let get := request V4L2_SUBDEV_FORMAT_ACTIVE METADATA_PAD 0 0 0 in
  let try := request V4L2_SUBDEV_FORMAT_TRY METADATA_PAD 0x2008 640 480 in
  let got := @imx477_get_pad_format linux_media_bus_format s blank_sd_state get in
  let set := @imx477_set_pad_format linux_media_bus_format blank_sd_state try s in
  fst (fst got) = OK /\
  ~ In (code (format (snd got))) (@codes linux_media_bus_format) /\
  option_map (fun r => (fst (fst r), code (format (snd r)))) (fst set)
    = Some (OK, 0x2008) /\
  ~ In 0x2008 (@codes linux_media_bus_format) /\
  @imx477_enum_mbus_code linux_media_bus_format s METADATA_PAD 0
    = (OK, Some 0x7002) /\
  ~ In 0x7002 (@codes linux_media_bus_format).
Proof.
  cbv zeta.
  repeat split; try (vm_compute; reflexivity); not_in_list.
Qed.

Lemma imx477_get_format_code_falls_back_to_first_family_witness :
  @imx477_get_format_code linux_media_bus_format (probed_linux bus_ok) 0x2008
  = 0x3012.
Proof.
  destruct (@imx477_get_format_code_falls_back_to_first_family
                  linux_media_bus_format (probed_linux bus_ok) 0x2008) as [H _].
  destruct H as [H _]; [not_in_list|].
  rewrite H. vm_compute. reflexivity.
Defined.

(* ------------------------------------------------------------------ *)
(** ** Streaming state machine *)

Lemma frame_set_common_regs_written s b : frame s (set_common_regs_written s b).
Proof.
  unfold frame. repeat (split; [reflexivity|]). exists []. cbn.
  now rewrite app_nil_r.
Qed.

Lemma frame_imx477_start_streaming : preserves frame imx477_start_streaming.
Proof.
  unfold imx477_start_streaming. frame_steps;
    try (apply preserves_modify; intros s; apply frame_set_common_regs_written);
    cbv zeta; frame_steps.
Qed.

(** A successful [pm_runtime_get_sync] leaves the device active with one
    more reference; it touches neither the bus, the controls, the streaming
    flag nor the power-off count. *)
Lemma pm_runtime_get_sync_ok s :
  fst (pm_runtime_get_sync s) = OK ->
  let s1 := snd (pm_runtime_get_sync s) in
  usage_count (pm s1) = usage_count (pm s) + 1 /\
  rpm_active (pm s1) = true /\
  power_off_calls (rails s1) = power_off_calls (rails s) /\
  streaming s1 = streaming s /\
  common_regs_written s1 = common_regs_written s /\
  client s1 = client s /\
  ctrls s1 = ctrls s /\
  mode s1 = mode s /\
  compatible_data s1 = compatible_data s.
Proof.
  unfold pm_runtime_get_sync. destruct (rpm_active (pm s)) eqn:Ea.
  - intros _. cbn. rewrite ?Ea. repeat split.
  - unfold imx477_power_on. cbn [rails set_pm].
    destruct (regulator_bulk_enable_ret (rails s)); [|discriminate].
    destruct (clk_prepare_enable_ret (rails s)); [|discriminate].
    intros _. cbn. repeat split.
Qed.

(** Dropping the last reference of an active device powers it off, once. *)
Lemma pm_runtime_put_last s :
  usage_count (pm s) = 1 -> rpm_active (pm s) = true ->
  let s' := snd (pm_runtime_put s) in
  usage_count (pm s') = 0 /\
  rpm_active (pm s') = false /\
  power_off_calls (rails s') = S (power_off_calls (rails s)) /\
  common_regs_written s' = false /\
  streaming s' = streaming s /\
  client s' = client s.
Proof.
  intros Hu Ha. unfold pm_runtime_put. rewrite Hu, Ha. cbn. repeat split.
Qed.

(** [imx477_set_stream 1] from Standby, unfolded along the outcome of the
    power-on and of the start sequence. *)
Lemma imx477_set_stream_on_eq s :
  streaming s = false ->
  fst (pm_runtime_get_sync s) = OK ->
  let s1 := snd (pm_runtime_get_sync s) in
  let s2 := snd (imx477_start_streaming s1) in
  imx477_set_stream 1 s =
    match fst (imx477_start_streaming s1) with
    | ERR e => (ERR e, snd (pm_runtime_put s2))
    | OK =>
        (OK, snd (v4l2_ctrl_grab V4L2_CID_HFLIP true
                    (snd (v4l2_ctrl_grab V4L2_CID_VFLIP true
                            (set_streaming s2 true)))))
    end.
Proof.
  intros Hs Hp s1 s2. unfold imx477_set_stream. unfold bind at 1. unfold gets.
  rewrite Hs. cbn [bool_to_int Z.eqb negb]. unfold bind at 1. unfold bind at 1.
  subst s2 s1. destruct (pm_runtime_get_sync s) as [r s1]. cbn [fst snd] in *.
  subst r. unfold bind at 1.
  destruct (imx477_start_streaming s1) as [r2 s2]. cbn [fst snd].
  destruct r2 as [|e].
  - unfold ret, bind, modify. reflexivity.
  - unfold bind, ret. destruct (pm_runtime_put s2). reflexivity.
Qed.

(** Any error of the start sequence is rolled back: the error is returned,
    the reference is dropped so that power-off runs once, the state stays
    Standby and the common block counts as not written. *)
Lemma imx477_set_stream_rollback s e :
  streaming s = false ->
  usage_count (pm s) = 0 ->
  fst (pm_runtime_get_sync s) = OK ->
  fst (imx477_set_stream 1 s) = ERR e ->
  let s' := snd (imx477_set_stream 1 s) in
  fst (imx477_start_streaming (snd (pm_runtime_get_sync s))) = ERR e /\
  streaming s' = false /\
  power_off_calls (rails s') = S (power_off_calls (rails s)) /\
  common_regs_written s' = false /\
  usage_count (pm s') = 0 /\
  rpm_active (pm s') = false.
Proof.
  intros Hs Hu Hp. rewrite (imx477_set_stream_on_eq s Hs Hp).
  destruct (pm_runtime_get_sync_ok s Hp)
    as (G1 & G2 & G3 & G4 & G5 & G6 & G7 & G8 & G9).
  set (s1 := snd (pm_runtime_get_sync s)) in *.
  pose proof (frame_imx477_start_streaming s1)
    as (A1 & A2 & A3 & A4 & A6 & A7 & A8 & _).
  destruct (imx477_start_streaming s1) as [r2 s2]. cbn [fst snd] in *.
  destruct r2 as [|e2]; [discriminate|]. cbn [fst snd]. intros [= <-].
  assert (U : usage_count (pm s2) = 1) by (rewrite A7; lia).
  assert (Act : rpm_active (pm s2) = true) by (rewrite A7; exact G2).
  destruct (pm_runtime_put_last s2 U Act) as (P1 & P2 & P3 & P4 & P5 & P6).
  split; [reflexivity|]. split; [congruence|]. split; [congruence|].
  split; [exact P4|]. split; [exact P1|exact P2].
Qed.

Lemma imx477_set_stream_success s :
  streaming s = false ->
  fst (pm_runtime_get_sync s) = OK ->
  fst (imx477_set_stream 1 s) = OK ->
  let s' := snd (imx477_set_stream 1 s) in
  fst (imx477_start_streaming (snd (pm_runtime_get_sync s))) = OK /\
  streaming s' = true /\
  power_off_calls (rails s') = power_off_calls (rails s) /\
  client s' = client (snd (imx477_start_streaming (snd (pm_runtime_get_sync s)))).
Proof.
  intros Hs Hp. rewrite (imx477_set_stream_on_eq s Hs Hp).
  destruct (pm_runtime_get_sync_ok s Hp)
    as (G1 & G2 & G3 & G4 & G5 & G6 & G7 & G8 & G9).
  set (s1 := snd (pm_runtime_get_sync s)) in *.
  pose proof (frame_imx477_start_streaming s1)
    as (A1 & A2 & A3 & A4 & A6 & A7 & A8 & _).
  destruct (imx477_start_streaming s1) as [r2 s2]. cbn [fst snd] in *.
  destruct r2 as [|e2]; [|discriminate]. intros _. cbn.
  repeat split. congruence.
Qed.

(** C9: [imx477_set_stream 1] on a streaming sensor returns 0 and changes
    nothing (no power transition, no transfer); hence after a first call that
    succeeded the state is Streaming and a second call is that no-op, so the
    start program ran once. *)
Theorem imx477_set_stream_on_idempotent :
  (forall s : imx477,
     streaming s = true -> imx477_set_stream 1 s = (OK, s)) /\
  (forall s : imx477,
     fst (imx477_set_stream 1 s) = OK ->
     let s1 := snd (imx477_set_stream 1 s) in
     streaming s1 = true /\
     imx477_set_stream 1 s1 = (OK, s1) /\
     i2c_log (client (snd (imx477_set_stream 1 s1))) = i2c_log (client s1) /\
     pm (snd (imx477_set_stream 1 s1)) = pm s1 /\
     rails (snd (imx477_set_stream 1 s1)) = rails s1).
Proof.
  assert (Noop : forall s, streaming s = true -> imx477_set_stream 1 s = (OK, s)).
  { intros s Hs. unfold imx477_set_stream, bind, gets. now rewrite Hs. }
  split; [exact Noop|].
  intros s Hok s1.
  assert (Hs1 : streaming s1 = true).
  { subst s1. destruct (streaming s) eqn:Hs.
    - now rewrite (Noop s Hs).
    - destruct (fst (pm_runtime_get_sync s)) eqn:Hp.
      + apply (imx477_set_stream_success s Hs Hp Hok).
      + exfalso. revert Hok. unfold imx477_set_stream. unfold bind at 1.
        unfold gets. rewrite Hs. cbn [bool_to_int Z.eqb negb].
        unfold bind at 1. unfold bind at 1.
        destruct (pm_runtime_get_sync s) as [r s2]. cbn [fst] in Hp. subst r.
        unfold bind, pm_runtime_put_noidle, modify, ret. cbn. discriminate. }
  split; [exact Hs1|]. rewrite (Noop s1 Hs1). repeat split.
Qed.

Lemma imx477_start_streaming_split s :
  imx477_start_streaming s =
    let (r, s1) := start_blocks s in
    match r with
    | ERR e => (ERR e, s1)
    | OK => start_replay_and_go s1
    end.
Proof.
  unfold imx477_start_streaming, start_blocks, start_replay_and_go.
  unfold bind, gets, ret, modify.
  destruct (negb (common_regs_written s)).
  - destruct (imx477_write_regs mode_common_regs s) as [[|e] s1].
    + destruct (imx477_write_regs (extra_regs (compatible_data s1)) s1)
        as [[|e] s2].
      * destruct (imx477_write_regs _ _) as [[|e] s3]; reflexivity.
      * reflexivity.
    + reflexivity.
  - destruct (imx477_write_regs _ _) as [[|e] s3]; reflexivity.
Qed.

Lemma firstn_app_le {A} (l1 l2 : list A) n :
  (n <= length l1)%nat -> firstn n (l1 ++ l2) = firstn n l1.
Proof.
  intros H. rewrite firstn_app. replace (n - length l1)%nat with 0%nat by lia.
  cbn. now rewrite app_nil_r.
Qed.

Lemma firstn_app_ge {A} (l1 l2 : list A) n :
  firstn (length l1 + n) (l1 ++ l2) = l1 ++ firstn n l2.
Proof.
  rewrite firstn_app. replace (length l1 + n - length l1)%nat with n by lia.
  rewrite firstn_all2 by lia. reflexivity.
Qed.

Lemma bus_push_set_common_regs_written s b l :
  bus_push (set_common_regs_written s b) l =
  set_common_regs_written (bus_push s l) b.
Proof. reflexivity. Qed.

(** The three blocks, along the first refused transfer of each. *)
Lemma start_blocks_run s :
  common_regs_written s = false ->
  let f := i2c_fail (client s) in
  let n0 := length (i2c_log (client s)) in
  let A := map reg_msg mode_common_regs in
  let B := map reg_msg (extra_regs (compatible_data s)) in
  let C := map reg_msg (reg_list (mode s)) in
  start_blocks s =
    match first_fail f n0 A with
    | Some ka => (ERR EIO, bus_push s (firstn (S ka) A))
    | None =>
        match first_fail f (n0 + length A) B with
        | Some kb => (ERR EIO, bus_push s (A ++ firstn (S kb) B))
        | None =>
            match first_fail f (n0 + length A + length B) C with
            | Some kc =>
                (ERR EIO,
                 set_common_regs_written
                   (bus_push s (A ++ B ++ firstn (S kc) C)) true)
            | None =>
                (OK, set_common_regs_written (bus_push s (A ++ B ++ C)) true)
            end
        end
    end.
Proof.
  intros Hw f n0 A B C.
  unfold start_blocks. unfold bind at 1. unfold gets at 1.
  rewrite Hw. cbn [negb]. unfold bind at 1. unfold bind at 1. unfold bind at 1.
  rewrite imx477_write_regs_eq. fold f n0 A. clearbody A.
  destruct (first_fail f n0 A) as [ka|]; [reflexivity|].
  unfold bind at 1. unfold gets at 1.
  change (extra_regs (compatible_data (bus_push s A)))
    with (extra_regs (compatible_data s)).
  rewrite imx477_write_regs_eq, bus_push_log, bus_push_fail, length_app.
  fold f n0 B.
  destruct (first_fail f (n0 + length A) B) as [kb|].
  - unfold ret. now rewrite bus_push_push.
  - unfold bind at 1. unfold modify, ret. unfold bind at 1. unfold gets.
    rewrite bus_push_push.
    change (reg_list (mode (set_common_regs_written (bus_push s (A ++ B)) true)))
      with (reg_list (mode s)).
    rewrite imx477_write_regs_eq. fold C.
    change (i2c_fail (client (set_common_regs_written
                                (bus_push s (A ++ B)) true))) with f.
    change (i2c_log (client (set_common_regs_written
                               (bus_push s (A ++ B)) true)))
      with (i2c_log (client (bus_push s (A ++ B)))).
    rewrite bus_push_log, length_app, length_app. fold n0.
    rewrite Nat.add_assoc.
    destruct (first_fail f (n0 + length A + length B) C) as [kc|];
      rewrite bus_push_set_common_regs_written, bus_push_push, <- app_assoc;
      reflexivity.
Qed.

(** The three blocks behave as one list: they go out in order up to the
    first refused transfer. *)
Lemma start_blocks_eq s :
  common_regs_written s = false ->
  let msgs := map reg_msg (start_program s) in
  match first_fail (i2c_fail (client s)) (length (i2c_log (client s))) msgs with
  | Some k =>
      exists s', start_blocks s = (ERR EIO, s') /\
                 frame s s' /\
                 i2c_log (client s') = i2c_log (client s) ++ firstn (S k) msgs
  | None =>
      start_blocks s = (OK, set_common_regs_written (bus_push s msgs) true)
  end.
Proof.
  intros Hw. cbv zeta. rewrite (start_blocks_run s Hw). cbv zeta.
  unfold start_program. rewrite !map_app, !first_fail_app.
  set (f := i2c_fail (client s)). set (n0 := length (i2c_log (client s))).
  set (A := map reg_msg mode_common_regs).
  set (B := map reg_msg (extra_regs (compatible_data s))).
  set (C := map reg_msg (reg_list (mode s))). clearbody A.
  destruct (first_fail f n0 A) as [ka|] eqn:FA.
  - eexists. split; [reflexivity|]. split; [apply frame_bus_push|].
    rewrite bus_push_log. f_equal.
    pose proof (first_fail_bound _ _ _ _ FA).
    now rewrite firstn_app_le by lia.
  - destruct (first_fail f (n0 + length A) B) as [kb|] eqn:FB; cbn [option_map].
    + eexists. split; [reflexivity|]. split; [apply frame_bus_push|].
      rewrite bus_push_log. f_equal.
      pose proof (first_fail_bound _ _ _ _ FB).
      replace (S (length A + kb))%nat with (length A + S kb)%nat by lia.
      now rewrite firstn_app_ge, firstn_app_le by lia.
    + destruct (first_fail f (n0 + length A + length B) C) as [kc|] eqn:FC;
        cbn [option_map]; [|reflexivity].
      eexists. split; [reflexivity|]. split.
      * eapply frame_trans; [apply frame_bus_push|].
        apply frame_set_common_regs_written.
      * change (i2c_log (client (set_common_regs_written ?x true)))
          with (i2c_log (client x)).
        rewrite bus_push_log. f_equal.
        replace (S (length A + (length B + kc)))%nat
          with (length A + (length B + S kc))%nat by lia.
        now rewrite !firstn_app_ge.
Qed.

(* ------------------------------------------------------------------ *)
(** ** Which refused transfers the start sequence survives *)

Lemma refused_same_log s s' :
  i2c_log (client s') = i2c_log (client s) -> refused_unchecked_only s s'.
Proof.
  intros E j buf Hj Hn _. rewrite E in Hn.
  apply nth_error_None in Hj. congruence.
Qed.

Lemma refused_trans a b c :
  frame a b -> frame b c ->
  refused_unchecked_only a b -> refused_unchecked_only b c ->
  refused_unchecked_only a c.
Proof.
  intros (_ & _ & _ & _ & _ & _ & _ & _ & _ & Fb & _ & l1 & L1)
         (_ & _ & _ & _ & _ & _ & _ & _ & _ & Fc & _ & l2 & L2) Hab Hbc.
  intros j buf Hj Hn Hf.
  destruct (Nat.lt_ge_cases j (length (i2c_log (client b)))) as [Hlt|Hge].
  - apply (Hab j buf Hj); [|exact Hf].
    rewrite L2, nth_error_app1 in Hn by exact Hlt. exact Hn.
  - apply (Hbc j buf Hge Hn). now rewrite Fb.
Qed.

Lemma settled_same s s' :
  ctrls s' = ctrls s -> mode s' = mode s ->
  exposure_settled s -> exposure_settled s'.
Proof.
  unfold exposure_settled, exposure, vblank. intros -> ->. exact id.
Qed.

Lemma sound_ret {A} (ok : A -> bool) (a : A) : sound ok (ret a).
Proof.
  intros s Hs. split; [exact Hs|]. split; [apply frame_refl|].
  intros _. now apply refused_same_log.
Qed.

Lemma sound_gets {B} (ok : B -> bool) (f : imx477 -> B) : sound ok (gets f).
Proof.
  intros s Hs. split; [exact Hs|]. split; [apply frame_refl|].
  intros _. now apply refused_same_log.
Qed.

Lemma sound_bind {A B} (okA : A -> bool) (okB : B -> bool)
    (m : M A) (k : A -> M B) :
  sound okA m ->
  (forall a, sound okB (k a)) ->
  (forall a s1, okA a = false -> okB (fst (k a s1)) = false) ->
  sound okB (bind m k).
Proof.
  intros Hm Hk Hprop s Hs. unfold bind.
  destruct (Hm s Hs) as (M1 & M2 & M3).
  destruct (m s) as [a s1]. cbn [fst snd] in *.
  destruct (Hk a s1 M1) as (K1 & K2 & K3).
  split; [exact K1|]. split; [eapply frame_trans; eassumption|].
  intros Hok. destruct (okA a) eqn:Ea.
  - eapply refused_trans; eauto.
  - rewrite (Hprop a s1 Ea) in Hok. discriminate.
Qed.

(** A step whose result the caller drops. *)
Lemma sound_bind_dropped {A B} (okB : B -> bool) (m : M A) (k : A -> M B) :
  sound always m -> (forall a, sound okB (k a)) -> sound okB (bind m k).
Proof.
  intros Hm Hk. apply (sound_bind always okB); try assumption.
  intros a s1. discriminate.
Qed.

(** A step whose error the caller propagates. *)
Lemma sound_bind_checked (m k : M retcode) :
  sound is_ok m -> sound is_ok k ->
  sound is_ok (r <- m ;; match r with OK => k | ERR e => ret (ERR e) end).
Proof.
  intros Hm Hk. apply (sound_bind is_ok is_ok); try assumption.
  - intros [|e]; [exact Hk|apply sound_ret].
  - intros [|e] s1; [discriminate|reflexivity].
Qed.

Lemma sound_weaken {A} (ok : A -> bool) (m : M A) : sound always m -> sound ok m.
Proof.
  intros H s Hs. destruct (H s Hs) as (H1 & H2 & H3).
  split; [exact H1|]. split; [exact H2|]. intros _. now apply H3.
Qed.

Lemma sound_silent {A} (ok : A -> bool) (m : M A) :
  (forall s, ctrls (snd (m s)) = ctrls s /\
             i2c_log (client (snd (m s))) = i2c_log (client s)) ->
  preserves frame m -> sound ok m.
Proof.
  intros H Hf s Hs. destruct (H s) as [Hc Hl]. split.
  - apply (settled_same s); [exact Hc| |exact Hs]. apply (Hf s).
  - split; [apply Hf|]. intros _. now apply refused_same_log.
Qed.

Lemma buf_addr_reg_buf reg len v :
  0 <= len <= 4 -> buf_addr (reg_buf reg len v) = u16 reg.
Proof.
  intros Hl. unfold reg_buf.
  replace (Z.to_nat (len + 2)) with (S (S (Z.to_nat len))) by lia.
  cbn [put_unaligned_be16 app firstn]. unfold buf_addr. cbn [nth].
  rewrite !land_255, Z.shiftr_div_pow2 by lia. change (2 ^ 8) with 256.
  assert (0 <= u16 reg < 65536)
    by (unfold u16; change (2 ^ 16) with 65536; apply Z.mod_pos_bound; lia).
  Z.div_mod_to_equations. lia.
Qed.

Lemma sound_imx477_write_reg reg len v : sound is_ok (imx477_write_reg reg len v).
Proof.
  intros s Hs. unfold imx477_write_reg.
  destruct (len >? 4) eqn:El; [now apply sound_ret|].
  unfold bind, i2c_master_send, ret.
  set (buf := reg_buf reg len v).
  assert (R : forall r,
             exposure_settled (snd (r : retcode, bus_push s [buf])) /\
             frame s (snd (r, bus_push s [buf]))).
  { intros r. split; [exact Hs|apply frame_bus_push]. }
  destruct (i2c_fail (client s) (length (i2c_log (client s))) buf) eqn:Ef;
    cbn [negb]; (split; [apply R|split; [apply R|]]); cbn [fst snd];
    [discriminate|].
  intros _ j b Hj Hn Hf. rewrite bus_push_log in Hn.
  assert (j = length (i2c_log (client s))).
  { assert (Hlt : (j < length (i2c_log (client s) ++ [buf]))%nat)
      by (apply nth_error_Some; congruence).
    rewrite length_app in Hlt. cbn [length] in Hlt. lia. }
  subst j. rewrite nth_error_app2, Nat.sub_diag in Hn by lia.
  cbn in Hn. injection Hn as <-. congruence.
Qed.

Lemma sound_imx477_write_reg_unchecked reg len v :
  In (u16 reg) unchecked_regs -> 0 <= len <= 4 ->
  sound always (imx477_write_reg reg len v).
Proof.
  intros Hin Hl s Hs. unfold imx477_write_reg.
  destruct (len >? 4) eqn:El; [apply Z.gtb_lt in El; lia|].
  unfold bind, i2c_master_send, ret.
  set (buf := reg_buf reg len v).
  assert (R : forall r : retcode,
             exposure_settled (snd (r, bus_push s [buf])) /\
             frame s (snd (r, bus_push s [buf])) /\
             (always (fst (r, bus_push s [buf])) = true ->
              refused_unchecked_only s (snd (r, bus_push s [buf])))).
  { intros r. split; [exact Hs|]. split; [apply frame_bus_push|].
    intros _ j b Hj Hn Hf. cbn [snd] in Hn. rewrite bus_push_log in Hn.
    assert (j = length (i2c_log (client s))).
    { assert (Hlt : (j < length (i2c_log (client s) ++ [buf]))%nat)
        by (apply nth_error_Some; congruence).
      rewrite length_app in Hlt. cbn [length] in Hlt. lia. }
    subst j. rewrite nth_error_app2, Nat.sub_diag in Hn by lia.
    cbn in Hn. injection Hn as <-. subst buf.
    now rewrite buf_addr_reg_buf. }
  destruct (negb _); apply R.
Qed.

Lemma sound_imx477_write_regs regs : sound is_ok (imx477_write_regs regs).
Proof.
  induction regs as [|r rest IH]; cbn [imx477_write_regs].
  - apply sound_ret.
  - apply sound_bind_checked; [apply sound_imx477_write_reg|exact IH].
Qed.

Lemma sound_modify_long_exp_shift (ok : unit -> bool) (g : imx477 -> Z) :
  sound ok (modify (fun s => set_long_exp_shift s (g s))).
Proof.
  apply sound_silent; [intros s; now split|].
  apply preserves_modify. intros s. apply frame_set_long_exp_shift.
Qed.

Lemma refused_client a a' b b' :
  client a' = client a -> client b' = client b ->
  refused_unchecked_only a b -> refused_unchecked_only a' b'.
Proof. unfold refused_unchecked_only. intros -> ->. exact id. Qed.

Lemma sound_set_frame_length_loop n : forall v,
  sound always (set_frame_length_loop n v).
Proof.
  induction n as [|n IH]; intros v; cbn [set_frame_length_loop].
  - apply sound_ret.
  - destruct (v >? IMX477_FRAME_LENGTH_MAX); [|apply sound_ret].
    apply sound_bind_dropped; [|intros _; apply IH].
    apply (sound_modify_long_exp_shift always
             (fun s => u32 (long_exp_shift s + 1))).
Qed.

Lemma sound_imx477_set_frame_length v : sound is_ok (imx477_set_frame_length v).
Proof.
  unfold imx477_set_frame_length.
  apply sound_bind_dropped;
    [apply (sound_modify_long_exp_shift always (fun _ => 0))|intros _].
  apply sound_bind_dropped; [apply sound_set_frame_length_loop|intros v'].
  apply sound_bind_checked; [apply sound_imx477_write_reg|].
  apply sound_bind_dropped; [apply sound_gets|intros sh].
  apply sound_imx477_write_reg.
Qed.

Lemma imx477_set_ctrl_apply_eq id s :
  imx477_set_ctrl_apply id s =
    if rpm_active (pm s) && (0 <? usage_count (pm s)) then
      let s1 := set_pm s {| usage_count := usage_count (pm s) + 1;
                            rpm_active := rpm_active (pm s) |} in
      (fst (ctrl_switch id s1 s1),
       snd (pm_runtime_put (snd (ctrl_switch id s1 s1))))
    else (OK, s).
Proof.
  unfold imx477_set_ctrl_apply, bind, pm_runtime_get_if_in_use, gets.
  destruct (_ && _); [|reflexivity]. cbn [Z.eqb]. cbv zeta.
  fold (ctrl_switch id (set_pm s {| usage_count := usage_count (pm s) + 1;
                                    rpm_active := rpm_active (pm s) |})).
  destruct (ctrl_switch _ _ _) as [r s2]. cbn [fst snd].
  now destruct (pm_runtime_put s2).
Qed.

Lemma sound_ctrl_switch id s0 : sound is_ok (ctrl_switch id s0).
Proof.
  unfold ctrl_switch. cbv zeta.
  destruct id;
    first [apply sound_imx477_write_reg
          |apply sound_imx477_set_frame_length
          |apply sound_ret].
Qed.

Lemma pm_runtime_put_client s : client (snd (pm_runtime_put s)) = client s.
Proof. unfold pm_runtime_put. now destruct (_ && _). Qed.

Lemma sound_imx477_set_ctrl_apply id : sound is_ok (imx477_set_ctrl_apply id).
Proof.
  intros s Hs.
  pose proof (frame_imx477_set_ctrl_apply id s) as Fr.
  pose proof (same_ctrls_imx477_set_ctrl_apply id s) as Sc.
  split; [|split; [exact Fr|]].
  { apply (settled_same s); [exact Sc| |exact Hs]. apply Fr. }
  clear Fr Sc. rewrite imx477_set_ctrl_apply_eq.
  destruct (rpm_active (pm s) && (0 <? usage_count (pm s))).
  2:{ intros _. now apply refused_same_log. }
  cbv zeta. set (s1 := set_pm s _).
  assert (Hs1 : exposure_settled s1) by exact Hs.
  destruct (sound_ctrl_switch id s1 s1 Hs1) as (_ & _ & B3).
  cbn [fst snd]. intros Hok.
  refine (refused_client s1 s _ _ _ _ (B3 Hok));
    [reflexivity|apply pm_runtime_put_client].
Qed.

Lemma sound_imx477_adjust_exposure_range : sound always imx477_adjust_exposure_range.
Proof.
  intros s Hs. unfold imx477_adjust_exposure_range, bind, gets.
  unfold v4l2_ctrl_modify_range_with.
  unfold exposure_settled in Hs. unfold exposure in *.
  set (emax := s32 (u32 (u32 (height (mode s) + val (vblank s))
                         - IMX477_EXPOSURE_OFFSET))) in *.
  set (e := ctrls s V4L2_CID_EXPOSURE) in *.
  replace (Z.min emax (val e)) with (val e) by lia.
  destruct (_ || _).
  - cbn [snd ret]. split; [exact Hs|]. split; [apply frame_refl|].
    intros _. now apply refused_same_log.
  - cbn [val ctrl_with_range].
    replace (clamp (val e) (minimum e) emax) with (val e)
      by (unfold clamp; lia).
    rewrite Z.eqb_refl. cbn [snd ret fst].
    split; [|split; [now apply frame_set_ctrl_of|]].
    + unfold exposure_settled, exposure, vblank.
      rewrite set_ctrl_of_same. cbn. exact Hs.
    + intros _. now apply refused_same_log.
Qed.

Lemma sound_imx477_set_ctrl id : sound is_ok (imx477_set_ctrl id).
Proof.
  unfold imx477_set_ctrl. apply sound_bind_dropped.
  - destruct id; first [apply sound_imx477_adjust_exposure_range|apply sound_ret].
  - intros _. apply sound_imx477_set_ctrl_apply.
Qed.

Lemma sound_v4l2_ctrl_handler_setup ids :
  sound is_ok (v4l2_ctrl_handler_setup_with imx477_set_ctrl ids).
Proof.
  induction ids as [|id rest IH]; cbn [v4l2_ctrl_handler_setup_with].
  - apply sound_ret.
  - apply sound_bind_dropped; [apply sound_gets|intros ro].
    destruct ro; [exact IH|].
    apply sound_bind_checked; [apply sound_imx477_set_ctrl|exact IH].
Qed.

Lemma sound_modify_common_regs_written (ok : unit -> bool) b :
  sound ok (modify (fun s => set_common_regs_written s b)).
Proof.
  apply sound_silent; [intros s; now split|].
  apply preserves_modify. intros s. apply frame_set_common_regs_written.
Qed.

Lemma sound_start_blocks : sound is_ok start_blocks.
Proof.
  unfold start_blocks.
  apply sound_bind_dropped; [apply sound_gets|intros written].
  apply sound_bind_checked.
  - destruct (negb written); [|apply sound_ret].
    apply (sound_bind is_ok is_ok); [apply sound_imx477_write_regs| |].
    + intros r. apply sound_bind_checked.
      * destruct r; [|apply sound_ret].
        apply sound_bind_dropped; [apply sound_gets|intros extra].
        apply sound_imx477_write_regs.
      * apply sound_bind_dropped;
          [apply sound_modify_common_regs_written|intros _; apply sound_ret].
    + intros [|e] s1; [discriminate|reflexivity].
  - apply sound_bind_dropped; [apply sound_gets|intros regs].
    apply sound_imx477_write_regs.
Qed.

Lemma sound_start_replay_and_go : sound is_ok start_replay_and_go.
Proof.
  unfold start_replay_and_go.
  apply sound_bind_dropped; [apply sound_gets|intros dpc]. cbv zeta.
  apply sound_bind_dropped;
    [apply sound_imx477_write_reg_unchecked;
       [vm_compute; tauto|unfold IMX477_REG_VALUE_08BIT; lia]|intros _].
  apply sound_bind_dropped;
    [apply sound_imx477_write_reg_unchecked;
       [vm_compute; tauto|unfold IMX477_REG_VALUE_08BIT; lia]|intros _].
  apply sound_bind_checked; [apply sound_v4l2_ctrl_handler_setup|].
  apply sound_bind_dropped; [apply sound_gets|intros s0]. cbv zeta.
  do 4 (apply sound_bind_dropped;
        [apply sound_imx477_write_reg_unchecked;
           [vm_compute; tauto|unfold IMX477_REG_VALUE_08BIT; lia]|intros _]).
  apply sound_imx477_write_reg.
Qed.

Lemma sound_imx477_start_streaming : sound is_ok imx477_start_streaming.
Proof.
  intros s Hs.
  pose proof (sound_bind_checked start_blocks start_replay_and_go
                sound_start_blocks sound_start_replay_and_go s Hs) as H.
  unfold bind in H. rewrite imx477_start_streaming_split.
  destruct (start_blocks s) as [[|e] s1]; exact H.
Qed.

(** A call that succeeded from Standby saw no refused transfer other than
    unchecked ones. *)
Lemma imx477_set_stream_ok_refused s :
  streaming s = false ->
  fst (pm_runtime_get_sync s) = OK ->
  exposure_settled s ->
  fst (imx477_set_stream 1 s) = OK ->
  refused_unchecked_only s (snd (imx477_set_stream 1 s)).
Proof.
  intros Hst Hp Hs Hok.
  destruct (imx477_set_stream_success s Hst Hp Hok) as (S1 & _ & _ & S4).
  destruct (pm_runtime_get_sync_ok s Hp)
    as (_ & _ & _ & _ & _ & G6 & G7 & G8 & _).
  set (s1 := snd (pm_runtime_get_sync s)) in *.
  assert (Hs1 : exposure_settled s1) by (apply (settled_same s); assumption).
  destruct (sound_imx477_start_streaming s1 Hs1) as (_ & _ & A).
  refine (refused_client s1 s _ _ (eq_sym G6) S4 (A _)).
  unfold is_ok. now rewrite S1.
Qed.

(* ------------------------------------------------------------------ *)
(** ** A bus that refuses unchecked writes only *)

Lemma good_frame s s' : frame s s' -> good s -> good s'.
Proof.
  intros (_ & A2 & _ & _ & A6 & _ & _ & _ & _ & A11 & A12 & _)
         [Hb (R1 & R2 & R3 & R4)].
  split.
  - intros n buf. rewrite A11. apply Hb.
  - unfold attached. rewrite !A12, A2, A6. auto.
Qed.

Lemma succeeds_bind_checked (m k : M retcode) :
  succeeds m -> preserves frame m -> succeeds k ->
  succeeds (r <- m ;; match r with OK => k | ERR e => ret (ERR e) end).
Proof.
  intros Hm Hf Hk s Hg. unfold bind.
  specialize (Hm s Hg). specialize (Hf s).
  destruct (m s) as [r s1]. cbn [fst snd] in *. subst r.
  apply Hk. eapply good_frame; eassumption.
Qed.

Lemma succeeds_bind_any {A} (m : M A) (k : A -> M retcode) :
  preserves frame m -> (forall a, succeeds (k a)) -> succeeds (bind m k).
Proof.
  intros Hf Hk s Hg. unfold bind. specialize (Hf s).
  destruct (m s) as [a s1]. cbn [snd] in Hf.
  apply Hk. eapply good_frame; eassumption.
Qed.

Lemma succeeds_imx477_write_reg reg len v :
  ~ In (u16 reg) unchecked_regs -> 0 <= len <= 4 ->
  succeeds (imx477_write_reg reg len v).
Proof.
  intros Hn Hl s [Hb _]. rewrite imx477_write_reg_eq by lia. cbn [fst].
  destruct (i2c_fail _ _ _) eqn:Ef; [|reflexivity].
  apply Hb in Ef. rewrite buf_addr_reg_buf in Ef by lia. contradiction.
Qed.

Lemma succeeds_imx477_write_regs regs :
  regs_checked regs = true -> succeeds (imx477_write_regs regs).
Proof.
  induction regs as [|r rest IH]; cbn [regs_checked forallb imx477_write_regs].
  - intros _ s _. reflexivity.
  - intros H. apply andb_prop in H. destruct H as [Hr Hrest].
    apply succeeds_bind_checked;
      [|apply frame_imx477_write_reg|apply IH; exact Hrest].
    apply succeeds_imx477_write_reg; [|lia].
    intros Hin. apply negb_true_iff in Hr.
    assert (existsb (Z.eqb (u16 (address r))) unchecked_regs = true).
    { apply existsb_exists. exists (u16 (address r)).
      split; [exact Hin|apply Z.eqb_refl]. }
    congruence.
Qed.

(** Closes [~ In c l] for a concrete register and list. *)
Ltac reg_not_unchecked :=
  let H := fresh in
  vm_compute; intros H;
  repeat (destruct H as [H|H]; [discriminate H|]); exact H.

Lemma succeeds_imx477_set_frame_length v : succeeds (imx477_set_frame_length v).
Proof.
  unfold imx477_set_frame_length.
  apply succeeds_bind_any;
    [apply preserves_modify; intros s; apply frame_set_long_exp_shift|intros _].
  apply succeeds_bind_any; [apply frame_set_frame_length_loop|intros v'].
  apply succeeds_bind_checked; [|apply frame_imx477_write_reg|].
  - apply succeeds_imx477_write_reg;
      [reg_not_unchecked|unfold IMX477_REG_VALUE_16BIT; lia].
  - apply succeeds_bind_any; [apply (preserves_gets _ frame_refl)|intros sh].
    apply succeeds_imx477_write_reg;
      [reg_not_unchecked|unfold IMX477_REG_VALUE_08BIT; lia].
Qed.

Lemma succeeds_ctrl_switch id s0 :
  id <> V4L2_CID_PIXEL_RATE -> id <> V4L2_CID_LINK_FREQ ->
  succeeds (ctrl_switch id s0).
Proof.
  intros H1 H2. unfold ctrl_switch. cbv zeta.
  destruct id; try contradiction;
    first [apply succeeds_imx477_set_frame_length
          |apply succeeds_imx477_write_reg;
             [reg_not_unchecked
             |unfold IMX477_REG_VALUE_16BIT; lia]].
Qed.

Lemma good_set_pm s p : good s -> good (set_pm s p).
Proof. exact id. Qed.

Lemma succeeds_imx477_set_ctrl_apply id :
  id <> V4L2_CID_PIXEL_RATE -> id <> V4L2_CID_LINK_FREQ ->
  succeeds (imx477_set_ctrl_apply id).
Proof.
  intros H1 H2 s Hg. rewrite imx477_set_ctrl_apply_eq.
  destruct (_ && _); [|reflexivity]. cbv zeta. cbn [fst].
  apply succeeds_ctrl_switch; assumption.
Qed.

Lemma succeeds_imx477_set_ctrl id :
  id <> V4L2_CID_PIXEL_RATE -> id <> V4L2_CID_LINK_FREQ ->
  succeeds (imx477_set_ctrl id).
Proof.
  intros H1 H2. unfold imx477_set_ctrl. apply succeeds_bind_any.
  - destruct id; first [apply frame_imx477_adjust_exposure_range
                       |apply (preserves_ret _ frame_refl)].
  - intros _. now apply succeeds_imx477_set_ctrl_apply.
Qed.

Lemma succeeds___v4l2_ctrl_handler_setup : succeeds __v4l2_ctrl_handler_setup.
Proof.
  unfold __v4l2_ctrl_handler_setup, ctrl_registration_order.
  assert (Skip : forall id rest,
             (id = V4L2_CID_PIXEL_RATE \/ id = V4L2_CID_LINK_FREQ) ->
             succeeds (v4l2_ctrl_handler_setup_with imx477_set_ctrl rest) ->
             succeeds (v4l2_ctrl_handler_setup_with imx477_set_ctrl (id :: rest))).
  { intros id rest Hid Hrest s Hg. cbn [v4l2_ctrl_handler_setup_with].
    unfold bind at 1. unfold gets.
    assert (R : read_only (ctrls s id) = true).
    { destruct Hg as [_ (R1 & R2 & _)]. now destruct Hid as [-> | ->]. }
    rewrite R. now apply Hrest. }
  assert (Step : forall id rest,
             id <> V4L2_CID_PIXEL_RATE -> id <> V4L2_CID_LINK_FREQ ->
             succeeds (v4l2_ctrl_handler_setup_with imx477_set_ctrl rest) ->
             succeeds (v4l2_ctrl_handler_setup_with imx477_set_ctrl (id :: rest))).
  { intros id rest H1 H2 Hrest. cbn [v4l2_ctrl_handler_setup_with].
    apply succeeds_bind_any; [apply (preserves_gets _ frame_refl)|intros ro].
    destruct ro; [exact Hrest|].
    apply succeeds_bind_checked;
      [now apply succeeds_imx477_set_ctrl|apply frame_imx477_set_ctrl|exact Hrest]. }
  apply Skip; [now left|]. apply Skip; [now right|].
  repeat (apply Step; [discriminate|discriminate|]).
  intros s _. reflexivity.
Qed.

Lemma catalogue_regs_checked :
  regs_checked mode_common_regs = true /\
  regs_checked imx378_regs = true /\
  forallb (fun m => regs_checked (reg_list m))
          (supported_modes_12bit ++ supported_modes_10bit) = true.
Proof. vm_compute. repeat split. Qed.

Lemma succeeds_start_blocks : succeeds start_blocks.
Proof.
  intros s Hg.
  destruct catalogue_regs_checked as (Cc & Ce & Cm).
  assert (He : regs_checked (extra_regs (compatible_data s)) = true).
  { destruct Hg as [_ (_ & _ & _ & [-> | ->])]; [reflexivity|exact Ce]. }
  assert (Hm : regs_checked (reg_list (mode s)) = true).
  { destruct Hg as [_ (_ & _ & Hin & _)].
    rewrite forallb_forall in Cm. now apply Cm. }
  assert (Tail : forall s1, good s1 -> mode s1 = mode s ->
            fst ((regs <- gets (fun s => reg_list (mode s)) ;;
                  imx477_write_regs regs) s1) = OK).
  { intros s1 Hg1 E. unfold bind, gets. rewrite E.
    now apply succeeds_imx477_write_regs. }
  unfold start_blocks. unfold bind at 1. unfold gets at 1.
  destruct (negb (common_regs_written s)).
  2:{ unfold bind at 1. unfold ret at 1. now apply Tail. }
  unfold bind at 1. unfold bind at 1.
  pose proof (succeeds_imx477_write_regs _ Cc s Hg) as W1.
  pose proof (frame_imx477_write_regs mode_common_regs s) as F1.
  destruct (imx477_write_regs mode_common_regs s) as [r1 s1].
  cbn [fst snd] in *. subst r1.
  assert (Hg1 : good s1) by (eapply good_frame; eassumption).
  unfold bind at 1. unfold bind at 1. unfold gets at 1.
  assert (E1 : compatible_data s1 = compatible_data s) by apply F1.
  rewrite E1.
  pose proof (succeeds_imx477_write_regs _ He s1 Hg1) as W2.
  pose proof (frame_imx477_write_regs (extra_regs (compatible_data s)) s1) as F2.
  destruct (imx477_write_regs (extra_regs (compatible_data s)) s1) as [r2 s2].
  cbn [fst snd] in *. subst r2.
  unfold bind at 1. unfold modify, ret.
  apply Tail.
  - apply (good_frame s2); [apply frame_set_common_regs_written|].
    eapply good_frame; eassumption.
  - cbn [mode set_common_regs_written].
    destruct F1 as (_ & M1 & _). destruct F2 as (_ & M2 & _). congruence.
Qed.

Lemma succeeds_start_replay_and_go : succeeds start_replay_and_go.
Proof.
  unfold start_replay_and_go.
  apply succeeds_bind_any; [apply (preserves_gets _ frame_refl)|intros dpc].
  cbv zeta.
  do 2 (apply succeeds_bind_any; [apply frame_imx477_write_reg|intros _]).
  apply succeeds_bind_checked;
    [apply succeeds___v4l2_ctrl_handler_setup
    |apply frame___v4l2_ctrl_handler_setup|].
  apply succeeds_bind_any; [apply (preserves_gets _ frame_refl)|intros s0].
  cbv zeta.
  do 4 (apply succeeds_bind_any; [apply frame_imx477_write_reg|intros _]).
  apply succeeds_imx477_write_reg;
    [reg_not_unchecked|unfold IMX477_REG_VALUE_08BIT; lia].
Qed.

Lemma frame_start_blocks : preserves frame start_blocks.
Proof.
  unfold start_blocks. frame_steps.
  apply preserves_modify. intros s. apply frame_set_common_regs_written.
Qed.

Lemma succeeds_imx477_start_streaming : succeeds imx477_start_streaming.
Proof.
  intros s Hg. rewrite imx477_start_streaming_split.
  pose proof (succeeds_start_blocks s Hg) as B.
  pose proof (frame_start_blocks s) as Fb.
  destruct (start_blocks s) as [r s1]. cbn [fst snd] in *. subst r.
  apply succeeds_start_replay_and_go. eapply good_frame; eassumption.
Qed.

(** With such a bus the call from Standby succeeds. *)
Lemma imx477_set_stream_succeeds s :
  streaming s = false ->
  fst (pm_runtime_get_sync s) = OK ->
  good s ->
  fst (imx477_set_stream 1 s) = OK.
Proof.
  intros Hst Hp Hg. rewrite (imx477_set_stream_on_eq s Hst Hp).
  destruct (pm_runtime_get_sync_ok s Hp)
    as (_ & _ & _ & _ & _ & G6 & G7 & G8 & G9).
  set (s1 := snd (pm_runtime_get_sync s)) in *.
  assert (Hg1 : good s1).
  { destruct Hg as [Hb (R1 & R2 & R3 & R4)]. split.
    - intros n buf. rewrite G6. apply Hb.
    - unfold attached. rewrite G7, G8, G9. auto. }
  now rewrite (succeeds_imx477_start_streaming s1 Hg1).
Qed.

Lemma imx477_start_streaming_block_failure s k :
  common_regs_written s = false ->
  first_fail (i2c_fail (client s)) (length (i2c_log (client s)))
             (map reg_msg (start_program s)) = Some k ->
  fst (imx477_start_streaming s) = ERR EIO /\
  i2c_log (client (snd (imx477_start_streaming s))) =
    i2c_log (client s) ++ firstn (S k) (map reg_msg (start_program s)).
Proof.
  intros Hw Hk. rewrite imx477_start_streaming_split.
  pose proof (start_blocks_eq s Hw) as B. cbv zeta in B. rewrite Hk in B.
  destruct B as (s' & E & _ & L). rewrite E. now split.
Qed.

Lemma imx477_set_stream_block_failure s k :
  streaming s = false ->
  fst (pm_runtime_get_sync s) = OK ->
  common_regs_written s = false ->
  first_fail (i2c_fail (client s)) (length (i2c_log (client s)))
             (map reg_msg (start_program s)) = Some k ->
  fst (imx477_set_stream 1 s) = ERR EIO /\
  i2c_log (client (snd (imx477_set_stream 1 s))) =
    i2c_log (client s) ++ firstn (S k) (map reg_msg (start_program s)).
Proof.
  intros Hst Hp Hw Hk. rewrite (imx477_set_stream_on_eq s Hst Hp).
  destruct (pm_runtime_get_sync_ok s Hp)
    as (_ & _ & _ & _ & G5 & G6 & _ & G8 & G9).
  set (s1 := snd (pm_runtime_get_sync s)) in *.
  assert (Hw1 : common_regs_written s1 = false) by congruence.
  assert (Hk1 : first_fail (i2c_fail (client s1)) (length (i2c_log (client s1)))
                  (map reg_msg (start_program s1)) = Some k).
  { unfold start_program. rewrite G6, G8, G9. exact Hk. }
  destruct (imx477_start_streaming_block_failure s1 k Hw1 Hk1) as [E L].
  rewrite E. cbn [fst snd]. split; [reflexivity|].
  rewrite pm_runtime_put_client, L. unfold start_program.
  now rewrite G6, G8, G9.
Qed.

(** A start sequence that succeeds ends with the accepted mode-select
    write. *)
Lemma start_replay_and_go_last s :
  fst (start_replay_and_go s) = OK ->
  last (i2c_log (client (snd (start_replay_and_go s)))) [] = [0x01; 0x00; 0x01].
Proof.
  unfold start_replay_and_go, bind, gets.
  repeat match goal with
         | |- context [let (_, _) := imx477_write_reg ?a ?b ?c ?x in _] =>
             destruct (imx477_write_reg a b c x) as [? ?]
         | |- context [let (_, _) := __v4l2_ctrl_handler_setup ?x in _] =>
             destruct (__v4l2_ctrl_handler_setup x) as [[|?] ?]
         end; try discriminate.
  cbv zeta.
  repeat match goal with
         | |- context [let (_, _) := imx477_write_reg ?a ?b ?c ?x in _] =>
             destruct (imx477_write_reg a b c x) as [? ?]
         end.
  intros _. rewrite imx477_write_reg_eq by (unfold IMX477_REG_VALUE_08BIT; lia).
  cbn [snd]. rewrite bus_push_log, last_last. reflexivity.
Qed.

Lemma imx477_set_stream_ok_last s :
  streaming s = false ->
  fst (pm_runtime_get_sync s) = OK ->
  fst (imx477_set_stream 1 s) = OK ->
  last (i2c_log (client (snd (imx477_set_stream 1 s)))) [] = [0x01; 0x00; 0x01].
Proof.
  intros Hst Hp Hok.
  destruct (imx477_set_stream_success s Hst Hp Hok) as (S1 & _ & _ & S4).
  rewrite S4. revert S1. rewrite imx477_start_streaming_split.
  destruct (start_blocks _) as [[|e] s1]; [|discriminate].
  apply start_replay_and_go_last.
Qed.

Lemma imx477_set_stream_on_idempotent_witness :
  let s1 := snd (imx477_set_stream 1 (probed_linux bus_ok)) in
  streaming s1 = true /\
  imx477_set_stream 1 s1 = (OK, s1) /\
  length (i2c_log (client (snd (imx477_set_stream 1 s1)))) = 437%nat.
Proof.
  intros s1.
  assert (H : fst (imx477_set_stream 1 (probed_linux bus_ok)) = OK)
    by (vm_compute; reflexivity).
  destruct (proj2 imx477_set_stream_on_idempotent (probed_linux bus_ok) H)
    as (A1 & A2 & A3 & _).
  split; [exact A1|]. split; [exact A2|].
  fold s1 in A3. rewrite A3. vm_compute. reflexivity.
Defined.

(* ------------------------------------------------------------------ *)
(** ** Wire format and read-back *)

(** The buffer of a write, byte by byte. *)
Lemma reg_buf_cases reg len v :
  0 <= len <= 4 ->
  let a := u16 reg in
  let x := u32 v mod 2 ^ (8 * len) in
  reg_buf reg len v =
    [a / 256; a mod 256]
    ++ skipn (Z.to_nat (4 - len))
         [x / 2 ^ 24; (x / 2 ^ 16) mod 256; (x / 2 ^ 8) mod 256; x mod 256].
Proof.
  intros Hl a x. subst x.
  unfold reg_buf, put_unaligned_be16, put_unaligned_be32.
  fold a. set (w := u32 v).
  assert (Hr : 0 <= a < 65536)
    by (subst a; unfold u16; change (2 ^ 16) with 65536;
        apply Z.mod_pos_bound; lia).
  assert (Hv : 0 <= w < 4294967296)
    by (subst w; unfold u32; change (2 ^ 32) with 4294967296;
        apply Z.mod_pos_bound; lia).
  clearbody a w. unfold u32.
  assert (C : len = 0 \/ len = 1 \/ len = 2 \/ len = 3 \/ len = 4) by lia.
  destruct C as [-> | [-> | [-> | [-> | ->]]]];
    match goal with
    | |- firstn (Z.to_nat ?n) _ = _ ++ skipn (Z.to_nat ?k) _ =>
        let n' := eval vm_compute in (Z.to_nat n) in
        let k' := eval vm_compute in (Z.to_nat k) in
        change (Z.to_nat n) with n'; change (Z.to_nat k) with k'
    end;
    cbn [app firstn skipn];
    rewrite ?land_255, ?Z.shiftr_div_pow2, ?Z.shiftl_mul_pow2 by lia;
    cbn [Z.mul Z.sub Z.add Z.opp Z.pos_sub Pos.mul Pos.add Pos.succ
         Z.succ_double Z.pred_double Z.double Pos.pred_double];
    change (2 ^ 0) with 1; change (2 ^ 8) with 256;
    change (2 ^ 16) with 65536; change (2 ^ 24) with 16777216;
    change (2 ^ 32) with 4294967296;
    repeat match goal with |- (_ :: _) = (_ :: _) => apply f_equal2 end;
    try reflexivity; Z.div_mod_to_equations; lia.
Qed.

(** Splits a length between 0 and 4 into its five cases and evaluates the
    list surgery on the buffer. *)
Ltac by_length len :=
  let C := fresh "C" in
  assert (C : len = 0 \/ len = 1 \/ len = 2 \/ len = 3 \/ len = 4) by lia;
  destruct C as [-> | [-> | [-> | [-> | ->]]]];
  repeat match goal with
    | |- context [Z.to_nat ?n] =>
        let n' := eval vm_compute in (Z.to_nat n) in
        change (Z.to_nat n) with n'
    end;
  cbn [app firstn skipn length repeat Nat.sub nth];
  cbn [Z.mul Z.sub Z.add Z.opp Z.pos_sub Pos.mul Pos.add Pos.succ
       Z.succ_double Z.pred_double Z.double Pos.pred_double Z.of_nat
       Pos.of_succ_nat];
  change (2 ^ 0) with 1; change (2 ^ 8) with 256;
  change (2 ^ 16) with 65536; change (2 ^ 24) with 16777216;
  change (2 ^ 32) with 4294967296.

Lemma payload_reg_buf reg len v :
  0 <= len <= 4 ->
  get_unaligned_be32 (payload (reg_buf reg len v)) = u32 v mod 2 ^ (8 * len).
Proof.
  intros Hl. unfold payload. rewrite (reg_buf_cases reg len v Hl).
  cbv zeta. unfold get_unaligned_be32.
  assert (Hv : 0 <= u32 v < 4294967296)
    by (unfold u32; change (2 ^ 32) with 4294967296;
        apply Z.mod_pos_bound; lia).
  revert Hv. generalize (u32 v) (u16 reg). intros w a Hv.
  by_length len; Z.div_mod_to_equations; lia.
Qed.

(** X1: [imx477_write_reg] refuses a length above 4 with [-EINVAL] before
    touching the bus.  For a length up to 4 it hands the bus exactly one
    buffer of [len + 2] bytes: the register address, high byte first, then
    the low [len] bytes of the value, most significant first. *)
Theorem imx477_write_reg_wire_format :
  forall (reg len v : Z) (s : imx477),
    0 <= len ->
    (4 < len -> imx477_write_reg reg len v s = (ERR EINVAL, s)) /\
    (len <= 4 ->
     let buf := reg_buf reg len v in
     i2c_log (client (snd (imx477_write_reg reg len v s)))
       = i2c_log (client s) ++ [buf] /\
     Z.of_nat (length buf) = len + 2 /\
     Forall (fun b => 0 <= b < 256) buf /\
     buf_addr buf = u16 reg /\
     get_unaligned_be32 (payload buf) = u32 v mod 2 ^ (8 * len)).
Proof.
  intros reg len v s H0. split.
  - intros H4. unfold imx477_write_reg.
    now replace (len >? 4) with true by (symmetry; apply Z.gtb_lt; lia).
  - intros H4 buf. split.
    { rewrite imx477_write_reg_eq by exact H4. apply bus_push_log. }
    assert (Hl : 0 <= len <= 4) by lia.
    split; [|split; [|split]].
    + subst buf. rewrite (reg_buf_cases reg len v Hl). cbv zeta.
      by_length len; reflexivity.
    + subst buf. rewrite (reg_buf_cases reg len v Hl). cbv zeta.
      assert (Hr : 0 <= u16 reg < 65536)
        by (unfold u16; change (2 ^ 16) with 65536;
            apply Z.mod_pos_bound; lia).
      assert (Hv : 0 <= u32 v < 4294967296)
        by (unfold u32; change (2 ^ 32) with 4294967296;
            apply Z.mod_pos_bound; lia).
      revert Hr Hv. generalize (u32 v) (u16 reg). intros w a Hr Hv.
      by_length len; repeat constructor; Z.div_mod_to_equations; lia.
    + now apply buf_addr_reg_buf.
    + now apply payload_reg_buf.
Qed.

Lemma imx477_write_reg_wire_format_witness :
  imx477_write_reg IMX477_REG_ANALOG_GAIN 5 978 (probed_linux bus_ok)
    = (ERR EINVAL, probed_linux bus_ok) /\
  reg_buf IMX477_REG_ANALOG_GAIN 2 978 = [0x02; 0x04; 0x03; 0xd2] /\
  get_unaligned_be32 (payload (reg_buf IMX477_REG_ANALOG_GAIN 2 978)) = 978.
Proof.
  split.
  - apply (imx477_write_reg_wire_format IMX477_REG_ANALOG_GAIN 5 978); lia.
  - split; [vm_compute; reflexivity|].
    destruct (imx477_write_reg_wire_format IMX477_REG_ANALOG_GAIN 2 978
                (probed_linux bus_ok) ltac:(lia)) as [_ W].
    destruct (W ltac:(lia)) as (_ & _ & _ & _ & D). exact D.
Defined.

(** X2: what [imx477_write_reg] puts on the wire reads back through
    [imx477_read_reg]: if the sensor answers a read of [len] bytes at [reg]
    with the data bytes of the write buffer, the value read is the value
    written, reduced to [len] bytes. *)
Theorem imx477_read_reg_reads_back_write :
  forall (dev : i2c_device) (reg len v : Z),
    0 <= len <= 4 ->
    echoes dev reg len v ->
    imx477_read_reg dev reg len = inl (u32 v mod 2 ^ (8 * len)).
Proof.
  intros dev reg len v Hl He. unfold imx477_read_reg.
  destruct (len >? 4) eqn:E4; [apply Z.gtb_lt in E4; lia|].
  unfold echoes in He. rewrite He. f_equal.
  rewrite <- (payload_reg_buf reg len v Hl). f_equal. unfold payload.
  rewrite (reg_buf_cases reg len v Hl). cbv zeta.
  by_length len; reflexivity.
Qed.

Lemma imx477_read_reg_reads_back_write_witness :
  imx477_read_reg (fun _ _ => Some [0x03; 0xd2]) IMX477_REG_ANALOG_GAIN 2
  = inl 978.
Proof.
  apply (imx477_read_reg_reads_back_write (fun _ _ => Some [0x03; 0xd2])
           IMX477_REG_ANALOG_GAIN 2 978); [lia|reflexivity].
Defined.

(** X3: [imx477_identify_module] reads two bytes at 0x0016 and accepts the
    sensor exactly when they spell the expected id, high byte first.  A
    failed transfer and a different id both give [-EIO]. *)
Theorem imx477_identify_module_accepts_expected_id_only :
  forall (dev : i2c_device) (expected_id : Z),
    0 <= expected_id < 2 ^ 32 ->
    (dev [0x00; 0x16] 2 = None ->
     imx477_identify_module dev expected_id = ERR EIO) /\
    (forall hi lo, 0 <= hi < 256 -> 0 <= lo < 256 ->
       dev [0x00; 0x16] 2 = Some [hi; lo] ->
       imx477_identify_module dev expected_id =
         if hi * 256 + lo =? expected_id then OK else ERR EIO).
Proof.
  intros dev id Hid.
  assert (A : [u8 (Z.shiftr (u16 IMX477_REG_CHIP_ID) 8);
               u8 (Z.land (u16 IMX477_REG_CHIP_ID) 0xff)] = [0x00; 0x16])
    by reflexivity.
  unfold imx477_identify_module, imx477_read_reg. cbv zeta. rewrite A.
  change IMX477_REG_VALUE_16BIT with 2.
  change (2 >? 4) with false. cbv iota.
  split.
  - intros ->. reflexivity.
  - intros hi lo Hh Hlo ->.
    change (get_unaligned_be32
              (repeat 0 (Z.to_nat (4 - 2)) ++ firstn (Z.to_nat 2) [hi; lo]))
      with (0 * 2 ^ 24 + 0 * 2 ^ 16 + hi * 2 ^ 8 + lo).
    replace (0 * 2 ^ 24 + 0 * 2 ^ 16 + hi * 2 ^ 8 + lo) with (hi * 256 + lo)
      by lia.
    unfold u32. rewrite (Z.mod_small id) by lia.
    destruct (hi * 256 + lo =? id); reflexivity.
Qed.

(** The two variants tell each other's sensor apart. *)
Lemma imx477_identify_module_accepts_expected_id_only_witness :
  let sensor : i2c_device := fun _ _ => Some [0x04; 0x77] in
  imx477_identify_module sensor (chip_id imx477_compatible) = OK /\
  imx477_identify_module sensor (chip_id imx378_compatible) = ERR EIO.
Proof.
  intros sensor. split.
  - destruct (imx477_identify_module_accepts_expected_id_only sensor
                (chip_id imx477_compatible)) as [_ H]; [cbn; lia|].
    apply (H 0x04 0x77); [lia|lia|reflexivity].
  - destruct (imx477_identify_module_accepts_expected_id_only sensor
                (chip_id imx378_compatible)) as [_ H]; [cbn; lia|].
    apply (H 0x04 0x77); [lia|lia|reflexivity].
Defined.

(* ------------------------------------------------------------------ *)
(** ** Register lists, composed *)

(** X4: writing the concatenation of two register lists is writing the
    first and, only if every write of it was accepted, the second. *)
Theorem imx477_write_regs_app :
  forall (a b : list imx477_reg) (s : imx477),
    imx477_write_regs (a ++ b) s =
      (r <- imx477_write_regs a ;;
       match r with
       | OK => imx477_write_regs b
       | ERR e => ret (ERR e)
       end) s.
Proof.
  induction a as [|x a IH]; intros b s.
  - reflexivity.
  - cbn [app imx477_write_regs]. unfold bind at 1 2 3.
    destruct (imx477_write_reg (address x) 1 (reg_val x) s) as [[|e] s1].
    + rewrite IH. reflexivity.
    + reflexivity.
Qed.

(* ------------------------------------------------------------------ *)
(** ** Codes, tables and frame sizes *)

Section Formats.
Context `{F : media_bus_format}.

Lemma codes_in_cases c :
  In c codes ->
  exists g k, (g = 0 \/ g = 1) /\ 0 <= k < 4 /\
              c = nth (Z.to_nat (4 * g + k)) codes 0.
Proof.
  intros Hc. destruct (In_nth codes c 0 Hc) as (n & Hn & E).
  rewrite codes_length in Hn.
  exists (Z.of_nat n / 4), (Z.of_nat n mod 4).
  split; [Z.div_mod_to_equations; lia|].
  split; [Z.div_mod_to_equations; lia|].
  rewrite <- E. f_equal. Z.div_mod_to_equations. lia.
Qed.

(** The resolver answers with the flip variant of a group, and for a code
    of the table that group is the code's own. *)
Lemma imx477_get_format_code_group s c :
  exists g, (g = 0 \/ g = 1) /\
    imx477_get_format_code s c =
      nth (Z.to_nat (4 * g + flip_index (hflip_on s) (vflip_on s))) codes 0 /\
    get_mode_table (imx477_get_format_code s c) = group_table g /\
    (In c codes -> get_mode_table c = group_table g).
Proof.
  pose proof (flip_index_range (hflip_on s) (vflip_on s)) as R.
  destruct (in_dec Z.eq_dec c codes) as [Hc|Hc].
  - destruct (codes_in_cases c Hc) as (g & k & Hg & Hk & ->).
    exists g. split; [exact Hg|].
    rewrite imx477_get_format_code_variant by assumption.
    split; [reflexivity|]. split; [|intros _].
    + now apply get_mode_table_variant.
    + now apply get_mode_table_variant.
  - exists 0. split; [now left|].
    rewrite imx477_get_format_code_fallback by assumption.
    split; [reflexivity|]. split; [|contradiction].
    apply (get_mode_table_variant 0); [now left|exact R].
Qed.

(** The resolver looks at the state only through the two flip values. *)
Lemma imx477_get_format_code_flips s1 s2 c :
  val (hflip s2) = val (hflip s1) -> val (vflip s2) = val (vflip s1) ->
  imx477_get_format_code s2 c = imx477_get_format_code s1 c.
Proof.
  intros Hh Hv. unfold imx477_get_format_code. now rewrite Hh, Hv.
Qed.

(** Resolving a resolved code, under the same or under other flips. *)
Lemma imx477_get_format_code_again s1 s2 c :
  imx477_get_format_code s2 (imx477_get_format_code s1 c)
    = imx477_get_format_code s2 c.
Proof.
  pose proof (flip_index_range (hflip_on s1) (vflip_on s1)) as R1.
  destruct (imx477_get_format_code_group s1 c) as (g & Hg & E1 & _).
  rewrite E1. rewrite imx477_get_format_code_variant by assumption.
  destruct (in_dec Z.eq_dec c codes) as [Hc|Hc].
  - destruct (codes_in_cases c Hc) as (g' & k & Hg' & Hk & ->).
    rewrite imx477_get_format_code_variant by assumption.
    rewrite imx477_get_format_code_variant in E1 by assumption.
    apply codes_nth_inj in E1; [|lia|lia].
    assert (g' = g) by lia. now subst g'.
  - rewrite imx477_get_format_code_fallback by assumption.
    rewrite imx477_get_format_code_fallback in E1 by assumption.
    apply codes_nth_inj in E1; [|lia|lia].
    assert (g = 0) by lia. now subst g.
Qed.

(** X5: resolving an already resolved code changes nothing more, also
    when the flips changed in between: the answer depends on the format
    group of the code and on the current flips only.  For a code of the
    table the resolved code selects the same mode table as the code. *)
Theorem imx477_get_format_code_absorbs :
  forall (s1 s2 : imx477) (c : Z),
    imx477_get_format_code s2 (imx477_get_format_code s1 c)
      = imx477_get_format_code s2 c /\
    (In c codes ->
     get_mode_table (imx477_get_format_code s1 c) = get_mode_table c).
Proof.
  intros s1 s2 c. split; [apply imx477_get_format_code_again|].
  destruct (imx477_get_format_code_group s1 c) as (g & _ & _ & T1 & T).
  intros Hc. now rewrite T1, T.
Qed.

(** The two mode tables share no entry, and every entry has a width. *)
Lemma group_table_disjoint g1 g2 m :
  (g1 = 0 \/ g1 = 1) -> (g2 = 0 \/ g2 = 1) ->
  In m (group_table g1) -> In m (group_table g2) -> g1 = g2.
Proof.
  intros [-> | ->] [-> | ->]; try reflexivity; cbn;
    intros H1 H2; exfalso;
    repeat (destruct H1 as [H1|H1]; [subst m|]); try contradiction;
    repeat (destruct H2 as [H2|H2]; [discriminate H2|]); contradiction.
Qed.

Lemma group_table_sizes g m :
  (g = 0 \/ g = 1) -> In m (group_table g) -> 0 < width m /\ 0 < height m.
Proof.
  intros [-> | ->]; cbn; intros H;
    repeat (destruct H as [H|H]; [subst m; cbn; lia|]); contradiction.
Qed.

(** In one table, the size names the mode. *)
Lemma group_table_size_inj g m1 m2 :
  (g = 0 \/ g = 1) -> In m1 (group_table g) -> In m2 (group_table g) ->
  width m1 = width m2 -> height m1 = height m2 -> m1 = m2.
Proof.
  intros [-> | ->]; cbn; intros H1 H2;
    repeat (destruct H1 as [H1|H1]; [subst m1|]); try contradiction;
    repeat (destruct H2 as [H2|H2]; [subst m2|]); try contradiction;
    cbn; intros; try reflexivity; try discriminate.
Qed.

End Formats.

Lemma imx477_get_format_code_absorbs_witness :
  let s := probed_linux bus_ok in
  @get_mode_table linux_media_bus_format
    (@imx477_get_format_code linux_media_bus_format s 0x300e)
  = @get_mode_table linux_media_bus_format 0x300e.
Proof.
  intros s.
  apply (proj2 (@imx477_get_format_code_absorbs linux_media_bus_format s s 0x300e)).
  vm_compute. tauto.
Defined.

Section FrameSizes.
Context `{F : media_bus_format}.

(** [imx477_enum_frame_size] on the image pad, spelled out. *)
Lemma imx477_enum_frame_size_image s fse :
  fse_pad fse = IMAGE_PAD -> 0 <= fse_index fse ->
  let c := fse_code fse in
  let table := get_mode_table c in
  imx477_enum_frame_size s fse =
    if (fse_index fse <? Z.of_nat (length table))
       && (c =? imx477_get_format_code s c)
    then
      let m := nth (Z.to_nat (fse_index fse)) table (mode s) in
      (OK, with_sizes fse (width m) (height m))
    else (ERR EINVAL, fse).
Proof.
  intros Hp Hi c table. unfold imx477_enum_frame_size. rewrite Hp.
  change (IMAGE_PAD >=? NUM_PADS) with false.
  change (IMAGE_PAD =? IMAGE_PAD) with true. cbv iota zeta.
  fold c. fold table. rewrite Z.geb_leb.
  destruct (Z.leb_spec (Z.of_nat (length table)) (fse_index fse)) as [L|L].
  - replace (fse_index fse <? Z.of_nat (length table)) with false
      by (symmetry; apply Z.ltb_ge; lia). reflexivity.
  - replace (fse_index fse <? Z.of_nat (length table)) with true
      by (symmetry; apply Z.ltb_lt; lia).
    cbn [andb]. destruct (c =? imx477_get_format_code s c); reflexivity.
Qed.

(** X6: the codes [imx477_enum_mbus_code] lists for the image pad are
    exactly the codes for which [imx477_enum_frame_size] lists a size. *)
Theorem imx477_enum_frame_size_accepts_enumerated_codes :
  forall (s : imx477) (c : Z),
    (exists i, 0 <= i /\
               imx477_enum_mbus_code s IMAGE_PAD i = (OK, Some c)) <->
    (exists fse',
       imx477_enum_frame_size s (frame_size_query IMAGE_PAD 0 c)
         = (OK, fse')).
Proof.
  intros s c.
  pose proof (flip_index_range (hflip_on s) (vflip_on s)) as R.
  rewrite imx477_enum_frame_size_image by (cbn; lia).
  cbn [fse_code fse_index frame_size_query]. cbv zeta.
  split.
  - intros (i & Hi & E). unfold imx477_enum_mbus_code in E.
    change (IMAGE_PAD >=? NUM_PADS) with false in E.
    change (IMAGE_PAD =? IMAGE_PAD) with true in E. cbv iota in E.
    rewrite codes_length in E. change (Z.of_nat 8 / 4) with 2 in E.
    destruct (i >=? 2) eqn:Ei; [discriminate|].
    rewrite Z.geb_leb in Ei. apply Z.leb_gt in Ei.
    assert (E' : imx477_get_format_code s (nth (Z.to_nat (i * 4)) codes 0) = c)
      by congruence.
    clear E. rename E' into E.
    assert (Hg : i = 0 \/ i = 1) by lia.
    replace (i * 4) with (4 * i + 0) in E by lia.
    rewrite imx477_get_format_code_variant in E by (assumption || lia).
    subst c.
    rewrite imx477_get_format_code_variant by assumption.
    rewrite Z.eqb_refl, get_mode_table_variant by assumption.
    destruct Hg as [-> | ->]; cbn; eexists; reflexivity.
  - intros (fse' & E).
    destruct (0 <? Z.of_nat (length (get_mode_table c))) eqn:El;
      [|discriminate].
    destruct (c =? imx477_get_format_code s c) eqn:Ec; [|discriminate].
    apply Z.eqb_eq in Ec.
    destruct (imx477_get_format_code_group s c) as (g & Hg & Eg & _).
    exists g. split; [lia|].
    unfold imx477_enum_mbus_code.
    change (IMAGE_PAD >=? NUM_PADS) with false.
    change (IMAGE_PAD =? IMAGE_PAD) with true. cbv iota.
    rewrite codes_length. change (Z.of_nat 8 / 4) with 2.
    replace (g >=? 2) with false
      by (symmetry; rewrite Z.geb_leb; apply Z.leb_gt; lia).
    f_equal. f_equal.
    replace (g * 4) with (4 * g + 0) by lia.
    rewrite imx477_get_format_code_variant by (assumption || lia).
    congruence.
Qed.

(** Distance zero under the resolver's order means the same size. *)
Lemma nearer_exact m m' w h :
  width m = w -> height m = h -> 0 < w ->
  nearer (size_distance m w h) (size_distance m' w h) = false ->
  width m' = w /\ height m' = h.
Proof.
  intros Hw Hh Hpos N. apply nearer_false in N.
  unfold size_distance in N. cbn [fst snd] in N. rewrite Hw, Hh in N.
  replace (w * h - w * h) with 0 in N by lia.
  replace (w - w) with 0 in N by lia. cbn in N.
  assert (A : width m' * height m' = w * h) by lia.
  assert (B : width m' = w) by lia.
  split; [exact B|]. rewrite B in A. nia.
Qed.

(** X7: a size [imx477_enum_frame_size] lists for a code is one
    [imx477_set_pad_format] grants as asked: the format comes back with
    that width, height and code. *)
Theorem imx477_set_pad_format_grants_enumerated_size :
  forall (s : imx477) (sd : v4l2_subdev_state)
         (fse fse' : v4l2_subdev_frame_size_enum) (fmt : v4l2_subdev_format),
    fse_pad fse = IMAGE_PAD -> 0 <= fse_index fse ->
    imx477_enum_frame_size s fse = (OK, fse') ->
    pad fmt = IMAGE_PAD ->
    code (format fmt) = fse_code fse ->
    fmt_width (format fmt) = min_width fse' ->
    fmt_height (format fmt) = min_height fse' ->
    exists sd' fmt' s',
      imx477_set_pad_format sd fmt s = (Some (OK, sd', fmt'), s') /\
      fmt_width (format fmt') = min_width fse' /\
      fmt_height (format fmt') = min_height fse' /\
      code (format fmt') = fse_code fse /\
      max_width fse' = min_width fse' /\
      max_height fse' = min_height fse'.
Proof.
  intros s sd fse fse' fmt Hp Hi E Hpad Hc Hw Hh.
  rewrite imx477_enum_frame_size_image in E by assumption. cbv zeta in E.
  destruct (fse_index fse <? _) eqn:El; [|discriminate].
  destruct (fse_code fse =? _) eqn:Ec; [|discriminate].
  cbn [andb] in E. injection E as <-.
  apply Z.ltb_lt in El. apply Z.eqb_eq in Ec.
  cbn [min_width min_height max_width max_height with_sizes] in *.
  set (table := get_mode_table (fse_code fse)) in *.
  set (m := nth (Z.to_nat (fse_index fse)) table (mode s)) in *.
  assert (Hm : In m table) by (apply nth_In; lia).
  destruct (imx477_get_format_code_group s (fse_code fse))
    as (g & Hg & _ & T & _).
  assert (RT : resolved_table s (code (format fmt)) = group_table g)
    by (unfold resolved_table; now rewrite Hc).
  assert (TT : table = group_table g)
    by (subst table; rewrite Ec at 1; exact T).
  destruct (imx477_set_pad_format_image_total sd fmt s Hpad)
    as (m' & sd' & fmt' & s' & Es & Hin & Hnear & W' & H' & C' & _).
  exists sd', fmt', s'. split; [exact Es|].
  rewrite RT in Hin, Hnear. rewrite TT in Hm.
  destruct (group_table_sizes g m Hg Hm) as [Pw Ph].
  destruct (nearer_exact m m' (width m) (height m) eq_refl eq_refl Pw)
    as [Ew Eh].
  { rewrite <- Hw, <- Hh. now apply Hnear. }
  rewrite W', H', C', Hc. repeat split; congruence.
Qed.

End FrameSizes.

Lemma imx477_set_pad_format_grants_enumerated_size_witness :
  let s := probed_linux bus_ok in
  let fse := frame_size_query IMAGE_PAD 2 0x3012 in
  let fmt := request V4L2_SUBDEV_FORMAT_TRY IMAGE_PAD 0x3012 2028 1080 in
  exists fse' sd' fmt' s',
    @imx477_enum_frame_size linux_media_bus_format s fse = (OK, fse') /\
    (min_width fse', min_height fse') = (2028, 1080) /\
    @imx477_set_pad_format linux_media_bus_format blank_sd_state fmt s
      = (Some (OK, sd', fmt'), s') /\
    (fmt_width (format fmt'), fmt_height (format fmt'), code (format fmt'))
      = (2028, 1080, 0x3012).
Proof.
  intros s fse fmt.
  assert (E : @imx477_enum_frame_size linux_media_bus_format s fse
              = (OK, with_sizes fse 2028 1080)) by (vm_compute; reflexivity).
  destruct (@imx477_set_pad_format_grants_enumerated_size
              linux_media_bus_format s blank_sd_state fse
              (with_sizes fse 2028 1080) fmt eq_refl ltac:(cbn; lia) E
              eq_refl eq_refl eq_refl eq_refl)
    as (sd' & fmt' & s' & Es & W & H & C & _).
  exists (with_sizes fse 2028 1080), sd', fmt', s'.
  split; [exact E|]. split; [reflexivity|]. split; [exact Es|].
  rewrite W, H, C. reflexivity.
Defined.

Lemma imx477_enum_frame_size_accepts_enumerated_codes_witness :
  exists fse',
    @imx477_enum_frame_size linux_media_bus_format (probed_linux bus_ok)
      (frame_size_query IMAGE_PAD 0 0x300f) = (OK, fse').
Proof.
  apply (proj1 (@imx477_enum_frame_size_accepts_enumerated_codes
                  linux_media_bus_format (probed_linux bus_ok) 0x300f)).
  exists 1. split; [lia|]. vm_compute. reflexivity.
Defined.

(* ------------------------------------------------------------------ *)
(** ** Which controls a call may touch *)

Lemma kept_refl L s : kept L s s.
Proof. now intros id _. Qed.

Lemma kept_trans L a b c : kept L a b -> kept L b c -> kept L a c.
Proof. intros H1 H2 id Hid. now rewrite H2, H1. Qed.

Lemma kept_same_ctrls L s s' : same_ctrls s s' -> kept L s s'.
Proof. intros H id _. unfold same_ctrls in H. now rewrite H. Qed.

Lemma kept_set_ctrl_of L s id c : In id L -> kept L s (set_ctrl_of s id c).
Proof.
  intros Hin j Hj. unfold set_ctrl_of. cbn.
  destruct (ctrl_id_eq_dec j id); [now subst|reflexivity].
Qed.

Lemma kept_imx477_set_ctrl_apply L id :
  preserves (kept L) (imx477_set_ctrl_apply id).
Proof.
  intros s. apply kept_same_ctrls, same_ctrls_imx477_set_ctrl_apply.
Qed.

Section KeptFramework.
Variable L : list ctrl_id.
Variable s_ctrl : ctrl_id -> M retcode.
Hypothesis s_ctrl_kept : forall id, preserves (kept L) (s_ctrl id).

Lemma kept_v4l2_ctrl_modify_range_with id mn mx st df :
  In id L ->
  preserves (kept L) (v4l2_ctrl_modify_range_with s_ctrl id mn mx st df).
Proof.
  intros Hin s. unfold v4l2_ctrl_modify_range_with.
  destruct (_ || _); [apply kept_refl|]. cbv zeta.
  destruct (_ =? _).
  - now apply kept_set_ctrl_of.
  - eapply kept_trans; [|apply s_ctrl_kept]. now apply kept_set_ctrl_of.
Qed.

Lemma kept_v4l2_ctrl_s_ctrl_with id v :
  In id L -> preserves (kept L) (v4l2_ctrl_s_ctrl_with s_ctrl id v).
Proof.
  intros Hin s. unfold v4l2_ctrl_s_ctrl_with. cbv zeta.
  eapply kept_trans; [|apply s_ctrl_kept]. now apply kept_set_ctrl_of.
Qed.

Lemma kept_v4l2_ctrl_handler_setup_with ids :
  preserves (kept L) (v4l2_ctrl_handler_setup_with s_ctrl ids).
Proof.
  induction ids as [|id ids IH]; intros s.
  - apply kept_refl.
  - cbn [v4l2_ctrl_handler_setup_with]. unfold bind at 1. unfold gets.
    destruct (read_only (ctrls s id)); [apply IH|].
    unfold bind. pose proof (s_ctrl_kept id s) as K.
    destruct (s_ctrl id s) as [[|e] s1]; cbn [snd] in K.
    + eapply kept_trans; [exact K|apply IH].
    + exact K.
Qed.

End KeptFramework.

Lemma kept_imx477_adjust_exposure_range L :
  In V4L2_CID_EXPOSURE L -> preserves (kept L) imx477_adjust_exposure_range.
Proof.
  intros Hin s. unfold imx477_adjust_exposure_range.
  unfold bind at 1. unfold gets. cbv zeta. unfold bind, ret.
  pose proof (kept_v4l2_ctrl_modify_range_with L imx477_set_ctrl_apply
                (kept_imx477_set_ctrl_apply L) V4L2_CID_EXPOSURE
                (minimum (exposure s))
                (s32 (u32 (u32 (height (mode s) + val (vblank s))
                           - IMX477_EXPOSURE_OFFSET)))
                (step (exposure s))
                (Z.min (s32 (u32 (u32 (height (mode s) + val (vblank s))
                                  - IMX477_EXPOSURE_OFFSET)))
                       (val (exposure s))) Hin s) as K.
  destruct (v4l2_ctrl_modify_range_with _ _ _ _ _ _ s) as [r s1].
  exact K.
Qed.

Lemma kept_imx477_set_ctrl L id :
  In V4L2_CID_EXPOSURE L -> preserves (kept L) (imx477_set_ctrl id).
Proof.
  intros Hin s. unfold imx477_set_ctrl. unfold bind.
  assert (K : kept L s
               (snd ((match id with
                      | V4L2_CID_VBLANK => imx477_adjust_exposure_range
                      | _ => ret tt
                      end) s))).
  { destruct id; try apply kept_refl.
    now apply kept_imx477_adjust_exposure_range. }
  destruct ((match id with
             | V4L2_CID_VBLANK => imx477_adjust_exposure_range
             | _ => ret tt
             end) s) as [u s1]. cbn [snd] in K.
  eapply kept_trans; [exact K|apply kept_imx477_set_ctrl_apply].
Qed.

(** The control a range update or a value update is aimed at, afterwards. *)
Lemma __v4l2_ctrl_modify_range_ctrl id mn mx st df s :
  id <> V4L2_CID_EXPOSURE ->
  (st =? 0) || (mx <? mn) || (df <? mn) || (mx <? df) = false ->
  ctrls (snd (__v4l2_ctrl_modify_range id mn mx st df s)) id =
    ctrl_with_val (ctrl_with_range (ctrls s id) mn mx st df)
                  (clamp (val (ctrls s id)) mn mx).
Proof.
  intros Hid Hr. unfold __v4l2_ctrl_modify_range, v4l2_ctrl_modify_range_with.
  rewrite Hr. cbv zeta. cbn [val ctrl_with_range].
  destruct (clamp (val (ctrls s id)) mn mx =? val (ctrls s id)) eqn:E.
  - cbn [snd]. rewrite set_ctrl_of_same. apply Z.eqb_eq in E. rewrite E.
    reflexivity.
  - rewrite (kept_imx477_set_ctrl [V4L2_CID_EXPOSURE] id (or_introl eq_refl)).
    + now rewrite set_ctrl_of_same.
    + intros [H|[]]. congruence.
Qed.

Lemma __v4l2_ctrl_s_ctrl_ctrl id v s :
  id <> V4L2_CID_EXPOSURE ->
  ctrls (snd (__v4l2_ctrl_s_ctrl id v s)) id =
    ctrl_with_val (ctrls s id)
                  (clamp v (minimum (ctrls s id)) (maximum (ctrls s id))).
Proof.
  intros Hid. unfold __v4l2_ctrl_s_ctrl, v4l2_ctrl_s_ctrl_with. cbv zeta.
  rewrite (kept_imx477_set_ctrl [V4L2_CID_EXPOSURE] id (or_introl eq_refl)).
  - now rewrite set_ctrl_of_same.
  - intros [H|[]]. congruence.
Qed.

Lemma kept___v4l2_ctrl_modify_range L id mn mx st df :
  In V4L2_CID_EXPOSURE L -> In id L ->
  preserves (kept L) (__v4l2_ctrl_modify_range id mn mx st df).
Proof.
  intros HE Hid. apply kept_v4l2_ctrl_modify_range_with; [|exact Hid].
  intros j. now apply kept_imx477_set_ctrl.
Qed.

Lemma kept___v4l2_ctrl_s_ctrl L id v :
  In V4L2_CID_EXPOSURE L -> In id L ->
  preserves (kept L) (__v4l2_ctrl_s_ctrl id v).
Proof.
  intros HE Hid. apply kept_v4l2_ctrl_s_ctrl_with; [|exact Hid].
  intros j. now apply kept_imx477_set_ctrl.
Qed.

Lemma kept___v4l2_ctrl_handler_setup L :
  In V4L2_CID_EXPOSURE L -> preserves (kept L) __v4l2_ctrl_handler_setup.
Proof.
  intros HE. apply kept_v4l2_ctrl_handler_setup_with.
  intros j. now apply kept_imx477_set_ctrl.
Qed.

(* ------------------------------------------------------------------ *)
(** ** Framing limits *)

Lemma imx477_set_framing_limits_eq s :
  let m := mode s in
  snd (imx477_set_framing_limits s) =
    snd (__v4l2_ctrl_s_ctrl V4L2_CID_HBLANK (hblank_min m)
      (snd (__v4l2_ctrl_modify_range V4L2_CID_HBLANK (hblank_min m)
              IMX477_LINE_LENGTH_MAX 1 (hblank_min m)
        (snd (__v4l2_ctrl_s_ctrl V4L2_CID_VBLANK (vblank_def m)
          (snd (__v4l2_ctrl_modify_range V4L2_CID_VBLANK (vblank_min m)
                  (vblank_max m) 1 (vblank_def m)
                  (set_long_exp_shift s 0)))))))).
Proof.
  cbv zeta. unfold imx477_set_framing_limits.
  unfold bind at 1. unfold gets. cbv zeta.
  unfold bind at 1. unfold modify.
  fold (vblank_min (mode s)). fold (vblank_max (mode s)).
  fold (vblank_def (mode s)). fold (hblank_min (mode s)).
  unfold bind at 1.
  destruct (__v4l2_ctrl_modify_range V4L2_CID_VBLANK _ _ _ _ _) as [r1 s1].
  cbn [snd]. unfold bind at 1.
  destruct (__v4l2_ctrl_s_ctrl V4L2_CID_VBLANK _ s1) as [r2 s2].
  cbn [snd]. unfold bind at 1.
  destruct (__v4l2_ctrl_modify_range V4L2_CID_HBLANK _ _ _ _ s2) as [r3 s3].
  cbn [snd]. unfold bind at 1.
  destruct (__v4l2_ctrl_s_ctrl V4L2_CID_HBLANK _ s3) as [r4 s4].
  reflexivity.
Qed.

Lemma clamp_inside v lo hi : lo <= v <= hi -> clamp v lo hi = v.
Proof. unfold clamp. lia. Qed.

Lemma imx477_set_framing_limits_ctrls s :
  let m := mode s in
  vblank_min m <= vblank_def m <= vblank_max m ->
  hblank_min m <= IMX477_LINE_LENGTH_MAX ->
  let s' := snd (imx477_set_framing_limits s) in
  vblank s' =
    ctrl_with_val
      (ctrl_with_range (vblank s) (vblank_min m) (vblank_max m) 1 (vblank_def m))
      (vblank_def m) /\
  hblank s' =
    ctrl_with_val
      (ctrl_with_range (hblank s) (hblank_min m) IMX477_LINE_LENGTH_MAX 1
                       (hblank_min m))
      (hblank_min m) /\
  kept [V4L2_CID_EXPOSURE; V4L2_CID_VBLANK; V4L2_CID_HBLANK] s s'.
Proof.
  intros m Hv Hh s'. subst s'. rewrite imx477_set_framing_limits_eq.
  fold m.
  set (s0 := set_long_exp_shift s 0).
  set (s1 := snd (__v4l2_ctrl_modify_range V4L2_CID_VBLANK _ _ _ _ s0)).
  set (s2 := snd (__v4l2_ctrl_s_ctrl V4L2_CID_VBLANK _ s1)).
  set (s3 := snd (__v4l2_ctrl_modify_range V4L2_CID_HBLANK _ _ _ _ s2)).
  set (s4 := snd (__v4l2_ctrl_s_ctrl V4L2_CID_HBLANK _ s3)).
  assert (NV : (1 =? 0) || (vblank_max m <? vblank_min m)
               || (vblank_def m <? vblank_min m)
               || (vblank_max m <? vblank_def m) = false).
  { replace (vblank_max m <? vblank_min m) with false
      by (symmetry; apply Z.ltb_ge; lia).
    replace (vblank_def m <? vblank_min m) with false
      by (symmetry; apply Z.ltb_ge; lia).
    replace (vblank_max m <? vblank_def m) with false
      by (symmetry; apply Z.ltb_ge; lia).
    reflexivity. }
  assert (NH : (1 =? 0) || (IMX477_LINE_LENGTH_MAX <? hblank_min m)
               || (hblank_min m <? hblank_min m)
               || (IMX477_LINE_LENGTH_MAX <? hblank_min m) = false).
  { replace (IMX477_LINE_LENGTH_MAX <? hblank_min m) with false
      by (symmetry; apply Z.ltb_ge; lia).
    now rewrite Z.ltb_irrefl. }
  set (LV := [V4L2_CID_EXPOSURE; V4L2_CID_VBLANK]).
  set (LH := [V4L2_CID_EXPOSURE; V4L2_CID_HBLANK]).
  assert (K01 : kept LV s0 s1)
    by (apply kept___v4l2_ctrl_modify_range; cbn; auto).
  assert (K12 : kept LV s1 s2)
    by (apply kept___v4l2_ctrl_s_ctrl; cbn; auto).
  assert (K23 : kept LH s2 s3)
    by (apply kept___v4l2_ctrl_modify_range; cbn; auto).
  assert (K34 : kept LH s3 s4)
    by (apply kept___v4l2_ctrl_s_ctrl; cbn; auto).
  assert (NVH : ~ In V4L2_CID_VBLANK LH)
    by (cbn; intros [H|[H|[]]]; discriminate H).
  assert (NHV : ~ In V4L2_CID_HBLANK LV)
    by (cbn; intros [H|[H|[]]]; discriminate H).
  assert (V1 : ctrls s1 V4L2_CID_VBLANK =
               ctrl_with_val
                 (ctrl_with_range (vblank s) (vblank_min m) (vblank_max m) 1
                                  (vblank_def m))
                 (clamp (val (vblank s)) (vblank_min m) (vblank_max m))).
  { subst s1. rewrite __v4l2_ctrl_modify_range_ctrl by (discriminate || exact NV).
    reflexivity. }
  assert (V2 : ctrls s2 V4L2_CID_VBLANK =
               ctrl_with_val
                 (ctrl_with_range (vblank s) (vblank_min m) (vblank_max m) 1
                                  (vblank_def m))
                 (vblank_def m)).
  { subst s2. rewrite __v4l2_ctrl_s_ctrl_ctrl by discriminate.
    rewrite V1. cbn [minimum maximum ctrl_with_val ctrl_with_range].
    rewrite (clamp_inside (vblank_def m)) by lia. reflexivity. }
  assert (H2 : ctrls s2 V4L2_CID_HBLANK = hblank s).
  { rewrite (K12 _ NHV), (K01 _ NHV). reflexivity. }
  assert (H3 : ctrls s3 V4L2_CID_HBLANK =
               ctrl_with_val
                 (ctrl_with_range (hblank s) (hblank_min m)
                                  IMX477_LINE_LENGTH_MAX 1 (hblank_min m))
                 (clamp (val (hblank s)) (hblank_min m) IMX477_LINE_LENGTH_MAX)).
  { subst s3. rewrite __v4l2_ctrl_modify_range_ctrl by (discriminate || exact NH).
    now rewrite H2. }
  split; [|split].
  - unfold vblank at 1. now rewrite (K34 _ NVH), (K23 _ NVH).
  - unfold hblank at 1. subst s4.
    rewrite __v4l2_ctrl_s_ctrl_ctrl by discriminate.
    rewrite H3. cbn [minimum maximum ctrl_with_val ctrl_with_range].
    rewrite (clamp_inside (hblank_min m)) by lia. reflexivity.
  - intros id Hid.
    assert (N1 : ~ In id LV) by (intros H; apply Hid; cbn in *; tauto).
    assert (N2 : ~ In id LH) by (intros H; apply Hid; cbn in *; tauto).
    now rewrite (K34 _ N2), (K23 _ N2), (K12 _ N1), (K01 _ N1).
Qed.

(** The limits every catalogue mode gives. *)
Lemma catalogue_limits m :
  In m (supported_modes_12bit ++ supported_modes_10bit) ->
  vblank_min m <= vblank_def m <= vblank_max m /\
  hblank_min m <= IMX477_LINE_LENGTH_MAX /\
  height m + vblank_min m = imx477_get_frame_length m (timeperframe_min m) /\
  height m + vblank_def m = imx477_get_frame_length m (timeperframe_default m) /\
  height m + vblank_max m = 128 * IMX477_FRAME_LENGTH_MAX /\
  width m + hblank_min m = line_length_pix m.
Proof.
  cbn [app supported_modes_12bit supported_modes_10bit In].
  intros H.
  repeat (destruct H as [H|H];
          [subst m; vm_compute; intuition discriminate|]).
  contradiction.
Qed.

(** X8: [imx477_set_framing_limits], which probe and every change of mode
    run, resets the frame timing to the current mode's own: the line is
    the mode's line length, the frame is the mode's default frame length,
    the vertical blank may range from the mode's shortest frame up to 128
    times the longest the frame-length register holds.  Controls other than
    the two blanking controls and the exposure are not touched. *)
Theorem imx477_set_framing_limits_resets_timing :
  forall s : imx477,
    In (mode s) (supported_modes_12bit ++ supported_modes_10bit) ->
    let m := mode s in
    let s' := snd (imx477_set_framing_limits s) in
    width m + val (hblank s') = line_length_pix m /\
    height m + val (vblank s') =
      imx477_get_frame_length m (timeperframe_default m) /\
    height m + minimum (vblank s') =
      imx477_get_frame_length m (timeperframe_min m) /\
    height m + maximum (vblank s') = 128 * IMX477_FRAME_LENGTH_MAX /\
    minimum (hblank s') = val (hblank s') /\
    maximum (hblank s') = IMX477_LINE_LENGTH_MAX /\
    (forall id, id <> V4L2_CID_EXPOSURE -> id <> V4L2_CID_VBLANK ->
                id <> V4L2_CID_HBLANK -> ctrls s' id = ctrls s id) /\
    mode s' = m /\ fmt_code s' = fmt_code s.
Proof.
  intros s Hm m s'.
  destruct (catalogue_limits m Hm) as (L1 & L2 & L3 & L4 & L5 & L6).
  destruct (imx477_set_framing_limits_ctrls s L1 L2) as (V & H & K).
  fold s' in V, H, K. rewrite V, H.
  cbn [val minimum maximum ctrl_with_val ctrl_with_range].
  repeat (split; [assumption || reflexivity|]).
  split.
  { intros id H1 H2 H3. apply K. cbn. intros [E|[E|[E|[]]]]; congruence. }
  pose proof (frame_imx477_set_framing_limits s) as (A1 & A2 & _).
  split; [exact A2|exact A1].
Qed.

Lemma imx477_set_framing_limits_resets_timing_witness :
  let s := probed_linux bus_ok in
  let s' := snd (imx477_set_framing_limits s) in
  (width (mode s), height (mode s), line_length_pix (mode s))
    = (4056, 3040, 24000) /\
  width (mode s) + val (hblank s') = line_length_pix (mode s) /\
  height (mode s) + val (vblank s') =
    imx477_get_frame_length (mode s) (timeperframe_default (mode s)).
Proof.
  intros s s'. split; [vm_compute; reflexivity|].
  assert (Hm : In (mode s) (supported_modes_12bit ++ supported_modes_10bit))
    by (apply in_or_app; left; left; vm_compute; reflexivity).
  destruct (imx477_set_framing_limits_resets_timing s Hm) as (A & B & _).
  split; [exact A|exact B].
Defined.

(* ------------------------------------------------------------------ *)
(** ** Pad formats: consistency and round trips *)

Lemma kept_imx477_set_framing_limits L :
  In V4L2_CID_EXPOSURE L -> In V4L2_CID_VBLANK L -> In V4L2_CID_HBLANK L ->
  preserves (kept L) imx477_set_framing_limits.
Proof.
  intros HE HV HH s. rewrite imx477_set_framing_limits_eq. cbv zeta.
  eapply kept_trans; [|now apply kept___v4l2_ctrl_s_ctrl].
  eapply kept_trans; [|now apply kept___v4l2_ctrl_modify_range].
  eapply kept_trans; [|now apply kept___v4l2_ctrl_s_ctrl].
  eapply kept_trans; [|now apply kept___v4l2_ctrl_modify_range].
  intros id _. reflexivity.
Qed.

Lemma same_format_refl s : same_format s s.
Proof. now split. Qed.

Lemma same_format_trans a b c :
  same_format a b -> same_format b c -> same_format a c.
Proof. intros [A1 A2] [B1 B2]. split; congruence. Qed.

Lemma same_format_frame s s' : frame s s' -> same_format s s'.
Proof. intros (A1 & A2 & _). now split. Qed.

Lemma same_format_pm_runtime_get_sync : preserves same_format pm_runtime_get_sync.
Proof.
  intros s. unfold pm_runtime_get_sync. cbv zeta.
  destruct (rpm_active (pm s)); [now split|].
  unfold imx477_power_on. cbv zeta. cbn [rails set_pm].
  destruct (regulator_bulk_enable_ret (rails s)); [|now split].
  destruct (clk_prepare_enable_ret (rails s)); now split.
Qed.

Lemma same_format_pm_runtime_put : preserves same_format pm_runtime_put.
Proof.
  intros s. unfold pm_runtime_put. cbv zeta.
  destruct (_ && _); now split.
Qed.

Lemma same_format_imx477_stop_streaming : preserves same_format imx477_stop_streaming.
Proof.
  intros s. apply same_format_frame. revert s.
  unfold imx477_stop_streaming.
  apply (preserves_bind _ frame_trans); [apply frame_imx477_write_reg|intro].
  apply (preserves_bind _ frame_trans); [apply frame_imx477_write_reg|intro].
  apply (preserves_ret _ frame_refl).
Qed.

Lemma same_format_imx477_set_stream enable :
  preserves same_format (imx477_set_stream enable).
Proof.
  assert (G : forall id g, preserves same_format (v4l2_ctrl_grab id g))
    by (intros id g s; now split).
  assert (Tail : forall b,
            preserves same_format
              (modify (fun s => set_streaming s b) ;;
               v4l2_ctrl_grab V4L2_CID_VFLIP b ;;
               v4l2_ctrl_grab V4L2_CID_HFLIP b ;; ret OK)).
  { intros b.
    apply (preserves_bind _ same_format_trans);
      [apply preserves_modify; intros s; now split|intro].
    apply (preserves_bind _ same_format_trans); [apply G|intro].
    apply (preserves_bind _ same_format_trans); [apply G|intro].
    apply (preserves_ret _ same_format_refl). }
  unfold imx477_set_stream.
  apply (preserves_bind _ same_format_trans);
    [apply (preserves_gets _ same_format_refl)|intros b].
  destruct (_ =? _); [apply (preserves_ret _ same_format_refl)|].
  apply (preserves_bind _ same_format_trans).
  - destruct (negb _).
    + apply (preserves_bind _ same_format_trans);
        [apply same_format_pm_runtime_get_sync|intros [|e]].
      * apply (preserves_bind _ same_format_trans);
          [intros s; apply same_format_frame, frame_imx477_start_streaming
          |intros [|e]].
        -- apply (preserves_ret _ same_format_refl).
        -- apply (preserves_bind _ same_format_trans);
             [apply same_format_pm_runtime_put|intro].
           apply (preserves_ret _ same_format_refl).
      * apply (preserves_bind _ same_format_trans);
          [apply preserves_modify; intros s; now split|intro].
        apply (preserves_ret _ same_format_refl).
    + apply (preserves_bind _ same_format_trans);
        [apply same_format_imx477_stop_streaming|intro].
      apply (preserves_bind _ same_format_trans);
        [apply same_format_pm_runtime_put|intro].
      apply (preserves_ret _ same_format_refl).
  - intros [|e]; [apply Tail|apply (preserves_ret _ same_format_refl)].
Qed.

Section RoundTrips.
Context `{F : media_bus_format}.

Lemma format_consistent_same s s' :
  same_format s s' -> format_consistent s -> format_consistent s'.
Proof. intros [A B]. unfold format_consistent. now rewrite A, B. Qed.

(** A mode of the table a code selects fixes the group of the code. *)
Lemma format_consistent_group s :
  format_consistent s ->
  exists g, (g = 0 \/ g = 1) /\ In (mode s) (group_table g) /\
            forall t, imx477_get_format_code t (fmt_code s) =
                      nth (Z.to_nat (4 * g + flip_index (hflip_on t) (vflip_on t)))
                          codes 0.
Proof.
  unfold format_consistent. intros Hin.
  assert (Hc : In (fmt_code s) codes).
  { destruct (in_dec Z.eq_dec (fmt_code s) codes) as [Hc|Hc]; [exact Hc|].
    exfalso. revert Hin. unfold get_mode_table.
    assert (N : forall x, In x codes -> (fmt_code s =? x) = false).
    { intros x Hx. apply Z.eqb_neq. intros E. apply Hc. now rewrite E. }
    rewrite !N by (cbn; tauto). cbn. tauto. }
  destruct (codes_in_cases _ Hc) as (g & k & Hg & Hk & E).
  exists g. split; [exact Hg|]. split.
  - rewrite E in Hin. now rewrite get_mode_table_variant in Hin.
  - intros t. rewrite E. now apply imx477_get_format_code_variant.
Qed.

Lemma imx477_set_pad_format_other_pad sd fmt s :
  pad fmt <> IMAGE_PAD -> snd (imx477_set_pad_format sd fmt s) = s.
Proof.
  intros Hp. unfold imx477_set_pad_format.
  destruct (pad fmt >=? NUM_PADS); [reflexivity|].
  replace (pad fmt =? IMAGE_PAD) with false
    by (symmetry; now apply Z.eqb_neq).
  destruct (which fmt); reflexivity.
Qed.

Lemma format_consistent_probed compatible tm_of bus dpc tm :
  format_consistent (probed compatible tm_of bus dpc tm).
Proof.
  unfold probed.
  eapply format_consistent_same;
    [apply same_format_frame, frame_imx477_set_framing_limits|].
  unfold format_consistent. cbn [mode fmt_code].
  unfold get_mode_table. rewrite Z.eqb_refl. cbn [orb nth]. now left.
Qed.

Lemma format_consistent_imx477_set_pad_format s sd fmt :
  format_consistent s ->
  format_consistent (snd (imx477_set_pad_format sd fmt s)).
Proof.
  intros Hs.
  destruct (Z.eq_dec (pad fmt) IMAGE_PAD) as [Ep|Ep];
    [|now rewrite imx477_set_pad_format_other_pad].
  assert (Hne : resolved_table s (code (format fmt)) <> []).
  { destruct (resolved_table_cases s (code (format fmt))) as [-> | ->];
      discriminate. }
  destruct (v4l2_find_nearest_size_spec _ (fmt_width (format fmt))
              (fmt_height (format fmt)) Hne) as (m & En & Hin & _).
  rewrite (imx477_set_pad_format_image sd fmt s m Ep En). cbv zeta.
  destruct (which fmt); [exact Hs|].
  destruct (imx477_mode_eq_dec (mode s) m) as [Em|Em]; [exact Hs|].
  cbn [snd].
  eapply format_consistent_same;
    [apply same_format_frame, frame_imx477_set_framing_limits|].
  unfold format_consistent. cbn [mode fmt_code set_fmt_code set_mode].
  exact Hin.
Qed.

(** X9: the stored format code always names the table the current mode
    belongs to.  Probe establishes this, and setting a format on any pad,
    applying a control and starting or stopping the stream keep it. *)
Theorem format_consistent_invariant :
  (forall compatible tm_of bus dpc tm,
     format_consistent (probed compatible tm_of bus dpc tm)) /\
  (forall s sd fmt,
     format_consistent s ->
     format_consistent (snd (imx477_set_pad_format sd fmt s))) /\
  (forall s id,
     format_consistent s -> format_consistent (snd (imx477_set_ctrl id s))) /\
  (forall s enable,
     format_consistent s ->
     format_consistent (snd (imx477_set_stream enable s))).
Proof.
  split; [|split; [|split]].
  - apply format_consistent_probed.
  - intros s sd fmt. apply format_consistent_imx477_set_pad_format.
  - intros s id Hs.
    eapply format_consistent_same; [|exact Hs].
    apply same_format_frame, frame_imx477_set_ctrl.
  - intros s enable Hs.
    eapply format_consistent_same; [|exact Hs].
    apply same_format_imx477_set_stream.
Qed.

End RoundTrips.


Lemma format_consistent_invariant_witness :
  let s := probed_linux bus_ok in
  let fmt := request V4L2_SUBDEV_FORMAT_ACTIVE IMAGE_PAD 0x300f 640 480 in
  let s' := snd (@imx477_set_pad_format linux_media_bus_format
                   blank_sd_state fmt s) in
  (width (mode s'), height (mode s'), fmt_code s') = (1332, 990, 0x300f) /\
  @format_consistent linux_media_bus_format s'.
Proof.
  intros s fmt s'. split; [vm_compute; reflexivity|].
  exact (proj1 (proj2 (@format_consistent_invariant linux_media_bus_format))
           s blank_sd_state fmt
           (proj1 (@format_consistent_invariant linux_media_bus_format)
              imx477_compatible (-1) bus_ok 1 0)).
Defined.

Section GetAfterSet.
Context `{F : media_bus_format}.

(** [imx477_get_pad_format] for the image pad, spelled out. *)
Lemma imx477_get_pad_format_image s sd wh q :
  imx477_get_pad_format s sd (image_query wh q) =
    match wh with
    | V4L2_SUBDEV_FORMAT_TRY =>
        let f := with_code (try_fmt_img sd)
                   (imx477_get_format_code s (code (try_fmt_img sd))) in
        (OK, v4l2_subdev_set_try_format sd IMAGE_PAD f, image_query wh f)
    | V4L2_SUBDEV_FORMAT_ACTIVE =>
        (OK, sd,
         image_query wh
           (imx477_reset_colorspace
              {| fmt_width := width (mode s); fmt_height := height (mode s);
                 code := imx477_get_format_code s (fmt_code s);
                 field := V4L2_FIELD_NONE; colorspace := colorspace q;
                 ycbcr_enc := ycbcr_enc q; quantization := quantization q;
                 xfer_func := xfer_func q |}))
    end.
Proof. destruct wh; reflexivity. Qed.

Lemma nearest_mode_found s fmt :
  exists m,
    v4l2_find_nearest_size (resolved_table s (code (format fmt)))
      (fmt_width (format fmt)) (fmt_height (format fmt)) = Some m /\
    In m (resolved_table s (code (format fmt))).
Proof.
  destruct (v4l2_find_nearest_size_spec
              (resolved_table s (code (format fmt)))
              (fmt_width (format fmt)) (fmt_height (format fmt)))
    as (m & E & Hin & _).
  - destruct (resolved_table_cases s (code (format fmt))) as [-> | ->];
      discriminate.
  - now exists m.
Qed.

(** X10: an ACTIVE format set on the image pad is the format a later
    ACTIVE get returns, field by field, whatever the query carried. *)
Theorem imx477_get_pad_format_returns_active_format_set :
  forall (s s' : imx477) (sd sd' : v4l2_subdev_state)
         (fmt fmt' : v4l2_subdev_format) (q : v4l2_mbus_framefmt),
    format_consistent s ->
    pad fmt = IMAGE_PAD ->
    which fmt = V4L2_SUBDEV_FORMAT_ACTIVE ->
    imx477_set_pad_format sd fmt s = (Some (OK, sd', fmt'), s') ->
    imx477_get_pad_format s' sd' (image_query V4L2_SUBDEV_FORMAT_ACTIVE q)
      = (OK, sd', image_query V4L2_SUBDEV_FORMAT_ACTIVE (format fmt')).
Proof.
  intros s s' sd sd' fmt fmt' q Hs Hp W E.
  destruct (nearest_mode_found s fmt) as (m & En & Hin).
  rewrite (imx477_set_pad_format_image sd fmt s m Hp En), W in E.
  cbv zeta in E.
  set (c := imx477_get_format_code s (code (format fmt))) in *.
  assert (Goal_ : mode s' = m /\ imx477_get_format_code s' (fmt_code s') = c /\
                  fmt' = imx477_update_image_pad_format m
                           (with_format fmt (with_code (format fmt) c))).
  { destruct (imx477_mode_eq_dec (mode s) m) as [Em|Em].
    - injection E as _ <- <-. split; [exact Em|]. split; [|reflexivity].
      destruct (format_consistent_group s Hs) as (g & Hg & Hmg & Hcode).
      destruct (imx477_get_format_code_group s (code (format fmt)))
        as (g' & Hg' & Ec & Tc & _).
      unfold resolved_table in Hin. rewrite Tc in Hin. rewrite Em in Hmg.
      rewrite (group_table_disjoint g g' m Hg Hg' Hmg Hin) in Hcode.
      subst c. now rewrite Hcode, Ec.
    - injection E as _ <- <-.
      set (t := set_fmt_code (set_mode s m) c).
      destruct (mode_after_set_framing_limits t) as [M1 M2].
      split; [exact M1|]. split; [|reflexivity].
      rewrite M2. cbn [fmt_code t set_fmt_code].
      assert (K : kept [V4L2_CID_EXPOSURE; V4L2_CID_VBLANK; V4L2_CID_HBLANK]
                       t (snd (imx477_set_framing_limits t)))
        by (apply kept_imx477_set_framing_limits; cbn; auto).
      rewrite (imx477_get_format_code_flips s).
      + subst c. apply imx477_get_format_code_again.
      + unfold hflip. rewrite K; [reflexivity|].
        cbn; intros [H|[H|[H|[]]]]; discriminate H.
      + unfold vflip. rewrite K; [reflexivity|].
        cbn; intros [H|[H|[H|[]]]]; discriminate H. }
  destruct Goal_ as (Gm & Gc & ->).
  assert (Esd : sd' = sd).
  { destruct (imx477_mode_eq_dec (mode s) m); now injection E as <- _. }
  subst sd'.
  rewrite imx477_get_pad_format_image, Gm, Gc. reflexivity.
Qed.

(** X11: a TRY format set on the image pad leaves the driver as it was
    and is the format a later TRY get on the same file handle returns; the
    get leaves the stored try format as it is. *)
Theorem imx477_get_pad_format_returns_try_format_set :
  forall (s s' : imx477) (sd sd' : v4l2_subdev_state)
         (fmt fmt' : v4l2_subdev_format) (q : v4l2_mbus_framefmt),
    pad fmt = IMAGE_PAD ->
    which fmt = V4L2_SUBDEV_FORMAT_TRY ->
    imx477_set_pad_format sd fmt s = (Some (OK, sd', fmt'), s') ->
    s' = s /\
    imx477_get_pad_format s sd' (image_query V4L2_SUBDEV_FORMAT_TRY q)
      = (OK, sd', image_query V4L2_SUBDEV_FORMAT_TRY (format fmt')).
Proof.
  intros s s' sd sd' fmt fmt' q Hp W E.
  destruct (nearest_mode_found s fmt) as (m & En & Hin).
  rewrite (imx477_set_pad_format_image sd fmt s m Hp En), W in E.
  cbv zeta in E. injection E as <- <- <-. split; [reflexivity|].
  rewrite imx477_get_pad_format_image. rewrite Hp.
  cbn [try_fmt_img v4l2_subdev_set_try_format Z.eqb IMAGE_PAD
       imx477_update_image_pad_format with_format format
       imx477_reset_colorspace code with_code fmt_width fmt_height field].
  rewrite imx477_get_format_code_again. reflexivity.
Qed.

End GetAfterSet.

Lemma imx477_get_pad_format_returns_active_format_set_witness :
  let s := probed_linux bus_ok in
  let fmt := request V4L2_SUBDEV_FORMAT_ACTIVE IMAGE_PAD 0x300f 640 480 in
  exists sd' fmt' s',
    @imx477_set_pad_format linux_media_bus_format blank_sd_state fmt s
      = (Some (OK, sd', fmt'), s') /\
    @imx477_get_pad_format linux_media_bus_format s' sd'
      (image_query V4L2_SUBDEV_FORMAT_ACTIVE (blank_format 0 0 0))
      = (OK, sd', image_query V4L2_SUBDEV_FORMAT_ACTIVE (format fmt')).
Proof.
  intros s fmt.
  destruct (@imx477_set_pad_format_image_total linux_media_bus_format
              blank_sd_state fmt s eq_refl)
    as (m & sd' & fmt' & s' & E & _).
  exists sd', fmt', s'. split; [exact E|].
  apply (@imx477_get_pad_format_returns_active_format_set
           linux_media_bus_format s s' blank_sd_state sd' fmt fmt'
           (blank_format 0 0 0)
           (@format_consistent_probed linux_media_bus_format
              imx477_compatible (-1) bus_ok 1 0)
           eq_refl eq_refl E).
Defined.

Lemma imx477_get_pad_format_returns_try_format_set_witness :
  let s := probed_linux bus_ok in
  let fmt := request V4L2_SUBDEV_FORMAT_TRY IMAGE_PAD 0x300f 640 480 in
  exists sd' fmt' s',
    @imx477_set_pad_format linux_media_bus_format blank_sd_state fmt s
      = (Some (OK, sd', fmt'), s') /\
    s' = s /\
    @imx477_get_pad_format linux_media_bus_format s sd'
      (image_query V4L2_SUBDEV_FORMAT_TRY (blank_format 0 0 0))
      = (OK, sd', image_query V4L2_SUBDEV_FORMAT_TRY (format fmt')).
Proof.
  intros s fmt.
  destruct (@imx477_set_pad_format_image_total linux_media_bus_format
              blank_sd_state fmt s eq_refl)
    as (m & sd' & fmt' & s' & E & _).
  exists sd', fmt', s'. split; [exact E|].
  apply (@imx477_get_pad_format_returns_try_format_set
           linux_media_bus_format s s' blank_sd_state sd' fmt fmt'
           (blank_format 0 0 0) eq_refl eq_refl E).
Defined.

(* ------------------------------------------------------------------ *)
(** ** Selection rectangles and open *)

(** X12: for a current mode of the catalogue the ACTIVE crop rectangle
    lies inside the crop bounds, which are the default crop and lie inside
    the native sensor area; the crop is the output size of the mode times
    its binning factor, 1 or 2.  A target the driver does not know gives
    [-EINVAL] and leaves the rectangle alone. *)
Theorem imx477_get_selection_rectangles_nest :
  forall (s : imx477) (try_crop : Z -> v4l2_rect) (p : Z),
    In (mode s) (supported_modes_12bit ++ supported_modes_10bit) ->
    let get := fun tgt =>
      imx477_get_selection s try_crop
        (selection_query V4L2_SUBDEV_FORMAT_ACTIVE p tgt) in
    let active := r (snd (get V4L2_SEL_TGT_CROP)) in
    let bounds := r (snd (get V4L2_SEL_TGT_CROP_BOUNDS)) in
    let native := r (snd (get V4L2_SEL_TGT_NATIVE_SIZE)) in
    fst (get V4L2_SEL_TGT_CROP) = OK /\
    fst (get V4L2_SEL_TGT_CROP_BOUNDS) = OK /\
    fst (get V4L2_SEL_TGT_NATIVE_SIZE) = OK /\
    fst (get V4L2_SEL_TGT_CROP_DEFAULT) = OK /\
    r (snd (get V4L2_SEL_TGT_CROP_DEFAULT)) = bounds /\
    rect_inside active bounds /\
    rect_inside bounds native /\
    (exists k, (k = 1 \/ k = 2) /\
               rect_width active = k * width (mode s) /\
               rect_height active = k * height (mode s)) /\
    (forall n, get (V4L2_SEL_TGT_OTHER n) =
               (ERR EINVAL,
                selection_query V4L2_SUBDEV_FORMAT_ACTIVE p
                                (V4L2_SEL_TGT_OTHER n))).
Proof.
  intros s try_crop p Hm get active bounds native.
  assert (N : rect_inside bounds native)
    by (subst bounds native get; cbv - [Z.le Z.add]; lia).
  assert (A : rect_inside active bounds /\
              exists k, (k = 1 \/ k = 2) /\
                        rect_width active = k * width (mode s) /\
                        rect_height active = k * height (mode s)).
  { subst active bounds get. cbn [imx477_get_selection target selection_query
      with_r r snd __imx477_get_pad_crop sel_which sel_pad].
    revert Hm. generalize (mode s). intros m.
    cbn [app supported_modes_12bit supported_modes_10bit In]. intros H.
    repeat (destruct H as [H|H];
            [subst m; split;
             [ cbv - [Z.le Z.add]; lia
             | first [ exists 1; cbv - [Z.le Z.add Z.mul]; lia
                     | exists 2; cbv - [Z.le Z.add Z.mul]; lia ] ] |]).
    contradiction. }
  destruct A as [A1 A2].
  do 5 (split; [reflexivity|]).
  split; [exact A1|]. split; [exact N|]. split; [exact A2|].
  intros n. reflexivity.
Qed.

Lemma imx477_get_selection_rectangles_nest_witness :
  let s := probed_linux bus_ok in
  let sel := selection_query V4L2_SUBDEV_FORMAT_ACTIVE IMAGE_PAD in
  let rect_of := fun tgt =>
    r (snd (imx477_get_selection s (fun _ => r (sel V4L2_SEL_TGT_CROP))
                                 (sel tgt))) in
  rect_inside (rect_of V4L2_SEL_TGT_CROP) (rect_of V4L2_SEL_TGT_CROP_BOUNDS) /\
  rect_inside (rect_of V4L2_SEL_TGT_CROP_BOUNDS)
              (rect_of V4L2_SEL_TGT_NATIVE_SIZE).
Proof.
  intros s sel rect_of.
  assert (Hm : In (mode s) (supported_modes_12bit ++ supported_modes_10bit))
    by (apply in_or_app; left; left; vm_compute; reflexivity).
  destruct (imx477_get_selection_rectangles_nest s
              (fun _ => r (sel V4L2_SEL_TGT_CROP)) IMAGE_PAD Hm)
    as (_ & _ & _ & _ & _ & A & B & _).
  split; [exact A|exact B].
Defined.

Section Open.
Context `{F : media_bus_format}.

(** X13: a freshly opened file handle sees the default format: on a
    driver holding the default format, the TRY format of the image pad
    after [imx477_open] has the width, height, code and field of the ACTIVE
    format (4056x3040, the flip variant of the first 12-bit code), and the
    TRY crop is the ACTIVE crop.  The metadata pad gets the one embedded
    line of 16384 bytes. *)
Theorem imx477_open_try_format_is_default :
  forall (s : imx477) (sd : v4l2_subdev_state) (try_crop : Z -> v4l2_rect)
         (q : v4l2_mbus_framefmt),
    let s0 := snd (imx477_set_default_format s) in
    exists sd' try_crop',
      imx477_open s0 sd try_crop = (OK, sd', try_crop') /\
      let t := format (snd (imx477_get_pad_format s0 sd'
                              (image_query V4L2_SUBDEV_FORMAT_TRY q))) in
      let a := format (snd (imx477_get_pad_format s0 sd'
                              (image_query V4L2_SUBDEV_FORMAT_ACTIVE q))) in
      (fmt_width t, fmt_height t, code t, field t)
        = (fmt_width a, fmt_height a, code a, field a) /\
      (fmt_width t, fmt_height t) = (4056, 3040) /\
      code t = imx477_get_format_code s MEDIA_BUS_FMT_SRGGB12_1X12 /\
      (fmt_width (try_fmt_meta sd'), fmt_height (try_fmt_meta sd'),
       code (try_fmt_meta sd'))
        = (IMX477_EMBEDDED_LINE_WIDTH, IMX477_NUM_EMBEDDED_LINES,
           MEDIA_BUS_FMT_SENSOR_DATA) /\
      r (snd (imx477_get_selection s0 try_crop'
                (selection_query V4L2_SUBDEV_FORMAT_TRY IMAGE_PAD
                                 V4L2_SEL_TGT_CROP)))
      = r (snd (imx477_get_selection s0 try_crop'
                  (selection_query V4L2_SUBDEV_FORMAT_ACTIVE IMAGE_PAD
                                   V4L2_SEL_TGT_CROP))).
Proof.
  intros s sd try_crop q s0.
  assert (Ef : forall c, imx477_get_format_code s0 c
                         = imx477_get_format_code s c)
    by (intros c; apply imx477_get_format_code_flips; reflexivity).
  eexists. eexists. split; [reflexivity|]. cbv zeta.
  rewrite !imx477_get_pad_format_image.
  cbn [snd format image_query fmt_width fmt_height code field with_code
       try_fmt_img try_fmt_meta v4l2_subdev_set_try_format
       v4l2_subdev_get_try_format Z.eqb IMAGE_PAD METADATA_PAD
       imx477_reset_colorspace].
  rewrite imx477_get_format_code_again.
  repeat split.
Qed.

End Open.

(* ------------------------------------------------------------------ *)
(** ** Controls: deferred while powered down, written while in use *)

Lemma powered_down_test s :
  powered_down s -> rpm_active (pm s) && (0 <? usage_count (pm s)) = false.
Proof.
  intros [H|H].
  - now rewrite H.
  - replace (0 <? usage_count (pm s)) with false
      by (symmetry; apply Z.ltb_ge; lia).
    apply andb_false_r.
Qed.

Lemma in_use_test s :
  in_use s -> rpm_active (pm s) && (0 <? usage_count (pm s)) = true.
Proof.
  intros [Ha Hu]. rewrite Ha. now apply Z.ltb_lt in Hu as ->.
Qed.

Lemma imx477_set_ctrl_apply_powered_down id s :
  powered_down s -> imx477_set_ctrl_apply id s = (OK, s).
Proof.
  intros H. rewrite imx477_set_ctrl_apply_eq.
  now rewrite powered_down_test.
Qed.

(** The reference [imx477_set_ctrl] takes is the one it drops: after the
    transfers [l] the runtime-PM state is what it was. *)
Lemma pm_runtime_put_after_get s l :
  in_use s ->
  snd (pm_runtime_put
         (bus_push (set_pm s {| usage_count := usage_count (pm s) + 1;
                                rpm_active := rpm_active (pm s) |}) l))
  = bus_push s l.
Proof.
  intros [Ha Hu]. unfold pm_runtime_put. cbv zeta.
  cbn [pm bus_push set_client set_pm usage_count rpm_active].
  replace (usage_count (pm s) + 1 - 1) with (usage_count (pm s)) by lia.
  replace (usage_count (pm s) =? 0) with false
    by (symmetry; apply Z.eqb_neq; lia).
  cbn [andb snd]. unfold bus_push, set_client, set_pm. cbn.
  destruct s as [? ? ? ? ? ? ? ? ? [u a] ? ? ?]. reflexivity.
Qed.

(** X14: while the sensor is powered down, applying a control reaches no
    hardware: [imx477_set_ctrl] returns 0 without a transfer and without
    touching runtime PM or the supplies.  Only the vertical blank has an
    effect then, and only on the exposure control, whose range follows
    it. *)
Theorem imx477_set_ctrl_deferred_when_powered_down :
  forall (s : imx477) (id : ctrl_id),
    powered_down s ->
    let s' := snd (imx477_set_ctrl id s) in
    fst (imx477_set_ctrl id s) = OK /\
    client s' = client s /\
    pm s' = pm s /\
    rails s' = rails s /\
    long_exp_shift s' = long_exp_shift s /\
    (forall j, j <> V4L2_CID_EXPOSURE -> ctrls s' j = ctrls s j) /\
    (id <> V4L2_CID_VBLANK -> s' = s).
Proof.
  intros s id Hd s'.
  assert (Other : id <> V4L2_CID_VBLANK -> imx477_set_ctrl id s = (OK, s)).
  { intros Hid. unfold imx477_set_ctrl, bind.
    destruct id; try contradiction; cbn [ret];
      now apply imx477_set_ctrl_apply_powered_down. }
  destruct (ctrl_id_eq_dec id V4L2_CID_VBLANK) as [->|Hid].
  2:{ subst s'. rewrite (Other Hid). cbn [fst snd].
      repeat split; reflexivity. }
  clear Other. subst s'. unfold imx477_set_ctrl, bind.
  assert (A : exists c, snd (imx477_adjust_exposure_range s) = s \/
                        snd (imx477_adjust_exposure_range s)
                        = set_ctrl_of s V4L2_CID_EXPOSURE c).
  { unfold imx477_adjust_exposure_range. unfold bind at 1. unfold gets.
    cbv zeta. unfold bind, ret, v4l2_ctrl_modify_range_with.
    destruct (_ || _); [exists (exposure s); now left|]. cbv zeta.
    destruct (_ =? _); [eexists; right; reflexivity|].
    rewrite imx477_set_ctrl_apply_powered_down by exact Hd.
    eexists; right; reflexivity. }
  destruct (imx477_adjust_exposure_range s) as [u s1]. cbn [snd] in A.
  destruct A as (c & [-> | ->]).
  - rewrite imx477_set_ctrl_apply_powered_down by exact Hd. cbn [fst snd].
    do 6 (split; [reflexivity|]). intros E. now contradiction E.
  - rewrite imx477_set_ctrl_apply_powered_down by exact Hd. cbn [fst snd].
    do 5 (split; [reflexivity|]). split.
    + intros j Hj. unfold set_ctrl_of. cbn.
      destruct (ctrl_id_eq_dec j V4L2_CID_EXPOSURE); [contradiction|reflexivity].
    + intros E. now contradiction E.
Qed.

Lemma imx477_set_ctrl_deferred_when_powered_down_witness :
  let s := probed_linux bus_ok in
  fst (imx477_set_ctrl V4L2_CID_ANALOGUE_GAIN s) = OK /\
  snd (imx477_set_ctrl V4L2_CID_ANALOGUE_GAIN s) = s /\
  i2c_log (client (snd (imx477_set_ctrl V4L2_CID_VBLANK s))) = [].
Proof.
  intros s.
  assert (Hd : powered_down s) by (left; vm_compute; reflexivity).
  destruct (imx477_set_ctrl_deferred_when_powered_down s
              V4L2_CID_ANALOGUE_GAIN Hd) as (A & _ & _ & _ & _ & _ & B).
  destruct (imx477_set_ctrl_deferred_when_powered_down s
              V4L2_CID_VBLANK Hd) as (_ & C & _).
  split; [exact A|]. split; [apply B; discriminate|].
  rewrite C. vm_compute. reflexivity.
Defined.

Lemma imx477_set_ctrl_is_apply id s :
  id <> V4L2_CID_VBLANK -> imx477_set_ctrl id s = imx477_set_ctrl_apply id s.
Proof.
  intros Hid. unfold imx477_set_ctrl, bind.
  destruct id; try contradiction; reflexivity.
Qed.

(** One control with a register of its own, applied while in use. *)
Lemma imx477_set_ctrl_register_in_use s id reg :
  in_use s -> ctrl_register id = Some reg ->
  imx477_set_ctrl id s =
    (if i2c_fail (client s) (length (i2c_log (client s)))
                 (reg_buf reg 2 (val (ctrls s id)))
     then ERR EIO else OK,
     bus_push s [reg_buf reg 2 (val (ctrls s id))]).
Proof.
  intros Hu Hreg.
  rewrite imx477_set_ctrl_is_apply by (intros ->; discriminate Hreg).
  rewrite imx477_set_ctrl_apply_eq, in_use_test by exact Hu.
  cbv zeta.
  set (s1 := set_pm s {| usage_count := usage_count (pm s) + 1;
                         rpm_active := rpm_active (pm s) |}).
  assert (Sw : ctrl_switch id s1 s1 =
               imx477_write_reg reg 2 (val (ctrls s id)) s1)
    by (destruct id; try discriminate Hreg;
        injection Hreg as <-; reflexivity).
  rewrite Sw, imx477_write_reg_eq by lia. cbn [fst snd].
  subst s1. now rewrite pm_runtime_put_after_get.
Qed.

(** X15: while the sensor is in use, applying a gain or test-pattern
    colour control sends exactly one transfer, the control's value as two
    bytes to the control's register, returns [-EIO] exactly when the bus
    refuses it, and drops the runtime-PM reference it took: nothing but the
    bus log changes.  The two read-only controls have no register:
    [-EINVAL], no transfer. *)
Theorem imx477_set_ctrl_writes_register_when_in_use :
  forall (s : imx477) (id : ctrl_id),
    in_use s ->
    (forall reg, ctrl_register id = Some reg ->
       let buf := reg_buf reg 2 (val (ctrls s id)) in
       imx477_set_ctrl id s =
         (if i2c_fail (client s) (length (i2c_log (client s))) buf
          then ERR EIO else OK,
          bus_push s [buf])) /\
    (id = V4L2_CID_PIXEL_RATE \/ id = V4L2_CID_LINK_FREQ ->
       imx477_set_ctrl id s = (ERR EINVAL, s)).
Proof.
  intros s id Hu. split.
  - intros reg Hreg buf. now apply imx477_set_ctrl_register_in_use.
  - intros Hid.
    rewrite imx477_set_ctrl_is_apply by (destruct Hid as [-> | ->]; discriminate).
    rewrite imx477_set_ctrl_apply_eq, in_use_test by exact Hu.
    cbv zeta.
    set (s1 := set_pm s {| usage_count := usage_count (pm s) + 1;
                           rpm_active := rpm_active (pm s) |}).
    assert (Sw : ctrl_switch id s1 s1 = (ERR EINVAL, s1))
      by (destruct Hid as [-> | ->]; reflexivity).
    rewrite Sw. cbn [fst snd]. f_equal.
    rewrite <- (bus_push_nil s1), <- (bus_push_nil s). subst s1.
    now apply pm_runtime_put_after_get.
Qed.

Lemma imx477_set_ctrl_writes_register_when_in_use_witness :
  let s := snd (pm_runtime_get_sync (probed_linux bus_ok)) in
  imx477_set_ctrl V4L2_CID_DIGITAL_GAIN s
    = (OK, bus_push s [[0x02; 0x0e; 0x01; 0x00]]).
Proof.
  intros s.
  assert (Hu : in_use s) by (split; vm_compute; reflexivity).
  destruct (imx477_set_ctrl_writes_register_when_in_use s
              V4L2_CID_DIGITAL_GAIN Hu) as [W _].
  exact (W IMX477_REG_DIGITAL_GAIN eq_refl).
Defined.

Section Flips.
Context `{F : media_bus_format}.

(** X16: the orientation byte and the Bayer order move together.  While
    the sensor is in use, applying either flip control writes one byte to
    register 0x0101: the horizontal flip in bit 0, the vertical flip in
    bit 1.  That byte is the position, inside its group of four, of the
    code the resolver reports for any code of the table. *)
Theorem imx477_set_ctrl_flip_orientation_matches_bayer_order :
  forall (s : imx477) (id : ctrl_id) (g j : Z),
    in_use s ->
    id = V4L2_CID_HFLIP \/ id = V4L2_CID_VFLIP ->
    val (hflip s) = 0 \/ val (hflip s) = 1 ->
    val (vflip s) = 0 \/ val (vflip s) = 1 ->
    g = 0 \/ g = 1 -> 0 <= j < 4 ->
    let k := val (hflip s) + 2 * val (vflip s) in
    i2c_log (client (snd (imx477_set_ctrl id s)))
      = i2c_log (client s) ++ [[0x01; 0x01; k]] /\
    imx477_get_format_code s (nth (Z.to_nat (4 * g + j)) codes 0)
      = nth (Z.to_nat (4 * g + k)) codes 0.
Proof.
  intros s id g j Hu Hid Hh Hv Hg Hj k.
  assert (Ek : flip_index (hflip_on s) (vflip_on s) = k).
  { subst k. unfold hflip_on, vflip_on.
    destruct Hh as [-> | ->]; destruct Hv as [-> | ->]; reflexivity. }
  split.
  - assert (E : imx477_set_ctrl id s = imx477_set_ctrl_apply id s)
      by (destruct Hid as [-> | ->]; reflexivity).
    rewrite E, imx477_set_ctrl_apply_eq, in_use_test by exact Hu.
    cbv zeta. cbn [snd]. rewrite pm_runtime_put_client.
    set (s1 := set_pm s _).
    assert (Sw : ctrl_switch id s1 s1 =
                 imx477_write_reg IMX477_REG_ORIENTATION 1
                   (Z.lor (val (hflip s)) (Z.shiftl (val (vflip s)) 1)) s1)
      by (destruct Hid as [-> | ->]; reflexivity).
    rewrite Sw, imx477_write_reg_eq by lia. cbn [snd].
    rewrite bus_push_log. f_equal.
    assert (Ev : Z.lor (val (hflip s)) (Z.shiftl (val (vflip s)) 1) = k)
      by (subst k; destruct Hh as [-> | ->]; destruct Hv as [-> | ->];
          reflexivity).
    rewrite Ev, reg_buf_1;
      [reflexivity | unfold IMX477_REG_ORIENTATION; lia
      | subst k; destruct Hh as [-> | ->]; destruct Hv as [-> | ->]; cbn; lia].
  - rewrite <- Ek. now apply imx477_get_format_code_variant.
Qed.

End Flips.

Lemma imx477_set_ctrl_flip_orientation_matches_bayer_order_witness :
  let s0 := snd (pm_runtime_get_sync (probed_linux bus_ok)) in
  let s := set_ctrl_of s0 V4L2_CID_VFLIP (ctrl_with_val (vflip s0) 1) in
  i2c_log (client (snd (imx477_set_ctrl V4L2_CID_VFLIP s))) = [[0x01; 0x01; 2]] /\
  @imx477_get_format_code linux_media_bus_format s 0x3012 = 0x3010.
Proof.
  intros s0 s.
  assert (Hu : in_use s) by (split; vm_compute; reflexivity).
  destruct (@imx477_set_ctrl_flip_orientation_matches_bayer_order
              linux_media_bus_format s V4L2_CID_VFLIP 0 0 Hu
              (or_intror eq_refl) (or_introl eq_refl) (or_intror eq_refl)
              (or_introl eq_refl) ltac:(lia)) as [A B].
  split; [exact A|exact B].
Defined.

(* ------------------------------------------------------------------ *)
(** ** Stopping, and a whole start/stop cycle *)

Lemma imx477_stop_streaming_eq s :
  imx477_stop_streaming s = (tt, bus_push s stop_msgs).
Proof.
  unfold imx477_stop_streaming. unfold bind at 1.
  rewrite imx477_write_reg_eq by (unfold IMX477_REG_VALUE_08BIT; lia).
  unfold bind at 1.
  rewrite imx477_write_reg_eq by (unfold IMX477_REG_VALUE_08BIT; lia).
  unfold ret. now rewrite bus_push_push.
Qed.

Lemma stop_msgs_bytes : stop_msgs = [[0x01; 0x00; 0x00]; [0x4b; 0x81; 0x00]].
Proof. reflexivity. Qed.

Lemma imx477_set_stream_off_eq s :
  streaming s = true ->
  imx477_set_stream 0 s =
    (OK, snd (v4l2_ctrl_grab V4L2_CID_HFLIP false
                (snd (v4l2_ctrl_grab V4L2_CID_VFLIP false
                        (set_streaming
                           (snd (pm_runtime_put (bus_push s stop_msgs)))
                           false))))).
Proof.
  intros Hs. unfold imx477_set_stream. unfold bind at 1. unfold gets.
  rewrite Hs. cbn [bool_to_int Z.eqb negb]. unfold bind at 1. unfold bind at 1.
  rewrite imx477_stop_streaming_eq. unfold bind at 1.
  destruct (pm_runtime_put (bus_push s stop_msgs)) as [u s1].
  reflexivity.
Qed.

(** What [pm_runtime_put] leaves of the state. *)
Lemma pm_runtime_put_keeps s :
  let s' := snd (pm_runtime_put s) in
  client s' = client s /\ ctrls s' = ctrls s /\ streaming s' = streaming s /\
  mode s' = mode s /\ fmt_code s' = fmt_code s /\
  usage_count (pm s') = usage_count (pm s) - 1 /\
  power_on_calls (rails s') = power_on_calls (rails s).
Proof.
  unfold pm_runtime_put. cbv zeta. destruct (_ && _); cbn; repeat split.
Qed.

Lemma pm_runtime_put_last_rails s :
  usage_count (pm s) = 1 -> rpm_active (pm s) = true ->
  rails_off (snd (pm_runtime_put s)).
Proof.
  intros U A. unfold pm_runtime_put. cbv zeta. rewrite U, A.
  cbn. repeat split.
Qed.

(** What [imx477_set_stream 0] does on a streaming sensor, whatever the
    runtime-PM state. *)
Lemma imx477_set_stream_off_basic (s : imx477) :
  streaming s = true ->
  let s' := snd (imx477_set_stream 0 s) in
  fst (imx477_set_stream 0 s) = OK /\
  i2c_log (client s') = i2c_log (client s) ++ stop_msgs /\
  streaming s' = false /\
  grabbed (vflip s') = false /\ grabbed (hflip s') = false /\
  usage_count (pm s') = usage_count (pm s) - 1 /\
  (forall id, val (ctrls s' id) = val (ctrls s id)) /\
  same_format s s' /\
  power_on_calls (rails s') = power_on_calls (rails s).
Proof.
  intros Hs s'. subst s'. rewrite imx477_set_stream_off_eq by exact Hs.
  cbn [fst snd].
  destruct (pm_runtime_put_keeps (bus_push s stop_msgs))
    as (Kc & Kctl & _ & Km & Kf & Ku & Kp).
  set (s1 := snd (pm_runtime_put (bus_push s stop_msgs))) in *.
  split; [reflexivity|]. split.
  { cbn [v4l2_ctrl_grab modify snd set_ctrl_of set_ctrls client set_streaming].
    rewrite Kc, bus_push_log. reflexivity. }
  split; [reflexivity|].
  split; [unfold vflip; cbn; reflexivity|].
  split; [unfold hflip; cbn; reflexivity|].
  split; [exact Ku|]. split.
  { intros id.
    cbn [v4l2_ctrl_grab modify snd set_ctrl_of set_ctrls ctrls set_streaming].
    rewrite Kctl. cbn [ctrls bus_push set_client].
    repeat (destruct (ctrl_id_eq_dec _ _)); subst;
      try discriminate; reflexivity. }
  split; [|exact Kp].
  split; [exact Km|exact Kf].
Qed.

(** When the reference dropped is the last one. *)
Lemma imx477_set_stream_off_last (s : imx477) :
  streaming s = true ->
  usage_count (pm s) = 1 -> rpm_active (pm s) = true ->
  let s' := snd (imx477_set_stream 0 s) in
  rpm_active (pm s') = false /\
  power_off_calls (rails s') = S (power_off_calls (rails s)) /\
  rails_off s' /\
  common_regs_written s' = false.
Proof.
  intros Hs U A s'. subst s'. rewrite imx477_set_stream_off_eq by exact Hs.
  cbn [fst snd].
  assert (U1 : usage_count (pm (bus_push s stop_msgs)) = 1) by exact U.
  assert (A1 : rpm_active (pm (bus_push s stop_msgs)) = true) by exact A.
  destruct (pm_runtime_put_last _ U1 A1) as (L1 & L2 & L3 & L4 & _).
  pose proof (pm_runtime_put_last_rails _ U1 A1) as L5.
  split; [exact L2|]. split; [exact L3|]. split; [exact L5|exact L4].
Qed.

(** X17: stopping a streaming sensor cannot fail.  [imx477_set_stream 0]
    returns 0 whatever the bus does with the two transfers it sends (mode
    select to standby, then XVS output off), leaves streaming off and both
    flip controls released, and drops one runtime-PM reference; if that was
    the last one, power-off runs once, every supply is off afterwards and
    the common registers count as not written. *)
Theorem imx477_set_stream_off_never_fails :
  forall s : imx477,
    streaming s = true ->
    let s' := snd (imx477_set_stream 0 s) in
    fst (imx477_set_stream 0 s) = OK /\
    i2c_log (client s')
      = i2c_log (client s) ++ [[0x01; 0x00; 0x00]; [0x4b; 0x81; 0x00]] /\
    streaming s' = false /\
    grabbed (vflip s') = false /\ grabbed (hflip s') = false /\
    usage_count (pm s') = usage_count (pm s) - 1 /\
    (usage_count (pm s) = 1 -> rpm_active (pm s) = true ->
       rpm_active (pm s') = false /\
       power_off_calls (rails s') = S (power_off_calls (rails s)) /\
       rails_off s' /\
       common_regs_written s' = false).
Proof.
  intros s Hs s'.
  destruct (imx477_set_stream_off_basic s Hs)
    as (B1 & B2 & B3 & B4 & B5 & B6 & _).
  fold s' in B2, B3, B4, B5, B6. rewrite stop_msgs_bytes in B2.
  do 6 (split; [assumption|]).
  intros U A. now apply imx477_set_stream_off_last.
Qed.

(** The bus accepts the 437 transfers of the start sequence and refuses
    everything after: the stop still returns 0. *)
Lemma imx477_set_stream_off_never_fails_witness :
  let t := snd (imx477_set_stream 1 (probed_linux (fun n _ => Nat.leb 437 n))) in
  streaming t = true /\
  fst (imx477_set_stream 0 t) = OK /\
  streaming (snd (imx477_set_stream 0 t)) = false /\
  rails_off (snd (imx477_set_stream 0 t)).
Proof.
  intros t.
  assert (H1 : streaming t = true) by (vm_compute; reflexivity).
  assert (H2 : usage_count (pm t) = 1) by (vm_compute; reflexivity).
  assert (H3 : rpm_active (pm t) = true) by (vm_compute; reflexivity).
  destruct (imx477_set_stream_off_never_fails t H1) as (A & _ & B & _ & _ & _ & C).
  destruct (C H2 H3) as (_ & _ & D & _).
  split; [exact H1|]. split; [exact A|]. split; [exact B|exact D].
Defined.

(* ------------------------------------------------------------------ *)
(** ** Starting: power-on failure, and what a start keeps *)

Lemma kept_bus_push L s l : kept L s (bus_push s l).
Proof. now intros id _. Qed.

Lemma kept_imx477_write_reg L reg len v :
  preserves (kept L) (imx477_write_reg reg len v).
Proof. intros s. apply kept_same_ctrls, same_ctrls_imx477_write_reg. Qed.

Lemma kept_imx477_write_regs L regs :
  preserves (kept L) (imx477_write_regs regs).
Proof.
  intros s. rewrite imx477_write_regs_eq.
  destruct (first_fail _ _ _); apply kept_bus_push.
Qed.

Lemma kept_imx477_start_streaming L :
  In V4L2_CID_EXPOSURE L -> preserves (kept L) imx477_start_streaming.
Proof.
  intros HE.
  assert (W : forall reg len v, preserves (kept L) (imx477_write_reg reg len v))
    by (intros; apply kept_imx477_write_reg).
  assert (Ws : forall regs, preserves (kept L) (imx477_write_regs regs))
    by (intros; apply kept_imx477_write_regs).
  assert (Hs : preserves (kept L) __v4l2_ctrl_handler_setup)
    by (now apply kept___v4l2_ctrl_handler_setup).
  assert (Md : preserves (kept L)
                 (modify (fun s => set_common_regs_written s true)))
    by (apply preserves_modify; intros s id _; reflexivity).
  unfold imx477_start_streaming.
  repeat preserves_step (kept_refl L) (kept_trans L) ltac:(assumption || apply W || apply Ws);
    cbv zeta;
    repeat preserves_step (kept_refl L) (kept_trans L) ltac:(assumption || apply W || apply Ws).
Qed.

(** [pm_runtime_get_sync] either powers the sensor or reports why not. *)
Lemma pm_runtime_get_sync_cases s :
  let s1 := snd (pm_runtime_get_sync s) in
  client s1 = client s /\ ctrls s1 = ctrls s /\ streaming s1 = streaming s /\
  common_regs_written s1 = common_regs_written s /\
  usage_count (pm s1) = usage_count (pm s) + 1 /\
  power_off_calls (rails s1) = power_off_calls (rails s) /\
  match fst (pm_runtime_get_sync s) with
  | OK =>
      rpm_active (pm s1) = true /\
      (rpm_active (pm s) = false ->
       power_on_calls (rails s1) = S (power_on_calls (rails s)))
  | ERR e =>
      rpm_active (pm s) = false /\ rpm_active (pm s1) = false /\
      power_on_calls (rails s1) = S (power_on_calls (rails s)) /\
      (rails_off s -> rails_off s1) /\
      (regulator_bulk_enable_ret (rails s) = ERR e \/
       (regulator_bulk_enable_ret (rails s) = OK /\
        clk_prepare_enable_ret (rails s) = ERR e))
  end.
Proof.
  unfold pm_runtime_get_sync, rails_off. cbv zeta.
  destruct (rpm_active (pm s)) eqn:A.
  - cbn. repeat split. intros; discriminate.
  - unfold imx477_power_on. cbv zeta. cbn [rails set_pm].
    destruct (regulator_bulk_enable_ret (rails s)) eqn:R;
      [destruct (clk_prepare_enable_ret (rails s)) eqn:C|];
      cbn; rewrite ?A; repeat split; auto; tauto.
Qed.

Lemma imx477_set_stream_on_power_failure s e :
  streaming s = false ->
  fst (pm_runtime_get_sync s) = ERR e ->
  imx477_set_stream 1 s =
    (ERR e, snd (pm_runtime_put_noidle (snd (pm_runtime_get_sync s)))).
Proof.
  intros Hs Hp. unfold imx477_set_stream. unfold bind at 1. unfold gets.
  rewrite Hs. cbn [bool_to_int Z.eqb negb]. unfold bind at 1. unfold bind at 1.
  destruct (pm_runtime_get_sync s) as [r s1]. cbn [fst snd] in *. subst r.
  unfold bind, ret. destruct (pm_runtime_put_noidle s1). reflexivity.
Qed.

(** X18: when the supplies or the clock cannot be enabled,
    [imx477_set_stream 1] returns that error and nothing else has happened:
    no transfer, streaming still off, the controls as they were, the
    runtime-PM usage count back where it was, no power-off call, and
    supplies that were off are off. *)
Theorem imx477_set_stream_power_on_failure_is_clean :
  forall (s : imx477) (e : errno),
    streaming s = false ->
    fst (pm_runtime_get_sync s) = ERR e ->
    let s' := snd (imx477_set_stream 1 s) in
    fst (imx477_set_stream 1 s) = ERR e /\
    i2c_log (client s') = i2c_log (client s) /\
    streaming s' = false /\
    ctrls s' = ctrls s /\
    usage_count (pm s') = usage_count (pm s) /\
    rpm_active (pm s') = false /\
    power_off_calls (rails s') = power_off_calls (rails s) /\
    (rails_off s -> rails_off s') /\
    (regulator_bulk_enable_ret (rails s) = ERR e \/
     (regulator_bulk_enable_ret (rails s) = OK /\
      clk_prepare_enable_ret (rails s) = ERR e)).
Proof.
  intros s e Hs Hp s'. subst s'.
  rewrite (imx477_set_stream_on_power_failure s e Hs Hp). cbn [fst snd].
  pose proof (pm_runtime_get_sync_cases s) as C. cbv zeta in C.
  rewrite Hp in C.
  destruct C as (C1 & C2 & C3 & C4 & C5 & C6 & _ & C8 & _ & C10 & C11).
  set (s1 := snd (pm_runtime_get_sync s)) in *.
  unfold pm_runtime_put_noidle, modify. cbn [snd].
  split; [reflexivity|].
  split; [cbn [client set_pm]; now rewrite C1|].
  split; [cbn [streaming set_pm]; now rewrite C3|].
  split; [cbn [ctrls set_pm]; exact C2|].
  split; [cbn [pm set_pm usage_count]; lia|].
  split; [exact C8|].
  split; [exact C6|].
  split; [exact C10|exact C11].
Qed.

Lemma imx477_set_stream_power_on_failure_is_clean_witness :
  let s0 := probed_linux bus_ok in
  let s := set_rails s0
             {| supplies_on := false; xclk_on := false; reset_gpio := false;
                regulator_bulk_enable_ret := OK;
                clk_prepare_enable_ret := ERR (EOTHER 110);
                power_on_calls := 0; power_off_calls := 0 |} in
  imx477_set_stream 1 s = (ERR (EOTHER 110), snd (imx477_set_stream 1 s)) /\
  i2c_log (client (snd (imx477_set_stream 1 s))) = [] /\
  rails_off (snd (imx477_set_stream 1 s)).
Proof.
  intros s0 s.
  assert (Hs : streaming s = false) by (vm_compute; reflexivity).
  assert (Hp : fst (pm_runtime_get_sync s) = ERR (EOTHER 110))
    by (vm_compute; reflexivity).
  destruct (imx477_set_stream_power_on_failure_is_clean s _ Hs Hp)
    as (A & B & _ & _ & _ & _ & _ & C & _).
  split; [|split].
  - rewrite <- A. apply surjective_pairing.
  - rewrite B. vm_compute. reflexivity.
  - apply C. repeat split.
Defined.

(** The state a successful [imx477_set_stream 1] leaves, relative to the
    state after [pm_runtime_get_sync]. *)
Lemma imx477_set_stream_on_state (s : imx477) :
  streaming s = false ->
  fst (imx477_set_stream 1 s) = OK ->
  let sg := snd (pm_runtime_get_sync s) in
  let s1 := snd (imx477_set_stream 1 s) in
  fst (pm_runtime_get_sync s) = OK /\
  streaming s1 = true /\
  pm s1 = pm sg /\ rails s1 = rails sg /\
  same_format s s1 /\
  grabbed (vflip s1) = true /\ grabbed (hflip s1) = true /\
  (forall id, id <> V4L2_CID_EXPOSURE -> val (ctrls s1 id) = val (ctrls s id)).
Proof.
  intros Hs Hok sg s1.
  assert (Hp : fst (pm_runtime_get_sync s) = OK).
  { destruct (fst (pm_runtime_get_sync s)) as [|e] eqn:E; [reflexivity|].
    rewrite (imx477_set_stream_on_power_failure s e Hs E) in Hok.
    discriminate Hok. }
  split; [exact Hp|].
  pose proof (imx477_set_stream_on_eq s Hs Hp) as E. cbv zeta in E. fold sg in E.
  destruct (imx477_set_stream_success s Hs Hp Hok) as (St & _). fold sg in St.
  rewrite St in E.
  pose proof (frame_imx477_start_streaming sg)
    as (F1 & F2 & _ & _ & _ & F6 & F7 & _).
  pose proof (kept_imx477_start_streaming [V4L2_CID_EXPOSURE]
                (or_introl eq_refl) sg) as K.
  destruct (pm_runtime_get_sync_cases s) as (_ & G2 & _).
  pose proof (same_format_pm_runtime_get_sync s) as [G3 G4].
  fold sg in G2, G3, G4.
  set (s2 := snd (imx477_start_streaming sg)) in *.
  subst s1. rewrite E. cbn [snd].
  cbn [v4l2_ctrl_grab modify snd].
  split; [reflexivity|]. split; [exact F6|]. split; [exact F7|].
  split; [split; cbn; congruence|].
  split; [unfold vflip; cbn; reflexivity|].
  split; [unfold hflip; cbn; reflexivity|].
  intros id Hid.
  assert (Kid : ctrls s2 id = ctrls s id).
  { rewrite K, G2; [reflexivity|]. intros [H|[]]. congruence. }
  cbn [set_ctrl_of set_ctrls ctrls set_streaming].
  repeat (destruct (ctrl_id_eq_dec _ _)); subst; try discriminate;
    cbn [val ctrl_with_grabbed ctrls set_ctrls set_streaming];
    rewrite <- ?Kid; reflexivity.
Qed.

(** X19: a start followed by a stop brings the driver back to Standby.
    From a powered-down sensor on which [imx477_set_stream 1] succeeds:
    while streaming both flips are held and one runtime-PM reference is
    taken; after [imx477_set_stream 0] the flips are released, the
    reference is dropped, power-on and power-off have each run once, every
    supply is off, the common registers count as not written (the next
    start sends them again), and the mode, the format code and every
    control value except the exposure are what they were before the
    start. *)
Theorem imx477_set_stream_cycle_returns_to_standby :
  forall s : imx477,
    streaming s = false ->
    usage_count (pm s) = 0 ->
    rpm_active (pm s) = false ->
    fst (imx477_set_stream 1 s) = OK ->
    let s1 := snd (imx477_set_stream 1 s) in
    let s2 := snd (imx477_set_stream 0 s1) in
    (streaming s1 = true /\ in_use s1 /\
     grabbed (vflip s1) = true /\ grabbed (hflip s1) = true) /\
    fst (imx477_set_stream 0 s1) = OK /\
    streaming s2 = false /\
    grabbed (vflip s2) = false /\ grabbed (hflip s2) = false /\
    usage_count (pm s2) = 0 /\ rpm_active (pm s2) = false /\
    rails_off s2 /\
    power_on_calls (rails s2) = S (power_on_calls (rails s)) /\
    power_off_calls (rails s2) = S (power_off_calls (rails s)) /\
    common_regs_written s2 = false /\
    mode s2 = mode s /\ fmt_code s2 = fmt_code s /\
    (forall id, id <> V4L2_CID_EXPOSURE ->
                val (ctrls s2 id) = val (ctrls s id)).
Proof.
  intros s Hs U A Hok s1 s2.
  destruct (imx477_set_stream_on_state s Hs Hok)
    as (Hp & S1 & P1 & R1 & [M1 C1] & Gv & Gh & V1).
  fold s1 in S1, P1, R1, M1, C1, Gv, Gh, V1.
  pose proof (pm_runtime_get_sync_cases s) as G. cbv zeta in G.
  rewrite Hp in G. destruct G as (_ & _ & _ & _ & G5 & G6 & G7 & G8).
  assert (U1 : usage_count (pm s1) = 1) by (rewrite P1, G5, U; reflexivity).
  assert (A1 : rpm_active (pm s1) = true) by (rewrite P1; exact G7).
  destruct (imx477_set_stream_off_basic s1 S1)
    as (B1 & _ & B3 & B4 & B5 & B6 & B7 & [B8 B9] & B10).
  destruct (imx477_set_stream_off_last s1 S1 U1 A1) as (L1 & L2 & L3 & L4).
  fold s2 in B3, B4, B5, B6, B7, B8, B9, B10, L1, L2, L3, L4.
  split.
  { split; [exact S1|]. split; [split; [exact A1|lia]|]. now split. }
  split; [exact B1|]. split; [exact B3|]. split; [exact B4|].
  split; [exact B5|]. split; [lia|]. split; [exact L1|].
  split; [exact L3|].
  split; [rewrite B10, R1; now apply G8|].
  split; [rewrite L2, R1, G6; reflexivity|].
  split; [exact L4|].
  split; [congruence|]. split; [congruence|].
  intros id Hid. rewrite B7. now apply V1.
Qed.

Lemma imx477_set_stream_cycle_returns_to_standby_witness :
  let s := probed_linux bus_ok in
  let s2 := snd (imx477_set_stream 0 (snd (imx477_set_stream 1 s))) in
  streaming s2 = false /\ rails_off s2 /\
  power_on_calls (rails s2) = 1%nat /\ power_off_calls (rails s2) = 1%nat /\
  common_regs_written s2 = false /\ mode s2 = mode s.
Proof.
  intros s s2.
  assert (H1 : streaming s = false) by (vm_compute; reflexivity).
  assert (H2 : usage_count (pm s) = 0) by (vm_compute; reflexivity).
  assert (H3 : rpm_active (pm s) = false) by (vm_compute; reflexivity).
  assert (H4 : fst (imx477_set_stream 1 s) = OK) by (vm_compute; reflexivity).
  destruct (imx477_set_stream_cycle_returns_to_standby s H1 H2 H3 H4)
    as (_ & _ & A & _ & _ & _ & _ & B & C & D & E & G & _).
  fold s2 in A, B, C, D, E, G.
  split; [exact A|]. split; [exact B|].
  split; [rewrite C; vm_compute; reflexivity|].
  split; [rewrite D; vm_compute; reflexivity|].
  split; [exact E|exact G].
Defined.

(* ------------------------------------------------------------------ *)
(** ** Control replay at stream start *)

Lemma in_use_frame s s' : frame s s' -> in_use s -> in_use s'.
Proof.
  intros (_ & _ & _ & _ & _ & P & _) [A U]. unfold in_use. now rewrite P.
Qed.

(** A control with a register of its own that the replay reaches is
    written with the value it holds. *)
Lemma v4l2_ctrl_handler_setup_replays id reg : forall ids s,
  in_use s -> ctrl_register id = Some reg ->
  In id ids -> read_only (ctrls s id) = false ->
  fst (v4l2_ctrl_handler_setup_with imx477_set_ctrl ids s) = OK ->
  exists l1 l2,
    i2c_log (client (snd (v4l2_ctrl_handler_setup_with imx477_set_ctrl ids s)))
    = i2c_log (client s) ++ l1 ++ [reg_buf reg 2 (val (ctrls s id))] ++ l2.
Proof.
  intros ids. induction ids as [|id0 ids IH]; intros s Hu Hreg Hin Hro Hok.
  - contradiction.
  - cbn [v4l2_ctrl_handler_setup_with] in *. unfold bind at 1 in Hok.
    unfold bind at 1. unfold gets in *.
    assert (Hne : id <> V4L2_CID_EXPOSURE) by (intros ->; discriminate Hreg).
    destruct (ctrl_id_eq_dec id0 id) as [->|Hd].
    + rewrite Hro in *. unfold bind in *.
      rewrite (imx477_set_ctrl_register_in_use s id reg Hu Hreg) in *.
      destruct (i2c_fail _ _ _); [discriminate Hok|].
      pose proof (frame_v4l2_ctrl_handler_setup_with imx477_set_ctrl
                    frame_imx477_set_ctrl ids
                    (bus_push s [reg_buf reg 2 (val (ctrls s id))]))
        as (_ & _ & _ & _ & _ & _ & _ & _ & _ & _ & _ & l & El).
      exists [], l. rewrite El, bus_push_log, <- app_assoc. reflexivity.
    + destruct Hin as [Hin|Hin]; [contradiction|].
      destruct (read_only (ctrls s id0)).
      * now apply IH.
      * unfold bind in *.
        pose proof (frame_imx477_set_ctrl id0 s) as Fr.
        pose proof (kept_imx477_set_ctrl [V4L2_CID_EXPOSURE] id0
                      (or_introl eq_refl) s) as K.
        destruct (imx477_set_ctrl id0 s) as [[|e] s1]; cbn [fst snd] in *;
          [|discriminate Hok].
        assert (Kid : ctrls s1 id = ctrls s id).
        { apply K. intros [H|[]]. congruence. }
        destruct (IH s1) as (l1 & l2 & E); try assumption.
        { now apply (in_use_frame s). }
        { now rewrite Kid. }
        destruct Fr as (_ & _ & _ & _ & _ & _ & _ & _ & _ & _ & _ & l & El).
        exists (l ++ l1), l2. rewrite E, El, Kid, <- !app_assoc. reflexivity.
Qed.

Lemma start_replay_and_go_eq s :
  start_replay_and_go s =
    let (r, sh) := __v4l2_ctrl_handler_setup (bus_push s (dpc_msgs s)) in
    match r with
    | OK => start_go sh
    | ERR e => (ERR e, sh)
    end.
Proof.
  unfold start_replay_and_go.
  unfold bind at 1. unfold gets. cbv zeta. unfold bind at 1.
  rewrite imx477_write_reg_eq by (unfold IMX477_REG_VALUE_08BIT; lia).
  unfold bind at 1.
  rewrite imx477_write_reg_eq by (unfold IMX477_REG_VALUE_08BIT; lia).
  rewrite bus_push_push. unfold bind at 1.
  change ([reg_buf IMX477_REG_DPC_0B05 IMX477_REG_VALUE_08BIT
             (bool_to_int (negb (dpc_enable s =? 0)))] ++
          [reg_buf IMX477_REG_DPC_0B06 IMX477_REG_VALUE_08BIT
             (bool_to_int (negb (dpc_enable s =? 0)))])
    with (dpc_msgs s).
  destruct (__v4l2_ctrl_handler_setup (bus_push s (dpc_msgs s))) as [[|e] sh];
    reflexivity.
Qed.

Lemma frame_start_go : preserves frame start_go.
Proof.
  unfold start_go.
  repeat preserves_step frame_refl frame_trans
           ltac:(apply frame_imx477_write_reg);
    cbv zeta;
    repeat preserves_step frame_refl frame_trans
           ltac:(apply frame_imx477_write_reg).
Qed.

Lemma start_replay_and_go_replays s id reg :
  in_use s -> ctrl_register id = Some reg ->
  read_only (ctrls s id) = false ->
  fst (start_replay_and_go s) = OK ->
  exists l1 l2,
    i2c_log (client (snd (start_replay_and_go s)))
    = i2c_log (client s) ++ l1 ++ [reg_buf reg 2 (val (ctrls s id))] ++ l2.
Proof.
  intros Hu Hreg Hro. rewrite start_replay_and_go_eq.
  assert (Hin : In id ctrl_registration_order)
    by (destruct id; try discriminate Hreg; cbn; tauto).
  set (sd := bus_push s (dpc_msgs s)).
  assert (Hud : in_use sd) by exact Hu.
  pose proof (v4l2_ctrl_handler_setup_replays id reg ctrl_registration_order
                sd Hud Hreg Hin Hro) as R.
  fold __v4l2_ctrl_handler_setup in R.
  destruct (__v4l2_ctrl_handler_setup sd) as [[|e] sh]; cbn [fst snd] in *;
    [|discriminate].
  destruct (R eq_refl) as (l1 & l2 & E). clear R.
  intros Hok.
  destruct (frame_start_go sh)
    as (_ & _ & _ & _ & _ & _ & _ & _ & _ & _ & _ & l & El).
  exists (dpc_msgs s ++ l1), (l2 ++ l).
  rewrite El, E. subst sd. rewrite bus_push_log.
  change (val (ctrls (bus_push s (dpc_msgs s)) id)) with (val (ctrls s id)).
  rewrite <- !app_assoc. reflexivity.
Qed.

(** X20: the value a gain or test-pattern colour control holds when
    [imx477_set_stream 1] is called reaches the sensor during the start:
    if the call succeeds, the transfers it made contain the write of that
    value to the control's register. *)
Theorem imx477_set_stream_replays_control_values :
  forall (s : imx477) (id : ctrl_id) (reg : Z),
    streaming s = false ->
    0 <= usage_count (pm s) ->
    ctrl_register id = Some reg ->
    read_only (ctrls s id) = false ->
    fst (imx477_set_stream 1 s) = OK ->
    exists l1 l2,
      i2c_log (client (snd (imx477_set_stream 1 s)))
      = i2c_log (client s) ++ l1 ++ [reg_buf reg 2 (val (ctrls s id))] ++ l2.
Proof.
  intros s id reg Hs Hu0 Hreg Hro Hok.
  assert (Hp : fst (pm_runtime_get_sync s) = OK).
  { destruct (fst (pm_runtime_get_sync s)) as [|e] eqn:E; [reflexivity|].
    rewrite (imx477_set_stream_on_power_failure s e Hs E) in Hok.
    discriminate Hok. }
  destruct (imx477_set_stream_success s Hs Hp Hok) as (St & _ & _ & Cl).
  rewrite Cl.
  pose proof (pm_runtime_get_sync_cases s) as G. cbv zeta in G.
  rewrite Hp in G. destruct G as (G1 & G2 & _ & _ & G5 & _ & G7 & _).
  set (sg := snd (pm_runtime_get_sync s)) in *.
  assert (Hug : in_use sg) by (split; [exact G7|lia]).
  rewrite imx477_start_streaming_split in St |- *.
  pose proof (frame_start_blocks sg) as Fb.
  assert (Kb : ctrls (snd (start_blocks sg)) id = ctrls sg id).
  { assert (P : preserves (kept []) start_blocks).
    { unfold start_blocks.
      repeat preserves_step (kept_refl []) (kept_trans [])
               ltac:(apply kept_imx477_write_regs);
        apply preserves_modify; intros t j _; reflexivity. }
    apply (P sg). intros []. }
  destruct (start_blocks sg) as [[|e] sb]; cbn [fst snd] in *;
    [|discriminate St].
  destruct (start_replay_and_go_replays sb id reg) as (l1 & l2 & E);
    try assumption.
  { now apply (in_use_frame sg). }
  { now rewrite Kb, G2. }
  destruct Fb as (_ & _ & _ & _ & _ & _ & _ & _ & _ & _ & _ & l & El).
  exists (l ++ l1), l2. rewrite E, El, Kb, G1, G2, <- !app_assoc. reflexivity.
Qed.

Lemma imx477_set_stream_replays_control_values_witness :
  let s0 := probed_linux bus_ok in
  let s := set_ctrl_of s0 V4L2_CID_ANALOGUE_GAIN
             (ctrl_with_val (ctrls s0 V4L2_CID_ANALOGUE_GAIN) 500) in
  exists l1 l2,
    i2c_log (client (snd (imx477_set_stream 1 s)))
    = l1 ++ [[0x02; 0x04; 0x01; 0xf4]] ++ l2.
Proof.
  intros s0 s.
  assert (H1 : streaming s = false) by (vm_compute; reflexivity).
  assert (H2 : 0 <= usage_count (pm s)) by (vm_compute; discriminate).
  assert (H3 : read_only (ctrls s V4L2_CID_ANALOGUE_GAIN) = false)
    by (vm_compute; reflexivity).
  assert (H4 : fst (imx477_set_stream 1 s) = OK) by (vm_compute; reflexivity).
  destruct (imx477_set_stream_replays_control_values s V4L2_CID_ANALOGUE_GAIN
              IMX477_REG_ANALOG_GAIN H1 H2 eq_refl H3 H4) as (l1 & l2 & E).
  exists l1, l2. rewrite E.
  replace (i2c_log (client s)) with (@nil (list Z)) by (vm_compute; reflexivity).
  replace (reg_buf IMX477_REG_ANALOG_GAIN 2 (val (ctrls s V4L2_CID_ANALOGUE_GAIN)))
    with [0x02; 0x04; 0x01; 0xf4] by (vm_compute; reflexivity).
  reflexivity.
Defined.

(* ------------------------------------------------------------------ *)
(** ** System suspend and resume *)

Lemma imx477_suspend_eq s :
  imx477_suspend s = (OK, if streaming s then bus_push s stop_msgs else s).
Proof.
  unfold imx477_suspend. unfold bind at 1. unfold gets.
  destruct (streaming s); unfold bind, ret.
  - now rewrite imx477_stop_streaming_eq.
  - reflexivity.
Qed.

Lemma imx477_resume_eq s :
  imx477_resume s =
    if streaming s then
      match fst (imx477_start_streaming s) with
      | OK => (OK, snd (imx477_start_streaming s))
      | ERR e =>
          (ERR e,
           set_streaming (bus_push (snd (imx477_start_streaming s)) stop_msgs)
                         false)
      end
    else (OK, s).
Proof.
  unfold imx477_resume. unfold bind at 1. unfold gets.
  destruct (streaming s); [|reflexivity].
  unfold bind at 1. destruct (imx477_start_streaming s) as [[|e] s1];
    cbn [fst snd]; [reflexivity|].
  unfold bind, modify, ret. now rewrite imx477_stop_streaming_eq.
Qed.

(** X21: system suspend never fails and never forgets that the sensor
    was streaming: it sends the two stop transfers when it was and nothing
    when it was not, and changes nothing else.  Resume on a sensor that was
    not streaming does nothing.  On one that was, over a bus that refuses
    at most the unchecked writes, resume after suspend succeeds and the
    sensor is streaming again. *)
Theorem imx477_suspend_resume_restarts_stream :
  (forall s, imx477_suspend s
             = (OK, if streaming s then bus_push s stop_msgs else s)) /\
  (forall s, streaming (snd (imx477_suspend s)) = streaming s) /\
  (forall s, streaming s = false -> imx477_resume s = (OK, s)) /\
  (forall s, streaming s = true -> good s ->
     fst (imx477_resume (snd (imx477_suspend s))) = OK /\
     streaming (snd (imx477_resume (snd (imx477_suspend s)))) = true).
Proof.
  split; [exact imx477_suspend_eq|]. split; [|split].
  - intros s. rewrite imx477_suspend_eq. cbn [snd].
    destruct (streaming s) eqn:E; exact E.
  - intros s Hs. now rewrite imx477_resume_eq, Hs.
  - intros s Hs Hg. rewrite imx477_suspend_eq, Hs. cbn [snd].
    set (t := bus_push s stop_msgs).
    assert (Ht : streaming t = true) by exact Hs.
    assert (Gt : good t) by (apply (good_frame s); [apply frame_bus_push|exact Hg]).
    rewrite imx477_resume_eq, Ht.
    rewrite (succeeds_imx477_start_streaming t Gt). cbn [fst snd].
    split; [reflexivity|].
    pose proof (frame_imx477_start_streaming t) as (_ & _ & _ & F4 & _).
    now rewrite F4.
Qed.

Lemma imx477_suspend_resume_restarts_stream_witness :
  let s := snd (imx477_set_stream 1 (probed_linux bus_ok)) in
  streaming s = true /\
  fst (imx477_resume (snd (imx477_suspend s))) = OK /\
  streaming (snd (imx477_resume (snd (imx477_suspend s)))) = true.
Proof.
  intros s.
  assert (Hs : streaming s = true) by (vm_compute; reflexivity).
  assert (Hg : good s).
  { split.
    - intros n buf H. vm_compute in H. discriminate H.
    - repeat split; try (vm_compute; reflexivity).
      + apply in_or_app; left; left; vm_compute; reflexivity.
      + left. vm_compute. reflexivity. }
  destruct imx477_suspend_resume_restarts_stream as (_ & _ & _ & R).
  split; [exact Hs|]. exact (R s Hs Hg).
Defined.

(** X22: when the restart on resume fails, [imx477_resume] returns the
    error of the start sequence, sends the two stop transfers after
    whatever the start sent, and records the sensor as not streaming; the
    runtime-PM state and the flip controls' hold are left as they are. *)
Theorem imx477_resume_failure_stops_stream :
  forall (s : imx477) (e : errno),
    streaming s = true ->
    fst (imx477_start_streaming s) = ERR e ->
    let s' := snd (imx477_resume s) in
    fst (imx477_resume s) = ERR e /\
    streaming s' = false /\
    i2c_log (client s')
      = i2c_log (client (snd (imx477_start_streaming s)))
        ++ [[0x01; 0x00; 0x00]; [0x4b; 0x81; 0x00]] /\
    pm s' = pm s /\
    grabbed (vflip s') = grabbed (vflip s) /\
    grabbed (hflip s') = grabbed (hflip s).
Proof.
  intros s e Hs He s'. subst s'. rewrite imx477_resume_eq, Hs, He.
  cbn [fst snd].
  pose proof (frame_imx477_start_streaming s)
    as (_ & _ & _ & _ & _ & F6 & _).
  pose proof (kept_imx477_start_streaming [V4L2_CID_EXPOSURE]
                (or_introl eq_refl) s) as K.
  set (s1 := snd (imx477_start_streaming s)) in *.
  split; [reflexivity|]. split; [reflexivity|].
  split; [cbn [client set_streaming]; now rewrite bus_push_log|].
  split; [exact F6|].
  split.
  - unfold vflip. cbn [ctrls set_streaming bus_push set_client].
    rewrite K; [reflexivity|]. intros [H|[]]. discriminate H.
  - unfold hflip. cbn [ctrls set_streaming bus_push set_client].
    rewrite K; [reflexivity|]. intros [H|[]]. discriminate H.
Qed.

Lemma imx477_resume_failure_stops_stream_witness :
  let s := snd (imx477_set_stream 1 (probed_linux (fun n _ => Nat.eqb n 440))) in
  streaming s = true /\
  fst (imx477_resume s) = ERR EIO /\
  streaming (snd (imx477_resume s)) = false.
Proof.
  intros s.
  assert (Hs : streaming s = true) by (vm_compute; reflexivity).
  assert (He : fst (imx477_start_streaming s) = ERR EIO)
    by (vm_compute; reflexivity).
  destruct (imx477_resume_failure_stops_stream s EIO Hs He) as (A & B & _).
  split; [exact Hs|]. split; [exact A|exact B].
Defined.

(* ------------------------------------------------------------------ *)
(** ** Frame length, mode changes and the order of a start *)

Lemma u32_u64 : forall x, u32 (u64 x) = u32 x.
Proof.
  intros x. unfold u32, u64.
  apply Z.mod_mod_divide. exists (2 ^ 32). reflexivity.
Qed.

(** X23: the frame length [imx477_get_frame_length] derives from a frame
    duration.  [do_div] sees the divisor [denominator * line_length_pix] cut
    to 32 bits; whenever that is not zero, the result is the 64-bit pixel
    count of the duration divided by the cut divisor, capped at 0xffdc and
    raised to the mode height, so it is never shorter than the mode is high
    and never longer than the frame-length register holds (unless the mode
    itself is higher).  When neither product wraps (pixel count below 2^64,
    divisor below 2^32) it is the pixel count of the duration divided by
    the line length, capped and raised in the same way. *)
Theorem imx477_get_frame_length_bounds :
  forall (m : imx477_mode) (tpf : v4l2_fract),
    u32 (denominator tpf * line_length_pix m) <> 0 ->
    let L := imx477_get_frame_length m tpf in
    height m <= L /\
    L <= Z.max (height m) IMX477_FRAME_LENGTH_MAX /\
    L = Z.max (Z.min (u64 (numerator tpf * IMX477_PIXEL_RATE)
                      / u32 (denominator tpf * line_length_pix m))
                     IMX477_FRAME_LENGTH_MAX)
              (height m) /\
    (0 <= numerator tpf * IMX477_PIXEL_RATE < 2 ^ 64 ->
     0 < denominator tpf * line_length_pix m < 2 ^ 32 ->
     L = Z.max (Z.min (numerator tpf * IMX477_PIXEL_RATE
                       / (denominator tpf * line_length_pix m))
                      IMX477_FRAME_LENGTH_MAX)
               (height m)).
Proof.
  intros m tpf Hd L. subst L. unfold imx477_get_frame_length, do_div.
  cbv zeta.
  rewrite (u32_u64 (denominator tpf * line_length_pix m)).
  set (a := u64 (numerator tpf * IMX477_PIXEL_RATE)).
  set (b := u32 (denominator tpf * line_length_pix m)) in *.
  assert (Ha : 0 <= a) by (subst a; unfold u64; apply Z.mod_pos_bound; lia).
  assert (Hb : 0 < b).
  { assert (0 <= b) by (subst b; unfold u32; apply Z.mod_pos_bound; lia).
    lia. }
  assert (Hq : 0 <= a / b) by (apply Z.div_pos; lia).
  assert (Hc : forall q, 0 <= q ->
             u32 (if q >? IMX477_FRAME_LENGTH_MAX
                  then IMX477_FRAME_LENGTH_MAX else q)
             = Z.min q IMX477_FRAME_LENGTH_MAX).
  { intros q Hq0. unfold u32, IMX477_FRAME_LENGTH_MAX.
    destruct (q >? 65500) eqn:E.
    - apply Z.gtb_lt in E. rewrite Z.mod_small by lia. lia.
    - rewrite Z.gtb_ltb in E. apply Z.ltb_ge in E.
      rewrite Z.mod_small by lia. lia. }
  rewrite (Hc _ Hq). split; [lia|]. split; [lia|]. split; [reflexivity|].
  intros Hw Hw'. subst a b. unfold u64, u32.
  rewrite !Z.mod_small by lia.
  reflexivity.
Qed.

(** At the first 12-bit mode (line length 24000): the default duration
    100/1000 s gives the plain quotient; the duration 100000/1048576 s has
    the divisor 25165824000 above 2^32, and the quotient is taken by its
    low 32 bits, 3690987520. *)
Lemma imx477_get_frame_length_bounds_witness :
  let m := nth 0 supported_modes_12bit
               (nth 0 supported_modes_10bit
                    (mode (probed_linux bus_ok))) in
  imx477_get_frame_length m (timeperframe_default m)
  = Z.max (Z.min (100 * IMX477_PIXEL_RATE / (1000 * 24000)) 0xffdc) 3040 /\
  imx477_get_frame_length m {| numerator := 100000; denominator := 1048576 |}
  = Z.max (Z.min (100000 * IMX477_PIXEL_RATE / 3690987520) 0xffdc) 3040.
Proof.
  intros m. split.
  - rewrite (proj2 (proj2 (proj2
      (imx477_get_frame_length_bounds m (timeperframe_default m)
         ltac:(vm_compute; discriminate))))
      ltac:(vm_compute; split; [discriminate|reflexivity])
      ltac:(vm_compute; split; reflexivity)).
    vm_compute. reflexivity.
  - rewrite (proj1 (proj2 (proj2
      (imx477_get_frame_length_bounds m
         {| numerator := 100000; denominator := 1048576 |}
         ltac:(vm_compute; discriminate))))).
    vm_compute. reflexivity.
Defined.

Section ModeChange.
Context `{F : media_bus_format}.

(** X24: an ACTIVE set-format that lands on the current mode changes
    nothing, so the blanking the user chose stays; one that changes the
    mode stores the resolved code and resets the timing to the new mode's
    own: line length and default frame length.  Controls other than the
    two blanking controls and the exposure are not touched either way. *)
Theorem imx477_set_pad_format_mode_change_resets_timing :
  forall (s s' : imx477) (sd sd' : v4l2_subdev_state)
         (fmt fmt' : v4l2_subdev_format),
    pad fmt = IMAGE_PAD ->
    which fmt = V4L2_SUBDEV_FORMAT_ACTIVE ->
    imx477_set_pad_format sd fmt s = (Some (OK, sd', fmt'), s') ->
    (mode s' = mode s -> s' = s) /\
    (mode s' <> mode s ->
     let m := mode s' in
     fmt_code s' = code (format fmt') /\
     (width m, height m) = (fmt_width (format fmt'), fmt_height (format fmt')) /\
     width m + val (hblank s') = line_length_pix m /\
     height m + val (vblank s') =
       imx477_get_frame_length m (timeperframe_default m)) /\
    (forall id, id <> V4L2_CID_EXPOSURE -> id <> V4L2_CID_VBLANK ->
                id <> V4L2_CID_HBLANK -> ctrls s' id = ctrls s id).
Proof.
  intros s s' sd sd' fmt fmt' Hp W E.
  destruct (nearest_mode_found s fmt) as (m & En & Hin).
  rewrite (imx477_set_pad_format_image sd fmt s m Hp En), W in E.
  cbv zeta in E.
  destruct (imx477_mode_eq_dec (mode s) m) as [Em|Em].
  - injection E as _ _ <-. split; [reflexivity|]. split; [|reflexivity].
    intros H. now contradiction H.
  - injection E as _ <- <-.
    set (c := imx477_get_format_code s (code (format fmt))) in *.
    set (t := set_fmt_code (set_mode s m) c).
    destruct (mode_after_set_framing_limits t) as [M1 M2].
    assert (Hcat : In (mode t) (supported_modes_12bit ++ supported_modes_10bit)).
    { cbn [mode t set_fmt_code set_mode]. apply in_or_app.
      destruct (resolved_table_cases s (code (format fmt))) as [R|R];
        rewrite R in Hin; [now left|now right]. }
    destruct (catalogue_limits (mode t) Hcat) as (L1 & L2 & _ & L4 & _ & L6).
    destruct (imx477_set_framing_limits_ctrls t L1 L2) as (V & H & K).
    split; [intros H0; exfalso; apply Em; rewrite <- H0, M1; reflexivity|].
    split.
    + intros _. cbv zeta. rewrite M1, M2, V, H.
      cbn [val ctrl_with_val mode fmt_code t set_fmt_code set_mode].
      cbn [mode t set_fmt_code set_mode] in L4, L6.
      repeat split; assumption.
    + intros id H1 H2 H3. rewrite K; [reflexivity|].
      cbn. intros [X|[X|[X|[]]]]; congruence.
Qed.

End ModeChange.

Lemma imx477_set_pad_format_mode_change_resets_timing_witness :
  let s := probed_linux bus_ok in
  let fmt := request V4L2_SUBDEV_FORMAT_ACTIVE IMAGE_PAD 0x300f 640 480 in
  let s' := snd (@imx477_set_pad_format linux_media_bus_format
                   blank_sd_state fmt s) in
  (width (mode s'), height (mode s')) = (1332, 990) /\
  width (mode s') + val (hblank s') = line_length_pix (mode s') /\
  height (mode s') + val (vblank s') =
    imx477_get_frame_length (mode s') (timeperframe_default (mode s')).
Proof.
  intros s fmt s'. split; [vm_compute; reflexivity|].
  destruct (@imx477_set_pad_format_image_total linux_media_bus_format
              blank_sd_state fmt s eq_refl)
    as (m & sd1 & fmt1 & s1 & E & _).
  destruct (@imx477_set_pad_format_mode_change_resets_timing
              linux_media_bus_format s s1 blank_sd_state sd1 fmt fmt1
              eq_refl eq_refl E) as (_ & T & _).
  assert (Es : s' = s1) by (subst s'; now rewrite E).
  rewrite Es.
  destruct T as (_ & _ & A & B).
  - rewrite <- Es. vm_compute. discriminate.
  - split; [exact A|exact B].
Defined.

Lemma start_blocks_written s :
  common_regs_written s = true ->
  start_blocks s = imx477_write_regs (reg_list (mode s)) s.
Proof.
  intros Ew. unfold start_blocks. unfold bind at 1. unfold gets.
  rewrite Ew. cbn [negb]. unfold bind, ret. reflexivity.
Qed.

(** X25: a start that succeeds has sent, in this order: the common
    register block and the chip variant's extra block, unless the common
    block had been written since power-on; the register block of the
    current mode; then the two DPC writes, before anything else. *)
Theorem imx477_start_streaming_sends_blocks_in_order :
  forall s : imx477,
    fst (imx477_start_streaming s) = OK ->
    exists l,
      i2c_log (client (snd (imx477_start_streaming s))) =
        i2c_log (client s)
        ++ (if common_regs_written s then []
            else map reg_msg mode_common_regs
                 ++ map reg_msg (extra_regs (compatible_data s)))
        ++ map reg_msg (reg_list (mode s))
        ++ dpc_msgs s
        ++ l.
Proof.
  intros s. rewrite imx477_start_streaming_split.
  assert (B : exists sb,
            (fst (start_blocks s) = OK -> snd (start_blocks s) = sb) /\
            dpc_enable sb = dpc_enable s /\
            i2c_log (client sb) =
              i2c_log (client s)
              ++ (if common_regs_written s then []
                  else map reg_msg mode_common_regs
                       ++ map reg_msg (extra_regs (compatible_data s)))
              ++ map reg_msg (reg_list (mode s))).
  { destruct (common_regs_written s) eqn:Ew.
    - exists (bus_push s (map reg_msg (reg_list (mode s)))).
      split; [|split; reflexivity].
      rewrite (start_blocks_written s Ew), imx477_write_regs_eq.
      destruct (first_fail _ _ _); [discriminate|reflexivity].
    - exists (set_common_regs_written
                (bus_push s (map reg_msg (start_program s))) true).
      split; [|split; [reflexivity|]].
      + pose proof (start_blocks_eq s Ew) as Eb. cbv zeta in Eb.
        destruct (first_fail _ _ _).
        * destruct Eb as (sx & -> & _). discriminate.
        * now rewrite Eb.
      + cbn [client set_common_regs_written]. rewrite bus_push_log.
        unfold start_program. now rewrite !map_app, <- !app_assoc. }
  destruct B as (sb & Esb & Db & Lb).
  destruct (start_blocks s) as [[|e] s1]; cbn [fst snd] in *;
    [|discriminate].
  rewrite (Esb eq_refl). clear Esb s1.
  rewrite start_replay_and_go_eq.
  pose proof (frame___v4l2_ctrl_handler_setup (bus_push sb (dpc_msgs sb)))
    as (_ & _ & _ & _ & _ & _ & _ & _ & _ & _ & _ & lh & Eh).
  destruct (__v4l2_ctrl_handler_setup (bus_push sb (dpc_msgs sb)))
    as [[|e] sh]; cbn [fst snd] in *; [|discriminate].
  intros _.
  destruct (frame_start_go sh)
    as (_ & _ & _ & _ & _ & _ & _ & _ & _ & _ & _ & lg & Eg).
  exists (lh ++ lg). rewrite Eg, Eh, bus_push_log, Lb.
  unfold dpc_msgs. rewrite Db. now rewrite <- !app_assoc.
Qed.

Lemma imx477_start_streaming_sends_blocks_in_order_witness :
  let s := @probed linux_media_bus_format imx378_compatible (-1) bus_ok 1 0 in
  exists l,
    i2c_log (client (snd (imx477_start_streaming s))) =
      map reg_msg mode_common_regs ++ map reg_msg imx378_regs
      ++ map reg_msg mode_4056x3040_regs
      ++ [[0x0b; 0x05; 0x01]; [0x0b; 0x06; 0x01]] ++ l.
Proof.
  intros s.
  assert (H : fst (imx477_start_streaming s) = OK) by (vm_compute; reflexivity).
  destruct (imx477_start_streaming_sends_blocks_in_order s H) as (l & E).
  exists l. rewrite E.
  replace (i2c_log (client s)) with (@nil (list Z)) by (vm_compute; reflexivity).
  replace (common_regs_written s) with false by (vm_compute; reflexivity).
  replace (extra_regs (compatible_data s)) with imx378_regs
    by (vm_compute; reflexivity).
  replace (reg_list (mode s)) with mode_4056x3040_regs
    by (vm_compute; reflexivity).
  replace (dpc_msgs s) with [[0x0b; 0x05; 0x01]; [0x0b; 0x06; 0x01]]
    by (vm_compute; reflexivity).
  cbn [app]. now rewrite <- !app_assoc.
Defined.
(* ------------------------------------------------------------------ *)
(** ** The stored long-exposure shift and the programmed one *)












(* ------------------------------------------------------------------ *)
(** ** Where a failing start stops *)

Lemma frame_log_le a b :
  frame a b -> (length (i2c_log (client a)) <= length (i2c_log (client b)))%nat.
Proof.
  intros (_ & _ & _ & _ & _ & _ & _ & _ & _ & _ & _ & l & L).
  rewrite L, length_app. lia.
Qed.

Lemma frame_log_nth a b j :
  frame a b -> (j < length (i2c_log (client a)))%nat ->
  nth_error (i2c_log (client b)) j = nth_error (i2c_log (client a)) j.
Proof.
  intros (_ & _ & _ & _ & _ & _ & _ & _ & _ & _ & _ & l & L) H.
  now rewrite L, nth_error_app1.
Qed.

Lemma frame_fail a b : frame a b -> i2c_fail (client b) = i2c_fail (client a).
Proof. intros (_ & _ & _ & _ & _ & _ & _ & _ & _ & F & _). exact F. Qed.

Lemma frame_read_only_marked a b :
  frame a b -> read_only_marked a -> read_only_marked b.
Proof.
  intros (_ & _ & _ & _ & _ & _ & _ & _ & _ & _ & R & _) [A B].
  split; now rewrite R.
Qed.

Lemma refused_within_same_log regs s s' :
  i2c_log (client s') = i2c_log (client s) -> refused_within regs s s'.
Proof.
  intros E j buf Hj Hn _. rewrite E in Hn.
  apply nth_error_None in Hj. congruence.
Qed.

Lemma refused_within_trans regs a b c :
  frame a b -> frame b c ->
  refused_within regs a b -> refused_within regs b c ->
  refused_within regs a c.
Proof.
  intros Fab Fbc Hab Hbc j buf Hj Hn Hf.
  destruct (Nat.lt_ge_cases j (length (i2c_log (client b)))) as [Hlt|Hge].
  - apply (Hab j buf Hj); [|exact Hf].
    now rewrite <- (frame_log_nth b c j Fbc Hlt).
  - apply (Hbc j buf Hge Hn). now rewrite (frame_fail a b Fab).
Qed.

Lemma refused_within_client regs a a' b b' :
  client a' = client a -> client b' = client b ->
  refused_within regs a b -> refused_within regs a' b'.
Proof. unfold refused_within. intros -> ->. exact id. Qed.

Lemma stopped_at_refusal_client regs a a' b b' :
  client a' = client a -> client b' = client b ->
  stopped_at_refusal regs a b -> stopped_at_refusal regs a' b'.
Proof. unfold stopped_at_refusal. intros -> ->. exact id. Qed.

Lemma stopped_at_refusal_after regs a b c :
  frame a b -> frame b c ->
  refused_within regs a b -> stopped_at_refusal regs b c ->
  stopped_at_refusal regs a c.
Proof.
  intros Fab Fbc Hab (n & buf & H1 & H2 & H3 & H4 & H5).
  pose proof (frame_log_le a b Fab) as Le.
  exists n, buf. split; [lia|]. split; [exact H2|]. split; [exact H3|].
  split; [now rewrite <- (frame_fail a b Fab)|].
  intros j b0 Hj Hn Hf.
  destruct (Nat.lt_ge_cases j (length (i2c_log (client b)))) as [Hlt|Hge].
  - apply (Hab j b0); [lia| |exact Hf].
    now rewrite <- (frame_log_nth b c j Fbc Hlt).
  - apply (H5 j b0); [lia|exact Hn|]. now rewrite (frame_fail a b Fab).
Qed.

Lemma nth_error_snoc_ge {A} (l : list A) x j y :
  (length l <= j)%nat -> nth_error (l ++ [x]) j = Some y ->
  j = length l /\ y = x.
Proof.
  intros Hj Hn.
  assert (Hlt : (j < length (l ++ [x]))%nat)
    by (apply nth_error_Some; congruence).
  rewrite length_app in Hlt. cbn [length] in Hlt.
  assert (j = length l) by lia. subst j.
  rewrite nth_error_app2, Nat.sub_diag in Hn by lia.
  cbn in Hn. split; congruence.
Qed.

Lemma lenient_ret {A} (a : A) : lenient (ret a).
Proof.
  intros s. split; [apply frame_refl|now apply refused_within_same_log].
Qed.

Lemma lenient_gets {B} (f : imx477 -> B) : lenient (gets f).
Proof.
  intros s. split; [apply frame_refl|now apply refused_within_same_log].
Qed.

Lemma lenient_silent {A} (m : M A) :
  (forall s, i2c_log (client (snd (m s))) = i2c_log (client s)) ->
  preserves frame m -> lenient m.
Proof.
  intros H Hf s. split; [apply Hf|]. now apply refused_within_same_log.
Qed.

Lemma lenient_bind {A B} (m : M A) (k : A -> M B) :
  lenient m -> (forall a, lenient (k a)) -> lenient (bind m k).
Proof.
  intros Hm Hk s. unfold bind.
  destruct (Hm s) as [M1 M2]. destruct (m s) as [a s1]. cbn [fst snd] in *.
  destruct (Hk a s1) as [K1 K2].
  split; [eapply frame_trans; eassumption|].
  eapply refused_within_trans; eassumption.
Qed.

Lemma strict_weaken (P Q : imx477 -> Prop) m :
  (forall s, Q s -> P s) -> strict P m -> strict Q m.
Proof.
  intros H Hm s. destruct (Hm s) as (A & B & C & D).
  split; [exact A|]. split; [exact B|]. split; [exact C|].
  intros Hq. apply D. now apply H.
Qed.

Lemma strict_ret_ok P : strict P (ret OK).
Proof.
  intros s. split; [apply frame_refl|]. split.
  - intros _. now apply refused_within_same_log.
  - split; [discriminate|]. intros _ e. discriminate.
Qed.

(** A step whose error the caller propagates at once. *)
Lemma strict_bind P (m : M retcode) (k : retcode -> M retcode) :
  (forall s s', frame s s' -> P s -> P s') ->
  strict P m -> strict P (k OK) ->
  (forall e s, k (ERR e) s = (ERR e, s)) ->
  strict P (bind m k).
Proof.
  intros St Hm Hk He s. unfold bind.
  destruct (Hm s) as (M1 & M2 & M3 & M4).
  destruct (m s) as [[|e] s1]; cbn [fst snd] in *.
  - destruct (Hk s1) as (K1 & K2 & K3 & K4).
    split; [eapply frame_trans; eassumption|]. split; [|split].
    + intros Hok. eapply refused_within_trans; eauto.
    + intros Herr. eapply stopped_at_refusal_after; eauto.
    + intros Hp. apply K4. now apply (St s).
  - rewrite He. cbn [fst snd].
    split; [exact M1|]. split; [discriminate|]. split; [exact M3|exact M4].
Qed.

(** A step whose result the caller drops. *)
Lemma strict_bind_dropped {A} P (m : M A) (k : A -> M retcode) :
  (forall s s', frame s s' -> P s -> P s') ->
  lenient m -> (forall a, strict P (k a)) -> strict P (bind m k).
Proof.
  intros St Hm Hk s. unfold bind.
  destruct (Hm s) as (M1 & M2).
  destruct (m s) as [a s1]; cbn [fst snd] in *.
  destruct (Hk a s1) as (K1 & K2 & K3 & K4).
  split; [eapply frame_trans; eassumption|]. split; [|split].
  - intros Hok. eapply refused_within_trans; eauto.
  - intros Herr. eapply stopped_at_refusal_after; eauto.
  - intros Hp. apply K4. now apply (St s).
Qed.

Lemma stable_true : forall s s' : imx477, frame s s' -> True -> True.
Proof. intros _ _ _ _. exact I. Qed.

Lemma stable_false : forall s s' : imx477, frame s s' -> False -> False.
Proof. intros _ _ _ H. exact H. Qed.

Lemma strict_imx477_write_reg reg len v :
  len <= 4 -> strict (fun _ => True) (imx477_write_reg reg len v).
Proof.
  intros Hl s. rewrite imx477_write_reg_eq by exact Hl.
  set (buf := reg_buf reg len v).
  set (n0 := length (i2c_log (client s))).
  cbn [fst snd]. split; [apply frame_bus_push|].
  destruct (i2c_fail (client s) n0 buf) eqn:Ef.
  - split; [discriminate|]. split; [|intros _ e [= <-]; reflexivity].
    intros _. exists n0, buf. rewrite bus_push_log.
    split; [subst n0; lia|]. split.
    { rewrite length_app. cbn [length]. subst n0. lia. }
    split.
    { subst n0. now rewrite nth_error_app2, Nat.sub_diag by lia. }
    split; [exact Ef|]. intros j b Hj. lia.
  - split; [|split; [discriminate|intros _ e; discriminate]].
    intros _ j b Hj Hn Hf. rewrite bus_push_log in Hn.
    destruct (nth_error_snoc_ge _ _ _ _ Hj Hn) as [-> ->].
    fold n0 in Hf. congruence.
Qed.

Lemma lenient_imx477_write_reg reg len v :
  In (u16 reg) best_effort_regs -> 0 <= len <= 4 ->
  lenient (imx477_write_reg reg len v).
Proof.
  intros Hin Hl s. rewrite imx477_write_reg_eq by lia.
  cbn [snd]. split; [apply frame_bus_push|].
  intros j b Hj Hn Hf. rewrite bus_push_log in Hn.
  destruct (nth_error_snoc_ge _ _ _ _ Hj Hn) as [-> ->].
  now rewrite buf_addr_reg_buf.
Qed.

Lemma strict_imx477_write_regs regs :
  strict (fun _ => True) (imx477_write_regs regs).
Proof.
  induction regs as [|r rest IH]; cbn [imx477_write_regs].
  - apply strict_ret_ok.
  - apply strict_bind;
      [apply stable_true|apply strict_imx477_write_reg; lia|exact IH
      |reflexivity].
Qed.

Lemma lenient_modify_long_exp_shift (g : imx477 -> Z) :
  lenient (modify (fun s => set_long_exp_shift s (g s))).
Proof.
  apply lenient_silent; [reflexivity|].
  apply preserves_modify. intros s. apply frame_set_long_exp_shift.
Qed.

Lemma lenient_set_frame_length_loop n : forall v,
  lenient (set_frame_length_loop n v).
Proof.
  induction n as [|n IH]; intros v; cbn [set_frame_length_loop].
  - apply lenient_ret.
  - destruct (v >? IMX477_FRAME_LENGTH_MAX); [|apply lenient_ret].
    apply lenient_bind; [|intros _; apply IH].
    apply (lenient_modify_long_exp_shift
             (fun s => u32 (long_exp_shift s + 1))).
Qed.

Lemma strict_imx477_set_frame_length v :
  strict (fun _ => True) (imx477_set_frame_length v).
Proof.
  unfold imx477_set_frame_length.
  apply strict_bind_dropped;
    [apply stable_true
    |apply (lenient_modify_long_exp_shift (fun _ => 0))|intros _].
  apply strict_bind_dropped;
    [apply stable_true|apply lenient_set_frame_length_loop|intros v'].
  apply strict_bind;
    [apply stable_true
    |apply strict_imx477_write_reg; unfold IMX477_REG_VALUE_16BIT; lia
    |
    |reflexivity].
  apply strict_bind_dropped; [apply stable_true|apply lenient_gets|intros sh].
  apply strict_imx477_write_reg. unfold IMX477_REG_VALUE_08BIT. lia.
Qed.

(** The [switch] of [imx477_set_ctrl]: every control with a register stops
    at a refused write and fails in no other way; the two without one get
    [-EINVAL] and send nothing. *)
Lemma strict_ctrl_switch id s0 :
  id <> V4L2_CID_PIXEL_RATE -> id <> V4L2_CID_LINK_FREQ ->
  strict (fun _ => True) (ctrl_switch id s0).
Proof.
  intros H1 H2. unfold ctrl_switch. cbv zeta.
  destruct id; try contradiction;
    first [apply strict_imx477_write_reg; unfold IMX477_REG_VALUE_16BIT; lia
          |apply strict_imx477_set_frame_length].
Qed.

Lemma strict_ctrl_switch_any id s0 : strict (fun _ => False) (ctrl_switch id s0).
Proof.
  destruct (ctrl_id_eq_dec id V4L2_CID_PIXEL_RATE) as [->|H1].
  { intros s. cbn. split; [apply frame_refl|].
    split; [discriminate|]. split; [discriminate|]. intros []. }
  destruct (ctrl_id_eq_dec id V4L2_CID_LINK_FREQ) as [->|H2].
  { intros s. cbn. split; [apply frame_refl|].
    split; [discriminate|]. split; [discriminate|]. intros []. }
  apply (strict_weaken (fun _ => True)); [intros _ []|].
  now apply strict_ctrl_switch.
Qed.

Lemma strict_imx477_set_ctrl_apply P id :
  (forall s p, P s -> P (set_pm s p)) ->
  (forall s0, strict P (ctrl_switch id s0)) ->
  strict P (imx477_set_ctrl_apply id).
Proof.
  intros Hpm Hsw s.
  split; [apply frame_imx477_set_ctrl_apply|].
  rewrite imx477_set_ctrl_apply_eq.
  destruct (rpm_active (pm s) && (0 <? usage_count (pm s))).
  2:{ cbn [fst snd]. split; [intros _; now apply refused_within_same_log|].
      split; [discriminate|]. intros _ e. discriminate. }
  cbv zeta. set (s1 := set_pm s _).
  destruct (Hsw s1 s1) as (_ & B2 & B3 & B4).
  cbn [fst snd]. split; [|split].
  - intros Hok.
    refine (refused_within_client _ s1 s _ _ _ _ (B2 Hok));
      [reflexivity|apply pm_runtime_put_client].
  - intros Herr.
    refine (stopped_at_refusal_client _ s1 s _ _ _ _ (B3 Herr));
      [reflexivity|apply pm_runtime_put_client].
  - intros Hp. apply B4. subst s1. now apply Hpm.
Qed.

(** The exposure callback, run for its effect only: its one transfer goes
    to the exposure register. *)
Lemma lenient_imx477_set_ctrl_apply_exposure :
  lenient (imx477_set_ctrl_apply V4L2_CID_EXPOSURE).
Proof.
  intros s. split; [apply frame_imx477_set_ctrl_apply|].
  rewrite imx477_set_ctrl_apply_eq.
  destruct (rpm_active (pm s) && (0 <? usage_count (pm s)));
    [|now apply refused_within_same_log].
  cbv zeta. set (s1 := set_pm s _). cbn [snd].
  assert (L : lenient (ctrl_switch V4L2_CID_EXPOSURE s1)).
  { unfold ctrl_switch. cbv zeta. apply lenient_imx477_write_reg;
      [left; reflexivity|unfold IMX477_REG_VALUE_16BIT; lia]. }
  refine (refused_within_client _ s1 s _ _ _ _ (proj2 (L s1)));
    [reflexivity|apply pm_runtime_put_client].
Qed.

Lemma lenient_imx477_adjust_exposure_range : lenient imx477_adjust_exposure_range.
Proof.
  intros s. split; [apply frame_imx477_adjust_exposure_range|].
  unfold imx477_adjust_exposure_range, bind, gets.
  unfold v4l2_ctrl_modify_range_with.
  destruct (_ || _); [now apply refused_within_same_log|].
  match goal with
  | |- context [if ?c then _ else _] => destruct c
  end; [now apply refused_within_same_log|].
  match goal with
  | |- context [imx477_set_ctrl_apply V4L2_CID_EXPOSURE ?x] =>
      pose proof (proj2 (lenient_imx477_set_ctrl_apply_exposure x)) as L;
      destruct (imx477_set_ctrl_apply V4L2_CID_EXPOSURE x) as [r s2]
  end.
  cbn [snd ret] in *.
  refine (refused_within_client _ _ s _ _ _ _ L); reflexivity.
Qed.

Lemma strict_imx477_set_ctrl P id :
  (forall s s', frame s s' -> P s -> P s') ->
  (forall s p, P s -> P (set_pm s p)) ->
  (forall s0, strict P (ctrl_switch id s0)) ->
  strict P (imx477_set_ctrl id).
Proof.
  intros St Hpm Hsw. unfold imx477_set_ctrl. apply strict_bind_dropped.
  - exact St.
  - destruct id;
      first [apply lenient_imx477_adjust_exposure_range|apply lenient_ret].
  - intros _. now apply strict_imx477_set_ctrl_apply.
Qed.

Lemma v4l2_ctrl_handler_setup_with_step f id rest s :
  v4l2_ctrl_handler_setup_with f (id :: rest) s =
    if read_only (ctrls s id) then v4l2_ctrl_handler_setup_with f rest s
    else (r <- f id ;;
          match r with
          | OK => v4l2_ctrl_handler_setup_with f rest
          | ERR e => ret (ERR e)
          end) s.
Proof.
  cbn [v4l2_ctrl_handler_setup_with]. unfold bind at 1. unfold gets.
  now destruct (read_only (ctrls s id)).
Qed.

(** The control replay: from a state whose read-only controls are marked,
    the only error is [-EIO], at a refused write. *)
Lemma strict_v4l2_ctrl_handler_setup ids :
  strict read_only_marked (v4l2_ctrl_handler_setup_with imx477_set_ctrl ids).
Proof.
  induction ids as [|id rest IH].
  - apply strict_ret_ok.
  - intros s. rewrite v4l2_ctrl_handler_setup_with_step.
    destruct (read_only (ctrls s id)) eqn:Ro; [exact (IH s)|].
    assert (Weak : strict (fun _ => False)
                     (r <- imx477_set_ctrl id ;;
                      match r with
                      | OK => v4l2_ctrl_handler_setup_with imx477_set_ctrl rest
                      | ERR e => ret (ERR e)
                      end)).
    { apply strict_bind; [apply stable_false| | |reflexivity].
      - apply strict_imx477_set_ctrl;
          [apply stable_false|intros _ _ []|apply strict_ctrl_switch_any].
      - apply (strict_weaken read_only_marked); [intros _ []|exact IH]. }
    destruct (Weak s) as (W1 & W2 & W3 & _).
    split; [exact W1|]. split; [exact W2|]. split; [exact W3|].
    intros [R1 R2].
    assert (H1 : id <> V4L2_CID_PIXEL_RATE) by (intros ->; congruence).
    assert (H2 : id <> V4L2_CID_LINK_FREQ) by (intros ->; congruence).
    assert (Full : strict read_only_marked
                     (r <- imx477_set_ctrl id ;;
                      match r with
                      | OK => v4l2_ctrl_handler_setup_with imx477_set_ctrl rest
                      | ERR e => ret (ERR e)
                      end)).
    { apply strict_bind;
        [exact frame_read_only_marked| |exact IH|reflexivity].
      apply (strict_weaken (fun _ => True)); [intros _ _; exact I|].
      apply strict_imx477_set_ctrl;
        [apply stable_true|intros _ _ _; exact I
        |intros s0; now apply strict_ctrl_switch]. }
    apply (proj2 (proj2 (proj2 (Full s)))). now split.
Qed.

Lemma lenient_modify_common_regs_written b :
  lenient (modify (fun s => set_common_regs_written s b)).
Proof.
  apply lenient_silent; [reflexivity|].
  apply preserves_modify. intros s. apply frame_set_common_regs_written.
Qed.

Lemma strict_start_blocks : strict (fun _ => True) start_blocks.
Proof.
  unfold start_blocks.
  apply strict_bind_dropped;
    [apply stable_true|apply lenient_gets|intros written].
  apply strict_bind; [apply stable_true| | |reflexivity].
  - destruct (negb written); [|apply strict_ret_ok].
    apply strict_bind;
      [apply stable_true|apply strict_imx477_write_regs| |reflexivity].
    apply strict_bind; [apply stable_true| | |reflexivity].
    + apply strict_bind_dropped;
        [apply stable_true|apply lenient_gets|intros extra].
      apply strict_imx477_write_regs.
    + apply strict_bind_dropped;
        [apply stable_true|apply lenient_modify_common_regs_written
        |intros _; apply strict_ret_ok].
  - apply strict_bind_dropped;
      [apply stable_true|apply lenient_gets|intros regs].
    apply strict_imx477_write_regs.
Qed.

Lemma strict_start_replay_and_go : strict read_only_marked start_replay_and_go.
Proof.
  unfold start_replay_and_go.
  apply strict_bind_dropped;
    [exact frame_read_only_marked|apply lenient_gets|intros dpc]. cbv zeta.
  do 2 (apply strict_bind_dropped;
        [exact frame_read_only_marked
        |apply lenient_imx477_write_reg;
           [vm_compute; tauto|unfold IMX477_REG_VALUE_08BIT; lia]
        |intros _]).
  apply strict_bind;
    [exact frame_read_only_marked|apply strict_v4l2_ctrl_handler_setup|
    |reflexivity].
  apply strict_bind_dropped;
    [exact frame_read_only_marked|apply lenient_gets|intros s0]. cbv zeta.
  do 4 (apply strict_bind_dropped;
        [exact frame_read_only_marked
        |apply lenient_imx477_write_reg;
           [vm_compute; tauto|unfold IMX477_REG_VALUE_08BIT; lia]
        |intros _]).
  apply (strict_weaken (fun _ => True)); [intros _ _; exact I|].
  apply strict_imx477_write_reg. unfold IMX477_REG_VALUE_08BIT. lia.
Qed.

Lemma strict_imx477_start_streaming :
  strict read_only_marked imx477_start_streaming.
Proof.
  intros s.
  assert (H : strict read_only_marked
                (r <- start_blocks ;;
                 match r with
                 | OK => start_replay_and_go
                 | ERR e => ret (ERR e)
                 end)).
  { apply strict_bind;
      [exact frame_read_only_marked| |apply strict_start_replay_and_go
      |reflexivity].
    apply (strict_weaken (fun _ => True)); [intros _ _; exact I|].
    apply strict_start_blocks. }
  specialize (H s). unfold bind in H. rewrite imx477_start_streaming_split.
  destruct (start_blocks s) as [[|e] s1]; exact H.
Qed.

Lemma pm_runtime_put_flag s :
  common_regs_written s = false ->
  common_regs_written (snd (pm_runtime_put s)) = false.
Proof.
  intros H. unfold pm_runtime_put. cbv zeta.
  destruct (_ && _); [reflexivity|exact H].
Qed.

(** Dropping a reference that is not the last changes the count only. *)
Lemma pm_runtime_put_not_last s :
  usage_count (pm s) <> 1 ->
  let s' := snd (pm_runtime_put s) in
  usage_count (pm s') = usage_count (pm s) - 1 /\
  rpm_active (pm s') = rpm_active (pm s) /\
  rails s' = rails s /\
  common_regs_written s' = common_regs_written s /\
  streaming s' = streaming s.
Proof.
  intros Hu. unfold pm_runtime_put. cbv zeta.
  replace (usage_count (pm s) - 1 =? 0) with false
    by (symmetry; apply Z.eqb_neq; lia).
  cbn. repeat split.
Qed.

(** A failure inside the common or the chip-variant block leaves the
    common block marked as not written. *)
Lemma start_blocks_flag s k :
  common_regs_written s = false ->
  first_fail (i2c_fail (client s)) (length (i2c_log (client s)))
             (map reg_msg (start_program s)) = Some k ->
  (k < length mode_common_regs
       + length (extra_regs (compatible_data s)))%nat ->
  common_regs_written (snd (start_blocks s)) = false.
Proof.
  intros Hw Hk Hlt. rewrite (start_blocks_run s Hw). cbv zeta.
  revert Hk. unfold start_program. rewrite !map_app, !first_fail_app.
  set (f := i2c_fail (client s)). set (n0 := length (i2c_log (client s))).
  assert (LA : length (map reg_msg mode_common_regs)
               = length mode_common_regs) by apply length_map.
  assert (LB : length (map reg_msg (extra_regs (compatible_data s)))
               = length (extra_regs (compatible_data s))) by apply length_map.
  set (A := map reg_msg mode_common_regs) in *.
  set (B := map reg_msg (extra_regs (compatible_data s))) in *.
  set (C := map reg_msg (reg_list (mode s))). clearbody A.
  destruct (first_fail f n0 A) as [ka|]; [intros _; exact Hw|].
  destruct (first_fail f (n0 + length A) B) as [kb|]; [intros _; exact Hw|].
  destruct (first_fail f (n0 + length A + length B) C) as [kc|];
    cbn [option_map]; [|discriminate].
  intros [= <-]. lia.
Qed.

Lemma imx477_set_stream_block_flag s k :
  streaming s = false ->
  fst (pm_runtime_get_sync s) = OK ->
  common_regs_written s = false ->
  first_fail (i2c_fail (client s)) (length (i2c_log (client s)))
             (map reg_msg (start_program s)) = Some k ->
  (k < length mode_common_regs
       + length (extra_regs (compatible_data s)))%nat ->
  common_regs_written (snd (imx477_set_stream 1 s)) = false.
Proof.
  intros Hst Hp Hw Hk Hlt. rewrite (imx477_set_stream_on_eq s Hst Hp).
  destruct (pm_runtime_get_sync_ok s Hp)
    as (_ & _ & _ & _ & G5 & G6 & _ & G8 & G9).
  set (s1 := snd (pm_runtime_get_sync s)) in *.
  assert (Hw1 : common_regs_written s1 = false) by congruence.
  assert (Hk1 : first_fail (i2c_fail (client s1)) (length (i2c_log (client s1)))
                  (map reg_msg (start_program s1)) = Some k).
  { unfold start_program. rewrite G6, G8, G9. exact Hk. }
  assert (Hlt1 : (k < length mode_common_regs
                      + length (extra_regs (compatible_data s1)))%nat)
    by (rewrite G9; exact Hlt).
  pose proof (start_blocks_flag s1 k Hw1 Hk1 Hlt1) as Fl.
  pose proof (start_blocks_eq s1 Hw1) as B. cbv zeta in B. rewrite Hk1 in B.
  destruct B as (sb & E & _). rewrite E in Fl. cbn [snd] in Fl.
  rewrite imx477_start_streaming_split, E. cbn [fst snd].
  now apply pm_runtime_put_flag.
Qed.

(** An error of the start sequence from Standby: the error is returned, the
    state stays Standby and the reference the call took is dropped.  When
    it was the only one, power-off runs, once; otherwise it does not. *)
Lemma imx477_set_stream_rollback_any s e :
  streaming s = false ->
  fst (pm_runtime_get_sync s) = OK ->
  fst (imx477_set_stream 1 s) = ERR e ->
  let s' := snd (imx477_set_stream 1 s) in
  fst (imx477_start_streaming (snd (pm_runtime_get_sync s))) = ERR e /\
  streaming s' = false /\
  usage_count (pm s') = usage_count (pm s) /\
  (usage_count (pm s) = 0 ->
     power_off_calls (rails s') = S (power_off_calls (rails s)) /\
     common_regs_written s' = false /\
     rpm_active (pm s') = false) /\
  (usage_count (pm s) <> 0 ->
     power_off_calls (rails s') = power_off_calls (rails s) /\
     rpm_active (pm s') = true).
Proof.
  intros Hs Hp. rewrite (imx477_set_stream_on_eq s Hs Hp).
  destruct (pm_runtime_get_sync_ok s Hp)
    as (G1 & G2 & G3 & G4 & G5 & G6 & G7 & G8 & G9).
  set (s1 := snd (pm_runtime_get_sync s)) in *.
  pose proof (frame_imx477_start_streaming s1)
    as (A1 & A2 & A3 & A4 & A6 & A7 & A8 & _).
  destruct (imx477_start_streaming s1) as [r2 s2]. cbn [fst snd] in *.
  destruct r2 as [|e2]; [discriminate|]. cbn [fst snd]. intros [= <-].
  assert (Act : rpm_active (pm s2) = true) by (rewrite A7; exact G2).
  split; [reflexivity|].
  destruct (Z.eq_dec (usage_count (pm s)) 0) as [U0|U0].
  - assert (U : usage_count (pm s2) = 1) by (rewrite A7; lia).
    destruct (pm_runtime_put_last s2 U Act) as (P1 & P2 & P3 & P4 & P5 & P6).
    split; [congruence|]. split; [congruence|]. split.
    + intros _. split; [congruence|]. split; [exact P4|exact P2].
    + intros H. contradiction.
  - assert (U : usage_count (pm s2) <> 1) by (rewrite A7; lia).
    destruct (pm_runtime_put_not_last s2 U) as (P1 & P2 & P3 & P4 & P5).
    cbv zeta in *.
    split; [congruence|]. split; [rewrite P1, A7; lia|]. split.
    + intros H. contradiction.
    + intros _. split; [rewrite P3; congruence|congruence].
Qed.

(** What the start sequence saw refused, read at the level of the call. *)
Lemma imx477_set_stream_strict s :
  streaming s = false ->
  fst (pm_runtime_get_sync s) = OK ->
  let r := fst (imx477_set_stream 1 s) in
  let s' := snd (imx477_set_stream 1 s) in
  (r = OK -> refused_within best_effort_regs s s') /\
  (r = ERR EIO -> stopped_at_refusal best_effort_regs s s') /\
  (read_only_marked s -> forall e, r = ERR e -> e = EIO).
Proof.
  intros Hst Hp. cbv zeta. rewrite (imx477_set_stream_on_eq s Hst Hp).
  destruct (pm_runtime_get_sync_ok s Hp)
    as (_ & _ & _ & _ & _ & G6 & G7 & _).
  set (s1 := snd (pm_runtime_get_sync s)) in *.
  destruct (strict_imx477_start_streaming s1) as (_ & B2 & B3 & B4).
  destruct (imx477_start_streaming s1) as [[|e2] s2]; cbn [fst snd] in *.
  - split; [|split; [discriminate|intros _ e; discriminate]].
    intros _.
    refine (refused_within_client _ s1 s s2 _ (eq_sym G6) _ (B2 eq_refl)).
    reflexivity.
  - split; [discriminate|]. split.
    + intros [= ->].
      refine (stopped_at_refusal_client _ s1 s s2 _ (eq_sym G6) _ (B3 eq_refl)).
      apply pm_runtime_put_client.
    + intros [R1 R2] e [= <-]. apply B4; [|reflexivity].
      split; now rewrite G7.
Qed.

(** Once power-on has succeeded, a refused transfer addressed outside the
    best-effort registers makes the call return [-EIO] with that transfer
    as the last one sent. *)
Lemma imx477_set_stream_aborts_at s j buf :
  streaming s = false ->
  fst (pm_runtime_get_sync s) = OK ->
  read_only_marked s ->
  (length (i2c_log (client s)) <= j)%nat ->
  nth_error (i2c_log (client (snd (imx477_set_stream 1 s)))) j = Some buf ->
  i2c_fail (client s) j buf = true ->
  ~ In (buf_addr buf) best_effort_regs ->
  fst (imx477_set_stream 1 s) = ERR EIO /\
  length (i2c_log (client (snd (imx477_set_stream 1 s)))) = S j.
Proof.
  intros Hst Hp Hm Hj Hn Hf Hout.
  destruct (imx477_set_stream_strict s Hst Hp) as (A & B & C).
  destruct (fst (imx477_set_stream 1 s)) as [|e] eqn:R.
  - exfalso. apply Hout. now apply (A eq_refl j buf).
  - assert (e = EIO) by (now apply (C Hm e)). subst e.
    split; [reflexivity|].
    destruct (B eq_refl) as (n & b & N1 & N2 & N3 & N4 & N5).
    rewrite N2. f_equal.
    assert (Hlt : (j < S n)%nat)
      by (rewrite <- N2; apply nth_error_Some; congruence).
    destruct (Nat.eq_dec j n) as [E|E]; [now rewrite E|].
    exfalso. apply Hout. apply (N5 j buf); [lia|exact Hn|exact Hf].
Qed.

(** C2 (amended): [imx477_set_stream 1] from Standby, power-on done.
    (1) A refused write in the common block, the chip-variant block or the
    mode register program stops the sequence at that write; the call
    returns [-EIO]; when the write belongs to the common or the
    chip-variant block the common block stays marked as not written.
    (2) The call returns 0 only if every write whose result is checked was
    accepted: the transfers it saw refused were addressed to best-effort
    registers (DPC, trigger mode, or the exposure register through the
    range adjustment of the vertical-blank replay), and to DPC or
    trigger-mode registers alone when the stored exposure lies inside its
    range; the accepted mode-select write is the last transfer and the
    state is Streaming, with no power-off.
    (3) Whenever the call returns an error it is the error of the start
    sequence; the state is still Standby and the reference the call took
    is dropped.  From a state whose read-only controls are marked the error
    is [-EIO], and then the sequence stopped at a refused transfer, every
    refused one before it being best-effort.  When the call held the only
    reference, power-off has run exactly once and the common block counts
    as not written; when another reference is held, power-off has not run.
    (4) Refused DPC and trigger-mode writes are ignored: if the bus refuses
    nothing else, the call returns 0 and the state is Streaming, with no
    power-off.
    (5) A refused transfer addressed to any other than a best-effort
    register makes the call return [-EIO], and is the last transfer sent. *)
Theorem imx477_set_stream_start_failure_rolls_back :
  forall s : imx477,
    streaming s = false ->
    fst (pm_runtime_get_sync s) = OK ->
    let r := fst (imx477_set_stream 1 s) in
    let s' := snd (imx477_set_stream 1 s) in
    (common_regs_written s = false ->
     forall k,
       first_fail (i2c_fail (client s)) (length (i2c_log (client s)))
                  (map reg_msg (start_program s)) = Some k ->
       r = ERR EIO /\
       i2c_log (client s') =
         i2c_log (client s) ++ firstn (S k) (map reg_msg (start_program s)) /\
       ((k < length mode_common_regs
            + length (extra_regs (compatible_data s)))%nat ->
        common_regs_written s' = false)) /\
    (r = OK ->
     last (i2c_log (client s')) [] = [0x01; 0x00; 0x01] /\
     refused_within best_effort_regs s s' /\
     (exposure_settled s -> refused_unchecked_only s s') /\
     streaming s' = true /\
     power_off_calls (rails s') = power_off_calls (rails s)) /\
    (forall e, r = ERR e ->
       fst (imx477_start_streaming (snd (pm_runtime_get_sync s))) = ERR e /\
       (read_only_marked s -> e = EIO) /\
       (e = EIO -> stopped_at_refusal best_effort_regs s s') /\
       streaming s' = false /\
       usage_count (pm s') = usage_count (pm s) /\
       (usage_count (pm s) = 0 ->
          power_off_calls (rails s') = S (power_off_calls (rails s)) /\
          common_regs_written s' = false /\
          rpm_active (pm s') = false) /\
       (usage_count (pm s) <> 0 ->
          power_off_calls (rails s') = power_off_calls (rails s) /\
          rpm_active (pm s') = true)) /\
    (attached s -> bus_refuses_only unchecked_regs s ->
       r = OK /\ streaming s' = true /\
       power_off_calls (rails s') = power_off_calls (rails s)) /\
    (read_only_marked s ->
     forall j buf,
       (length (i2c_log (client s)) <= j)%nat ->
       nth_error (i2c_log (client s')) j = Some buf ->
       i2c_fail (client s) j buf = true ->
       ~ In (buf_addr buf) best_effort_regs ->
       r = ERR EIO /\ length (i2c_log (client s')) = S j).
Proof.
  intros s Hst Hp r s'.
  destruct (imx477_set_stream_strict s Hst Hp) as (SA & SB & SC).
  fold r s' in SA, SB, SC.
  split; [|split; [|split; [|split]]].
  - intros Hw k Hk.
    destruct (imx477_set_stream_block_failure s k Hst Hp Hw Hk) as [E L].
    split; [exact E|]. split; [exact L|].
    intros Hlt. now apply (imx477_set_stream_block_flag s k).
  - intros Hok.
    destruct (imx477_set_stream_success s Hst Hp Hok) as (_ & S2 & S3 & _).
    split; [now apply imx477_set_stream_ok_last|].
    split; [now apply SA|].
    split; [intros Hs; now apply imx477_set_stream_ok_refused|].
    now split.
  - intros e He.
    destruct (imx477_set_stream_rollback_any s e Hst Hp He)
      as (R1 & R2 & R3 & R4 & R5).
    split; [exact R1|]. split; [intros Hm; now apply (SC Hm e)|].
    split; [intros ->; now apply SB|].
    split; [exact R2|]. split; [exact R3|]. split; [exact R4|exact R5].
  - intros Ha Hb.
    assert (Hok : r = OK) by (apply imx477_set_stream_succeeds; now try split).
    split; [exact Hok|].
    destruct (imx477_set_stream_success s Hst Hp Hok) as (_ & S2 & S3 & _).
    now split.
  - intros Hm j buf Hj Hn Hf Hout.
    now apply (imx477_set_stream_aborts_at s j buf).
Qed.

(** Scenario C: the bus refuses the 10th register of the common block. *)
Lemma imx477_set_stream_start_failure_rolls_back_witness :
  let s := probed_linux (bus_fails_at 9) in
  let r := fst (imx477_set_stream 1 s) in
  let s' := snd (imx477_set_stream 1 s) in
  r = ERR EIO /\
  i2c_log (client s') = firstn 10 (map reg_msg mode_common_regs) /\
  streaming s' = false /\
  power_off_calls (rails s') = 1%nat /\
  common_regs_written s' = false.
Proof.
  intros s r s'.
  assert (H1 : streaming s = false) by (vm_compute; reflexivity).
  assert (H2 : usage_count (pm s) = 0) by (vm_compute; reflexivity).
  assert (H3 : fst (pm_runtime_get_sync s) = OK) by (vm_compute; reflexivity).
  destruct (imx477_set_stream_start_failure_rolls_back s H1 H3)
    as (B & _ & R & _).
  assert (H4 : common_regs_written s = false) by (vm_compute; reflexivity).
  assert (H5 : first_fail (i2c_fail (client s)) (length (i2c_log (client s)))
                 (map reg_msg (start_program s)) = Some 9%nat)
    by (vm_compute; reflexivity).
  destruct (B H4 9%nat H5) as (E & L & _).
  destruct (R EIO E) as (_ & _ & _ & R2 & _ & R4 & _).
  destruct (R4 H2) as (R5 & R6 & _).
  split; [exact E|]. split.
  { fold s' in L. rewrite L. vm_compute. reflexivity. }
  split; [exact R2|]. split; [|exact R6].
  fold s' in R5. rewrite R5. vm_compute. reflexivity.
Defined.

(** C2 (as stated) does not hold.
    - DPC and trigger-mode writes: with a bus that refuses the first DPC
      register (transfer 417, after the 309 common and 108 mode entries),
      or the first trigger-mode register, the call still returns 0 and the
      state becomes Streaming, with no power-off.
    - Power-off: on a bus that accepts the first 439 transfers only, the
      sensor is started, suspended and resumed; the resume fails and leaves
      Standby with the reference of the first start still held and the
      common block marked as written.  The next start fails on its first
      write and returns [-EIO]; power-off is not invoked and the common
      block stays marked as written. *)
Lemma imx477_set_stream_ignores_dpc_and_trigger_failures :
  let run := fun reg => imx477_set_stream 1 (probed_linux (bus_fails_on reg)) in
  let t0 := probed_linux (fun n _ => Nat.leb 439 n) in
  let t1 := snd (imx477_set_stream 1 t0) in
  let t2 := snd (imx477_suspend t1) in
  let t3 := snd (imx477_resume t2) in
  let t4 := snd (imx477_set_stream 1 t3) in
  (streaming (probed_linux (bus_fails_on IMX477_REG_DPC_0B05)) = false /\
   nth_error (i2c_log (client (snd (run IMX477_REG_DPC_0B05)))) 417
     = Some [0x0b; 0x05; 0x01] /\
   bus_fails_on IMX477_REG_DPC_0B05 417%nat [0x0b; 0x05; 0x01] = true /\
   fst (run IMX477_REG_DPC_0B05) = OK /\
   streaming (snd (run IMX477_REG_DPC_0B05)) = true /\
   power_off_calls (rails (snd (run IMX477_REG_DPC_0B05))) = 0%nat /\
   nth_error (i2c_log (client (snd (run IMX477_REG_MC_MODE)))) 432
     = Some [0x3f; 0x0b; 0x00] /\
   bus_fails_on IMX477_REG_MC_MODE 432%nat [0x3f; 0x0b; 0x00] = true /\
   fst (run IMX477_REG_MC_MODE) = OK /\
   streaming (snd (run IMX477_REG_MC_MODE)) = true /\
   power_off_calls (rails (snd (run IMX477_REG_MC_MODE))) = 0%nat) /\
  (fst (imx477_set_stream 1 t0) = OK /\
   fst (imx477_suspend t1) = OK /\
   fst (imx477_resume t2) = ERR EIO /\
   streaming t3 = false /\
   usage_count (pm t3) = 1 /\
   common_regs_written t3 = true /\
   fst (imx477_set_stream 1 t3) = ERR EIO /\
   transfers_after 442 t4 = [[0x03; 0x42; 0x5d]] /\
   streaming t4 = false /\
   power_off_calls (rails t4) = 0%nat /\
   common_regs_written t4 = true).
Proof. vm_compute. repeat split. Qed.

(** The exposure register as a best-effort one: from a state whose stored
    exposure (5000) lies above its range (maximum 3478), the vertical-blank
    replay moves it into the range and writes it (transfer 419, 3478 =
    0x0d96) before the frame length; the bus refuses that transfer and the
    call still returns 0, the exposure replay proper going out as transfer
    423. *)
Lemma imx477_set_stream_ignores_exposure_adjustment_failure :
  let s0 := probed_linux (bus_fails_at 419) in
  let s := set_ctrl_of s0 V4L2_CID_EXPOSURE (ctrl_with_val (exposure s0) 5000) in
  let s' := snd (imx477_set_stream 1 s) in
  maximum (exposure s) = 3478 /\
  fst (imx477_set_stream 1 s) = OK /\
  nth_error (i2c_log (client s')) 419 = Some [0x02; 0x02; 0x0d; 0x96] /\
  nth_error (i2c_log (client s')) 423 = Some [0x02; 0x02; 0x0d; 0x96] /\
  streaming s' = true /\
  val (exposure s') = 3478.
Proof. vm_compute. repeat split. Qed.
